(** * ConverterPIX: the model loader (src/model/model.cpp)

    A shallow embedding of [Model::destroy], [Model::load], [Model::loadModel],
    [Model::loadModel0x13], [Model::loadModel0x14], [Model::loadDescriptor],
    [Model::loadCollision] and [Model::saveToMidFormat], and the properties of
    the decoders that follow from the code.

    Conventions.
    - A C++ integer is a [Z]; conversions to a fixed width are written out
      ([wrap_u32], [to_i8], ...).  The host is little-endian.  A signed
      product or sum is taken not to overflow (an overflow is undefined in
      the source).
    - The source buffer is a list of bytes.  The source reads through raw
      pointers without any bounds check; a read outside the buffer is
      undefined there and yields 0 here.  The same holds for an index
      outside a vector or an array: it reads a default and writes nothing.
    - A 32-bit float that is only copied is kept as its 32-bit pattern.  A
      decoded colour channel [2.f * b / 255.f] is the 32-bit float the
      division gives (IEEE 754 binary32, round to nearest, ties to even),
      kept as the rational number that float is.
    - [option] is the exception monad: [None] is a C++ exception leaving the
      function ([std::length_error] of [vector::resize],
      [std::out_of_range] of [string::substr]).  An allocation that fails
      ([std::bad_alloc]) is not modelled: a resize to a count that is not
      negative returns.
    - The records of structs/pmg_0x13.h, structs/pmg_0x14.h and of the
      descriptor are declared outside model.cpp.  Their fields are the ones
      model.cpp reads; their byte layout is a parameter ([Layout]).
    - The classes of model.h are declared outside model.cpp too.  Their
      members are the ones model.cpp assigns.  The three vertex, triangle
      and skinned-vertex counters are 32-bit unsigned (the encoder compares
      the fourth counter, [m_materialCount], with a [uint32_t]); a bone
      index is an [int8_t] and a bone weight a [uint8_t] (the types the
      version 0x13 decoder reads into the two arrays); [Piece::m_bones]
      holds the signed value assigned to it; [Vertex::BONE_COUNT] is
      unsigned (its only signed use is under a cast).
    - Output to stdout is modelled for one warning only, the one of an
      attribute of unknown type. *)

From stdpp Require Import base list strings pretty.
From Stdlib Require Import ZArith QArith Lia Ascii.

Local Open Scope Z_scope.

(** ** Fixed-width integers *)

Definition wrap_u32 (z : Z) : Z := z mod 2 ^ 32.

Definition to_i8 (z : Z) : Z :=
  let r := z mod 256 in if r <? 128 then r else r - 256.

Definition to_i32 (z : Z) : Z :=
  let r := z mod 2 ^ 32 in if r <? 2 ^ 31 then r else r - 2 ^ 32.

(** ** The source buffer *)

Definition buffer := list Byte.byte.

Definition byte_val (b : Byte.byte) : Z := Z.of_N (Byte.to_N b).

(** A [uint8_t] read at [buffer + a]. *)
Definition read_u8 (buf : buffer) (a : Z) : Z :=
  if a <? 0 then 0
  else match buf !! Z.to_nat a with
       | Some b => byte_val b
       | None => 0
       end.

(** An [int8_t] read at [buffer + a]. *)
Definition read_i8 (buf : buffer) (a : Z) : Z := to_i8 (read_u8 buf a).

(** A [uint16_t] read at [buffer + a]. *)
Definition read_u16 (buf : buffer) (a : Z) : Z :=
  Z.lor (read_u8 buf a) (Z.shiftl (read_u8 buf (a + 1)) 8).

(** A [uint32_t] read at [buffer + a]. *)
Definition read_u32 (buf : buffer) (a : Z) : Z :=
  Z.lor (Z.lor (read_u8 buf a) (Z.shiftl (read_u8 buf (a + 1)) 8))
        (Z.lor (Z.shiftl (read_u8 buf (a + 2)) 16)
               (Z.shiftl (read_u8 buf (a + 3)) 24)).

Definition read_i32 (buf : buffer) (a : Z) : Z := to_i32 (read_u32 buf a).

(** A 32-bit float, kept as its bit pattern. *)
Definition float := Z.
Definition read_float (buf : buffer) (a : Z) : float := read_u32 buf a.

Definition float2 : Type := float * float.
Definition float3 : Type := float * float * float.
Definition float4 : Type := float * float * float * float.

Definition sizeof_float2 : Z := 8.
Definition sizeof_float3 : Z := 12.
Definition sizeof_uint32_t : Z := 4.
Definition sizeof_uint16_t : Z := 2.

(** A [float2] and a [float3] read at [buffer + a]. *)
Definition read_float2 (buf : buffer) (a : Z) : float2 :=
  (read_float buf a, read_float buf (a + 4)).
Definition read_float3 (buf : buffer) (a : Z) : float3 :=
  (read_float buf a, read_float buf (a + 4), read_float buf (a + 8)).

(** The C string at [buffer + a]: the bytes up to the first NUL. *)
Fixpoint read_cstr_fuel (fuel : nat) (buf : buffer) (a : Z) : string :=
  match fuel with
  | O => EmptyString
  | S fuel' =>
      let c := read_u8 buf a in
      if c =? 0 then EmptyString
      else String (Ascii.ascii_of_N (Z.to_N c)) (read_cstr_fuel fuel' buf (a + 1))
  end.
Definition read_cstr (buf : buffer) (a : Z) : string :=
  read_cstr_fuel (length buf) buf a.

(** [s.substr(0, n)] with [n] converted to [size_t]: a negative [n] is a huge
    count and keeps the whole string. *)
Definition substr_prefix (s : string) (n : Z) : string :=
  if n <? 0 then s else String.substring 0 (Z.to_nat n) s.

(** [s.substr(pos)]: throws [std::out_of_range] when [pos > s.size()]. *)
Definition substr_from (s : string) (pos : nat) : option string :=
  if (String.length s <? pos)%nat then None
  else Some (String.substring pos (String.length s - pos) s).

(** ** Record layouts

    [cast_at T buf a] is the [T] the source reads through a pointer cast of
    [buf + a]; [size_of T] is [sizeof(T)]. *)
Class Layout (T : Type) := {
  size_of : Z;
  cast_at : buffer -> Z -> T
}.
Arguments size_of T {_}.
Arguments cast_at T {_} _ _.

(** Element [i] of the array of [T] that starts at [buf + base]. *)
Definition elem_at (T : Type) `{Layout T} (buf : buffer) (base i : Z) : T :=
  cast_at T buf (base + i * size_of T).

(** ** Loops *)

(** [for (i = from; <n more iterations>; ++i) s = body(i, s)], where the body
    may throw. *)
Fixpoint for_loop {St : Type} (from : Z) (n : nat)
    (body : Z -> St -> option St) (s : St) : option St :=
  match n with
  | O => Some s
  | S n' => s' ← body from s; for_loop (from + 1) n' body s'
  end.

(** The same for a body that cannot throw. *)
Fixpoint for_pure {St : Type} (from : Z) (n : nat)
    (body : Z -> St -> St) (s : St) : St :=
  match n with
  | O => s
  | S n' => for_pure (from + 1) n' body (body from s)
  end.

(** [v.resize(n)] with [n] a signed integer converted to [size_t]: a negative
    [n] exceeds [max_size()] and throws [std::length_error].  Any other
    resize returns here; in the source it can still throw [std::bad_alloc]. *)
Definition vec_resize {A : Type} (n : Z) (d : A) (v : list A) : option (list A) :=
  if n <? 0 then None else Some (resize (Z.to_nat n) d v).

(** ** Tokens

    [token_t] is a fixed-width interned-string code; [token_to_string] and
    [token_t::to_string] resolve it to a name.  Both are declared outside
    model.cpp and are parameters of the decoders. *)
Record token_t := { token_value : Z }.

(** ** structs/pmg_0x13.h: the records the version 0x13 decoder reads *)
Module pmg_0x13.

Definition SUPPORTED_VERSION : Z := 0x13.

Module pmg_header_t.
Record t := {
  m_version : Z;
  m_signature : Z * Z * Z;  (* m_signature[0], [1], [2] *)
  m_piece_count : Z;
  m_bone_count : Z;
  m_locator_count : Z;
  m_part_count : Z;
  m_bone_offset : Z;
  m_part_offset : Z;
  m_locator_offset : Z;
  m_locator_name_offset : Z;
  m_locators_name_size : Z;
  m_piece_offset : Z
}.
End pmg_header_t.

Module pmg_bone_t.
Record t := {
  m_name : token_t;
  m_transformation_reversed : list float;
  m_transformation : list float;
  m_stretch : list float;
  m_rotation : list float;
  m_translation : list float;
  m_scale : list float;
  m_sign_of_determinant_of_matrix : float;
  m_parent : Z
}.
End pmg_bone_t.

Module pmg_part_t.
Record t := {
  m_name : token_t;
  m_locator_count : Z;
  m_locators_idx : Z;
  m_piece_count : Z;
  m_pieces_idx : Z
}.
End pmg_part_t.

Module pmg_locator_t.
Record t := {
  m_position : float3;
  m_rotation : float4;
  m_scale : float3;
  m_name : token_t;
  m_name_block_offset : Z
}.
End pmg_locator_t.

Module pmg_piece_t.
Record t := {
  m_edges : Z;
  m_verts : Z;
  m_uv_mask : Z;
  m_uv_channels : Z;
  m_bone_count : Z;
  m_material : Z;
  m_vert_position_offset : Z;
  m_vert_normal_offset : Z;
  m_vert_tangent_offset : Z;
  m_vert_uv_offset : Z;
  m_vert_rgba_offset : Z;
  m_vert_rgba2_offset : Z;
  m_anim_bind_offset : Z;
  m_anim_bind_bones_offset : Z;
  m_anim_bind_bones_weight_offset : Z;
  m_triangle_offset : Z
}.
End pmg_piece_t.

Module pmg_triangle_t.
Record t := { a : Z * Z * Z }.
End pmg_triangle_t.

End pmg_0x13.

(** ** structs/pmg_0x14.h: the records the version 0x14 decoder reads *)
Module pmg_0x14.

Definition SUPPORTED_VERSION : Z := 0x14.

Module pmg_header_t.
Record t := {
  m_version : Z;
  m_signature : Z * Z * Z;
  m_piece_count : Z;
  m_bone_count : Z;
  m_locator_count : Z;
  m_part_count : Z;
  m_weight_width : Z;
  m_skeleton_offset : Z;
  m_parts_offset : Z;
  m_locators_offset : Z;
  m_pieces_offset : Z;
  m_string_pool_offset : Z;
  m_string_pool_size : Z
}.
End pmg_header_t.

Module pmg_bone_data_t.
Record t := {
  m_name : token_t;
  m_transformation_reversed : list float;
  m_transformation : list float;
  m_stretch : list float;
  m_rotation : list float;
  m_translation : list float;
  m_scale : list float;
  m_sign_of_determinant_of_matrix : float;
  m_parent : Z
}.
End pmg_bone_data_t.

Module pmg_part_t.
Record t := {
  m_name : token_t;
  m_locator_count : Z;
  m_locators_idx : Z;
  m_piece_count : Z;
  m_pieces_idx : Z
}.
End pmg_part_t.

Module pmg_locator_t.
Record t := {
  m_position : float3;
  m_rotation : float4;
  m_scale : float3;
  m_name : token_t;
  m_hookup_offset : Z
}.
End pmg_locator_t.

Module pmg_piece_t.
Record t := {
  m_edges : Z;
  m_verts : Z;
  m_texcoord_mask : Z;
  m_texcoord_width : Z;
  m_material : Z;
  m_vert_position_offset : Z;
  m_vert_normal_offset : Z;
  m_vert_tangent_offset : Z;
  m_vert_texcoord_offset : Z;
  m_vert_color_offset : Z;
  m_vert_color2_offset : Z;
  m_vert_bone_index_offset : Z;
  m_vert_bone_weight_offset : Z;
  m_index_offset : Z
}.
End pmg_piece_t.

Module pmg_index_t.
Record t := { a : Z * Z * Z }.
End pmg_index_t.

End pmg_0x14.

(** ** The records the descriptor decoder reads *)
Module pmd.

Module pmd_header_t.
Record t := {
  m_version : Z;
  m_material_count : Z;
  m_look_count : Z;
  m_variant_count : Z;
  m_part_count : Z;
  m_look_offset : Z;
  m_variant_offset : Z;
  m_part_attribs_offset : Z;
  m_attribs_offset : Z;
  m_attribs_value_offset : Z;
  m_attribs_values_size : Z;
  m_material_offset : Z
}.
End pmd_header_t.

Module pmd_attrib_link_t.
Record t := { m_from : Z; m_to : Z }.
End pmd_attrib_link_t.

Module pmd_attrib_def_t.
Record t := { m_name : token_t; m_type : Z; m_offset : Z }.
End pmd_attrib_def_t.

Module pmd_attrib_value_t.
Record t := { m_int_value : Z }.
End pmd_attrib_value_t.

End pmd.

(** The vertex tangent and colour records are read field by field.

    Modelled from the spec: [pmg_vert_tangent_t] and [pmg_vert_color_t] are
    declared outside model.cpp; a tangent is four 32-bit floats in the order
    w, x, y, z and a colour is one byte per channel in the order r, g, b, a. *)
Definition sizeof_pmg_vert_tangent_t : Z := 16.

Module pmg_vert_tangent_t.
Record t := { w : float; x : float; y : float; z : float }.
Definition read (buf : buffer) (a : Z) : t :=
    {| w := read_float buf a; x := read_float buf (a + 4);
       y := read_float buf (a + 8); z := read_float buf (a + 12) |}.
End pmg_vert_tangent_t.

Module pmg_vert_color_t.
Record t := { r : Z; g : Z; b : Z; a : Z }.
Definition read (buf : buffer) (addr : Z) : t :=
    {| r := read_u8 buf addr; g := read_u8 buf (addr + 1);
       b := read_u8 buf (addr + 2); a := read_u8 buf (addr + 3) |}.
End pmg_vert_color_t.

(** The integer nearest to [n / d], the even one of the two when [n / d]
    is half way between them ([0 <= n], [0 < d]). *)
Definition round_half_even (n d : Z) : Z :=
  let q := n / d in
  let r := n mod d in
  if 2 * r <? d then q
  else if d <? 2 * r then q + 1
  else if Z.even q then q else q + 1.

(** The 32-bit float of a division [n / d] of two floats that hold the
    integers [0 <= n] and [0 < d]: the float nearest to the quotient, with
    24 significant bits (IEEE 754 binary32, round to nearest, ties to even),
    as the rational it is.  The quotient is 0 or in the normal range. *)
Definition float_div (n d : Z) : Q :=
  if n =? 0 then 0%Q
  else
    let e0 := Z.log2 n - Z.log2 d in
    let e := if (if 0 <=? e0 then d * 2 ^ e0 <=? n else d <=? n * 2 ^ (- e0))
             then e0 else e0 - 1 in
    let significand :=
      if e <=? 23 then round_half_even (n * 2 ^ (23 - e)) d
      else round_half_even n (d * 2 ^ (e - 23)) in
    if e <=? 23 then Qmake significand (Z.to_pos (2 ^ (23 - e)))
    else Qmake (significand * 2 ^ (e - 23)) 1.

(** [2.f * c / 255.f] for a colour byte [c]: the product is exact, the
    division is rounded. *)
Definition color_channel (c : Z) : Q := float_div (2 * c) 255.

Definition decode_color (c : pmg_vert_color_t.t) : Q * Q * Q * Q :=
  (color_channel c.(pmg_vert_color_t.r), color_channel c.(pmg_vert_color_t.g),
   color_channel c.(pmg_vert_color_t.b), color_channel c.(pmg_vert_color_t.a)).


(** ** The decoded model (model.h)

    The classes are declared outside model.cpp; their fields are the ones
    model.cpp assigns.  What a default constructor leaves in a new bone,
    locator, part, piece, vertex or triangle is a parameter
    ([Constructible]); a class made of strings and vectors only starts
    empty. *)
Class Constructible (T : Type) := { default_constructed : T }.
Arguments default_constructed T {_}.

Module Bone.
Record t := {
  m_index : Z;
  m_name : string;
  m_transReversed : list float;
  m_transformation : list float;
  m_stretch : list float;
  m_rotation : list float;
  m_translation : list float;
  m_scale : list float;
  m_signOfDeterminantOfMatrix : float;
  m_parent : Z
}.
End Bone.

Module Locator.
Record t := {
  m_index : Z;
  m_name : string;
  m_position : float3;
  m_rotation : float4;
  m_scale : float3;
  m_hookup : string
}.
End Locator.

Module Part.
Record t := {
  m_name : string;
  m_locatorCount : Z;
  m_locatorId : Z;
  m_pieceCount : Z;
  m_pieceId : Z
}.
End Part.

Module Triangle.
Record t := { m_a : Z * Z * Z }.
End Triangle.

(** A vertex.  [m_texcoords], [m_boneIndex] and [m_boneWeight] are the
    fixed-capacity arrays of the source; an element of [m_boneIndex] is an
    [int8_t] and an element of [m_boneWeight] a [uint8_t] (the types the
    version 0x13 decoder reads into them). *)
Module Vertex.
Record t := {
  m_position : float3;
  m_normal : float3;
  m_tangent : float4;
  m_texcoords : list float2;
  m_color : Q * Q * Q * Q;
  m_color2 : Q * Q * Q * Q;
  m_boneIndex : list Z;
  m_boneWeight : list Z
}.

(** The arrays have their declared capacity. *)
Definition wf (TEXCOORD_COUNT BONE_COUNT : nat) (v : t) : Prop :=
  length v.(m_texcoords) = TEXCOORD_COUNT /\
  length v.(m_boneIndex) = BONE_COUNT /\
  length v.(m_boneWeight) = BONE_COUNT.
End Vertex.

Module Piece.
Record t := {
  m_index : Z;
  m_texcoordMask : Z;
  m_texcoordCount : Z;
  m_bones : Z;
  m_material : Z;
  m_streamCount : Z;
  m_position : bool;
  m_normal : bool;
  m_tangent : bool;
  m_texcoord : bool;
  m_color : bool;
  m_color2 : bool;
  m_vertices : list Vertex.t;
  m_triangles : list Triangle.t
}.
End Piece.

(** Modelled from the spec: the Material class is declared outside model.cpp.
    The descriptor decoder uses the texture paths of [m_textures], [setAlias]
    and [alias]; [Material::load] is a parameter of the decoder. *)
Module Material.
Record t := {
  m_textures : list string;
  m_alias : string
}.
Definition setAlias (name : string) (mt : t) : t :=
  {| m_textures := mt.(m_textures); m_alias := name |}.
Definition alias (mt : t) : string := mt.(m_alias).
(** A new material: an empty vector and an empty string. *)
Definition ctor : t := {| m_textures := []; m_alias := "" |}.
End Material.

Module Look.
Record t := {
  m_name : string;
  m_materials : list Material.t
}.
(** A new look: an empty string and an empty vector. *)
Definition ctor : t := {| m_name := ""; m_materials := [] |}.
End Look.

Module Variant.

Module Attribute.
Inductive type_t := INT | UNKNOWN.
Record t := {
  m_name : string;
  m_type : type_t;
  m_intValue : Z
}.
End Attribute.

(** The attribute list of one part.  The pointer [m_part] to the part is
    assigned by the decoder and read nowhere in model.cpp; it is left out. *)
Module Part.
Record t := { m_attributes : list Attribute.t }.
Definition ctor : t := {| m_attributes := [] |}.
End Part.

Record t := {
  m_name : string;
  m_parts : list Part.t
}.

(** A new variant: an empty string and an empty vector. *)
Definition ctor : t := {| m_name := ""; m_parts := [] |}.

(** [Variant::setPartCount] *)
Definition setPartCount (parts : Z) (v : t) : option t :=
  ps ← vec_resize parts Part.ctor v.(m_parts);
  Some {| m_name := v.(m_name); m_parts := ps |}.

End Variant.

(** ** Helpers of the decoders *)

(** [a[k] = x] on a fixed-capacity array.  An index outside the array is
    undefined in the source and changes nothing here. *)
Definition array_set {A : Type} (k : Z) (x : A) (l : list A) : list A :=
  if k <? 0 then l else <[Z.to_nat k := x]> l.

(** [v[k]] on a vector; outside the vector it is undefined in the source and
    yields [d] here. *)
Definition array_get {A : Type} (d : A) (k : Z) (l : list A) : A :=
  if k <? 0 then d else default d (l !! Z.to_nat k).

(** [MAKEFOURCC(ch0, ch1, ch2, ch3)] *)
Definition MAKEFOURCC (ch0 ch1 ch2 ch3 : Z) : Z :=
  Z.lor (Z.lor ch0 (Z.shiftl ch1 8)) (Z.lor (Z.shiftl ch2 16) (Z.shiftl ch3 24)).

Definition char_g : Z := 103.
Definition char_m : Z := 109.
Definition char_P : Z := 80.

(** The index of the last ['/'] of a string ([rfind]). *)
Fixpoint rfind_slash (s : string) : option nat :=
  match s with
  | EmptyString => None
  | String c rest =>
      match rfind_slash rest with
      | Some n => Some (S n)
      | None => if Ascii.eqb c "/"%char then Some O else None
      end
  end.

(** The name a texture path contributes to a material alias: the last five
    characters are cut ([size() - 5] is unsigned, so a shorter name is kept
    whole), then everything up to the last ['/'] is dropped. *)
Definition texture_alias_name (texture : string) : string :=
  let size := String.length texture in
  let textureName :=
    if (size <? 5)%nat then texture else String.substring 0 (size - 5) texture in
  match rfind_slash textureName with
  | Some lastSlash =>
      String.substring (S lastSlash) (String.length textureName - S lastSlash) textureName
  | None => textureName
  end.

(** [%04i] of a slot number. *)
Definition pad4 (j : Z) : string :=
  let digits := pretty j in
  String.concat "" (replicate (4 - String.length digits) "0"%string) +:+ digits.

(** The virtual file system ([getUFS()]). *)
Record FileSystem := {
  fs_exists : string -> bool;
  fs_open : string -> option buffer
}.

(** The warnings the descriptor decoder prints.  Output to stdout is
    modelled for this warning only. *)
Inductive warning := InvalidAttributeType (type : Z).

Module H13 := pmg_0x13.pmg_header_t.
Module P13 := pmg_0x13.pmg_piece_t.
Module H14 := pmg_0x14.pmg_header_t.
Module P14 := pmg_0x14.pmg_piece_t.
Module HD := pmd.pmd_header_t.

(** ** The geometry decoders, piece by piece *)
Section Pieces.

(** [Vertex::BONE_COUNT], a compile-time constant of model.h. *)
Variable BONE_COUNT : nat.

Context {vertex_ctor : Constructible Vertex.t}
        {triangle_ctor : Constructible Triangle.t}
        {triangle_layout : Layout pmg_0x13.pmg_triangle_t.t}
        {index_layout : Layout pmg_0x14.pmg_index_t.t}.

(** *** Version 0x13 *)

(** The stream flags and the stream count of [currentPiece] after the six
    tests of the stream offsets. *)
Definition stream_flags_0x13 (piece : P13.t) (cur : Piece.t) : Piece.t :=
  let has_position := negb (piece.(P13.m_vert_position_offset) =? -1) in
  let has_normal := negb (piece.(P13.m_vert_normal_offset) =? -1) in
  let has_tangent := negb (piece.(P13.m_vert_tangent_offset) =? -1) in
  let has_uv := negb (piece.(P13.m_vert_uv_offset) =? -1) in
  let has_rgba := negb (piece.(P13.m_vert_rgba_offset) =? -1) in
  let has_rgba2 := negb (piece.(P13.m_vert_rgba2_offset) =? -1) in
  {| Piece.m_index := cur.(Piece.m_index);
     Piece.m_texcoordMask := cur.(Piece.m_texcoordMask);
     Piece.m_texcoordCount := cur.(Piece.m_texcoordCount);
     Piece.m_bones := cur.(Piece.m_bones);
     Piece.m_material := cur.(Piece.m_material);
     Piece.m_streamCount :=
       cur.(Piece.m_streamCount)
       + (if has_position then 1 else 0) + (if has_normal then 1 else 0)
       + (if has_tangent then 1 else 0)
       + (if has_uv then piece.(P13.m_uv_channels) else 0)
       + (if has_rgba then 1 else 0) + (if has_rgba2 then 1 else 0);
     Piece.m_position := has_position || cur.(Piece.m_position);
     Piece.m_normal := has_normal || cur.(Piece.m_normal);
     Piece.m_tangent := has_tangent || cur.(Piece.m_tangent);
     Piece.m_texcoord := has_uv || cur.(Piece.m_texcoord);
     Piece.m_color := has_rgba || cur.(Piece.m_color);
     Piece.m_color2 := has_rgba2 || cur.(Piece.m_color2);
     Piece.m_vertices := cur.(Piece.m_vertices);
     Piece.m_triangles := cur.(Piece.m_triangles) |}.

(** [poolSizeStatic] before the test of the bone count. *)
Definition static_streams_size_0x13 (piece : P13.t) : Z :=
  let poolSizeStatic := 0 in
  let poolSizeStatic :=
    if negb (piece.(P13.m_vert_position_offset) =? -1)
    then wrap_u32 (poolSizeStatic + sizeof_float3) else poolSizeStatic in
  let poolSizeStatic :=
    if negb (piece.(P13.m_vert_normal_offset) =? -1)
    then wrap_u32 (poolSizeStatic + sizeof_float3) else poolSizeStatic in
  let poolSizeStatic :=
    if negb (piece.(P13.m_vert_tangent_offset) =? -1)
    then wrap_u32 (poolSizeStatic + sizeof_pmg_vert_tangent_t) else poolSizeStatic in
  poolSizeStatic.

(** [poolSizeDynamic] before the test of the bone count. *)
Definition dynamic_streams_size_0x13 (piece : P13.t) : Z :=
  let poolSizeDynamic := 0 in
  let poolSizeDynamic :=
    if negb (piece.(P13.m_vert_uv_offset) =? -1)
    then wrap_u32 (poolSizeDynamic + sizeof_float2 * piece.(P13.m_uv_channels))
    else poolSizeDynamic in
  let poolSizeDynamic :=
    if negb (piece.(P13.m_vert_rgba_offset) =? -1)
    then wrap_u32 (poolSizeDynamic + sizeof_uint32_t) else poolSizeDynamic in
  let poolSizeDynamic :=
    if negb (piece.(P13.m_vert_rgba2_offset) =? -1)
    then wrap_u32 (poolSizeDynamic + sizeof_uint32_t) else poolSizeDynamic in
  poolSizeDynamic.

(** [(poolSizeStatic, poolSizeDynamic)] as the vertex loop uses them: one
    common stride for a piece without bones, two strides otherwise. *)
Definition pool_sizes_0x13 (piece : P13.t) : Z * Z :=
  let poolSizeStatic := static_streams_size_0x13 piece in
  let poolSizeDynamic := dynamic_streams_size_0x13 piece in
  if piece.(P13.m_bone_count) =? 0
  then
    let poolSizeStatic := wrap_u32 (poolSizeStatic + poolSizeDynamic) in
    let poolSizeDynamic := poolSizeStatic in
    (poolSizeStatic, poolSizeDynamic)
  else (poolSizeStatic, poolSizeDynamic).

(** The bone arrays of a vertex whose bind index is [animBind]. *)
Definition skin_0x13 (buf : buffer) (piece : P13.t) (animBind : Z)
    (bones : list Z * list Z) : list Z * list Z :=
  let width := Z.min piece.(P13.m_bone_count) (Z.of_nat BONE_COUNT) in
  let bones :=
    for_pure 0 (Z.to_nat width)
      (fun k '(boneIndex, boneWeight) =>
         (array_set k
            (read_i8 buf (piece.(P13.m_anim_bind_bones_offset)
                          + animBind * piece.(P13.m_bone_count) + k))
            boneIndex,
          array_set k
            (read_u8 buf (piece.(P13.m_anim_bind_bones_weight_offset)
                          + animBind * piece.(P13.m_bone_count) + k))
            boneWeight))
      bones in
  (* [k < Vertex::BONE_COUNT] is an unsigned comparison: a negative start
     is a huge number and the loop does not run. *)
  if width <? 0 then bones
  else
    for_pure width (BONE_COUNT - Z.to_nat width)
      (fun k '(boneIndex, boneWeight) =>
         (array_set k (-1) boneIndex, array_set k 0 boneWeight))
      bones.

(** The body of the vertex loop: vertex [j] of the piece. *)
Definition decode_vertex_0x13 (buf : buffer) (piece : P13.t) (cur : Piece.t)
    (poolSizeStatic poolSizeDynamic : Z) (j : Z) (vert : Vertex.t) : Vertex.t :=
  let bones :=
    if negb (piece.(P13.m_anim_bind_offset) =? -1)
    then
      let animBind :=
        read_u16 buf (piece.(P13.m_anim_bind_offset) + j * sizeof_uint16_t) in
      skin_0x13 buf piece animBind
        (vert.(Vertex.m_boneIndex), vert.(Vertex.m_boneWeight))
    else (vert.(Vertex.m_boneIndex), vert.(Vertex.m_boneWeight)) in
  {| Vertex.m_position :=
       if cur.(Piece.m_position)
       then read_float3 buf (piece.(P13.m_vert_position_offset)
                             + wrap_u32 (poolSizeStatic * j))
       else vert.(Vertex.m_position);
     Vertex.m_normal :=
       if cur.(Piece.m_normal)
       then read_float3 buf (piece.(P13.m_vert_normal_offset)
                             + wrap_u32 (poolSizeStatic * j))
       else vert.(Vertex.m_normal);
     Vertex.m_tangent :=
       if cur.(Piece.m_tangent)
       then
         let vertTangent :=
           pmg_vert_tangent_t.read buf (piece.(P13.m_vert_tangent_offset)
                                        + wrap_u32 (poolSizeStatic * j)) in
         (vertTangent.(pmg_vert_tangent_t.w), vertTangent.(pmg_vert_tangent_t.x),
          vertTangent.(pmg_vert_tangent_t.y), vertTangent.(pmg_vert_tangent_t.z))
       else vert.(Vertex.m_tangent);
     Vertex.m_texcoords :=
       if cur.(Piece.m_texcoord)
       then
         for_pure 0 (Z.to_nat piece.(P13.m_uv_channels))
           (fun k texcoords =>
              array_set k
                (read_float2 buf (piece.(P13.m_vert_uv_offset)
                                  + wrap_u32 (poolSizeDynamic * j)
                                  + sizeof_float2 * k))
                texcoords)
           vert.(Vertex.m_texcoords)
       else vert.(Vertex.m_texcoords);
     Vertex.m_color :=
       if cur.(Piece.m_color)
       then decode_color
              (pmg_vert_color_t.read buf (piece.(P13.m_vert_rgba_offset)
                                          + wrap_u32 (poolSizeDynamic * j)))
       else vert.(Vertex.m_color);
     Vertex.m_color2 :=
       if cur.(Piece.m_color2)
       then decode_color
              (pmg_vert_color_t.read buf (piece.(P13.m_vert_rgba2_offset)
                                          + wrap_u32 (poolSizeDynamic * j)))
       else vert.(Vertex.m_color2);
     Vertex.m_boneIndex := bones.1;
     Vertex.m_boneWeight := bones.2 |}.

(** The vertex loop: [vertices[j]] is decoded in place for [j < count]. *)
Definition decode_vertices (count : Z) (decode : Z -> Vertex.t -> Vertex.t)
    (vertices : list Vertex.t) : list Vertex.t :=
  for_pure 0 (Z.to_nat count)
    (fun j vertices =>
       array_set j
         (decode j (array_get (default_constructed Vertex.t) j vertices))
         vertices)
    vertices.

(** The triangle loop of version 0x13. *)
Definition decode_triangles_0x13 (buf : buffer) (piece : P13.t)
    (triangles : list Triangle.t) : list Triangle.t :=
  for_pure 0 (Z.to_nat (piece.(P13.m_edges) ÷ 3))
    (fun j triangles =>
       let triangle :=
         elem_at pmg_0x13.pmg_triangle_t.t buf piece.(P13.m_triangle_offset) j in
       array_set j {| Triangle.m_a := triangle.(pmg_0x13.pmg_triangle_t.a) |} triangles)
    triangles.

(** One pass of the piece loop on [currentPiece]: the piece after the pass.
    The warning about a bone count above [BONE_COUNT] is printed and changes
    nothing. *)
Definition decode_piece_0x13 (buf : buffer) (piece : P13.t) (i : Z)
    (cur : Piece.t) : option Piece.t :=
  vertices ← vec_resize piece.(P13.m_verts) (default_constructed Vertex.t)
                        cur.(Piece.m_vertices);
  triangles ← vec_resize (piece.(P13.m_edges) ÷ 3) (default_constructed Triangle.t)
                         cur.(Piece.m_triangles);
  let cur :=
    stream_flags_0x13 piece
      {| Piece.m_index := i;
         Piece.m_texcoordMask := piece.(P13.m_uv_mask);
         Piece.m_texcoordCount := piece.(P13.m_uv_channels);
         Piece.m_bones := piece.(P13.m_bone_count);
         Piece.m_material := piece.(P13.m_material);
         Piece.m_streamCount := cur.(Piece.m_streamCount);
         Piece.m_position := cur.(Piece.m_position);
         Piece.m_normal := cur.(Piece.m_normal);
         Piece.m_tangent := cur.(Piece.m_tangent);
         Piece.m_texcoord := cur.(Piece.m_texcoord);
         Piece.m_color := cur.(Piece.m_color);
         Piece.m_color2 := cur.(Piece.m_color2);
         Piece.m_vertices := vertices;
         Piece.m_triangles := triangles |} in
  let '(poolSizeStatic, poolSizeDynamic) := pool_sizes_0x13 piece in
  Some
    {| Piece.m_index := cur.(Piece.m_index);
       Piece.m_texcoordMask := cur.(Piece.m_texcoordMask);
       Piece.m_texcoordCount := cur.(Piece.m_texcoordCount);
       Piece.m_bones := cur.(Piece.m_bones);
       Piece.m_material := cur.(Piece.m_material);
       Piece.m_streamCount := cur.(Piece.m_streamCount);
       Piece.m_position := cur.(Piece.m_position);
       Piece.m_normal := cur.(Piece.m_normal);
       Piece.m_tangent := cur.(Piece.m_tangent);
       Piece.m_texcoord := cur.(Piece.m_texcoord);
       Piece.m_color := cur.(Piece.m_color);
       Piece.m_color2 := cur.(Piece.m_color2);
       Piece.m_vertices :=
         decode_vertices piece.(P13.m_verts)
           (decode_vertex_0x13 buf piece cur poolSizeStatic poolSizeDynamic)
           cur.(Piece.m_vertices);
       Piece.m_triangles := decode_triangles_0x13 buf piece cur.(Piece.m_triangles) |}.

(** *** Version 0x14 *)

Definition stream_flags_0x14 (piece : P14.t) (cur : Piece.t) : Piece.t :=
  let has_position := negb (piece.(P14.m_vert_position_offset) =? -1) in
  let has_normal := negb (piece.(P14.m_vert_normal_offset) =? -1) in
  let has_tangent := negb (piece.(P14.m_vert_tangent_offset) =? -1) in
  let has_texcoord := negb (piece.(P14.m_vert_texcoord_offset) =? -1) in
  let has_color := negb (piece.(P14.m_vert_color_offset) =? -1) in
  let has_color2 := negb (piece.(P14.m_vert_color2_offset) =? -1) in
  {| Piece.m_index := cur.(Piece.m_index);
     Piece.m_texcoordMask := cur.(Piece.m_texcoordMask);
     Piece.m_texcoordCount := cur.(Piece.m_texcoordCount);
     Piece.m_bones := cur.(Piece.m_bones);
     Piece.m_material := cur.(Piece.m_material);
     Piece.m_streamCount :=
       cur.(Piece.m_streamCount)
       + (if has_position then 1 else 0) + (if has_normal then 1 else 0)
       + (if has_tangent then 1 else 0)
       + (if has_texcoord then piece.(P14.m_texcoord_width) else 0)
       + (if has_color then 1 else 0) + (if has_color2 then 1 else 0);
     Piece.m_position := has_position || cur.(Piece.m_position);
     Piece.m_normal := has_normal || cur.(Piece.m_normal);
     Piece.m_tangent := has_tangent || cur.(Piece.m_tangent);
     Piece.m_texcoord := has_texcoord || cur.(Piece.m_texcoord);
     Piece.m_color := has_color || cur.(Piece.m_color);
     Piece.m_color2 := has_color2 || cur.(Piece.m_color2);
     Piece.m_vertices := cur.(Piece.m_vertices);
     Piece.m_triangles := cur.(Piece.m_triangles) |}.

(** [poolSize]: the one stride of a version 0x14 piece. *)
Definition pool_size_0x14 (piece : P14.t) : Z :=
  let poolSize := 0 in
  let poolSize :=
    if negb (piece.(P14.m_vert_position_offset) =? -1)
    then wrap_u32 (poolSize + sizeof_float3) else poolSize in
  let poolSize :=
    if negb (piece.(P14.m_vert_normal_offset) =? -1)
    then wrap_u32 (poolSize + sizeof_float3) else poolSize in
  let poolSize :=
    if negb (piece.(P14.m_vert_tangent_offset) =? -1)
    then wrap_u32 (poolSize + sizeof_pmg_vert_tangent_t) else poolSize in
  let poolSize :=
    if negb (piece.(P14.m_vert_texcoord_offset) =? -1)
    then wrap_u32 (poolSize + sizeof_float2 * piece.(P14.m_texcoord_width))
    else poolSize in
  let poolSize :=
    if negb (piece.(P14.m_vert_color_offset) =? -1)
    then wrap_u32 (poolSize + sizeof_uint32_t) else poolSize in
  let poolSize :=
    if negb (piece.(P14.m_vert_color2_offset) =? -1)
    then wrap_u32 (poolSize + sizeof_uint32_t) else poolSize in
  let poolSize :=
    if negb (piece.(P14.m_vert_bone_index_offset) =? -1)
    then wrap_u32 (poolSize + 2 * sizeof_uint32_t) else poolSize in
  poolSize.

(** The bone arrays of vertex [j]: four packed fields, then the unused slots. *)
Definition skin_0x14 (buf : buffer) (piece : P14.t) (poolSize j : Z)
    (bones : list Z * list Z) : list Z * list Z :=
  let bones :=
    for_pure 0 4
      (fun bone '(boneIndex, boneWeight) =>
         let indexes :=
           read_u32 buf (piece.(P14.m_vert_bone_index_offset)
                         + wrap_u32 (poolSize * j)) in
         let weights :=
           read_u32 buf (piece.(P14.m_vert_bone_weight_offset)
                         + wrap_u32 (poolSize * j)) in
         (array_set bone (to_i8 (Z.land (Z.shiftr indexes (8 * bone)) 0xff)) boneIndex,
          array_set bone (Z.land (Z.shiftr weights (8 * bone)) 0xff) boneWeight))
      bones in
  for_pure 4 (BONE_COUNT - 4)
    (fun bone '(boneIndex, boneWeight) =>
       (array_set bone (-1) boneIndex, array_set bone 0 boneWeight))
    bones.

(** The body of the vertex loop: vertex [j] of the piece. *)
Definition decode_vertex_0x14 (buf : buffer) (piece : P14.t) (cur : Piece.t)
    (poolSize : Z) (j : Z) (vert : Vertex.t) : Vertex.t :=
  let bones :=
    if negb (piece.(P14.m_vert_bone_index_offset) =? -1)
       && negb (piece.(P14.m_vert_bone_weight_offset) =? -1)
    then skin_0x14 buf piece poolSize j
           (vert.(Vertex.m_boneIndex), vert.(Vertex.m_boneWeight))
    else (vert.(Vertex.m_boneIndex), vert.(Vertex.m_boneWeight)) in
  {| Vertex.m_position :=
       if cur.(Piece.m_position)
       then read_float3 buf (piece.(P14.m_vert_position_offset)
                             + wrap_u32 (poolSize * j))
       else vert.(Vertex.m_position);
     Vertex.m_normal :=
       if cur.(Piece.m_normal)
       then read_float3 buf (piece.(P14.m_vert_normal_offset)
                             + wrap_u32 (poolSize * j))
       else vert.(Vertex.m_normal);
     Vertex.m_tangent :=
       if cur.(Piece.m_tangent)
       then
         let vertTangent :=
           pmg_vert_tangent_t.read buf (piece.(P14.m_vert_tangent_offset)
                                        + wrap_u32 (poolSize * j)) in
         (vertTangent.(pmg_vert_tangent_t.w), vertTangent.(pmg_vert_tangent_t.x),
          vertTangent.(pmg_vert_tangent_t.y), vertTangent.(pmg_vert_tangent_t.z))
       else vert.(Vertex.m_tangent);
     Vertex.m_texcoords :=
       if cur.(Piece.m_texcoord)
       then
         for_pure 0 (Z.to_nat piece.(P14.m_texcoord_width))
           (fun k texcoords =>
              array_set k
                (read_float2 buf (piece.(P14.m_vert_texcoord_offset)
                                  + wrap_u32 (poolSize * j)
                                  + sizeof_float2 * k))
                texcoords)
           vert.(Vertex.m_texcoords)
       else vert.(Vertex.m_texcoords);
     Vertex.m_color :=
       if cur.(Piece.m_color)
       then decode_color
              (pmg_vert_color_t.read buf (piece.(P14.m_vert_color_offset)
                                          + wrap_u32 (poolSize * j)))
       else vert.(Vertex.m_color);
     Vertex.m_color2 :=
       if cur.(Piece.m_color2)
       then decode_color
              (pmg_vert_color_t.read buf (piece.(P14.m_vert_color_offset)
                                          + wrap_u32 (poolSize * j)))
       else vert.(Vertex.m_color2);
     Vertex.m_boneIndex := bones.1;
     Vertex.m_boneWeight := bones.2 |}.

(** The triangle loop of version 0x14. *)
Definition decode_triangles_0x14 (buf : buffer) (piece : P14.t)
    (triangles : list Triangle.t) : list Triangle.t :=
  for_pure 0 (Z.to_nat (piece.(P14.m_edges) ÷ 3))
    (fun j triangles =>
       let triangle :=
         elem_at pmg_0x14.pmg_index_t.t buf piece.(P14.m_index_offset) j in
       array_set j {| Triangle.m_a := triangle.(pmg_0x14.pmg_index_t.a) |} triangles)
    triangles.

(** One pass of the piece loop on [currentPiece]; [weight_width] is the
    header's [m_weight_width]. *)
Definition decode_piece_0x14 (buf : buffer) (weight_width : Z) (piece : P14.t)
    (i : Z) (cur : Piece.t) : option Piece.t :=
  vertices ← vec_resize piece.(P14.m_verts) (default_constructed Vertex.t)
                        cur.(Piece.m_vertices);
  triangles ← vec_resize (piece.(P14.m_edges) ÷ 3) (default_constructed Triangle.t)
                         cur.(Piece.m_triangles);
  let cur :=
    stream_flags_0x14 piece
      {| Piece.m_index := i;
         Piece.m_texcoordMask := piece.(P14.m_texcoord_mask);
         Piece.m_texcoordCount := piece.(P14.m_texcoord_width);
         Piece.m_bones := weight_width;
         Piece.m_material := piece.(P14.m_material);
         Piece.m_streamCount := cur.(Piece.m_streamCount);
         Piece.m_position := cur.(Piece.m_position);
         Piece.m_normal := cur.(Piece.m_normal);
         Piece.m_tangent := cur.(Piece.m_tangent);
         Piece.m_texcoord := cur.(Piece.m_texcoord);
         Piece.m_color := cur.(Piece.m_color);
         Piece.m_color2 := cur.(Piece.m_color2);
         Piece.m_vertices := vertices;
         Piece.m_triangles := triangles |} in
  let poolSize := pool_size_0x14 piece in
  Some
    {| Piece.m_index := cur.(Piece.m_index);
       Piece.m_texcoordMask := cur.(Piece.m_texcoordMask);
       Piece.m_texcoordCount := cur.(Piece.m_texcoordCount);
       Piece.m_bones := cur.(Piece.m_bones);
       Piece.m_material := cur.(Piece.m_material);
       Piece.m_streamCount := cur.(Piece.m_streamCount);
       Piece.m_position := cur.(Piece.m_position);
       Piece.m_normal := cur.(Piece.m_normal);
       Piece.m_tangent := cur.(Piece.m_tangent);
       Piece.m_texcoord := cur.(Piece.m_texcoord);
       Piece.m_color := cur.(Piece.m_color);
       Piece.m_color2 := cur.(Piece.m_color2);
       Piece.m_vertices :=
         decode_vertices piece.(P14.m_verts)
           (decode_vertex_0x14 buf piece cur poolSize)
           cur.(Piece.m_vertices);
       Piece.m_triangles := decode_triangles_0x14 buf piece cur.(Piece.m_triangles) |}.

(** *** The aggregate counters

    [m_vertCount], [m_triangleCount] and [m_skinVertCount] are 32-bit
    unsigned counters (they are compared with [uint32_t] loop variables in
    the encoder). *)
Record counters := {
  vertCount : Z;
  triangleCount : Z;
  skinVertCount : Z
}.

(** The three [+=] of a pass of the piece loop, for a piece that declares
    [verts] vertices and [edges] edges and has the influence width [bones]
    and [size] decoded vertices. *)
Definition count_piece (verts edges bones size : Z) (c : counters) : counters :=
  {| vertCount := wrap_u32 (c.(vertCount) + verts);
     triangleCount := wrap_u32 (c.(triangleCount) + edges ÷ 3);
     skinVertCount :=
       wrap_u32 (c.(skinVertCount) + (if 0 <? bones then size else 0)) |}.

End Pieces.

(** ** The model *)
Module Model.
Section Model.

(** The prefab and the collision mesh are external collaborators. *)
Context {Prefab Collision : Type}.

Record t := {
  m_bones : list Bone.t;
  m_locators : list Locator.t;
  m_parts : list Part.t;
  m_pieces : list Piece.t;
  m_looks : list Look.t;
  m_variants : list Variant.t;
  m_vertCount : Z;
  m_triangleCount : Z;
  m_skinVertCount : Z;
  m_materialCount : Z;
  m_loaded : bool;
  m_filePath : string;
  m_fileName : string;
  m_directory : string;
  m_prefab : option Prefab;
  m_collision : option Collision
}.

(** [Model::destroy] *)
Definition destroy (m : t) : t :=
  {| m_bones := [];
     m_locators := [];
     m_parts := [];
     m_pieces := [];
     m_looks := [];
     m_variants := [];
     m_vertCount := 0;
     m_triangleCount := 0;
     m_skinVertCount := 0;
     m_materialCount := 0;
     m_loaded := false;
     m_filePath := "";
     m_fileName := "";
     m_directory := m.(m_directory);
     m_prefab := m.(m_prefab);
     m_collision := m.(m_collision) |}.

(** The model with the members a geometry decoder assigns replaced. *)
Definition with_geometry (bones : list Bone.t) (locators : list Locator.t)
    (parts : list Part.t) (pieces : list Piece.t) (c : counters) (m : t) : t :=
  {| m_bones := bones;
     m_locators := locators;
     m_parts := parts;
     m_pieces := pieces;
     m_looks := m.(m_looks);
     m_variants := m.(m_variants);
     m_vertCount := c.(vertCount);
     m_triangleCount := c.(triangleCount);
     m_skinVertCount := c.(skinVertCount);
     m_materialCount := m.(m_materialCount);
     m_loaded := m.(m_loaded);
     m_filePath := m.(m_filePath);
     m_fileName := m.(m_fileName);
     m_directory := m.(m_directory);
     m_prefab := m.(m_prefab);
     m_collision := m.(m_collision) |}.

(** The model with the members the descriptor decoder assigns replaced. *)
Definition with_descriptor (materialCount : Z) (looks : list Look.t)
    (variants : list Variant.t) (m : t) : t :=
  {| m_bones := m.(m_bones);
     m_locators := m.(m_locators);
     m_parts := m.(m_parts);
     m_pieces := m.(m_pieces);
     m_looks := looks;
     m_variants := variants;
     m_vertCount := m.(m_vertCount);
     m_triangleCount := m.(m_triangleCount);
     m_skinVertCount := m.(m_skinVertCount);
     m_materialCount := materialCount;
     m_loaded := m.(m_loaded);
     m_filePath := m.(m_filePath);
     m_fileName := m.(m_fileName);
     m_directory := m.(m_directory);
     m_prefab := m.(m_prefab);
     m_collision := m.(m_collision) |}.

Definition with_path (filePath directory fileName : string) (m : t) : t :=
  {| m_bones := m.(m_bones);
     m_locators := m.(m_locators);
     m_parts := m.(m_parts);
     m_pieces := m.(m_pieces);
     m_looks := m.(m_looks);
     m_variants := m.(m_variants);
     m_vertCount := m.(m_vertCount);
     m_triangleCount := m.(m_triangleCount);
     m_skinVertCount := m.(m_skinVertCount);
     m_materialCount := m.(m_materialCount);
     m_loaded := m.(m_loaded);
     m_filePath := filePath;
     m_fileName := fileName;
     m_directory := directory;
     m_prefab := m.(m_prefab);
     m_collision := m.(m_collision) |}.

Definition with_prefab (prefab : option Prefab) (m : t) : t :=
  {| m_bones := m.(m_bones);
     m_locators := m.(m_locators);
     m_parts := m.(m_parts);
     m_pieces := m.(m_pieces);
     m_looks := m.(m_looks);
     m_variants := m.(m_variants);
     m_vertCount := m.(m_vertCount);
     m_triangleCount := m.(m_triangleCount);
     m_skinVertCount := m.(m_skinVertCount);
     m_materialCount := m.(m_materialCount);
     m_loaded := m.(m_loaded);
     m_filePath := m.(m_filePath);
     m_fileName := m.(m_fileName);
     m_directory := m.(m_directory);
     m_prefab := prefab;
     m_collision := m.(m_collision) |}.

Definition with_collision (collision : option Collision) (m : t) : t :=
  {| m_bones := m.(m_bones);
     m_locators := m.(m_locators);
     m_parts := m.(m_parts);
     m_pieces := m.(m_pieces);
     m_looks := m.(m_looks);
     m_variants := m.(m_variants);
     m_vertCount := m.(m_vertCount);
     m_triangleCount := m.(m_triangleCount);
     m_skinVertCount := m.(m_skinVertCount);
     m_materialCount := m.(m_materialCount);
     m_loaded := m.(m_loaded);
     m_filePath := m.(m_filePath);
     m_fileName := m.(m_fileName);
     m_directory := m.(m_directory);
     m_prefab := m.(m_prefab);
     m_collision := collision |}.

Definition with_loaded (loaded : bool) (m : t) : t :=
  {| m_bones := m.(m_bones);
     m_locators := m.(m_locators);
     m_parts := m.(m_parts);
     m_pieces := m.(m_pieces);
     m_looks := m.(m_looks);
     m_variants := m.(m_variants);
     m_vertCount := m.(m_vertCount);
     m_triangleCount := m.(m_triangleCount);
     m_skinVertCount := m.(m_skinVertCount);
     m_materialCount := m.(m_materialCount);
     m_loaded := loaded;
     m_filePath := m.(m_filePath);
     m_fileName := m.(m_fileName);
     m_directory := m.(m_directory);
     m_prefab := m.(m_prefab);
     m_collision := m.(m_collision) |}.

Definition counters_of (m : t) : counters :=
  {| vertCount := m.(m_vertCount);
     triangleCount := m.(m_triangleCount);
     skinVertCount := m.(m_skinVertCount) |}.

(** *** Parameters: what model.cpp takes from the rest of the program *)

Variable BONE_COUNT : nat.

Context {bone_ctor : Constructible Bone.t}
        {locator_ctor : Constructible Locator.t}
        {part_ctor : Constructible Part.t}
        {piece_ctor : Constructible Piece.t}
        {vertex_ctor : Constructible Vertex.t}
        {triangle_ctor : Constructible Triangle.t}
        {collision_ctor : Constructible Collision}.

Context {token_layout : Layout token_t}
        {header13_layout : Layout H13.t}
        {bone13_layout : Layout pmg_0x13.pmg_bone_t.t}
        {part13_layout : Layout pmg_0x13.pmg_part_t.t}
        {locator13_layout : Layout pmg_0x13.pmg_locator_t.t}
        {piece13_layout : Layout P13.t}
        {triangle13_layout : Layout pmg_0x13.pmg_triangle_t.t}
        {header14_layout : Layout H14.t}
        {bone14_layout : Layout pmg_0x14.pmg_bone_data_t.t}
        {part14_layout : Layout pmg_0x14.pmg_part_t.t}
        {locator14_layout : Layout pmg_0x14.pmg_locator_t.t}
        {piece14_layout : Layout P14.t}
        {index14_layout : Layout pmg_0x14.pmg_index_t.t}
        {pmd_header_layout : Layout HD.t}
        {attrib_link_layout : Layout pmd.pmd_attrib_link_t.t}
        {attrib_def_layout : Layout pmd.pmd_attrib_def_t.t}
        {attrib_value_layout : Layout pmd.pmd_attrib_value_t.t}.

(** [token_to_string(token)] and [token.to_string()] *)
Variable token_to_string : token_t -> string.
Variable token_t_to_string : token_t -> string.

(** [pmd_header_t::SUPPORTED_VERSION] *)
Variable pmd_SUPPORTED_VERSION : Z.

(** [Variant::Attribute attrib(name)]: the attribute its constructor makes. *)
Variable Attribute_ctor : string -> Variant.Attribute.t.

(** [material.load(path)]: the material after the call. *)
Variable Material_load : string -> Material.t -> Material.t.

(** [directory(filePath)] *)
Variable directory : string -> string.

(** [getUFS()] *)
Variable ufs : FileSystem.

(** [prefab->load(filePath)] on a new prefab: the loaded prefab, or [None]
    when [load] returns false. *)
Variable Prefab_load : string -> option Prefab.

(** [collision->load(this, filePath)]: the collision after the call and the
    value [load] returns.  The call does not change the model. *)
Variable Collision_load : t -> string -> Collision -> Collision * bool.

(** *** [Model::loadModel0x13] *)

Definition load_bone_0x13 (i : Z) (bone : pmg_0x13.pmg_bone_t.t) : Bone.t :=
  {| Bone.m_index := i;
     Bone.m_name := token_to_string bone.(pmg_0x13.pmg_bone_t.m_name);
     Bone.m_transReversed := bone.(pmg_0x13.pmg_bone_t.m_transformation_reversed);
     Bone.m_transformation := bone.(pmg_0x13.pmg_bone_t.m_transformation);
     Bone.m_stretch := bone.(pmg_0x13.pmg_bone_t.m_stretch);
     Bone.m_rotation := bone.(pmg_0x13.pmg_bone_t.m_rotation);
     Bone.m_translation := bone.(pmg_0x13.pmg_bone_t.m_translation);
     Bone.m_scale := bone.(pmg_0x13.pmg_bone_t.m_scale);
     Bone.m_signOfDeterminantOfMatrix :=
       bone.(pmg_0x13.pmg_bone_t.m_sign_of_determinant_of_matrix);
     Bone.m_parent := bone.(pmg_0x13.pmg_bone_t.m_parent) |}.

Definition load_part_0x13 (part : pmg_0x13.pmg_part_t.t) : Part.t :=
  {| Part.m_name := token_to_string part.(pmg_0x13.pmg_part_t.m_name);
     Part.m_locatorCount := part.(pmg_0x13.pmg_part_t.m_locator_count);
     Part.m_locatorId := part.(pmg_0x13.pmg_part_t.m_locators_idx);
     Part.m_pieceCount := part.(pmg_0x13.pmg_part_t.m_piece_count);
     Part.m_pieceId := part.(pmg_0x13.pmg_part_t.m_pieces_idx) |}.

Definition load_locator_0x13 (buf : buffer) (header : H13.t) (i : Z)
    (locator : pmg_0x13.pmg_locator_t.t) : Locator.t :=
  {| Locator.m_index := i;
     Locator.m_name := token_to_string locator.(pmg_0x13.pmg_locator_t.m_name);
     Locator.m_position := locator.(pmg_0x13.pmg_locator_t.m_position);
     Locator.m_rotation := locator.(pmg_0x13.pmg_locator_t.m_rotation);
     Locator.m_scale := locator.(pmg_0x13.pmg_locator_t.m_scale);
     Locator.m_hookup :=
       let offset := locator.(pmg_0x13.pmg_locator_t.m_name_block_offset) in
       if negb (offset =? -1)
       then substr_prefix
              (read_cstr buf (header.(H13.m_locator_name_offset) + offset))
              (header.(H13.m_locators_name_size) - offset)
       else "" |}.

(** One pass of the piece loop. *)
Definition load_piece_0x13 (buf : buffer) (header : H13.t) (i : Z)
    (st : list Piece.t * counters) : option (list Piece.t * counters) :=
  let piece := elem_at P13.t buf header.(H13.m_piece_offset) i in
  cur ← decode_piece_0x13 BONE_COUNT buf piece i
          (array_get (default_constructed Piece.t) i st.1);
  Some (array_set i cur st.1,
        count_piece piece.(P13.m_verts) piece.(P13.m_edges) cur.(Piece.m_bones)
          (Z.of_nat (length cur.(Piece.m_vertices))) st.2).

Definition loadModel0x13 (buf : buffer) (m : t) : option (bool * t) :=
  let header := cast_at H13.t buf 0 in
  let '(signature0, signature1, signature2) := header.(H13.m_signature) in
  if negb (header.(H13.m_version) =? pmg_0x13.SUPPORTED_VERSION)
     || negb ((signature2 =? char_P) && (signature1 =? char_m)
              && (signature0 =? char_g))
  then Some (false, m)
  else
    pieces ← vec_resize header.(H13.m_piece_count) (default_constructed Piece.t)
                        m.(m_pieces);
    bones ← vec_resize header.(H13.m_bone_count) (default_constructed Bone.t)
                       m.(m_bones);
    locators ← vec_resize header.(H13.m_locator_count)
                          (default_constructed Locator.t) m.(m_locators);
    parts ← vec_resize header.(H13.m_part_count) (default_constructed Part.t)
                       m.(m_parts);
    let bones :=
      for_pure 0 (Z.to_nat header.(H13.m_bone_count))
        (fun i bones =>
           array_set i
             (load_bone_0x13 i
                (elem_at pmg_0x13.pmg_bone_t.t buf header.(H13.m_bone_offset) i))
             bones)
        bones in
    let parts :=
      for_pure 0 (Z.to_nat header.(H13.m_part_count))
        (fun i parts =>
           array_set i
             (load_part_0x13
                (elem_at pmg_0x13.pmg_part_t.t buf header.(H13.m_part_offset) i))
             parts)
        parts in
    let locators :=
      for_pure 0 (Z.to_nat header.(H13.m_locator_count))
        (fun i locators =>
           array_set i
             (load_locator_0x13 buf header i
                (elem_at pmg_0x13.pmg_locator_t.t buf header.(H13.m_locator_offset) i))
             locators)
        locators in
    st ← for_loop 0 (Z.to_nat header.(H13.m_piece_count))
           (load_piece_0x13 buf header) (pieces, counters_of m);
    Some (true, with_geometry bones locators parts st.1 st.2 m).

(** *** [Model::loadModel0x14] *)

Definition load_bone_0x14 (i : Z) (bone : pmg_0x14.pmg_bone_data_t.t) : Bone.t :=
  {| Bone.m_index := i;
     Bone.m_name := token_to_string bone.(pmg_0x14.pmg_bone_data_t.m_name);
     Bone.m_transReversed :=
       bone.(pmg_0x14.pmg_bone_data_t.m_transformation_reversed);
     Bone.m_transformation := bone.(pmg_0x14.pmg_bone_data_t.m_transformation);
     Bone.m_stretch := bone.(pmg_0x14.pmg_bone_data_t.m_stretch);
     Bone.m_rotation := bone.(pmg_0x14.pmg_bone_data_t.m_rotation);
     Bone.m_translation := bone.(pmg_0x14.pmg_bone_data_t.m_translation);
     Bone.m_scale := bone.(pmg_0x14.pmg_bone_data_t.m_scale);
     Bone.m_signOfDeterminantOfMatrix :=
       bone.(pmg_0x14.pmg_bone_data_t.m_sign_of_determinant_of_matrix);
     Bone.m_parent := bone.(pmg_0x14.pmg_bone_data_t.m_parent) |}.

Definition load_part_0x14 (part : pmg_0x14.pmg_part_t.t) : Part.t :=
  {| Part.m_name := token_to_string part.(pmg_0x14.pmg_part_t.m_name);
     Part.m_locatorCount := part.(pmg_0x14.pmg_part_t.m_locator_count);
     Part.m_locatorId := part.(pmg_0x14.pmg_part_t.m_locators_idx);
     Part.m_pieceCount := part.(pmg_0x14.pmg_part_t.m_piece_count);
     Part.m_pieceId := part.(pmg_0x14.pmg_part_t.m_pieces_idx) |}.

Definition load_locator_0x14 (buf : buffer) (header : H14.t) (i : Z)
    (locator : pmg_0x14.pmg_locator_t.t) : Locator.t :=
  {| Locator.m_index := i;
     Locator.m_name := token_to_string locator.(pmg_0x14.pmg_locator_t.m_name);
     Locator.m_position := locator.(pmg_0x14.pmg_locator_t.m_position);
     Locator.m_rotation := locator.(pmg_0x14.pmg_locator_t.m_rotation);
     Locator.m_scale := locator.(pmg_0x14.pmg_locator_t.m_scale);
     Locator.m_hookup :=
       let offset := locator.(pmg_0x14.pmg_locator_t.m_hookup_offset) in
       if negb (offset =? -1)
       then substr_prefix
              (read_cstr buf (header.(H14.m_string_pool_offset) + offset))
              (header.(H14.m_string_pool_size) - offset)
       else "" |}.

(** One pass of the piece loop. *)
Definition load_piece_0x14 (buf : buffer) (header : H14.t) (i : Z)
    (st : list Piece.t * counters) : option (list Piece.t * counters) :=
  let piece := elem_at P14.t buf header.(H14.m_pieces_offset) i in
  cur ← decode_piece_0x14 BONE_COUNT buf header.(H14.m_weight_width) piece i
          (array_get (default_constructed Piece.t) i st.1);
  Some (array_set i cur st.1,
        count_piece piece.(P14.m_verts) piece.(P14.m_edges) cur.(Piece.m_bones)
          (Z.of_nat (length cur.(Piece.m_vertices))) st.2).

Definition loadModel0x14 (buf : buffer) (m : t) : option (bool * t) :=
  let header := cast_at H14.t buf 0 in
  let '(signature0, signature1, signature2) := header.(H14.m_signature) in
  if negb (header.(H14.m_version) =? pmg_0x14.SUPPORTED_VERSION)
     || negb ((signature2 =? char_P) && (signature1 =? char_m)
              && (signature0 =? char_g))
  then Some (false, m)
  else
    pieces ← vec_resize header.(H14.m_piece_count) (default_constructed Piece.t)
                        m.(m_pieces);
    bones ← vec_resize header.(H14.m_bone_count) (default_constructed Bone.t)
                       m.(m_bones);
    locators ← vec_resize header.(H14.m_locator_count)
                          (default_constructed Locator.t) m.(m_locators);
    parts ← vec_resize header.(H14.m_part_count) (default_constructed Part.t)
                       m.(m_parts);
    let bones :=
      for_pure 0 (Z.to_nat header.(H14.m_bone_count))
        (fun i bones =>
           array_set i
             (load_bone_0x14 i
                (elem_at pmg_0x14.pmg_bone_data_t.t buf
                   header.(H14.m_skeleton_offset) i))
             bones)
        bones in
    let parts :=
      for_pure 0 (Z.to_nat header.(H14.m_part_count))
        (fun i parts =>
           array_set i
             (load_part_0x14
                (elem_at pmg_0x14.pmg_part_t.t buf header.(H14.m_parts_offset) i))
             parts)
        parts in
    let locators :=
      for_pure 0 (Z.to_nat header.(H14.m_locator_count))
        (fun i locators =>
           array_set i
             (load_locator_0x14 buf header i
                (elem_at pmg_0x14.pmg_locator_t.t buf
                   header.(H14.m_locators_offset) i))
             locators)
        locators in
    st ← for_loop 0 (Z.to_nat header.(H14.m_piece_count))
           (load_piece_0x14 buf header) (pieces, counters_of m);
    Some (true, with_geometry bones locators parts st.1 st.2 m).

(** *** [Model::loadModel] *)
Definition loadModel (m : t) : option (bool * t) :=
  let pmgPath := m.(m_filePath) +:+ ".pmg" in
  match ufs.(fs_open) pmgPath with
  | None => Some (false, m)
  | Some buf =>
      let version := read_u32 buf 0 in
      if version =? MAKEFOURCC 0x13 char_g char_m char_P then loadModel0x13 buf m
      else if version =? MAKEFOURCC 0x14 char_g char_m char_P then loadModel0x14 buf m
      else Some (false, m)
  end.

(** *** [Model::loadDescriptor] *)

(** The alias the first look gives the material of slot [j]. *)
Definition first_look_alias (j : Z) (mt : Material.t) : string :=
  match mt.(Material.m_textures) with
  | texture :: _ => "mat_" +:+ pad4 j +:+ "_" +:+ texture_alias_name texture
  | [] => "mat_" +:+ pad4 j
  end.

(** One pass of the material loop of look [i]: slot [j]. *)
Definition load_material (buf : buffer) (header : HD.t) (i j : Z)
    (m_directory : string) (looks : list Look.t) : list Look.t :=
  let currentLook := array_get Look.ctor i looks in
  let currentOffsetMat :=
    wrap_u32 ((i * header.(HD.m_material_count) + j) * sizeof_uint32_t) in
  let offsetMaterial :=
    read_u32 buf (header.(HD.m_material_offset) + currentOffsetMat) in
  let materialPath := read_cstr buf offsetMaterial in
  let path :=
    if read_u8 buf offsetMaterial =? 47 (* '/' *)
    then materialPath
    else m_directory +:+ "/" +:+ materialPath in
  let material :=
    Material_load path
      (array_get Material.ctor j currentLook.(Look.m_materials)) in
  let material :=
    if i =? 0
    then Material.setAlias (first_look_alias j material) material
    else
      let first := array_get Look.ctor 0 looks in
      Material.setAlias
        (Material.alias
           (array_get Material.ctor j first.(Look.m_materials)))
        material in
  array_set i
    {| Look.m_name := currentLook.(Look.m_name);
       Look.m_materials := array_set j material currentLook.(Look.m_materials) |}
    looks.

(** One pass of the look loop: look [i]. *)
Definition load_look (buf : buffer) (header : HD.t) (m_directory : string)
    (i : Z) (looks : list Look.t) : option (list Look.t) :=
  let currentLook := array_get Look.ctor i looks in
  let currentNameLook := elem_at token_t buf header.(HD.m_look_offset) i in
  materials ← vec_resize header.(HD.m_material_count)
                Material.ctor currentLook.(Look.m_materials);
  let looks :=
    array_set i
      {| Look.m_name := token_to_string currentNameLook;
         Look.m_materials := materials |}
      looks in
  Some (for_pure 0 (Z.to_nat header.(HD.m_material_count))
          (fun j looks => load_material buf header i j m_directory looks)
          looks).

(** The body of the attribute loop for variant [i]: the attribute pushed for
    definition [k], and the warning printed if any. *)
Definition load_attribute (buf : buffer) (header : HD.t) (i k : Z)
    : Variant.Attribute.t * list warning :=
  let attribDef := elem_at pmd.pmd_attrib_def_t.t buf header.(HD.m_attribs_offset) k in
  let attribValue :=
    cast_at pmd.pmd_attrib_value_t.t buf
      (header.(HD.m_attribs_value_offset) + attribDef.(pmd.pmd_attrib_def_t.m_offset)
       + wrap_u32 (i * header.(HD.m_attribs_values_size))) in
  let attrib := Attribute_ctor (token_t_to_string attribDef.(pmd.pmd_attrib_def_t.m_name)) in
  if attribDef.(pmd.pmd_attrib_def_t.m_type) =? 0
  then
    ({| Variant.Attribute.m_name := attrib.(Variant.Attribute.m_name);
        Variant.Attribute.m_type := Variant.Attribute.INT;
        Variant.Attribute.m_intValue :=
          attribValue.(pmd.pmd_attrib_value_t.m_int_value) |},
     [])
  else (attrib, [InvalidAttributeType attribDef.(pmd.pmd_attrib_def_t.m_type)]).

(** The attribute loop of part [j] of variant [i], on the attribute list of
    the part and the output so far. *)
Definition load_attributes (buf : buffer) (header : HD.t) (i j : Z)
    (st : list Variant.Attribute.t * list warning)
    : list Variant.Attribute.t * list warning :=
  let attribLink :=
    elem_at pmd.pmd_attrib_link_t.t buf header.(HD.m_part_attribs_offset) j in
  let m_from := attribLink.(pmd.pmd_attrib_link_t.m_from) in
  let m_to := attribLink.(pmd.pmd_attrib_link_t.m_to) in
  for_pure m_from (Z.to_nat (m_to - m_from))
    (fun k '(m_attributes, out) =>
       let '(attrib, warnings) := load_attribute buf header i k in
       (m_attributes ++ [attrib], out ++ warnings))
    st.

(** One pass of the part loop of variant [i]: part [j]. *)
Definition load_variant_part (buf : buffer) (header : HD.t) (i j : Z)
    (st : Variant.t * list warning) : Variant.t * list warning :=
  let '(variant, out) := st in
  let part :=
    array_get Variant.Part.ctor j variant.(Variant.m_parts) in
  let '(m_attributes, out) :=
    load_attributes buf header i j (part.(Variant.Part.m_attributes), out) in
  ({| Variant.m_name := variant.(Variant.m_name);
      Variant.m_parts :=
        array_set j {| Variant.Part.m_attributes := m_attributes |}
          variant.(Variant.m_parts) |},
   out).

(** One pass of the variant loop: variant [i]. *)
Definition load_variant (buf : buffer) (header : HD.t) (i : Z)
    (st : list Variant.t * list warning) : option (list Variant.t * list warning) :=
  let '(variants, out) := st in
  let variant := array_get Variant.ctor i variants in
  let variantName := elem_at token_t buf header.(HD.m_variant_offset) i in
  variant ← Variant.setPartCount header.(HD.m_part_count)
              {| Variant.m_name := token_t_to_string variantName;
                 Variant.m_parts := variant.(Variant.m_parts) |};
  let '(variant, out) :=
    for_pure 0 (Z.to_nat header.(HD.m_part_count))
      (load_variant_part buf header i) (variant, out) in
  Some (array_set i variant variants, out).

(** The decoder on an opened descriptor: the result, the model, the output. *)
Definition loadDescriptor_buffer (buf : buffer) (m : t)
    : option (bool * t * list warning) :=
  let header := cast_at HD.t buf 0 in
  if negb (header.(HD.m_version) =? pmd_SUPPORTED_VERSION)
  then Some (false, m, [])
  else
    let materialCount := wrap_u32 header.(HD.m_material_count) in
    looks ← vec_resize header.(HD.m_look_count) Look.ctor
                       m.(m_looks);
    looks ← for_loop 0 (length looks) (load_look buf header m.(m_directory)) looks;
    variants ← vec_resize header.(HD.m_variant_count) Variant.ctor m.(m_variants);
    st ← for_loop 0 (length variants) (load_variant buf header) (variants, []);
    Some (true, with_descriptor materialCount looks st.1 m, st.2).

Definition loadDescriptor (m : t) : option (bool * t * list warning) :=
  let pmdPath := m.(m_filePath) +:+ ".pmd" in
  match ufs.(fs_open) pmdPath with
  | None => Some (false, m, [])
  | Some buf => loadDescriptor_buffer buf m
  end.

(** *** [Model::loadCollision] *)
Definition loadCollision (m : t) : bool * t :=
  if ufs.(fs_exists) (m.(m_filePath) +:+ ".pmc")
  then
    let m := with_collision (Some (default_constructed Collision)) m in
    let '(collision, ok) :=
      Collision_load m m.(m_filePath) (default_constructed Collision) in
    (ok, with_collision (Some collision) m)
  else (false, m).

(** *** [Model::load] *)
Definition load (filePath : string) (m : t) : option (bool * t) :=
  let m := if m.(m_loaded) then destroy m else m in
  let m_directory := directory filePath in
  m_fileName ← substr_from filePath (String.length m_directory + 1);
  let m := with_path filePath m_directory m_fileName m in
  r ← loadDescriptor m;
  let '(ok, m, _) := r in
  if negb ok then Some (false, m)
  else
    r ← loadModel m;
    let '(ok, m) := r in
    if negb ok then Some (false, m)
    else
      let m :=
        if ufs.(fs_exists) (m.(m_filePath) +:+ ".ppd")
        then with_prefab (Prefab_load filePath) m
        else m in
      let m := (loadCollision m).2 in
      Some (true, with_loaded true m).

(** *** [Model::saveToMidFormat]

    The calls it makes, in order.  The text the three encoders of model.cpp
    write is not part of this development; the calls on the collision and on
    the prefab carry the object they are made on. *)
Inductive export_call :=
  | SaveToPim (exportPath : string)
  | SaveToPit (exportPath : string)
  | SaveToPis (exportPath : string)
  | SaveToPic (collision : Collision) (exportPath : string)
  | SaveToPip (prefab : Prefab) (exportPath : string)
  | ConvertTextures (exportPath : string).

Definition saveToMidFormat (exportPath : string) (convertTexture : bool) (m : t)
    : list export_call :=
  [SaveToPim exportPath; SaveToPit exportPath; SaveToPis exportPath]
  ++ match m.(m_collision) with
     | Some collision => [SaveToPic collision exportPath]
     | None => []
     end
  ++ match m.(m_prefab) with
     | Some prefab => [SaveToPip prefab exportPath]
     | None => []
     end
  ++ (if convertTexture then [ConvertTextures exportPath] else []).

End Model.
Arguments t : clear implicits.
Arguments export_call : clear implicits.
End Model.


(** ** Quantities the statements are about *)

Definition sumZ (l : list Z) : Z := foldr Z.add 0 l.

(** The byte size a stream adds to a stride: [size] if its offset is not the
    sentinel -1. *)
Definition stream_size (offset size : Z) : Z :=
  if offset =? -1 then 0 else size.

(** The number of whole triangles in [edges] edges. *)
Definition triangles_of_edges (edges : Z) : nat := Z.to_nat (edges / 3).

(** The piece records a geometry buffer declares. *)
Definition declared_pieces_0x13 `{Layout H13.t, Layout P13.t} (buf : buffer)
    : list P13.t :=
  let header := cast_at H13.t buf 0 in
  elem_at P13.t buf header.(H13.m_piece_offset)
    <$> seqZ 0 header.(H13.m_piece_count).

Definition declared_pieces_0x14 `{Layout H14.t, Layout P14.t} (buf : buffer)
    : list P14.t :=
  let header := cast_at H14.t buf 0 in
  elem_at P14.t buf header.(H14.m_pieces_offset)
    <$> seqZ 0 header.(H14.m_piece_count).

(** The (vertex count, edge count) every piece of a geometry buffer
    declares, by the version tag of the buffer. *)
Definition declared_counts `{Layout H13.t, Layout P13.t, Layout H14.t, Layout P14.t}
    (buf : buffer) : list (Z * Z) :=
  let version := read_u32 buf 0 in
  if version =? MAKEFOURCC 0x13 char_g char_m char_P
  then (fun piece => (piece.(P13.m_verts), piece.(P13.m_edges)))
         <$> declared_pieces_0x13 buf
  else if version =? MAKEFOURCC 0x14 char_g char_m char_P
  then (fun piece => (piece.(P14.m_verts), piece.(P14.m_edges)))
         <$> declared_pieces_0x14 buf
  else [].

(** The attribute definitions of the range of part [j]. *)
Definition attribute_range `{Layout pmd.pmd_attrib_link_t.t} (buf : buffer)
    (header : HD.t) (j : Z) : list Z :=
  let attribLink :=
    elem_at pmd.pmd_attrib_link_t.t buf header.(HD.m_part_attribs_offset) j in
  seqZ attribLink.(pmd.pmd_attrib_link_t.m_from)
       (attribLink.(pmd.pmd_attrib_link_t.m_to)
        - attribLink.(pmd.pmd_attrib_link_t.m_from)).

(** The bind index the version 0x13 decoder reads for vertex [j]. *)
Definition bind_index (buf : buffer) (piece : P13.t) (j : Z) : Z :=
  read_u16 buf (piece.(P13.m_anim_bind_offset) + j * sizeof_uint16_t).

(** [same_geometry m m']: the members a geometry decoder assigns are in [m']
    what they are in [m]. *)
Definition same_geometry {Prefab Collision : Type}
    (m m' : Model.t Prefab Collision) : Prop :=
  m'.(Model.m_bones) = m.(Model.m_bones) /\
  m'.(Model.m_locators) = m.(Model.m_locators) /\
  m'.(Model.m_parts) = m.(Model.m_parts) /\
  m'.(Model.m_pieces) = m.(Model.m_pieces) /\
  m'.(Model.m_vertCount) = m.(Model.m_vertCount) /\
  m'.(Model.m_triangleCount) = m.(Model.m_triangleCount) /\
  m'.(Model.m_skinVertCount) = m.(Model.m_skinVertCount).

(** [same_frame m m']: the members neither decoder assigns are in [m'] what
    they are in [m]. *)
Definition same_frame {Prefab Collision : Type}
    (m m' : Model.t Prefab Collision) : Prop :=
  m'.(Model.m_loaded) = m.(Model.m_loaded) /\
  m'.(Model.m_filePath) = m.(Model.m_filePath) /\
  m'.(Model.m_fileName) = m.(Model.m_fileName) /\
  m'.(Model.m_directory) = m.(Model.m_directory) /\
  m'.(Model.m_prefab) = m.(Model.m_prefab) /\
  m'.(Model.m_collision) = m.(Model.m_collision).

(** The sum of [f k] for [0 <= k < n]. *)
Definition sum_upto (f : Z -> Z) (n : Z) : Z := sumZ (f <$> seqZ 0 n).



(** What the attribute loops of the descriptor decoder are expected to
    leave: the attributes of part [j] of variant [i], one per definition of
    the range of the part, and the warnings printed, in the order of the
    loops. *)
Section Expected.

Context {attrib_link_layout : Layout pmd.pmd_attrib_link_t.t}
        {attrib_def_layout : Layout pmd.pmd_attrib_def_t.t}
        {attrib_value_layout : Layout pmd.pmd_attrib_value_t.t}.
Variable token_t_to_string : token_t -> string.
Variable Attribute_ctor : string -> Variant.Attribute.t.
Variables (buf : buffer) (header : HD.t).

Definition expected_attributes (i j : Z) : list Variant.Attribute.t :=
  (fun k => (Model.load_attribute token_t_to_string Attribute_ctor buf header i k).1)
    <$> attribute_range buf header j.

Definition part_warnings (i j : Z) : list warning :=
  attribute_range buf header j
    ≫= (fun k => (Model.load_attribute token_t_to_string Attribute_ctor
                     buf header i k).2).

Definition variant_warnings (i : Z) : list warning :=
  seqZ 0 header.(HD.m_part_count) ≫= part_warnings i.

Definition descriptor_warnings : list warning :=
  seqZ 0 header.(HD.m_variant_count) ≫= variant_warnings.

End Expected.

(** No geometry: what a geometry decoder assigns is empty or zero. *)
Definition no_geometry {Prefab Collision : Type}
    (m : Model.t Prefab Collision) : Prop :=
  m.(Model.m_bones) = [] /\ m.(Model.m_locators) = [] /\
  m.(Model.m_parts) = [] /\ m.(Model.m_pieces) = [] /\
  m.(Model.m_vertCount) = 0 /\ m.(Model.m_triangleCount) = 0 /\
  m.(Model.m_skinVertCount) = 0.

(** The invariant of a model between two calls of [load]: a model that is
    not loaded has no geometry. *)
Definition consistent {Prefab Collision : Type}
    (m : Model.t Prefab Collision) : Prop :=
  m.(Model.m_loaded) = false -> no_geometry m.

(** The state of a model that is not loaded: no container is populated,
    every count is zero and the flag is false. *)
Definition unloaded_state {Prefab Collision : Type}
    (m : Model.t Prefab Collision) : Prop :=
  m.(Model.m_bones) = [] /\ m.(Model.m_locators) = [] /\
  m.(Model.m_parts) = [] /\ m.(Model.m_pieces) = [] /\
  m.(Model.m_looks) = [] /\ m.(Model.m_variants) = [] /\
  m.(Model.m_vertCount) = 0 /\ m.(Model.m_triangleCount) = 0 /\
  m.(Model.m_skinVertCount) = 0 /\ m.(Model.m_materialCount) = 0 /\
  m.(Model.m_loaded) = false.

(** ** The piece loop, as both decoders run it

    Pass [i] decodes [m_pieces[i]] in place with [decode] and adds the
    counts [verts i] and [edges i] of the piece record to the counters. *)
Section PieceLoopDefinitions.

Variable decode : Z -> Piece.t -> option Piece.t.
Variables verts edges bones : Z -> Z.
Variable new_piece : Piece.t.

Definition piece_pass (i : Z) (st : list Piece.t * counters)
    : option (list Piece.t * counters) :=
  cur ← decode i (array_get new_piece i st.1);
  Some (array_set i cur st.1,
        count_piece (verts i) (edges i) cur.(Piece.m_bones)
          (Z.of_nat (length cur.(Piece.m_vertices))) st.2).

(** The state after [n] passes. *)
Definition piece_loop_post (pieces : list Piece.t) (c : counters) (n : Z)
    (st : list Piece.t * counters) : Prop :=
  length st.1 = length pieces /\
  (forall k : nat, Z.of_nat k < n ->
     exists cur p, pieces !! k = Some cur /\
                   decode (Z.of_nat k) cur = Some p /\
                   st.1 !! k = Some p) /\
  (forall k : nat, n <= Z.of_nat k -> st.1 !! k = pieces !! k) /\
  st.2.(vertCount) = wrap_u32 (c.(vertCount) + sum_upto verts n) /\
  st.2.(triangleCount)
  = wrap_u32 (c.(triangleCount) + sum_upto (fun k => edges k ÷ 3) n) /\
  st.2.(skinVertCount)
  = wrap_u32 (c.(skinVertCount)
              + sum_upto (fun k => if 0 <? bones k then verts k else 0) n).

End PieceLoopDefinitions.

(** ** The loops of the descriptor decoder *)


Section DescriptorLoops.

Context {attrib_link_layout : Layout pmd.pmd_attrib_link_t.t}
        {attrib_def_layout : Layout pmd.pmd_attrib_def_t.t}
        {attrib_value_layout : Layout pmd.pmd_attrib_value_t.t}.
Variable token_t_to_string : token_t -> string.
Variable Attribute_ctor : string -> Variant.Attribute.t.

(** The part loop of variant [i] on new parts, after [n] passes. *)
Definition part_loop_post (buf : buffer) (header : HD.t) (i : Z) (name : string)
    (parts : nat) (out : list warning) (n : Z)
    (st : Variant.t * list warning) : Prop :=
  st.1.(Variant.m_name) = name /\
  length st.1.(Variant.m_parts) = parts /\
  (forall j : nat, Z.of_nat j < n ->
     st.1.(Variant.m_parts) !! j
     = Some {| Variant.Part.m_attributes :=
                 expected_attributes token_t_to_string Attribute_ctor buf header i (Z.of_nat j) |}) /\
  (forall j : nat, n <= Z.of_nat j -> (j < parts)%nat ->
     st.1.(Variant.m_parts) !! j = Some Variant.Part.ctor) /\
  st.2 = out ++ (seqZ 0 n ≫= part_warnings token_t_to_string Attribute_ctor buf header i).

(** The variant loop on new variants, after [n] passes. *)
Definition variant_loop_post (buf : buffer) (header : HD.t) (variants : nat)
    (n : Z) (st : list Variant.t * list warning) : Prop :=
  length st.1 = variants /\
  (forall (i : nat) (variant : Variant.t),
     Z.of_nat i < n -> st.1 !! i = Some variant ->
     length variant.(Variant.m_parts) = Z.to_nat header.(HD.m_part_count) /\
     forall (j : nat) (part : Variant.Part.t),
       variant.(Variant.m_parts) !! j = Some part ->
       part.(Variant.Part.m_attributes)
       = expected_attributes token_t_to_string Attribute_ctor buf header (Z.of_nat i) (Z.of_nat j)) /\
  (forall i : nat, n <= Z.of_nat i -> (i < variants)%nat ->
     st.1 !! i = Some Variant.ctor) /\
  st.2 = seqZ 0 n ≫= variant_warnings token_t_to_string Attribute_ctor buf header.

End DescriptorLoops.

(** ** Further quantities *)




(** The triangles the index records of a piece hold. *)
Definition declared_triangles_0x13 `{Layout pmg_0x13.pmg_triangle_t.t}
    (buf : buffer) (piece : P13.t) : list Triangle.t :=
  (fun j =>
     {| Triangle.m_a :=
          (elem_at pmg_0x13.pmg_triangle_t.t buf piece.(P13.m_triangle_offset) j)
            .(pmg_0x13.pmg_triangle_t.a) |})
    <$> seqZ 0 (piece.(P13.m_edges) ÷ 3).

Definition declared_triangles_0x14 `{Layout pmg_0x14.pmg_index_t.t}
    (buf : buffer) (piece : P14.t) : list Triangle.t :=
  (fun j =>
     {| Triangle.m_a :=
          (elem_at pmg_0x14.pmg_index_t.t buf piece.(P14.m_index_offset) j)
            .(pmg_0x14.pmg_index_t.a) |})
    <$> seqZ 0 (piece.(P14.m_edges) ÷ 3).

(** A new piece: no stream flag is set and no stream is counted. *)
Definition no_streams (p : Piece.t) : Prop :=
  p.(Piece.m_streamCount) = 0 /\
  p.(Piece.m_position) = false /\ p.(Piece.m_normal) = false /\
  p.(Piece.m_tangent) = false /\ p.(Piece.m_texcoord) = false /\
  p.(Piece.m_color) = false /\ p.(Piece.m_color2) = false.

(** Whether a stream is present: its offset is not the sentinel -1. *)
Definition present (offset : Z) : bool := negb (offset =? -1).

(** The header of a geometry buffer carries the version of the decoder and
    the signature g, m, P. *)
Definition tagged_0x13 (header : H13.t) : Prop :=
  header.(H13.m_version) = pmg_0x13.SUPPORTED_VERSION /\
  header.(H13.m_signature) = (char_g, char_m, char_P).

Definition tagged_0x14 (header : H14.t) : Prop :=
  header.(H14.m_version) = pmg_0x14.SUPPORTED_VERSION /\
  header.(H14.m_signature) = (char_g, char_m, char_P).

(** The counts a geometry buffer declares can be the sizes of vectors: no
    count of the header is negative, and no piece record declares a negative
    number of vertices or fewer than -2 edges. *)
Definition sized_0x13 `{Layout H13.t, Layout P13.t} (buf : buffer) : Prop :=
  let header := cast_at H13.t buf 0 in
  0 <= header.(H13.m_piece_count) /\ 0 <= header.(H13.m_bone_count) /\
  0 <= header.(H13.m_locator_count) /\ 0 <= header.(H13.m_part_count) /\
  Forall (fun piece => 0 <= piece.(P13.m_verts) /\ -3 < piece.(P13.m_edges))
         (declared_pieces_0x13 buf).

Definition sized_0x14 `{Layout H14.t, Layout P14.t} (buf : buffer) : Prop :=
  let header := cast_at H14.t buf 0 in
  0 <= header.(H14.m_piece_count) /\ 0 <= header.(H14.m_bone_count) /\
  0 <= header.(H14.m_locator_count) /\ 0 <= header.(H14.m_part_count) /\
  Forall (fun piece => 0 <= piece.(P14.m_verts) /\ -3 < piece.(P14.m_edges))
         (declared_pieces_0x14 buf).

(** What the look loops of the descriptor decoder are expected to leave in
    a model that had no looks. *)
Section ExpectedLooks.

Context {token_layout : Layout token_t}.
Variable token_to_string : token_t -> string.
Variable Material_load : string -> Material.t -> Material.t.
Variables (buf : buffer) (header : HD.t) (dir : string).

(** The path given to [Material::load] for slot [j] of look [i]: the string
    at the offset that entry [i * m_material_count + j] of the material
    table holds, under the directory of the model unless it starts with a
    slash. *)
Definition material_path (i j : Z) : string :=
  let currentOffsetMat :=
    wrap_u32 ((i * header.(HD.m_material_count) + j) * sizeof_uint32_t) in
  let offsetMaterial :=
    read_u32 buf (header.(HD.m_material_offset) + currentOffsetMat) in
  let materialPath := read_cstr buf offsetMaterial in
  if read_u8 buf offsetMaterial =? 47
  then materialPath
  else dir +:+ "/" +:+ materialPath.

(** A new material after [Material::load] of that path. *)
Definition loaded_material (i j : Z) : Material.t :=
  Material_load (material_path i j) Material.ctor.

(** The material of slot [j] of look [i]: loaded from its own path, with
    the alias the first look gives the slot. *)
Definition expected_material (i j : Z) : Material.t :=
  Material.setAlias (Model.first_look_alias j (loaded_material 0 j))
    (loaded_material i j).

Definition expected_look (i : Z) : Look.t :=
  {| Look.m_name :=
       token_to_string (elem_at token_t buf header.(HD.m_look_offset) i);
     Look.m_materials :=
       expected_material i <$> seqZ 0 header.(HD.m_material_count) |}.

End ExpectedLooks.

(** The attributes part [j] of variant [i] holds in a vector of variants;
    none where there is no such part. *)
Definition old_attributes (variants : list Variant.t) (i j : nat)
    : list Variant.Attribute.t :=
  match variants !! i with
  | Some variant =>
      match variant.(Variant.m_parts) !! j with
      | Some part => part.(Variant.Part.m_attributes)
      | None => []
      end
  | None => []
  end.

(** The counts a descriptor declares can be the sizes of vectors: the look
    and variant counts are not negative, and neither is the material count
    when there is a look, nor the part count when there is a variant. *)
Definition descriptor_sized (header : HD.t) : Prop :=
  0 <= header.(HD.m_look_count) /\
  (0 < header.(HD.m_look_count) -> 0 <= header.(HD.m_material_count)) /\
  0 <= header.(HD.m_variant_count) /\
  (0 < header.(HD.m_variant_count) -> 0 <= header.(HD.m_part_count)).

(** The model with its prefab and its collision replaced. *)
Definition reframe {Prefab Collision : Type} (prefab : option Prefab)
    (collision : option Collision) (m : Model.t Prefab Collision)
    : Model.t Prefab Collision :=
  Model.with_prefab prefab (Model.with_collision collision m).

(** ** The accessors of model.cpp

    An [assert] that fails, and an index outside a vector where the source
    does not test it, are [None]. *)

(** [Variant::Part::operator[](std::string attribute)]: the first attribute
    of that name ([getName] returns [m_name]). *)
Definition Part_subscript_name (attribute : string) (part : Variant.Part.t)
    : option Variant.Attribute.t :=
  List.find (fun attr => String.eqb attr.(Variant.Attribute.m_name) attribute)
            part.(Variant.Part.m_attributes).

(** [Variant::Part::operator[](size_t attribute)] *)
Definition Part_subscript (attribute : nat) (part : Variant.Part.t)
    : option Variant.Attribute.t :=
  part.(Variant.Part.m_attributes) !! attribute.

(** [Variant::operator[](size_t id)] *)
Definition Variant_subscript (id : nat) (variant : Variant.t)
    : option Variant.Part.t :=
  variant.(Variant.m_parts) !! id.

(** [Model::bone(size_t index)] *)
Definition Model_bone {Prefab Collision : Type} (index : nat)
    (m : Model.t Prefab Collision) : option Bone.t :=
  m.(Model.m_bones) !! index.

(** ** Text output

    [fmt::sprintf] is used with the conversions %s, %i and %-Ni only.  A
    value given to %i is taken to fit a signed [int]. *)

(** The double quote. *)
Definition dquote : string := String (Ascii.ascii_of_nat 34) EmptyString.

(** [s.c_str()] given to %s: the characters before the first NUL. *)
Fixpoint c_str (s : string) : string :=
  match s with
  | EmptyString => EmptyString
  | String c rest =>
      if Ascii.eqb c Ascii.zero then EmptyString else String c (c_str rest)
  end.

(** %i *)
Definition fmt_i (z : Z) : string := pretty z.

(** %-Ni: the number, then spaces up to [width] characters. *)
Definition fmt_i_left (width : nat) (z : Z) : string :=
  let digits := pretty z in
  digits +:+ String.concat "" (replicate (width - String.length digits) " "%string).

(** [for (i = 0; i < v.size(); ++i) s = body(i, v[i], s)], where the body
    may be undefined. *)
Fixpoint for_each {A St : Type} (from : Z) (v : list A)
    (body : Z -> A -> St -> option St) (s : St) : option St :=
  match v with
  | [] => Some s
  | x :: v' => s' ← body from x s; for_each (from + 1) v' body s'
  end.

(** A file the encoders have written. *)
Record file_written := { fw_path : string; fw_text : string }.

(** ** The encoders of model.cpp

    [Model::saveToPim], [Model::saveToPit], [Model::saveToPis] and
    [Model::convertTextures], which [Model::saveToMidFormat] calls.  An
    encoder returns the flag it returns in the source and the files it has
    written, with their text.  In the encoders an index outside a vector or
    an array is not given a value: the source does not test it, the
    behaviour is undefined, and the encoder is [None]. *)
Module Encoder.
Section Encoder.

Context {Prefab Collision : Type}.

(** The macros [SEOL], [TAB] and [STRING_VERSION]; they hold no conversion. *)
Variables SEOL TAB STRING_VERSION : string.

(** [getSFS()->open(path, write | binary)] returns a file. *)
Variable sfs_open : string -> bool.

(** [to_string] of a float2, of a float3 and of a float4, and of a decoded
    colour (a float4 in the source). *)
Variable float2_to_string : float2 -> string.
Variable float3_to_string : float3 -> string.
Variable float4_to_string : float4 -> string.
Variable color_to_string : Q * Q * Q * Q -> string.

(** [sprintf(FLT_FT, flh(x))] for a float [x], and the float
    [(float)w / 255.f] for a weight byte [w]. *)
Variable FLT_FT_flh : float -> string.
Variable weight_of_byte : Z -> float.

(** [glm_cast(m)[c][r]] *)
Variable glm_cast : list float -> Z -> Z -> float.

(** [material.toDeclaration()], [material.toDefinition(prefix)] and
    [piece.texCoords(j)] *)
Variable Material_toDeclaration : Material.t -> string.
Variable Material_toDefinition : string -> Material.t -> string.
Variable Piece_texCoords : Z -> Piece.t -> list Z.

Local Abbreviation model := (Model.t Prefab Collision).

(** *** [Variant::Attribute::toDefinition] *)
Definition Attribute_toDefinition (prefix : string) (a : Variant.Attribute.t)
    : string :=
  let result := EmptyString in
  let result := result +:+ (prefix +:+ "Attribute {" +:+ SEOL) in
  let result :=
    result
    +:+ (prefix
         +:+ (TAB +:+ "Format: "
              +:+ (match a.(Variant.Attribute.m_type) with
                   | Variant.Attribute.INT => "INT"
                   | _ => "UNKNOWN"
                   end)
              +:+ SEOL)) in
  let result :=
    result
    +:+ (prefix
         +:+ (TAB +:+ "Tag: " +:+ dquote
              +:+ c_str a.(Variant.Attribute.m_name) +:+ dquote +:+ SEOL)) in
  let result :=
    result
    +:+ (prefix
         +:+ (TAB +:+ "Value: ( " +:+ fmt_i a.(Variant.Attribute.m_intValue)
              +:+ " )" +:+ SEOL)) in
  let result := result +:+ (prefix +:+ "}" +:+ SEOL) in
  result.

(** The Header block of the three encoders. *)
Definition header_block (FormatVersion Type_ : string) (m : model) : string :=
  "Header {" +:+ SEOL
  +:+ TAB +:+ "FormatVersion: " +:+ FormatVersion +:+ SEOL
  +:+ TAB +:+ "Source: " +:+ dquote +:+ STRING_VERSION +:+ dquote +:+ SEOL
  +:+ TAB +:+ "Type: " +:+ dquote +:+ Type_ +:+ dquote +:+ SEOL
  +:+ TAB +:+ "Name: " +:+ dquote +:+ c_str m.(Model.m_fileName) +:+ dquote +:+ SEOL
  +:+ "}" +:+ SEOL.

(** *** [Model::saveToPit] *)

(** The Part block [j] of variant [i]. *)
Definition pit_part (variant : Variant.t) (j : Z) (part : Part.t)
    (file : string) : option string :=
  vpart ← variant.(Variant.m_parts) !! Z.to_nat j;
  let file :=
    file
    +:+ (TAB +:+ "Part {" +:+ SEOL
         +:+ TAB +:+ TAB +:+ "Name: " +:+ dquote +:+ c_str part.(Part.m_name)
         +:+ dquote +:+ SEOL
         +:+ TAB +:+ TAB +:+ "AttributeCount: "
         +:+ fmt_i (Z.of_nat (length vpart.(Variant.Part.m_attributes))) +:+ SEOL) in
  file ← for_each 0 vpart.(Variant.Part.m_attributes)
           (fun k attribute file =>
              Some (file +:+ Attribute_toDefinition (TAB +:+ TAB) attribute))
           file;
  Some (file +:+ (TAB +:+ "}" +:+ SEOL)).

Definition pit_variant (m : model) (i : Z) (variant : Variant.t)
    (file : string) : option string :=
  let file :=
    file
    +:+ ("Variant {" +:+ SEOL
         +:+ TAB +:+ "Name: " +:+ dquote +:+ c_str variant.(Variant.m_name)
         +:+ dquote +:+ SEOL) in
  file ← for_each 0 m.(Model.m_parts) (pit_part variant) file;
  Some (file +:+ ("}" +:+ SEOL)).

Definition pit_look (i : Z) (look : Look.t) (file : string) : option string :=
  let file :=
    file
    +:+ ("Look {" +:+ SEOL
         +:+ TAB +:+ "Name: " +:+ dquote +:+ c_str look.(Look.m_name)
         +:+ dquote +:+ SEOL) in
  file ← for_each 0 look.(Look.m_materials)
           (fun j material file => Some (file +:+ Material_toDefinition TAB material))
           file;
  Some (file +:+ ("}" +:+ SEOL)).

(** What the encoder writes to the file. *)
Definition pit_text (m : model) : option string :=
  let file := EmptyString in
  let file := file +:+ header_block "1" "Trait" m in
  let file :=
    file
    +:+ ("Global {" +:+ SEOL
         +:+ TAB +:+ "LookCount: " +:+ fmt_i (Z.of_nat (length m.(Model.m_looks)))
         +:+ SEOL
         +:+ TAB +:+ "VariantCount: "
         +:+ fmt_i (Z.of_nat (length m.(Model.m_variants))) +:+ SEOL
         +:+ TAB +:+ "PartCount: " +:+ fmt_i (Z.of_nat (length m.(Model.m_parts)))
         +:+ SEOL
         +:+ TAB +:+ "MaterialCount: " +:+ fmt_i m.(Model.m_materialCount) +:+ SEOL
         +:+ "}" +:+ SEOL) in
  file ← for_each 0 m.(Model.m_looks) pit_look file;
  for_each 0 m.(Model.m_variants) (pit_variant m) file.

Definition saveToPit (exportPath : string) (m : model)
    : option (bool * list file_written) :=
  let pitFilePath := exportPath +:+ m.(Model.m_filePath) +:+ ".pit" in
  if negb (sfs_open pitFilePath) then Some (false, [])
  else
    file ← pit_text m;
    Some (true, [{| fw_path := pitFilePath; fw_text := file |}]).

(** *** [Model::saveToPis] *)

(** The sixteen entries of the matrix of a bone, row by row. *)
Definition pis_matrix (mat : Z -> Z -> float) : string :=
  TAB +:+ TAB +:+ "   Matrix: ( "
  +:+ FLT_FT_flh (mat 0 0) +:+ "  " +:+ FLT_FT_flh (mat 1 0) +:+ "  "
  +:+ FLT_FT_flh (mat 2 0) +:+ "  " +:+ FLT_FT_flh (mat 3 0) +:+ SEOL
  +:+ TAB +:+ TAB +:+ "             "
  +:+ FLT_FT_flh (mat 0 1) +:+ "  " +:+ FLT_FT_flh (mat 1 1) +:+ "  "
  +:+ FLT_FT_flh (mat 2 1) +:+ "  " +:+ FLT_FT_flh (mat 3 1) +:+ SEOL
  +:+ TAB +:+ TAB +:+ "             "
  +:+ FLT_FT_flh (mat 0 2) +:+ "  " +:+ FLT_FT_flh (mat 1 2) +:+ "  "
  +:+ FLT_FT_flh (mat 2 2) +:+ "  " +:+ FLT_FT_flh (mat 3 2) +:+ SEOL
  +:+ TAB +:+ TAB +:+ "             "
  +:+ FLT_FT_flh (mat 0 3) +:+ "  " +:+ FLT_FT_flh (mat 1 3) +:+ "  "
  +:+ FLT_FT_flh (mat 2 3) +:+ "  " +:+ FLT_FT_flh (mat 3 3) +:+ " )" +:+ SEOL.

(** The name written for the parent of a bone: none for the parent -1,
    else the name of the bone the parent indexes. *)
Definition pis_parent (m : model) (bone : Bone.t) : option string :=
  if negb (bone.(Bone.m_parent) =? -1)
  then
    if bone.(Bone.m_parent) <? 0 then None
    else
      parent ← m.(Model.m_bones) !! Z.to_nat bone.(Bone.m_parent);
      Some (c_str parent.(Bone.m_name))
  else Some EmptyString.

Definition pis_bone (m : model) (i : Z) (bone : Bone.t) (file : string)
    : option string :=
  let mat := glm_cast bone.(Bone.m_transformation) in
  parent ← pis_parent m bone;
  Some (file
        +:+ (TAB +:+ fmt_i_left 5 i +:+ " ( Name:  " +:+ dquote
             +:+ c_str bone.(Bone.m_name) +:+ dquote +:+ SEOL
             +:+ TAB +:+ TAB +:+ "   Parent: " +:+ dquote +:+ parent +:+ dquote
             +:+ SEOL
             +:+ pis_matrix mat
             +:+ TAB +:+ "  )" +:+ SEOL)).

Definition pis_text (m : model) : option string :=
  let file := EmptyString in
  let file := file +:+ header_block "1" "Skeleton" m in
  let file :=
    file
    +:+ ("Global {" +:+ SEOL
         +:+ TAB +:+ "BoneCount: " +:+ fmt_i (Z.of_nat (length m.(Model.m_bones)))
         +:+ SEOL
         +:+ "}" +:+ SEOL) in
  let file := file +:+ ("Bones {" +:+ SEOL) in
  file ← for_each 0 m.(Model.m_bones) (pis_bone m) file;
  Some (file +:+ ("}" +:+ SEOL)).

Definition saveToPis (exportPath : string) (m : model)
    : option (bool * list file_written) :=
  if (length m.(Model.m_bones) =? 0)%nat then Some (false, [])
  else
    let pitFilePath := exportPath +:+ m.(Model.m_filePath) +:+ ".pis" in
    if negb (sfs_open pitFilePath) then Some (false, [])
    else
      file ← pis_text m;
      Some (true, [{| fw_path := pitFilePath; fw_text := file |}]).


(** *** [Model::saveToPim] *)

(** A Stream block of a piece: its format, its tag and one line per vertex. *)
Definition pim_stream (Format Tag : string) (text : Vertex.t -> string)
    (piece : Piece.t) (file : string) : option string :=
  let file :=
    file
    +:+ (TAB +:+ "Stream {" +:+ SEOL
         +:+ TAB +:+ TAB +:+ "Format: " +:+ Format +:+ SEOL
         +:+ TAB +:+ TAB +:+ "Tag: " +:+ dquote +:+ Tag +:+ dquote +:+ SEOL) in
  file ← for_each 0 piece.(Piece.m_vertices)
           (fun j vertex file =>
              Some (file
                    +:+ (TAB +:+ TAB +:+ fmt_i_left 5 j +:+ "( "
                         +:+ c_str (text vertex) +:+ " )" +:+ SEOL)))
           file;
  Some (file +:+ (TAB +:+ "}" +:+ SEOL)).

(** The Stream block of texture coordinate channel [j]. *)
Definition pim_texcoord_stream (piece : Piece.t) (j : Z) (file : string)
    : option string :=
  let texCoords := Piece_texCoords j piece in
  let file :=
    file
    +:+ (TAB +:+ "Stream {" +:+ SEOL
         +:+ TAB +:+ TAB +:+ "Format: FLOAT2" +:+ SEOL
         +:+ TAB +:+ TAB +:+ "Tag: " +:+ dquote +:+ "_UV" +:+ fmt_i j +:+ dquote
         +:+ SEOL
         +:+ TAB +:+ TAB +:+ "AliasCount: " +:+ fmt_i (Z.of_nat (length texCoords))
         +:+ SEOL
         +:+ TAB +:+ TAB +:+ "Aliases: ") in
  file ← for_each 0 texCoords
           (fun _ texCoord file =>
              Some (file +:+ (dquote +:+ "_TEXCOORD" +:+ fmt_i texCoord +:+ dquote
                              +:+ " ")))
           file;
  let file := file +:+ SEOL in
  file ← for_each 0 piece.(Piece.m_vertices)
           (fun k vertex file =>
              if j <? 0 then None
              else
                texcoord ← vertex.(Vertex.m_texcoords) !! Z.to_nat j;
                Some (file
                      +:+ (TAB +:+ TAB +:+ fmt_i_left 5 k +:+ "( "
                           +:+ c_str (float2_to_string texcoord) +:+ " )" +:+ SEOL)))
           file;
  Some (file +:+ (TAB +:+ "}" +:+ SEOL)).

Definition pim_triangles (piece : Piece.t) (file : string) : option string :=
  let file := file +:+ (TAB +:+ "Triangles" +:+ " {" +:+ SEOL) in
  file ← for_each 0 piece.(Piece.m_triangles)
           (fun j triangle file =>
              let '(a0, a1, a2) := triangle.(Triangle.m_a) in
              Some (file
                    +:+ (TAB +:+ TAB +:+ fmt_i_left 5 j +:+ "( "
                         +:+ fmt_i_left 5 a0 +:+ " " +:+ fmt_i_left 5 a1 +:+ " "
                         +:+ fmt_i_left 5 a2 +:+ " )" +:+ SEOL)))
           file;
  Some (file +:+ (TAB +:+ "}" +:+ SEOL)).

Definition pim_piece (i : Z) (currentPiece : Piece.t) (file : string)
    : option string :=
  let file :=
    file
    +:+ ("Piece {" +:+ SEOL
         +:+ TAB +:+ "Index: " +:+ fmt_i currentPiece.(Piece.m_index) +:+ SEOL
         +:+ TAB +:+ "Material: " +:+ fmt_i currentPiece.(Piece.m_material) +:+ SEOL
         +:+ TAB +:+ "VertexCount: "
         +:+ fmt_i (Z.of_nat (length currentPiece.(Piece.m_vertices))) +:+ SEOL
         +:+ TAB +:+ "TriangleCount: "
         +:+ fmt_i (Z.of_nat (length currentPiece.(Piece.m_triangles))) +:+ SEOL
         +:+ TAB +:+ "StreamCount: " +:+ fmt_i currentPiece.(Piece.m_streamCount)
         +:+ SEOL) in
  file ← (if currentPiece.(Piece.m_position)
          then pim_stream "FLOAT3" "_POSITION"
                 (fun v => float3_to_string v.(Vertex.m_position)) currentPiece file
          else Some file);
  file ← (if currentPiece.(Piece.m_normal)
          then pim_stream "FLOAT3" "_NORMAL"
                 (fun v => float3_to_string v.(Vertex.m_normal)) currentPiece file
          else Some file);
  file ← (if currentPiece.(Piece.m_tangent)
          then pim_stream "FLOAT4" "_TANGENT"
                 (fun v => float4_to_string v.(Vertex.m_tangent)) currentPiece file
          else Some file);
  file ← (if currentPiece.(Piece.m_texcoord)
          then for_loop 0 (Z.to_nat (wrap_u32 currentPiece.(Piece.m_texcoordCount)))
                 (pim_texcoord_stream currentPiece) file
          else Some file);
  file ← (if currentPiece.(Piece.m_color)
          then pim_stream "FLOAT4" "_RGBA"
                 (fun v => color_to_string v.(Vertex.m_color)) currentPiece file
          else Some file);
  file ← pim_triangles currentPiece file;
  Some (file +:+ ("}" +:+ SEOL)).

Definition pim_part (i : Z) (currentPart : Part.t) (file : string)
    : option string :=
  let file :=
    file
    +:+ ("Part {" +:+ SEOL
         +:+ TAB +:+ "Name: " +:+ dquote +:+ c_str currentPart.(Part.m_name)
         +:+ dquote +:+ SEOL
         +:+ TAB +:+ "PieceCount: " +:+ fmt_i currentPart.(Part.m_pieceCount) +:+ SEOL
         +:+ TAB +:+ "LocatorCount: " +:+ fmt_i currentPart.(Part.m_locatorCount)
         +:+ SEOL) in
  let file := file +:+ (TAB +:+ "Pieces: ") in
  let file :=
    for_pure 0 (Z.to_nat (wrap_u32 currentPart.(Part.m_pieceCount)))
      (fun j file =>
         file +:+ (fmt_i (wrap_u32 (currentPart.(Part.m_pieceId) + j)) +:+ " "))
      file in
  let file := file +:+ SEOL in
  let file := file +:+ (TAB +:+ "Locators: ") in
  let file :=
    for_pure 0 (Z.to_nat (wrap_u32 currentPart.(Part.m_locatorCount)))
      (fun j file =>
         file +:+ (fmt_i (wrap_u32 (currentPart.(Part.m_locatorId) + j)) +:+ " "))
      file in
  let file := file +:+ SEOL in
  Some (file +:+ ("}" +:+ SEOL)).

Definition pim_locator (i : Z) (currentLocator : Locator.t) (file : string)
    : option string :=
  let file :=
    file
    +:+ ("Locator {" +:+ SEOL
         +:+ TAB +:+ "Name: " +:+ dquote +:+ c_str currentLocator.(Locator.m_name)
         +:+ dquote +:+ SEOL) in
  let file :=
    if (0 <? String.length currentLocator.(Locator.m_hookup))%nat
    then file
         +:+ (TAB +:+ "Hookup: " +:+ dquote +:+ c_str currentLocator.(Locator.m_hookup)
              +:+ dquote +:+ SEOL)
    else file in
  let file :=
    file
    +:+ (TAB +:+ "Index: " +:+ fmt_i currentLocator.(Locator.m_index) +:+ SEOL
         +:+ TAB +:+ "Position: ( "
         +:+ c_str (float3_to_string currentLocator.(Locator.m_position)) +:+ " )"
         +:+ SEOL
         +:+ TAB +:+ "Rotation: ( "
         +:+ c_str (float4_to_string currentLocator.(Locator.m_rotation)) +:+ " )"
         +:+ SEOL
         +:+ TAB +:+ "Scale: ( "
         +:+ c_str (float3_to_string currentLocator.(Locator.m_scale)) +:+ " )"
         +:+ SEOL) in
  Some (file +:+ ("}" +:+ SEOL)).

(** The state of the loops of the Skin block: [itemIdx], [weightIdx] (both
    [unsigned]) and [skinStreams]. *)
Record skin_state := {
  itemIdx : Z;
  weightIdx : Z;
  skinStreams : list string
}.

(** The first loop on the bones of a vertex: the number of weights that
    are not 0 among the first [bones] ones. *)
Definition skin_weights (bones : Z) (vert : Vertex.t) : option Z :=
  for_loop 0 (Z.to_nat (wrap_u32 bones))
    (fun k weights =>
       w ← vert.(Vertex.m_boneWeight) !! Z.to_nat k;
       Some (if negb (w =? 0) then wrap_u32 (weights + 1) else weights))
    0.

(** The second loop: the bone index and the weight of every such weight. *)
Definition skin_influences (bones : Z) (vert : Vertex.t) (skinStream : string)
    : option string :=
  for_loop 0 (Z.to_nat (wrap_u32 bones))
    (fun k skinStream =>
       w ← vert.(Vertex.m_boneWeight) !! Z.to_nat k;
       if negb (w =? 0)
       then
         let weight := weight_of_byte w in
         index ← vert.(Vertex.m_boneIndex) !! Z.to_nat k;
         Some (skinStream
               +:+ (fmt_i_left 4 index +:+ " " +:+ FLT_FT_flh weight +:+ " "))
       else Some skinStream)
    skinStream.

(** Vertex [j] of piece [i]. *)
Definition skin_vertex (bones : Z) (i j : Z) (vert : Vertex.t) (st : skin_state)
    : option skin_state :=
  let skinStream := EmptyString in
  let skinStream :=
    skinStream
    +:+ (TAB +:+ TAB +:+ fmt_i_left 6 st.(itemIdx) +:+ "( ( "
         +:+ c_str (float3_to_string vert.(Vertex.m_position)) +:+ " )" +:+ SEOL) in
  weights ← skin_weights bones vert;
  let weightIdx := wrap_u32 (st.(weightIdx) + weights) in
  let skinStream :=
    skinStream
    +:+ (TAB +:+ TAB +:+ TAB +:+ TAB +:+ "Weights: " +:+ fmt_i_left 6 weights
         +:+ " ") in
  skinStream ← skin_influences bones vert skinStream;
  let skinStream := skinStream +:+ SEOL in
  let skinStream :=
    skinStream
    +:+ (TAB +:+ TAB +:+ TAB +:+ TAB +:+ "Clones: " +:+ fmt_i_left 6 1 +:+ " "
         +:+ fmt_i_left 4 i +:+ " " +:+ fmt_i_left 6 j +:+ SEOL) in
  let skinStream := skinStream +:+ (TAB +:+ TAB +:+ "      )" +:+ SEOL) in
  Some {| itemIdx := wrap_u32 (st.(itemIdx) + 1);
          weightIdx := weightIdx;
          skinStreams := st.(skinStreams) ++ [skinStream] |}.

(** Piece [i]: skipped when it has no bones. *)
Definition skin_piece (i : Z) (piece : Piece.t) (st : skin_state)
    : option skin_state :=
  if piece.(Piece.m_bones) =? 0 then Some st
  else for_each 0 piece.(Piece.m_vertices) (skin_vertex piece.(Piece.m_bones) i) st.

(** The loop on the pieces. *)
Definition skin_items (m : model) : option skin_state :=
  for_each 0 m.(Model.m_pieces) skin_piece
    {| itemIdx := 0; weightIdx := 0; skinStreams := [] |}.

Definition pim_skin (m : model) (file : string) : option string :=
  if 0 <? m.(Model.m_skinVertCount)
  then
    let file := file +:+ ("Skin {" +:+ SEOL) in
    let file := file +:+ (TAB +:+ "StreamCount: 1" +:+ SEOL) in
    let file := file +:+ (TAB +:+ "SkinStream {" +:+ SEOL) in
    st ← skin_items m;
    let file :=
      file
      +:+ (TAB +:+ TAB +:+ "Format: " +:+ "FLOAT3" +:+ SEOL
           +:+ TAB +:+ TAB +:+ "Tag: " +:+ dquote +:+ "_POSITION" +:+ dquote +:+ SEOL
           +:+ TAB +:+ TAB +:+ "ItemCount: " +:+ fmt_i st.(itemIdx) +:+ SEOL
           +:+ TAB +:+ TAB +:+ "TotalWeightCount: " +:+ fmt_i st.(weightIdx) +:+ SEOL
           +:+ TAB +:+ TAB +:+ "TotalCloneCount: " +:+ fmt_i st.(itemIdx) +:+ SEOL) in
    file ← for_each 0 st.(skinStreams)
             (fun _ stream file => Some (file +:+ c_str stream)) file;
    let file := file +:+ (TAB +:+ "}" +:+ SEOL) in
    Some (file +:+ ("}" +:+ SEOL))
  else Some file.

(** The declarations of the materials of the first look. *)
Definition pim_materials (m : model) (file : string) : option string :=
  if (0 <? length m.(Model.m_looks))%nat
  then
    for_loop 0 (Z.to_nat m.(Model.m_materialCount))
      (fun i file =>
         look ← m.(Model.m_looks) !! 0%nat;
         material ← look.(Look.m_materials) !! Z.to_nat i;
         Some (file +:+ Material_toDeclaration material))
      file
  else Some file.

Definition pim_bones (m : model) (file : string) : option string :=
  if (0 <? length m.(Model.m_bones))%nat
  then
    let file := file +:+ ("Bones {" +:+ SEOL) in
    file ← for_each 0 m.(Model.m_bones)
             (fun i bone file =>
                Some (file
                      +:+ (TAB +:+ fmt_i_left 5 i +:+ "( " +:+ dquote
                           +:+ c_str bone.(Bone.m_name) +:+ dquote +:+ " )" +:+ SEOL)))
             file;
    Some (file +:+ ("}" +:+ SEOL))
  else Some file.

(** What the encoder writes to the file. *)
Definition pim_text (m : model) : option string :=
  let file := EmptyString in
  let file := file +:+ header_block "5" "Model" m in
  let file :=
    file
    +:+ ("Global {" +:+ SEOL
         +:+ TAB +:+ "VertexCount: " +:+ fmt_i m.(Model.m_vertCount) +:+ SEOL
         +:+ TAB +:+ "TriangleCount: " +:+ fmt_i m.(Model.m_triangleCount) +:+ SEOL
         +:+ TAB +:+ "MaterialCount: " +:+ fmt_i m.(Model.m_materialCount) +:+ SEOL
         +:+ TAB +:+ "PieceCount: " +:+ fmt_i (Z.of_nat (length m.(Model.m_pieces)))
         +:+ SEOL
         +:+ TAB +:+ "PartCount: " +:+ fmt_i (Z.of_nat (length m.(Model.m_parts)))
         +:+ SEOL
         +:+ TAB +:+ "BoneCount: " +:+ fmt_i (Z.of_nat (length m.(Model.m_bones)))
         +:+ SEOL
         +:+ TAB +:+ "LocatorCount: "
         +:+ fmt_i (Z.of_nat (length m.(Model.m_locators))) +:+ SEOL
         +:+ TAB +:+ "Skeleton: " +:+ dquote
         +:+ c_str (m.(Model.m_fileName) +:+ ".pis") +:+ dquote +:+ SEOL
         +:+ "}" +:+ SEOL) in
  file ← pim_materials m file;
  file ← for_each 0 m.(Model.m_pieces) pim_piece file;
  file ← for_each 0 m.(Model.m_parts) pim_part file;
  file ← for_each 0 m.(Model.m_locators) pim_locator file;
  file ← pim_bones m file;
  pim_skin m file.

Definition saveToPim (exportPath : string) (m : model)
    : option (bool * list file_written) :=
  let pimFilePath := exportPath +:+ m.(Model.m_filePath) +:+ ".pim" in
  if negb (sfs_open pimFilePath) then Some (false, [])
  else
    file ← pim_text m;
    Some (true, [{| fw_path := pimFilePath; fw_text := file |}]).

(** *** [Model::convertTextures]: the calls of [Material::convertTextures],
    in order, each with the material it is made on. *)
Definition convertTextures (exportPath : string) (m : model)
    : list (Material.t * string) :=
  m.(Model.m_looks)
    ≫= (fun look => (fun material => (material, exportPath))
                      <$> look.(Look.m_materials)).

End Encoder.
End Encoder.

(** ** Reading a number back

    The number a text starts with: its decimal digits up to the first
    character that is not one. *)
Definition digit_of (c : ascii) : option N :=
  let n := Ascii.N_of_ascii c in
  if ((48 <=? n) && (n <=? 57))%N then Some (n - 48)%N else None.

Fixpoint read_decimal (acc : N) (s : string) : N :=
  match s with
  | EmptyString => acc
  | String c rest =>
      match digit_of c with
      | Some d => read_decimal (10 * acc + d) rest
      | None => acc
      end
  end.

(** A text that does not start with a digit. *)
Definition no_digit_ahead (r : string) : Prop :=
  match r with
  | EmptyString => True
  | String c _ => digit_of c = None
  end.

(** ** Quantities of the encoders *)

(** Every variant has a part for every part of the model. *)
Definition variants_cover_parts {Prefab Collision : Type}
    (m : Model.t Prefab Collision) : Prop :=
  Forall (fun variant =>
            (length m.(Model.m_parts) <= length variant.(Variant.m_parts))%nat)
         m.(Model.m_variants).

(** The parent of every bone is -1 or the index of a bone of the model. *)
Definition parents_in_range {Prefab Collision : Type}
    (m : Model.t Prefab Collision) : Prop :=
  Forall (fun bone =>
            bone.(Bone.m_parent) = -1
            \/ 0 <= bone.(Bone.m_parent) < Z.of_nat (length m.(Model.m_bones)))
         m.(Model.m_bones).

(** The number of weights that are not 0 among the first [bones] weights
    of a vertex. *)
Definition nonzero_weights (bones : Z) (vert : Vertex.t) : Z :=
  Z.of_nat (length (filter (fun w => w <> 0)
                      (take (Z.to_nat (wrap_u32 bones)) vert.(Vertex.m_boneWeight)))).

(** The vertices of the pieces that have bones, and their weights that are
    not 0. *)
Definition skin_item_count (pieces : list Piece.t) : Z :=
  sumZ ((fun piece => if piece.(Piece.m_bones) =? 0 then 0
                      else Z.of_nat (length piece.(Piece.m_vertices)))
          <$> pieces).

Definition skin_weight_count (pieces : list Piece.t) : Z :=
  sumZ ((fun piece => if piece.(Piece.m_bones) =? 0 then 0
                      else sumZ (nonzero_weights piece.(Piece.m_bones)
                                   <$> piece.(Piece.m_vertices)))
          <$> pieces).

(** The counters of the Skin block hold what 32 bits hold. *)
Definition skin_counters_wrapped (st : Encoder.skin_state) : Prop :=
  st.(Encoder.itemIdx) = wrap_u32 st.(Encoder.itemIdx) /\
  st.(Encoder.weightIdx) = wrap_u32 st.(Encoder.weightIdx).

(** The Skin block reads inside the bone arrays: for every vertex of a
    piece with bones, the first [m_bones] weights are in the weight array,
    and so is, in the index array, the index of each of them that is not
    0. *)
Definition skin_reads_in_bounds (pieces : list Piece.t) : Prop :=
  Forall (fun piece =>
            piece.(Piece.m_bones) <> 0 ->
            Forall (fun vert =>
                      forall k : nat,
                        (k < Z.to_nat (wrap_u32 piece.(Piece.m_bones)))%nat ->
                        exists w, vert.(Vertex.m_boneWeight) !! k = Some w /\
                                  (w <> 0 ->
                                   is_Some (vert.(Vertex.m_boneIndex) !! k)))
                   piece.(Piece.m_vertices))
         pieces.

(** The model encoder reads inside the vectors and arrays of the model: the
    first look, if any, has a material for each of the [m_materialCount]
    slots; every vertex of a piece with texture coordinates has one for each
    of the [m_texcoordCount] channels of the piece; and, when the model has
    skinned vertices, the Skin block reads inside the bone arrays. *)
Definition pim_in_bounds {Prefab Collision : Type}
    (m : Model.t Prefab Collision) : Prop :=
  (forall look : Look.t,
     m.(Model.m_looks) !! 0%nat = Some look ->
     (Z.to_nat m.(Model.m_materialCount) <= length look.(Look.m_materials))%nat) /\
  Forall (fun piece =>
            piece.(Piece.m_texcoord) = true ->
            Forall (fun vert =>
                      (Z.to_nat (wrap_u32 piece.(Piece.m_texcoordCount))
                       <= length vert.(Vertex.m_texcoords))%nat)
                   piece.(Piece.m_vertices))
         m.(Model.m_pieces) /\
  (0 < m.(Model.m_skinVertCount) -> skin_reads_in_bounds m.(Model.m_pieces)).
(** ** A packed little-endian layout and sample files

    The statements below hold for every layout.  The closed examples need
    one: here every record is packed, little-endian, with its fields in the
    order of the record above. *)
Module Packed.

Definition read_u64 (buf : buffer) (a : Z) : Z :=
  Z.lor (read_u32 buf a) (Z.shiftl (read_u32 buf (a + 4)) 32).

Definition read_floats (buf : buffer) (a : Z) (n : nat) : list float :=
  (fun k => read_float buf (a + 4 * k)) <$> seqZ 0 (Z.of_nat n).

Definition read_float4 (buf : buffer) (a : Z) : float4 :=
  (read_float buf a, read_float buf (a + 4), read_float buf (a + 8),
   read_float buf (a + 12)).

Definition read_u16x3 (buf : buffer) (a : Z) : Z * Z * Z :=
  (read_u16 buf a, read_u16 buf (a + 2), read_u16 buf (a + 4)).

#[export] Instance token_layout : Layout token_t :=
  {| size_of := 8; cast_at buf a := {| token_value := read_u64 buf a |} |}.

#[export] Instance header13_layout : Layout H13.t :=
  {| size_of := 44;
     cast_at buf a :=
       {| H13.m_version := read_u8 buf a;
          H13.m_signature :=
            (read_u8 buf (a + 1), read_u8 buf (a + 2), read_u8 buf (a + 3));
          H13.m_piece_count := read_i32 buf (a + 4);
          H13.m_bone_count := read_i32 buf (a + 8);
          H13.m_locator_count := read_i32 buf (a + 12);
          H13.m_part_count := read_i32 buf (a + 16);
          H13.m_bone_offset := read_i32 buf (a + 20);
          H13.m_part_offset := read_i32 buf (a + 24);
          H13.m_locator_offset := read_i32 buf (a + 28);
          H13.m_locator_name_offset := read_i32 buf (a + 32);
          H13.m_locators_name_size := read_i32 buf (a + 36);
          H13.m_piece_offset := read_i32 buf (a + 40) |} |}.

#[export] Instance bone13_layout : Layout pmg_0x13.pmg_bone_t.t :=
  {| size_of := 200;
     cast_at buf a :=
       {| pmg_0x13.pmg_bone_t.m_name := cast_at token_t buf a;
          pmg_0x13.pmg_bone_t.m_transformation_reversed := read_floats buf (a + 8) 16;
          pmg_0x13.pmg_bone_t.m_transformation := read_floats buf (a + 72) 16;
          pmg_0x13.pmg_bone_t.m_stretch := read_floats buf (a + 136) 4;
          pmg_0x13.pmg_bone_t.m_rotation := read_floats buf (a + 152) 4;
          pmg_0x13.pmg_bone_t.m_translation := read_floats buf (a + 168) 3;
          pmg_0x13.pmg_bone_t.m_scale := read_floats buf (a + 180) 3;
          pmg_0x13.pmg_bone_t.m_sign_of_determinant_of_matrix :=
            read_float buf (a + 192);
          pmg_0x13.pmg_bone_t.m_parent := read_i32 buf (a + 196) |} |}.

#[export] Instance part13_layout : Layout pmg_0x13.pmg_part_t.t :=
  {| size_of := 24;
     cast_at buf a :=
       {| pmg_0x13.pmg_part_t.m_name := cast_at token_t buf a;
          pmg_0x13.pmg_part_t.m_locator_count := read_i32 buf (a + 8);
          pmg_0x13.pmg_part_t.m_locators_idx := read_i32 buf (a + 12);
          pmg_0x13.pmg_part_t.m_piece_count := read_i32 buf (a + 16);
          pmg_0x13.pmg_part_t.m_pieces_idx := read_i32 buf (a + 20) |} |}.

#[export] Instance locator13_layout : Layout pmg_0x13.pmg_locator_t.t :=
  {| size_of := 52;
     cast_at buf a :=
       {| pmg_0x13.pmg_locator_t.m_position := read_float3 buf a;
          pmg_0x13.pmg_locator_t.m_rotation := read_float4 buf (a + 12);
          pmg_0x13.pmg_locator_t.m_scale := read_float3 buf (a + 28);
          pmg_0x13.pmg_locator_t.m_name := cast_at token_t buf (a + 40);
          pmg_0x13.pmg_locator_t.m_name_block_offset := read_i32 buf (a + 48) |} |}.

#[export] Instance piece13_layout : Layout P13.t :=
  {| size_of := 64;
     cast_at buf a :=
       {| P13.m_edges := read_i32 buf a;
          P13.m_verts := read_i32 buf (a + 4);
          P13.m_uv_mask := read_u32 buf (a + 8);
          P13.m_uv_channels := read_i32 buf (a + 12);
          P13.m_bone_count := read_i32 buf (a + 16);
          P13.m_material := read_i32 buf (a + 20);
          P13.m_vert_position_offset := read_i32 buf (a + 24);
          P13.m_vert_normal_offset := read_i32 buf (a + 28);
          P13.m_vert_tangent_offset := read_i32 buf (a + 32);
          P13.m_vert_uv_offset := read_i32 buf (a + 36);
          P13.m_vert_rgba_offset := read_i32 buf (a + 40);
          P13.m_vert_rgba2_offset := read_i32 buf (a + 44);
          P13.m_anim_bind_offset := read_i32 buf (a + 48);
          P13.m_anim_bind_bones_offset := read_i32 buf (a + 52);
          P13.m_anim_bind_bones_weight_offset := read_i32 buf (a + 56);
          P13.m_triangle_offset := read_i32 buf (a + 60) |} |}.

#[export] Instance triangle13_layout : Layout pmg_0x13.pmg_triangle_t.t :=
  {| size_of := 6;
     cast_at buf a := {| pmg_0x13.pmg_triangle_t.a := read_u16x3 buf a |} |}.

#[export] Instance header14_layout : Layout H14.t :=
  {| size_of := 48;
     cast_at buf a :=
       {| H14.m_version := read_u8 buf a;
          H14.m_signature :=
            (read_u8 buf (a + 1), read_u8 buf (a + 2), read_u8 buf (a + 3));
          H14.m_piece_count := read_i32 buf (a + 4);
          H14.m_bone_count := read_i32 buf (a + 8);
          H14.m_locator_count := read_i32 buf (a + 12);
          H14.m_part_count := read_i32 buf (a + 16);
          H14.m_weight_width := read_i32 buf (a + 20);
          H14.m_skeleton_offset := read_i32 buf (a + 24);
          H14.m_parts_offset := read_i32 buf (a + 28);
          H14.m_locators_offset := read_i32 buf (a + 32);
          H14.m_pieces_offset := read_i32 buf (a + 36);
          H14.m_string_pool_offset := read_i32 buf (a + 40);
          H14.m_string_pool_size := read_i32 buf (a + 44) |} |}.

#[export] Instance bone14_layout : Layout pmg_0x14.pmg_bone_data_t.t :=
  {| size_of := 200;
     cast_at buf a :=
       {| pmg_0x14.pmg_bone_data_t.m_name := cast_at token_t buf a;
          pmg_0x14.pmg_bone_data_t.m_transformation_reversed :=
            read_floats buf (a + 8) 16;
          pmg_0x14.pmg_bone_data_t.m_transformation := read_floats buf (a + 72) 16;
          pmg_0x14.pmg_bone_data_t.m_stretch := read_floats buf (a + 136) 4;
          pmg_0x14.pmg_bone_data_t.m_rotation := read_floats buf (a + 152) 4;
          pmg_0x14.pmg_bone_data_t.m_translation := read_floats buf (a + 168) 3;
          pmg_0x14.pmg_bone_data_t.m_scale := read_floats buf (a + 180) 3;
          pmg_0x14.pmg_bone_data_t.m_sign_of_determinant_of_matrix :=
            read_float buf (a + 192);
          pmg_0x14.pmg_bone_data_t.m_parent := read_i32 buf (a + 196) |} |}.

#[export] Instance part14_layout : Layout pmg_0x14.pmg_part_t.t :=
  {| size_of := 24;
     cast_at buf a :=
       {| pmg_0x14.pmg_part_t.m_name := cast_at token_t buf a;
          pmg_0x14.pmg_part_t.m_locator_count := read_i32 buf (a + 8);
          pmg_0x14.pmg_part_t.m_locators_idx := read_i32 buf (a + 12);
          pmg_0x14.pmg_part_t.m_piece_count := read_i32 buf (a + 16);
          pmg_0x14.pmg_part_t.m_pieces_idx := read_i32 buf (a + 20) |} |}.

#[export] Instance locator14_layout : Layout pmg_0x14.pmg_locator_t.t :=
  {| size_of := 52;
     cast_at buf a :=
       {| pmg_0x14.pmg_locator_t.m_position := read_float3 buf a;
          pmg_0x14.pmg_locator_t.m_rotation := read_float4 buf (a + 12);
          pmg_0x14.pmg_locator_t.m_scale := read_float3 buf (a + 28);
          pmg_0x14.pmg_locator_t.m_name := cast_at token_t buf (a + 40);
          pmg_0x14.pmg_locator_t.m_hookup_offset := read_i32 buf (a + 48) |} |}.

#[export] Instance piece14_layout : Layout P14.t :=
  {| size_of := 56;
     cast_at buf a :=
       {| P14.m_edges := read_i32 buf a;
          P14.m_verts := read_i32 buf (a + 4);
          P14.m_texcoord_mask := read_u32 buf (a + 8);
          P14.m_texcoord_width := read_i32 buf (a + 12);
          P14.m_material := read_i32 buf (a + 16);
          P14.m_vert_position_offset := read_i32 buf (a + 20);
          P14.m_vert_normal_offset := read_i32 buf (a + 24);
          P14.m_vert_tangent_offset := read_i32 buf (a + 28);
          P14.m_vert_texcoord_offset := read_i32 buf (a + 32);
          P14.m_vert_color_offset := read_i32 buf (a + 36);
          P14.m_vert_color2_offset := read_i32 buf (a + 40);
          P14.m_vert_bone_index_offset := read_i32 buf (a + 44);
          P14.m_vert_bone_weight_offset := read_i32 buf (a + 48);
          P14.m_index_offset := read_i32 buf (a + 52) |} |}.

#[export] Instance index14_layout : Layout pmg_0x14.pmg_index_t.t :=
  {| size_of := 6;
     cast_at buf a := {| pmg_0x14.pmg_index_t.a := read_u16x3 buf a |} |}.

#[export] Instance pmd_header_layout : Layout HD.t :=
  {| size_of := 48;
     cast_at buf a :=
       {| HD.m_version := read_u32 buf a;
          HD.m_material_count := read_i32 buf (a + 4);
          HD.m_look_count := read_i32 buf (a + 8);
          HD.m_variant_count := read_i32 buf (a + 12);
          HD.m_part_count := read_i32 buf (a + 16);
          HD.m_look_offset := read_i32 buf (a + 20);
          HD.m_variant_offset := read_i32 buf (a + 24);
          HD.m_part_attribs_offset := read_i32 buf (a + 28);
          HD.m_attribs_offset := read_i32 buf (a + 32);
          HD.m_attribs_value_offset := read_i32 buf (a + 36);
          HD.m_attribs_values_size := read_i32 buf (a + 40);
          HD.m_material_offset := read_i32 buf (a + 44) |} |}.

#[export] Instance attrib_link_layout : Layout pmd.pmd_attrib_link_t.t :=
  {| size_of := 8;
     cast_at buf a :=
       {| pmd.pmd_attrib_link_t.m_from := read_i32 buf a;
          pmd.pmd_attrib_link_t.m_to := read_i32 buf (a + 4) |} |}.

#[export] Instance attrib_def_layout : Layout pmd.pmd_attrib_def_t.t :=
  {| size_of := 16;
     cast_at buf a :=
       {| pmd.pmd_attrib_def_t.m_name := cast_at token_t buf a;
          pmd.pmd_attrib_def_t.m_type := read_i32 buf (a + 8);
          pmd.pmd_attrib_def_t.m_offset := read_i32 buf (a + 12) |} |}.

#[export] Instance attrib_value_layout : Layout pmd.pmd_attrib_value_t.t :=
  {| size_of := 4;
     cast_at buf a := {| pmd.pmd_attrib_value_t.m_int_value := read_i32 buf a |} |}.

End Packed.

Module Sample.
Import Packed.

Definition byte_of (z : Z) : Byte.byte :=
  default Byte.x00 (Byte.of_N (Z.to_N (z mod 256))).

Definition u8s (l : list Z) : buffer := byte_of <$> l.
Definition le16 (z : Z) : buffer := [byte_of z; byte_of (Z.shiftr z 8)].
Definition le32 (z : Z) : buffer :=
  [byte_of z; byte_of (Z.shiftr z 8); byte_of (Z.shiftr z 16);
   byte_of (Z.shiftr z 24)].
Definition le32s (l : list Z) : buffer := l ≫= le32.
Definition le16s (l : list Z) : buffer := l ≫= le16.

(** New elements: eight bone slots, four texture coordinate slots. *)
Definition BONE_COUNT : nat := 8.

#[export] Instance bone_ctor : Constructible Bone.t :=
  {| default_constructed :=
       {| Bone.m_index := 0; Bone.m_name := ""; Bone.m_transReversed := [];
          Bone.m_transformation := []; Bone.m_stretch := [];
          Bone.m_rotation := []; Bone.m_translation := []; Bone.m_scale := [];
          Bone.m_signOfDeterminantOfMatrix := 0; Bone.m_parent := 0 |} |}.

#[export] Instance locator_ctor : Constructible Locator.t :=
  {| default_constructed :=
       {| Locator.m_index := 0; Locator.m_name := "";
          Locator.m_position := (0, 0, 0); Locator.m_rotation := (0, 0, 0, 0);
          Locator.m_scale := (0, 0, 0); Locator.m_hookup := "" |} |}.

#[export] Instance part_ctor : Constructible Part.t :=
  {| default_constructed :=
       {| Part.m_name := ""; Part.m_locatorCount := 0; Part.m_locatorId := 0;
          Part.m_pieceCount := 0; Part.m_pieceId := 0 |} |}.

#[export] Instance triangle_ctor : Constructible Triangle.t :=
  {| default_constructed := {| Triangle.m_a := (0, 0, 0) |} |}.

#[export] Instance vertex_ctor : Constructible Vertex.t :=
  {| default_constructed :=
       {| Vertex.m_position := (0, 0, 0); Vertex.m_normal := (0, 0, 0);
          Vertex.m_tangent := (0, 0, 0, 0);
          Vertex.m_texcoords := replicate 4 (0, 0);
          Vertex.m_color := (0%Q, 0%Q, 0%Q, 0%Q);
          Vertex.m_color2 := (0%Q, 0%Q, 0%Q, 0%Q);
          Vertex.m_boneIndex := replicate BONE_COUNT (-1);
          Vertex.m_boneWeight := replicate BONE_COUNT 0 |} |}.

#[export] Instance piece_ctor : Constructible Piece.t :=
  {| default_constructed :=
       {| Piece.m_index := 0; Piece.m_texcoordMask := 0;
          Piece.m_texcoordCount := 0; Piece.m_bones := 0; Piece.m_material := 0;
          Piece.m_streamCount := 0; Piece.m_position := false;
          Piece.m_normal := false; Piece.m_tangent := false;
          Piece.m_texcoord := false; Piece.m_color := false;
          Piece.m_color2 := false; Piece.m_vertices := [];
          Piece.m_triangles := [] |} |}.

(** The collaborators of the samples: a prefab and a collision are the path
    they were loaded from; a material has one texture, named after its path;
    a token resolves to its number. *)
#[export] Instance collision_ctor : Constructible string :=
  {| default_constructed := "" |}.

Definition token_name (token : token_t) : string := pretty token.(token_value).

Definition Attribute_ctor (name : string) : Variant.Attribute.t :=
  {| Variant.Attribute.m_name := name;
     Variant.Attribute.m_type := Variant.Attribute.UNKNOWN;
     Variant.Attribute.m_intValue := 0 |}.

Definition Material_load (path : string) (mt : Material.t) : Material.t :=
  {| Material.m_textures := [path +:+ ".tobj"];
     Material.m_alias := mt.(Material.m_alias) |}.

Definition directory (filePath : string) : string :=
  match rfind_slash filePath with
  | Some n => String.substring 0 n filePath
  | None => ""
  end.

(** A version 0x14 geometry file: one piece with two vertices that carry
    the two colour streams, interleaved with a stride of 8 bytes, and one
    triangle. *)
Definition pmg_0x14_file : buffer :=
  u8s [0x14; char_g; char_m; char_P]
  ++ le32s [1; 0; 0; 0; 0; 0; 0; 0; 48; 0; 0]             (* header, 48 bytes *)
  ++ le32s [3; 2; 0; 0; 0; -1; -1; -1; -1; 104; 108; -1; -1; 120]  (* piece at 48 *)
  ++ u8s [255; 0; 0; 255;  0; 255; 0; 255]                (* vertex 0 at 104 *)
  ++ u8s [10; 20; 30; 40;  50; 60; 70; 80]                (* vertex 1 at 112 *)
  ++ le16s [0; 1; 0].                                     (* indices at 120 *)

(** A version 0x13 geometry file: one piece with one bone per vertex, three
    vertices with a position (pool at 108, stride 12) and a colour (pool at
    144, stride 4), the bind indices at 156, the bind tables at 162 and 164,
    and one triangle at 166. *)
Definition pmg_0x13_file : buffer :=
  u8s [0x13; char_g; char_m; char_P]
  ++ le32s [1; 0; 0; 0; 0; 0; 0; 0; 0; 44]                (* header, 44 bytes *)
  ++ le32s [3; 3; 0; 0; 1; 0; 108; -1; -1; -1; 144; -1; 156; 162; 164; 166]
                                                          (* piece at 44 *)
  ++ le32s [1; 2; 3;  4; 5; 6;  7; 8; 9]                  (* positions at 108 *)
  ++ u8s [11; 12; 13; 14;  21; 22; 23; 24;  31; 32; 33; 34]  (* colours at 144 *)
  ++ le16s [1; 0; 1]                                      (* bind indices at 156 *)
  ++ u8s [5; 7]                                           (* bone of bind 0, 1 *)
  ++ u8s [255; 128]                                       (* weight of bind 0, 1 *)
  ++ le16s [0; 1; 2].                                     (* triangle at 166 *)

(** A descriptor: version 4, two looks of one material, one variant, one
    part with the attribute definitions 0 (integer) and 1 (type code 1). *)
Definition pmd_file : buffer :=
  le32s [4; 1; 2; 1; 1; 48; 64; 72; 80; 112; 8; 120]      (* header, 48 bytes *)
  ++ le32s [1; 0; 2; 0]                                   (* look names at 48 *)
  ++ le32s [3; 0]                                         (* variant name at 64 *)
  ++ le32s [0; 2]                                         (* attribute link at 72 *)
  ++ le32s [7; 0; 0; 0;  8; 0; 1; 4]                      (* definitions at 80 *)
  ++ le32s [42; 43]                                       (* values at 112 *)
  ++ le32s [128; 131]                                     (* material offsets at 120 *)
  ++ u8s [47; 97; 0]                                      (* the path /a at 128 *)
  ++ u8s [98; 0].                                         (* the path b at 131 *)

(** A geometry file that starts with an unknown tag. *)
Definition bad_pmg_file : buffer := u8s [88; 88; 88; 88; 0; 0; 0; 0].

Definition files : FileSystem :=
  {| fs_exists path :=
       String.eqb path "dir/old.ppd" || String.eqb path "dir/old.pmc";
     fs_open path :=
       if String.eqb path "dir/old.pmd" then Some pmd_file
       else if String.eqb path "dir/old.pmg" then Some pmg_0x14_file
       else if String.eqb path "dir/new.pmd" then Some pmd_file
       else if String.eqb path "dir/new.pmg" then Some pmg_0x13_file
       else if String.eqb path "dir/bad.pmd" then Some pmd_file
       else if String.eqb path "dir/bad.pmg" then Some bad_pmg_file
       else None |}.

Definition Prefab_load (filePath : string) : option string := Some filePath.

Definition Collision_load (m : Model.t string string) (filePath : string)
    (collision : string) : string * bool :=
  (filePath, true).

(** A model as its constructor leaves it. *)
Definition empty : Model.t string string :=
  {| Model.m_bones := []; Model.m_locators := []; Model.m_parts := [];
     Model.m_pieces := []; Model.m_looks := []; Model.m_variants := [];
     Model.m_vertCount := 0; Model.m_triangleCount := 0;
     Model.m_skinVertCount := 0; Model.m_materialCount := 0;
     Model.m_loaded := false; Model.m_filePath := ""; Model.m_fileName := "";
     Model.m_directory := ""; Model.m_prefab := None; Model.m_collision := None |}.

Definition load : string -> Model.t string string -> option (bool * Model.t string string) :=
  Model.load BONE_COUNT token_name token_name 4 Attribute_ctor
    Material_load directory files Prefab_load Collision_load.

Definition loadDescriptor
    : Model.t string string -> option (bool * Model.t string string * list warning) :=
  Model.loadDescriptor token_name token_name 4 Attribute_ctor Material_load files.

Definition loadModel
    : Model.t string string -> option (bool * Model.t string string) :=
  Model.loadModel BONE_COUNT token_name files.

Definition loadModel0x14 (buf : buffer)
    : Model.t string string -> option (bool * Model.t string string) :=
  Model.loadModel0x14 BONE_COUNT token_name buf.

(** The model a call leaves, [empty] if the call throws. *)
Definition model_of (r : option (bool * Model.t string string))
    : Model.t string string :=
  match r with
  | Some (_, m) => m
  | None => empty
  end.

(** The empty model with the path members [load] sets for dir/[name]. *)
Definition named (name : string) : Model.t string string :=
  Model.with_path ("dir/" +:+ name) "dir" name empty.

(** The model after dir/old, which has a prefab and a collision, is loaded;
    after the descriptor of dir/bad is decoded; after the geometry of
    dir/old and of dir/new is decoded. *)
Definition old_model : Model.t string string := model_of (load "dir/old" empty).

Definition bad_described : Model.t string string :=
  match loadDescriptor (named "bad") with
  | Some (_, m, _) => m
  | None => empty
  end.

Definition old_geometry : Model.t string string := model_of (loadModel (named "old")).
Definition new_geometry : Model.t string string := model_of (loadModel (named "new")).

(** The piece record of the version 0x13 sample and the piece decoded from
    it. *)
Definition piece13 : P13.t := elem_at P13.t pmg_0x13_file 44 0.

Definition piece13_decoded : Piece.t :=
  default (default_constructed Piece.t)
    (decode_piece_0x13 BONE_COUNT pmg_0x13_file piece13 0
       (default_constructed Piece.t)).

(** The piece record of the version 0x14 sample. *)
Definition piece14 : P14.t := elem_at P14.t pmg_0x14_file 48 0.

End Sample.

(** ** Further samples: a rigged geometry, a refused one and the encoders *)
Module Rig.
Import Packed Sample.

(** A version 0x14 geometry file with the influence width [weight_width]:
    one bone without parent at 48, one part at 248, one locator at 272
    whose hookup is at 0 of the string pool, one piece at 324 with one
    vertex that has the two bone streams only (the index word at 385, the
    weight word at 389) and one triangle at 393, and the string pool hook
    at 380. *)
Definition rigged_file (weight_width : Z) : buffer :=
  u8s [0x14; char_g; char_m; char_P]
  ++ le32s [1; 1; 1; 1; weight_width; 48; 248; 272; 324; 380; 5]
                                                          (* header, 48 bytes *)
  ++ le32s [5; 0] ++ le32s (replicate 47 0) ++ le32s [-1] (* bone at 48 *)
  ++ le32s [6; 0; 1; 0; 1; 0]                             (* part at 248 *)
  ++ le32s (replicate 10 0) ++ le32s [7; 0; 0]            (* locator at 272 *)
  ++ le32s [3; 1; 0; 0; 0; -1; -1; -1; -1; -1; -1; 385; 389; 393]
                                                          (* piece at 324 *)
  ++ u8s [104; 111; 111; 107; 0]                          (* hook at 380 *)
  ++ u8s [1; 2; 3; 4; 255; 128; 64; 0]                    (* vertex 0 at 385 *)
  ++ le16s [0; 0; 0].                                     (* indices at 393 *)

(** The file with an influence width of 2, and with one of 9, one more than
    the bone slots of a vertex. *)
Definition rigged_pmg_file : buffer := rigged_file 2.
Definition heavy_pmg_file : buffer := rigged_file 9.

(** A version 0x14 geometry file whose header declares -1 pieces. *)
Definition negative_pmg_file : buffer :=
  u8s [0x14; char_g; char_m; char_P]
  ++ le32s [-1; 0; 0; 0; 0; 0; 0; 0; 48; 0; 0].

(** A version 0x14 geometry file with two records in every table: the
    bones at 48 (the second has the first as parent), the parts at 448,
    the locators at 496 (the first without hookup, the second hooked to
    offset 0 of the string pool), the pieces at 600 (without streams: 3
    edges and 1 vertex, 6 edges and 2 vertices), the string pool hook at
    712 and the triangles at 717. *)
Definition paired_pmg_file : buffer :=
  u8s [0x14; char_g; char_m; char_P]
  ++ le32s [2; 2; 2; 2; 3; 48; 448; 496; 600; 712; 5]     (* header, 48 bytes *)
  ++ le32s [5; 0] ++ le32s (replicate 47 0) ++ le32s [-1] (* bone 0 at 48 *)
  ++ le32s [9; 0] ++ le32s (replicate 47 0) ++ le32s [0]  (* bone 1 at 248 *)
  ++ le32s [6; 0; 1; 0; 1; 0] ++ le32s [8; 0; 1; 1; 1; 1] (* parts at 448 *)
  ++ le32s (replicate 10 0) ++ le32s [7; 0; -1]           (* locator 0 at 496 *)
  ++ le32s (replicate 10 0) ++ le32s [4; 0; 0]            (* locator 1 at 548 *)
  ++ le32s [3; 1; 0; 0; 0; -1; -1; -1; -1; -1; -1; -1; -1; 717]
                                                          (* piece 0 at 600 *)
  ++ le32s [6; 2; 1; 0; 1; -1; -1; -1; -1; -1; -1; -1; -1; 717]
                                                          (* piece 1 at 656 *)
  ++ u8s [104; 111; 111; 107; 0]                          (* hook at 712 *)
  ++ le16s [0; 0; 0; 0; 1; 0].                            (* indices at 717 *)

(** The same tables in a version 0x13 file: the bones at 44, the parts at
    444, the locators at 492, the pieces at 596 (the second with a bone
    count of 2), the name pool hook at 724 and the triangles at 729. *)
Definition paired_0x13_file : buffer :=
  u8s [0x13; char_g; char_m; char_P]
  ++ le32s [2; 2; 2; 2; 44; 444; 492; 724; 5; 596]        (* header, 44 bytes *)
  ++ le32s [5; 0] ++ le32s (replicate 47 0) ++ le32s [-1] (* bone 0 at 44 *)
  ++ le32s [9; 0] ++ le32s (replicate 47 0) ++ le32s [0]  (* bone 1 at 244 *)
  ++ le32s [6; 0; 1; 0; 1; 0] ++ le32s [8; 0; 1; 1; 1; 1] (* parts at 444 *)
  ++ le32s (replicate 10 0) ++ le32s [7; 0; -1]           (* locator 0 at 492 *)
  ++ le32s (replicate 10 0) ++ le32s [4; 0; 0]            (* locator 1 at 544 *)
  ++ le32s [3; 1; 0; 0; 0; 0; -1; -1; -1; -1; -1; -1; -1; -1; -1; 729]
                                                          (* piece 0 at 596 *)
  ++ le32s [6; 2; 1; 0; 2; 1; -1; -1; -1; -1; -1; -1; -1; -1; -1; 729]
                                                          (* piece 1 at 660 *)
  ++ u8s [104; 111; 111; 107; 0]                          (* hook at 724 *)
  ++ le16s [0; 0; 0; 0; 1; 0].                            (* indices at 729 *)

(** The models after the two files are decoded. *)
Definition paired_geometry : Model.t string string :=
  model_of (Sample.loadModel0x14 paired_pmg_file (named "pair")).

Definition paired_0x13_geometry : Model.t string string :=
  model_of (Model.loadModel0x13 Sample.BONE_COUNT token_name paired_0x13_file
              (named "pair")).

(** A version 0x14 geometry file with two pieces without streams: the
    first declares -2 edges and 1 vertex, the second 7 edges and 2
    vertices; the triangles of both are at 160. *)
Definition short_pmg_file : buffer :=
  u8s [0x14; char_g; char_m; char_P]
  ++ le32s [2; 0; 0; 0; 0; 48; 48; 48; 48; 160; 0]        (* header, 48 bytes *)
  ++ le32s [-2; 1; 0; 0; 0; -1; -1; -1; -1; -1; -1; -1; -1; 160]
                                                          (* piece 0 at 48 *)
  ++ le32s [7; 2; 0; 0; 0; -1; -1; -1; -1; -1; -1; -1; -1; 160]
                                                          (* piece 1 at 104 *)
  ++ le16s [0; 1; 0; 1; 0; 1].                            (* indices at 160 *)

(** A descriptor of version 4 whose header declares -1 looks. *)
Definition negative_pmd_file : buffer :=
  le32s [4; 1; -1; 0; 0; 48; 48; 48; 48; 48; 0; 48].

(** A file system that holds the geometry of dir/short and the descriptor
    of dir/negative. *)
Definition short_files : FileSystem :=
  {| fs_exists path := false;
     fs_open path :=
       if String.eqb path "dir/short.pmg" then Some short_pmg_file
       else if String.eqb path "dir/negative.pmd" then Some negative_pmd_file
       else None |}.

Definition short_geometry : Model.t string string :=
  model_of (Model.loadModel Sample.BONE_COUNT token_name short_files
              (named "short")).

(** A version 0x14 geometry file with an influence width of 4 and one
    piece at 48 that has the two bone streams only, so a stride of 8, and
    two vertices: the index words at 104 and 112, the weight words at 108
    and 116.  The last index byte of the second vertex is 200, which is
    -56 as an int8_t. *)
Definition skinned_pmg_file : buffer :=
  u8s [0x14; char_g; char_m; char_P]
  ++ le32s [1; 0; 0; 0; 4; 48; 48; 48; 48; 120; 0]        (* header, 48 bytes *)
  ++ le32s [0; 2; 0; 0; 0; -1; -1; -1; -1; -1; -1; 104; 108; 120]
                                                          (* piece at 48 *)
  ++ u8s [1; 2; 3; 4; 255; 128; 64; 0]                    (* vertex 0 at 104 *)
  ++ u8s [5; 6; 7; 200; 10; 20; 30; 40].                  (* vertex 1 at 112 *)

Definition skinned_geometry : Model.t string string :=
  model_of (Sample.loadModel0x14 skinned_pmg_file (named "skin")).

(** The model after the rigged geometry is decoded. *)
Definition rigged_geometry : Model.t string string :=
  model_of (Sample.loadModel0x14 rigged_pmg_file (named "rig")).

(** The model after the file with an influence width of 9 is decoded. *)
Definition heavy_geometry : Model.t string string :=
  model_of (Sample.loadModel0x14 heavy_pmg_file (named "heavy")).

(** The rigged model with a second bone, whose parent is bone 7. *)
Definition orphan_bone : Bone.t :=
  {| Bone.m_index := 1; Bone.m_name := "orphan";
     Bone.m_transReversed := []; Bone.m_transformation := [];
     Bone.m_stretch := []; Bone.m_rotation := []; Bone.m_translation := [];
     Bone.m_scale := []; Bone.m_signOfDeterminantOfMatrix := 0;
     Bone.m_parent := 7 |}.

(** The model after the descriptor of dir/bad is decoded a second time, into
    the model that still holds the variants of the first time. *)
Definition redescribed : Model.t string string :=
  match Sample.loadDescriptor bad_described with
  | Some (_, m, _) => m
  | None => empty
  end.

(** The model after dir/bad is loaded into the model loaded from dir/old. *)
Definition old_then_bad : Model.t string string :=
  model_of (Sample.load "dir/bad" old_model).

(** The collaborators of the encoders: a line ends with a line feed, a tab
    is a tab; a file opens unless its path starts with ro/; a number is
    written as the integer that holds it. *)
Definition SEOL : string := String (Ascii.ascii_of_nat 10) EmptyString.
Definition TAB : string := String (Ascii.ascii_of_nat 9) EmptyString.
Definition STRING_VERSION : string := "sample".

Definition sfs_open (path : string) : bool := negb (String.prefix "ro/" path).

Definition FLT_FT_flh (x : float) : string := pretty x.
Definition float2_to_string (v : float2) : string :=
  pretty v.1 +:+ " " +:+ pretty v.2.
Definition float3_to_string (v : float3) : string :=
  pretty v.1.1 +:+ " " +:+ pretty v.1.2 +:+ " " +:+ pretty v.2.
Definition float4_to_string (v : float4) : string :=
  pretty v.1.1.1 +:+ " " +:+ pretty v.1.1.2 +:+ " " +:+ pretty v.1.2 +:+ " "
  +:+ pretty v.2.
Definition color_to_string (c : Q * Q * Q * Q) : string :=
  pretty (Qnum c.1.1.1) +:+ " " +:+ pretty (Qnum c.1.1.2) +:+ " "
  +:+ pretty (Qnum c.1.2) +:+ " " +:+ pretty (Qnum c.2).
Definition weight_of_byte (w : Z) : float := w.
Definition glm_cast (transformation : list float) (column row : Z) : float :=
  default 0 (transformation !! Z.to_nat (4 * column + row)).
Definition Material_toDeclaration (material : Material.t) : string :=
  "Material { " +:+ Material.alias material +:+ " }" +:+ SEOL.
Definition Material_toDefinition (prefix : string) (material : Material.t)
    : string :=
  prefix +:+ "Material { " +:+ Material.alias material +:+ " }" +:+ SEOL.
Definition Piece_texCoords (channel : Z) (piece : Piece.t) : list Z := [channel].

Definition saveToPim : string -> Model.t string string
    -> option (bool * list file_written) :=
  Encoder.saveToPim SEOL TAB STRING_VERSION sfs_open float2_to_string
    float3_to_string float4_to_string color_to_string FLT_FT_flh weight_of_byte
    Material_toDeclaration Piece_texCoords.

Definition saveToPit : string -> Model.t string string
    -> option (bool * list file_written) :=
  Encoder.saveToPit SEOL TAB STRING_VERSION sfs_open Material_toDefinition.

Definition saveToPis : string -> Model.t string string
    -> option (bool * list file_written) :=
  Encoder.saveToPis SEOL TAB STRING_VERSION sfs_open FLT_FT_flh glm_cast.

Definition skin_items : Model.t string string -> option Encoder.skin_state :=
  Encoder.skin_items SEOL TAB float3_to_string FLT_FT_flh weight_of_byte.

(** The piece of the version 0x14 sample, decoded, and its first vertex. *)
Definition piece14_decoded : Piece.t :=
  default (default_constructed Piece.t)
    (decode_piece_0x14 Sample.BONE_COUNT pmg_0x14_file 0 piece14 0
       (default_constructed Piece.t)).

Definition vertex14 : Vertex.t :=
  default (default_constructed Vertex.t)
    (piece14_decoded.(Piece.m_vertices) !! 0%nat).



(** The material of slot [j] of look [i] after the descriptor of dir/bad is
    decoded. *)
Definition described_look (i : nat) : Look.t :=
  default Look.ctor (bad_described.(Model.m_looks) !! i).

Definition described_material (i j : nat) : Material.t :=
  default Material.ctor ((described_look i).(Look.m_materials) !! j).

(** The first variant after the descriptor is decoded a second time, and
    its first part. *)
Definition redescribed_variant : Variant.t :=
  default {| Variant.m_name := ""; Variant.m_parts := [] |}
    (redescribed.(Model.m_variants) !! 0%nat).

Definition redescribed_part : Variant.Part.t :=
  default Variant.Part.ctor (redescribed_variant.(Variant.m_parts) !! 0%nat).

(** The rigged model with a variant that has no part, and with the orphan
    bone behind its bone. *)
Definition uncovered : Model.t string string :=
  Model.with_descriptor 0 []
    [{| Variant.m_name := "bare"; Variant.m_parts := [] |}] rigged_geometry.

Definition orphaned : Model.t string string :=
  Model.with_geometry (rigged_geometry.(Model.m_bones) ++ [orphan_bone])
    rigged_geometry.(Model.m_locators) rigged_geometry.(Model.m_parts)
    rigged_geometry.(Model.m_pieces)
    {| vertCount := rigged_geometry.(Model.m_vertCount);
       triangleCount := rigged_geometry.(Model.m_triangleCount);
       skinVertCount := rigged_geometry.(Model.m_skinVertCount) |}
    rigged_geometry.

(** The state the loops of the Skin block reach on the rigged model. *)
Definition rigged_skin : Encoder.skin_state :=
  default {| Encoder.itemIdx := 0; Encoder.weightIdx := 0;
             Encoder.skinStreams := [] |}
    (skin_items rigged_geometry).

End Rig.
(** * Properties *)

(** ** Arrays and loops *)

Lemma array_set_length {A : Type} (k : Z) (x : A) (l : list A) :
  length (array_set k x l) = length l.
Proof.
  unfold array_set. destruct (k <? 0); [reflexivity | apply length_insert].
Qed.

Lemma array_set_lookup_eq {A : Type} (k : nat) (x : A) (l : list A) :
  (k < length l)%nat -> array_set (Z.of_nat k) x l !! k = Some x.
Proof.
  intros Hk. unfold array_set.
  destruct (Z.ltb_spec (Z.of_nat k) 0) as [Hneg | _]; [lia |].
  rewrite Nat2Z.id. by apply list_lookup_insert_eq.
Qed.

Lemma array_set_lookup_ne {A : Type} (i : Z) (k : nat) (x : A) (l : list A) :
  i <> Z.of_nat k -> array_set i x l !! k = l !! k.
Proof.
  intros Hne. unfold array_set.
  destruct (Z.ltb_spec i 0) as [Hneg | Hpos]; [reflexivity |].
  apply list_lookup_insert_ne. lia.
Qed.

Lemma array_get_lookup {A : Type} (d : A) (k : nat) (l : list A) (x : A) :
  l !! k = Some x -> array_get d (Z.of_nat k) l = x.
Proof.
  intros Hx. unfold array_get.
  destruct (Z.ltb_spec (Z.of_nat k) 0) as [Hneg | _]; [lia |].
  by rewrite Nat2Z.id, Hx.
Qed.

(** A loop establishes what each pass carries from [i] to [i + 1]. *)
Lemma for_pure_inv {St : Type} (I : Z -> St -> Prop) (body : Z -> St -> St) :
  forall (n : nat) (from : Z) (s : St),
    (forall i s, from <= i < from + Z.of_nat n -> I i s -> I (i + 1) (body i s)) ->
    I from s ->
    I (from + Z.of_nat n) (for_pure from n body s).
Proof.
  induction n as [| n IH]; intros from s Hstep Hinit; simpl.
  - by replace (from + Z.of_nat 0) with from by lia.
  - replace (from + Z.of_nat (S n)) with ((from + 1) + Z.of_nat n) by lia.
    apply IH.
    + intros i s' Hi. apply Hstep. lia.
    + apply Hstep; [lia | exact Hinit].
Qed.

Lemma for_loop_inv {St : Type} (I : Z -> St -> Prop) (body : Z -> St -> option St) :
  forall (n : nat) (from : Z) (s s' : St),
    (forall i s s', from <= i < from + Z.of_nat n ->
                    I i s -> body i s = Some s' -> I (i + 1) s') ->
    I from s ->
    for_loop from n body s = Some s' ->
    I (from + Z.of_nat n) s'.
Proof.
  induction n as [| n IH]; intros from s s' Hstep Hinit Hrun; simpl in Hrun.
  - injection Hrun as <-. by replace (from + Z.of_nat 0) with from by lia.
  - destruct (body from s) as [s1 |] eqn:Hbody; [| discriminate].
    simpl in Hrun.
    replace (from + Z.of_nat (S n)) with ((from + 1) + Z.of_nat n) by lia.
    apply (IH (from + 1) s1 s'); [| | exact Hrun].
    + intros i t t' Hi. apply Hstep. lia.
    + apply (Hstep from s s1); [lia | exact Hinit | exact Hbody].
Qed.

Lemma vec_resize_Some {A : Type} (n : Z) (d : A) (v v' : list A) :
  vec_resize n d v = Some v' -> 0 <= n /\ v' = resize (Z.to_nat n) d v.
Proof.
  unfold vec_resize. destruct (Z.ltb_spec n 0); [discriminate |].
  intros [= <-]. split; [lia | reflexivity].
Qed.

Lemma vec_resize_length {A : Type} (n : Z) (d : A) (v v' : list A) :
  vec_resize n d v = Some v' -> 0 <= n /\ length v' = Z.to_nat n.
Proof.
  intros H. apply vec_resize_Some in H as [Hn ->].
  split; [exact Hn | apply length_resize].
Qed.


(** A loop that assigns [a[k] = g k] for [k] in [from, from + n). *)
Lemma fill_loop_spec {A : Type} (g : Z -> A) (n : nat) (from : Z) (l : list A) :
  let l' := for_pure from n (fun k l => array_set k (g k) l) l in
  length l' = length l /\
  (forall k : nat, from <= Z.of_nat k < from + Z.of_nat n -> (k < length l)%nat ->
                   l' !! k = Some (g (Z.of_nat k))) /\
  (forall k : nat, ~ (from <= Z.of_nat k < from + Z.of_nat n) -> l' !! k = l !! k).
Proof.
  intros l'. subst l'.
  pose (I := fun (i : Z) (l' : list A) =>
    length l' = length l /\
    (forall k : nat, from <= Z.of_nat k < i -> (k < length l)%nat ->
                     l' !! k = Some (g (Z.of_nat k))) /\
    (forall k : nat, ~ (from <= Z.of_nat k < i) -> l' !! k = l !! k)).
  apply (for_pure_inv I).
  - intros i s Hi (Hlen & Hdone & Hrest). repeat split.
    + by rewrite array_set_length.
    + intros k Hk Hlt. destruct (decide (Z.of_nat k = i)) as [<- | Hne].
      * apply array_set_lookup_eq. lia.
      * rewrite array_set_lookup_ne by lia. apply Hdone; [lia | exact Hlt].
    + intros k Hk. rewrite array_set_lookup_ne by lia. apply Hrest. lia.
  - split; [reflexivity | split; [intros k Hk; lia | done]].
Qed.

(** A loop on a pair of arrays that assigns each of them is two loops. *)
Lemma pair_loop_split {A B : Type} (g : Z -> A) (h : Z -> B) (n : nat) :
  forall (from : Z) (a : list A) (b : list B),
    for_pure from n
      (fun k '(a, b) => (array_set k (g k) a, array_set k (h k) b)) (a, b)
    = (for_pure from n (fun k a => array_set k (g k) a) a,
       for_pure from n (fun k b => array_set k (h k) b) b).
Proof.
  induction n as [| n IH]; intros from a b; simpl; [reflexivity | apply IH].
Qed.

(** The vertex loop decodes vertex [j] from [vertices[j]] and nothing else. *)
Lemma decode_vertices_spec {vertex_ctor : Constructible Vertex.t}
    (count : Z) (decode : Z -> Vertex.t -> Vertex.t) (vertices : list Vertex.t) :
  (Z.to_nat count <= length vertices)%nat ->
  let vertices' := decode_vertices count decode vertices in
  length vertices' = length vertices /\
  (forall j : nat, (j < Z.to_nat count)%nat ->
     exists vert, vertices !! j = Some vert /\
                  vertices' !! j = Some (decode (Z.of_nat j) vert)) /\
  (forall j : nat, (Z.to_nat count <= j)%nat -> vertices' !! j = vertices !! j).
Proof.
  intros Hcount vertices'. subst vertices'. unfold decode_vertices.
  pose (I := fun (i : Z) (vs : list Vertex.t) =>
    length vs = length vertices /\
    (forall j : nat, Z.of_nat j < i ->
       exists vert, vertices !! j = Some vert /\
                    vs !! j = Some (decode (Z.of_nat j) vert)) /\
    (forall j : nat, i <= Z.of_nat j -> vs !! j = vertices !! j)).
  assert (H : I (0 + Z.of_nat (Z.to_nat count))
                (for_pure 0 (Z.to_nat count)
                   (fun j vs =>
                      array_set j
                        (decode j (array_get (default_constructed Vertex.t) j vs)) vs)
                   vertices)).
  { apply (for_pure_inv I).
    - intros i vs Hi (Hlen & Hdone & Hrest).
      destruct (Z_of_nat_complete i) as [n ->]; [lia |].
      destruct (lookup_lt_is_Some_2 vertices n) as [vert Hvert]; [lia |].
      assert (Hcur : vs !! n = Some vert) by (rewrite Hrest; [done | lia]).
      repeat split.
      + by rewrite array_set_length.
      + intros j Hj. destruct (decide (j = n)) as [-> | Hne].
        * exists vert. split; [exact Hvert |].
          rewrite array_set_lookup_eq by lia.
          by rewrite (array_get_lookup _ _ _ _ Hcur).
        * rewrite array_set_lookup_ne by lia. apply Hdone. lia.
      + intros j Hj. rewrite array_set_lookup_ne by lia. apply Hrest. lia.
    - split; [reflexivity | split; [intros j Hj; lia | done]]. }
  destruct H as (Hlen & Hdone & Hrest).
  repeat split; [exact Hlen | |].
  - intros j Hj. apply Hdone. lia.
  - intros j Hj. apply Hrest. lia.
Qed.

Lemma fill_loop_length {A : Type} (g : Z -> A) (n : nat) (from : Z) (l : list A) :
  length (for_pure from n (fun k l => array_set k (g k) l) l) = length l.
Proof. apply (fill_loop_spec g n from l). Qed.

(** ** The piece decoders *)
Section PieceProperties.

Variable BONE_COUNT : nat.
Context {vertex_ctor : Constructible Vertex.t}
        {triangle_ctor : Constructible Triangle.t}
        {triangle_layout : Layout pmg_0x13.pmg_triangle_t.t}
        {index_layout : Layout pmg_0x14.pmg_index_t.t}.

Lemma decode_triangles_0x13_length (buf : buffer) (piece : P13.t)
    (triangles : list Triangle.t) :
  length (decode_triangles_0x13 buf piece triangles) = length triangles.
Proof.
  apply (fill_loop_length
           (fun j => {| Triangle.m_a :=
                          (elem_at pmg_0x13.pmg_triangle_t.t buf
                             piece.(P13.m_triangle_offset) j).(pmg_0x13.pmg_triangle_t.a) |})).
Qed.

Lemma decode_triangles_0x14_length (buf : buffer) (piece : P14.t)
    (triangles : list Triangle.t) :
  length (decode_triangles_0x14 buf piece triangles) = length triangles.
Proof.
  apply (fill_loop_length
           (fun j => {| Triangle.m_a :=
                          (elem_at pmg_0x14.pmg_index_t.t buf
                             piece.(P14.m_index_offset) j).(pmg_0x14.pmg_index_t.a) |})).
Qed.

(** What a pass of the version 0x14 piece loop leaves in [currentPiece]. *)
Lemma decode_piece_0x14_inv (buf : buffer) (weight_width : Z) (piece : P14.t)
    (i : Z) (cur p : Piece.t) :
  decode_piece_0x14 BONE_COUNT buf weight_width piece i cur = Some p ->
  0 <= piece.(P14.m_verts) /\ 0 <= piece.(P14.m_edges) ÷ 3 /\
  p.(Piece.m_bones) = weight_width /\
  length p.(Piece.m_vertices) = Z.to_nat piece.(P14.m_verts) /\
  length p.(Piece.m_triangles) = Z.to_nat (piece.(P14.m_edges) ÷ 3) /\
  p.(Piece.m_position)
    = negb (piece.(P14.m_vert_position_offset) =? -1) || cur.(Piece.m_position) /\
  p.(Piece.m_normal)
    = negb (piece.(P14.m_vert_normal_offset) =? -1) || cur.(Piece.m_normal) /\
  p.(Piece.m_tangent)
    = negb (piece.(P14.m_vert_tangent_offset) =? -1) || cur.(Piece.m_tangent) /\
  p.(Piece.m_texcoord)
    = negb (piece.(P14.m_vert_texcoord_offset) =? -1) || cur.(Piece.m_texcoord) /\
  p.(Piece.m_color)
    = negb (piece.(P14.m_vert_color_offset) =? -1) || cur.(Piece.m_color) /\
  p.(Piece.m_color2)
    = negb (piece.(P14.m_vert_color2_offset) =? -1) || cur.(Piece.m_color2) /\
  (forall (j : nat) (v : Vertex.t),
     p.(Piece.m_vertices) !! j = Some v ->
     exists vert,
       resize (Z.to_nat piece.(P14.m_verts)) (default_constructed Vertex.t)
              cur.(Piece.m_vertices) !! j = Some vert /\
       v = decode_vertex_0x14 BONE_COUNT buf piece p (pool_size_0x14 piece) (Z.of_nat j) vert).
Proof.
  unfold decode_piece_0x14. intros H.
  apply bind_Some in H as (vertices & Hv & H).
  apply bind_Some in H as (triangles & Ht & H).
  apply vec_resize_Some in Hv as [Hverts ->].
  apply vec_resize_Some in Ht as [Hedges ->].
  injection H as <-. simpl.
  pose proof (decode_vertices_spec piece.(P14.m_verts)
    (decode_vertex_0x14 BONE_COUNT buf piece
       (stream_flags_0x14 piece
          {| Piece.m_index := i;
             Piece.m_texcoordMask := piece.(P14.m_texcoord_mask);
             Piece.m_texcoordCount := piece.(P14.m_texcoord_width);
             Piece.m_bones := weight_width;
             Piece.m_material := piece.(P14.m_material);
             Piece.m_streamCount := cur.(Piece.m_streamCount);
             Piece.m_position := cur.(Piece.m_position);
             Piece.m_normal := cur.(Piece.m_normal);
             Piece.m_tangent := cur.(Piece.m_tangent);
             Piece.m_texcoord := cur.(Piece.m_texcoord);
             Piece.m_color := cur.(Piece.m_color);
             Piece.m_color2 := cur.(Piece.m_color2);
             Piece.m_vertices :=
               resize (Z.to_nat piece.(P14.m_verts))
                 (default_constructed Vertex.t) cur.(Piece.m_vertices);
             Piece.m_triangles :=
               resize (Z.to_nat (piece.(P14.m_edges) ÷ 3))
                 (default_constructed Triangle.t) cur.(Piece.m_triangles) |})
       (pool_size_0x14 piece))
    (resize (Z.to_nat piece.(P14.m_verts)) (default_constructed Vertex.t)
       cur.(Piece.m_vertices))) as Hspec.
  rewrite length_resize in Hspec. specialize (Hspec (le_n _)).
  destruct Hspec as (Hlen & Hdone & Hrest).
  split; [exact Hverts | split; [exact Hedges | split; [reflexivity |]]].
  split; [exact Hlen |].
  split; [by rewrite decode_triangles_0x14_length, length_resize |].
  do 6 (split; [reflexivity |]).
  intros j v Hj.
  destruct (decide (j < Z.to_nat piece.(P14.m_verts))%nat) as [Hlt | Hge].
  - destruct (Hdone j Hlt) as (vert & Hvert & Hdec).
    exists vert. split; [exact Hvert |].
    rewrite Hdec in Hj. by injection Hj as <-.
  - apply lookup_lt_Some in Hj. rewrite Hlen in Hj. lia.
Qed.

(** What a pass of the version 0x13 piece loop leaves in [currentPiece]. *)
Lemma decode_piece_0x13_inv (buf : buffer) (piece : P13.t)
    (i : Z) (cur p : Piece.t) :
  decode_piece_0x13 BONE_COUNT buf piece i cur = Some p ->
  0 <= piece.(P13.m_verts) /\ 0 <= piece.(P13.m_edges) ÷ 3 /\
  p.(Piece.m_bones) = piece.(P13.m_bone_count) /\
  length p.(Piece.m_vertices) = Z.to_nat piece.(P13.m_verts) /\
  length p.(Piece.m_triangles) = Z.to_nat (piece.(P13.m_edges) ÷ 3) /\
  p.(Piece.m_position)
    = negb (piece.(P13.m_vert_position_offset) =? -1) || cur.(Piece.m_position) /\
  p.(Piece.m_normal)
    = negb (piece.(P13.m_vert_normal_offset) =? -1) || cur.(Piece.m_normal) /\
  p.(Piece.m_tangent)
    = negb (piece.(P13.m_vert_tangent_offset) =? -1) || cur.(Piece.m_tangent) /\
  p.(Piece.m_texcoord)
    = negb (piece.(P13.m_vert_uv_offset) =? -1) || cur.(Piece.m_texcoord) /\
  p.(Piece.m_color)
    = negb (piece.(P13.m_vert_rgba_offset) =? -1) || cur.(Piece.m_color) /\
  p.(Piece.m_color2)
    = negb (piece.(P13.m_vert_rgba2_offset) =? -1) || cur.(Piece.m_color2) /\
  (forall (j : nat) (v : Vertex.t),
     p.(Piece.m_vertices) !! j = Some v ->
     exists vert,
       resize (Z.to_nat piece.(P13.m_verts)) (default_constructed Vertex.t)
              cur.(Piece.m_vertices) !! j = Some vert /\
       v = decode_vertex_0x13 BONE_COUNT buf piece p (pool_sizes_0x13 piece).1
             (pool_sizes_0x13 piece).2 (Z.of_nat j) vert).
Proof.
  unfold decode_piece_0x13. intros H.
  apply bind_Some in H as (vertices & Hv & H).
  apply bind_Some in H as (triangles & Ht & H).
  apply vec_resize_Some in Hv as [Hverts ->].
  apply vec_resize_Some in Ht as [Hedges ->].
  destruct (pool_sizes_0x13 piece) as [poolSizeStatic poolSizeDynamic].
  injection H as <-. simpl.
  pose proof (decode_vertices_spec piece.(P13.m_verts)
    (decode_vertex_0x13 BONE_COUNT buf piece
       (stream_flags_0x13 piece
          {| Piece.m_index := i;
             Piece.m_texcoordMask := piece.(P13.m_uv_mask);
             Piece.m_texcoordCount := piece.(P13.m_uv_channels);
             Piece.m_bones := piece.(P13.m_bone_count);
             Piece.m_material := piece.(P13.m_material);
             Piece.m_streamCount := cur.(Piece.m_streamCount);
             Piece.m_position := cur.(Piece.m_position);
             Piece.m_normal := cur.(Piece.m_normal);
             Piece.m_tangent := cur.(Piece.m_tangent);
             Piece.m_texcoord := cur.(Piece.m_texcoord);
             Piece.m_color := cur.(Piece.m_color);
             Piece.m_color2 := cur.(Piece.m_color2);
             Piece.m_vertices :=
               resize (Z.to_nat piece.(P13.m_verts))
                 (default_constructed Vertex.t) cur.(Piece.m_vertices);
             Piece.m_triangles :=
               resize (Z.to_nat (piece.(P13.m_edges) ÷ 3))
                 (default_constructed Triangle.t) cur.(Piece.m_triangles) |})
       poolSizeStatic poolSizeDynamic)
    (resize (Z.to_nat piece.(P13.m_verts)) (default_constructed Vertex.t)
       cur.(Piece.m_vertices))) as Hspec.
  rewrite length_resize in Hspec. specialize (Hspec (le_n _)).
  destruct Hspec as (Hlen & Hdone & Hrest).
  split; [exact Hverts | split; [exact Hedges | split; [reflexivity |]]].
  split; [exact Hlen |].
  split; [by rewrite decode_triangles_0x13_length, length_resize |].
  do 6 (split; [reflexivity |]).
  intros j v Hj.
  destruct (decide (j < Z.to_nat piece.(P13.m_verts))%nat) as [Hlt | Hge].
  - destruct (Hdone j Hlt) as (vert & Hvert & Hdec).
    exists vert. split; [exact Hvert |].
    rewrite Hdec in Hj. by injection Hj as <-.
  - apply lookup_lt_Some in Hj. rewrite Hlen in Hj. lia.
Qed.

(** *** Strides *)

Lemma wrap_u32_add_l (x y : Z) : wrap_u32 (wrap_u32 x + y) = wrap_u32 (x + y).
Proof. unfold wrap_u32. apply Zplus_mod_idemp_l. Qed.

Lemma wrap_u32_add_r (x y : Z) : wrap_u32 (x + wrap_u32 y) = wrap_u32 (x + y).
Proof. unfold wrap_u32. apply Zplus_mod_idemp_r. Qed.

Lemma wrap_u32_idemp (x : Z) : wrap_u32 (wrap_u32 x) = wrap_u32 x.
Proof. unfold wrap_u32. apply Zmod_mod. Qed.

Lemma wrap_u32_small (x : Z) : 0 <= x < 2 ^ 32 -> wrap_u32 x = x.
Proof. unfold wrap_u32. apply Z.mod_small. Qed.

(** Case analysis on every test of a stream offset, then arithmetic modulo
    2^32. *)
Ltac stride_cases :=
  unfold stream_size; cbv zeta;
  repeat match goal with
         | |- context [?o =? -1] => destruct (o =? -1)
         end;
  cbn [negb];
  repeat first [rewrite wrap_u32_add_l | rewrite <- Z.add_assoc];
  first [reflexivity | f_equal; unfold sizeof_float3, sizeof_float2,
                        sizeof_uint32_t, sizeof_pmg_vert_tangent_t; lia].

Lemma pool_size_0x14_sum (piece : P14.t) :
  pool_size_0x14 piece
  = wrap_u32
      (stream_size piece.(P14.m_vert_position_offset) sizeof_float3
       + stream_size piece.(P14.m_vert_normal_offset) sizeof_float3
       + stream_size piece.(P14.m_vert_tangent_offset) sizeof_pmg_vert_tangent_t
       + stream_size piece.(P14.m_vert_texcoord_offset)
           (sizeof_float2 * piece.(P14.m_texcoord_width))
       + stream_size piece.(P14.m_vert_color_offset) sizeof_uint32_t
       + stream_size piece.(P14.m_vert_color2_offset) sizeof_uint32_t
       + stream_size piece.(P14.m_vert_bone_index_offset) (2 * sizeof_uint32_t)).
Proof.
  unfold pool_size_0x14. stride_cases.
Qed.

Lemma static_streams_size_0x13_sum (piece : P13.t) :
  static_streams_size_0x13 piece
  = wrap_u32
      (stream_size piece.(P13.m_vert_position_offset) sizeof_float3
       + stream_size piece.(P13.m_vert_normal_offset) sizeof_float3
       + stream_size piece.(P13.m_vert_tangent_offset) sizeof_pmg_vert_tangent_t).
Proof. unfold static_streams_size_0x13. stride_cases. Qed.

Lemma dynamic_streams_size_0x13_sum (piece : P13.t) :
  dynamic_streams_size_0x13 piece
  = wrap_u32
      (stream_size piece.(P13.m_vert_uv_offset)
         (sizeof_float2 * piece.(P13.m_uv_channels))
       + stream_size piece.(P13.m_vert_rgba_offset) sizeof_uint32_t
       + stream_size piece.(P13.m_vert_rgba2_offset) sizeof_uint32_t).
Proof. unfold dynamic_streams_size_0x13. stride_cases. Qed.

Lemma pool_sizes_0x13_unskinned (piece : P13.t) :
  piece.(P13.m_bone_count) = 0 ->
  (pool_sizes_0x13 piece).1 = (pool_sizes_0x13 piece).2 /\
  (pool_sizes_0x13 piece).1
  = wrap_u32
      (stream_size piece.(P13.m_vert_position_offset) sizeof_float3
       + stream_size piece.(P13.m_vert_normal_offset) sizeof_float3
       + stream_size piece.(P13.m_vert_tangent_offset) sizeof_pmg_vert_tangent_t
       + (stream_size piece.(P13.m_vert_uv_offset)
            (sizeof_float2 * piece.(P13.m_uv_channels))
          + stream_size piece.(P13.m_vert_rgba_offset) sizeof_uint32_t
          + stream_size piece.(P13.m_vert_rgba2_offset) sizeof_uint32_t)).
Proof.
  intros Hbones. unfold pool_sizes_0x13. rewrite Hbones. simpl.
  split; [reflexivity |].
  rewrite static_streams_size_0x13_sum, dynamic_streams_size_0x13_sum.
  by rewrite wrap_u32_add_l, wrap_u32_add_r.
Qed.

Lemma pool_sizes_0x13_skinned (piece : P13.t) :
  piece.(P13.m_bone_count) <> 0 ->
  (pool_sizes_0x13 piece).1
  = wrap_u32
      (stream_size piece.(P13.m_vert_position_offset) sizeof_float3
       + stream_size piece.(P13.m_vert_normal_offset) sizeof_float3
       + stream_size piece.(P13.m_vert_tangent_offset) sizeof_pmg_vert_tangent_t) /\
  (pool_sizes_0x13 piece).2
  = wrap_u32
      (stream_size piece.(P13.m_vert_uv_offset)
         (sizeof_float2 * piece.(P13.m_uv_channels))
       + stream_size piece.(P13.m_vert_rgba_offset) sizeof_uint32_t
       + stream_size piece.(P13.m_vert_rgba2_offset) sizeof_uint32_t).
Proof.
  intros Hbones. unfold pool_sizes_0x13.
  destruct (Z.eqb_spec piece.(P13.m_bone_count) 0) as [Hz | _]; [contradiction |].
  simpl. split.
  - apply static_streams_size_0x13_sum.
  - apply dynamic_streams_size_0x13_sum.
Qed.

(** *** Where a decoded vertex comes from *)

(** The texture coordinate loop reads channel [k] at [base + 8 * k]. *)
Lemma texcoords_loop_spec (buf : buffer) (base : Z) (channels : Z)
    (texcoords : list float2) (k : nat) :
  let texcoords' :=
    for_pure 0 (Z.to_nat channels)
      (fun k texcoords =>
         array_set k (read_float2 buf (base + sizeof_float2 * k)) texcoords)
      texcoords in
  length texcoords' = length texcoords /\
  (Z.of_nat k < channels -> (k < length texcoords)%nat ->
   texcoords' !! k = Some (read_float2 buf (base + sizeof_float2 * Z.of_nat k))).
Proof.
  intros texcoords'. subst texcoords'.
  destruct (fill_loop_spec (fun k => read_float2 buf (base + sizeof_float2 * k))
              (Z.to_nat channels) 0 texcoords) as (Hlen & Hdone & _).
  split; [exact Hlen |].
  intros Hk Hcap. apply Hdone; [lia | exact Hcap].
Qed.

Lemma offset_present (offset : Z) (flag : bool) :
  offset <> -1 -> negb (offset =? -1) || flag = true.
Proof. intros H. by destruct (Z.eqb_spec offset (-1)). Qed.

(** C4 (amended): the version 0x14 decoder computes one stride per piece, the
    sum of the byte sizes of the present streams (the two packed bone words
    count as 8 bytes when the bone index stream is present), and decodes the
    position, the normal, the tangent, every texture coordinate and the first
    colour of vertex [j] at the base offset of the stream plus that stride
    times [j].  The version 0x13 decoder does so only for a piece without
    bones; for a piece with bones it computes two strides, the sum of the
    sizes of the present position, normal and tangent streams for these
    three, and the sum of the sizes of the present texture coordinate and
    colour streams for the texture coordinates and the two colours. *)
Theorem vertex_streams_strides :
  (forall (buf : buffer) (weight_width : Z) (piece : P14.t) (i : Z)
          (cur p : Piece.t),
     decode_piece_0x14 BONE_COUNT buf weight_width piece i cur = Some p ->
     let stride := pool_size_0x14 piece in
     stride
     = wrap_u32
         (stream_size piece.(P14.m_vert_position_offset) sizeof_float3
          + stream_size piece.(P14.m_vert_normal_offset) sizeof_float3
          + stream_size piece.(P14.m_vert_tangent_offset) sizeof_pmg_vert_tangent_t
          + stream_size piece.(P14.m_vert_texcoord_offset)
              (sizeof_float2 * piece.(P14.m_texcoord_width))
          + stream_size piece.(P14.m_vert_color_offset) sizeof_uint32_t
          + stream_size piece.(P14.m_vert_color2_offset) sizeof_uint32_t
          + stream_size piece.(P14.m_vert_bone_index_offset) (2 * sizeof_uint32_t)) /\
     forall (j : nat) (v : Vertex.t),
       p.(Piece.m_vertices) !! j = Some v ->
       let at_vertex := wrap_u32 (stride * Z.of_nat j) in
       (piece.(P14.m_vert_position_offset) <> -1 ->
        v.(Vertex.m_position)
        = read_float3 buf (piece.(P14.m_vert_position_offset) + at_vertex)) /\
       (piece.(P14.m_vert_normal_offset) <> -1 ->
        v.(Vertex.m_normal)
        = read_float3 buf (piece.(P14.m_vert_normal_offset) + at_vertex)) /\
       (piece.(P14.m_vert_tangent_offset) <> -1 ->
        let t := pmg_vert_tangent_t.read buf
                   (piece.(P14.m_vert_tangent_offset) + at_vertex) in
        v.(Vertex.m_tangent)
        = (t.(pmg_vert_tangent_t.w), t.(pmg_vert_tangent_t.x),
           t.(pmg_vert_tangent_t.y), t.(pmg_vert_tangent_t.z))) /\
       (piece.(P14.m_vert_texcoord_offset) <> -1 ->
        forall k : nat,
          Z.of_nat k < piece.(P14.m_texcoord_width) ->
          (k < length v.(Vertex.m_texcoords))%nat ->
          v.(Vertex.m_texcoords) !! k
          = Some (read_float2 buf (piece.(P14.m_vert_texcoord_offset) + at_vertex
                                   + sizeof_float2 * Z.of_nat k))) /\
       (piece.(P14.m_vert_color_offset) <> -1 ->
        v.(Vertex.m_color)
        = decode_color (pmg_vert_color_t.read buf
                          (piece.(P14.m_vert_color_offset) + at_vertex)))) /\
  (forall (buf : buffer) (piece : P13.t) (i : Z) (cur p : Piece.t),
     decode_piece_0x13 BONE_COUNT buf piece i cur = Some p ->
     let static := (pool_sizes_0x13 piece).1 in
     let dynamic := (pool_sizes_0x13 piece).2 in
     let static_sum :=
       stream_size piece.(P13.m_vert_position_offset) sizeof_float3
       + stream_size piece.(P13.m_vert_normal_offset) sizeof_float3
       + stream_size piece.(P13.m_vert_tangent_offset) sizeof_pmg_vert_tangent_t in
     let dynamic_sum :=
       stream_size piece.(P13.m_vert_uv_offset)
         (sizeof_float2 * piece.(P13.m_uv_channels))
       + stream_size piece.(P13.m_vert_rgba_offset) sizeof_uint32_t
       + stream_size piece.(P13.m_vert_rgba2_offset) sizeof_uint32_t in
     (piece.(P13.m_bone_count) = 0 ->
      static = dynamic /\ static = wrap_u32 (static_sum + dynamic_sum)) /\
     (piece.(P13.m_bone_count) <> 0 ->
      static = wrap_u32 static_sum /\ dynamic = wrap_u32 dynamic_sum) /\
     forall (j : nat) (v : Vertex.t),
       p.(Piece.m_vertices) !! j = Some v ->
       let at_static := wrap_u32 (static * Z.of_nat j) in
       let at_dynamic := wrap_u32 (dynamic * Z.of_nat j) in
       (piece.(P13.m_vert_position_offset) <> -1 ->
        v.(Vertex.m_position)
        = read_float3 buf (piece.(P13.m_vert_position_offset) + at_static)) /\
       (piece.(P13.m_vert_normal_offset) <> -1 ->
        v.(Vertex.m_normal)
        = read_float3 buf (piece.(P13.m_vert_normal_offset) + at_static)) /\
       (piece.(P13.m_vert_tangent_offset) <> -1 ->
        let t := pmg_vert_tangent_t.read buf
                   (piece.(P13.m_vert_tangent_offset) + at_static) in
        v.(Vertex.m_tangent)
        = (t.(pmg_vert_tangent_t.w), t.(pmg_vert_tangent_t.x),
           t.(pmg_vert_tangent_t.y), t.(pmg_vert_tangent_t.z))) /\
       (piece.(P13.m_vert_uv_offset) <> -1 ->
        forall k : nat,
          Z.of_nat k < piece.(P13.m_uv_channels) ->
          (k < length v.(Vertex.m_texcoords))%nat ->
          v.(Vertex.m_texcoords) !! k
          = Some (read_float2 buf (piece.(P13.m_vert_uv_offset) + at_dynamic
                                   + sizeof_float2 * Z.of_nat k))) /\
       (piece.(P13.m_vert_rgba_offset) <> -1 ->
        v.(Vertex.m_color)
        = decode_color (pmg_vert_color_t.read buf
                          (piece.(P13.m_vert_rgba_offset) + at_dynamic))) /\
       (piece.(P13.m_vert_rgba2_offset) <> -1 ->
        v.(Vertex.m_color2)
        = decode_color (pmg_vert_color_t.read buf
                          (piece.(P13.m_vert_rgba2_offset) + at_dynamic)))).
Proof.
  split.
  - intros buf weight_width piece i cur p Hp stride.
    split; [apply pool_size_0x14_sum |].
    intros j v Hv at_vertex.
    destruct (decode_piece_0x14_inv _ _ _ _ _ _ Hp)
      as (_ & _ & _ & _ & _ & Hpos & Hnor & Htan & Htex & Hcol & _ & Hvert).
    destruct (Hvert j v Hv) as (vert & _ & ->).
    unfold decode_vertex_0x14. cbn [Vertex.m_position Vertex.m_normal
      Vertex.m_tangent Vertex.m_texcoords Vertex.m_color].
    rewrite Hpos, Hnor, Htan, Htex, Hcol.
    repeat split.
    + intros H. by rewrite (offset_present _ _ H).
    + intros H. by rewrite (offset_present _ _ H).
    + intros H. by rewrite (offset_present _ _ H).
    + intros H k Hk. rewrite (offset_present _ _ H).
      destruct (texcoords_loop_spec buf
                  (piece.(P14.m_vert_texcoord_offset) + at_vertex)
                  piece.(P14.m_texcoord_width) vert.(Vertex.m_texcoords) k)
        as [Hlen Hread].
      intros Hcap. apply Hread; [exact Hk |].
      unfold at_vertex, stride in Hlen. by rewrite <- Hlen.
    + intros H. by rewrite (offset_present _ _ H).
  - intros buf piece i cur p Hp static dynamic static_sum dynamic_sum.
    split; [apply pool_sizes_0x13_unskinned |].
    split; [apply pool_sizes_0x13_skinned |].
    intros j v Hv at_static at_dynamic.
    destruct (decode_piece_0x13_inv _ _ _ _ _ Hp)
      as (_ & _ & _ & _ & _ & Hpos & Hnor & Htan & Htex & Hcol & Hcol2 & Hvert).
    destruct (Hvert j v Hv) as (vert & _ & ->).
    unfold decode_vertex_0x13. cbn [Vertex.m_position Vertex.m_normal
      Vertex.m_tangent Vertex.m_texcoords Vertex.m_color Vertex.m_color2].
    rewrite Hpos, Hnor, Htan, Htex, Hcol, Hcol2.
    repeat split.
    + intros H. by rewrite (offset_present _ _ H).
    + intros H. by rewrite (offset_present _ _ H).
    + intros H. by rewrite (offset_present _ _ H).
    + intros H k Hk. rewrite (offset_present _ _ H).
      destruct (texcoords_loop_spec buf
                  (piece.(P13.m_vert_uv_offset) + at_dynamic)
                  piece.(P13.m_uv_channels) vert.(Vertex.m_texcoords) k)
        as [Hlen Hread].
      intros Hcap. apply Hread; [exact Hk |].
      unfold at_dynamic, dynamic in Hlen. by rewrite <- Hlen.
    + intros H. by rewrite (offset_present _ _ H).
    + intros H. by rewrite (offset_present _ _ H).
Qed.

(** *** Skinning *)

(** The packed scheme: the bone arrays after [skin_0x14]. *)
Lemma skin_0x14_spec (buf : buffer) (piece : P14.t) (poolSize j : Z)
    (boneIndex boneWeight : list Z) :
  (4 <= BONE_COUNT)%nat ->
  length boneIndex = BONE_COUNT ->
  length boneWeight = BONE_COUNT ->
  let indexes :=
    read_u32 buf (piece.(P14.m_vert_bone_index_offset) + wrap_u32 (poolSize * j)) in
  let weights :=
    read_u32 buf (piece.(P14.m_vert_bone_weight_offset) + wrap_u32 (poolSize * j)) in
  let bones := skin_0x14 BONE_COUNT buf piece poolSize j (boneIndex, boneWeight) in
  (forall k : nat, (k < 4)%nat ->
     bones.1 !! k = Some (to_i8 (Z.land (Z.shiftr indexes (8 * Z.of_nat k)) 0xff)) /\
     bones.2 !! k = Some (Z.land (Z.shiftr weights (8 * Z.of_nat k)) 0xff)) /\
  (forall k : nat, (4 <= k < BONE_COUNT)%nat ->
     bones.1 !! k = Some (-1) /\ bones.2 !! k = Some 0).
Proof.
  intros Hcap Hidx Hwgt indexes weights bones.
  subst bones. unfold skin_0x14. cbv zeta. fold indexes weights.
  rewrite (pair_loop_split
             (fun bone => to_i8 (Z.land (Z.shiftr indexes (8 * bone)) 255))
             (fun bone => Z.land (Z.shiftr weights (8 * bone)) 255)).
  rewrite (pair_loop_split (fun _ => -1) (fun _ => 0)).
  cbn [fst snd].
  set (g := fun bone => to_i8 (Z.land (Z.shiftr indexes (8 * bone)) 255)).
  set (h := fun bone => Z.land (Z.shiftr weights (8 * bone)) 255).
  destruct (fill_loop_spec g 4 0 boneIndex) as (Hlen1 & Hset1 & _).
  destruct (fill_loop_spec h 4 0 boneWeight) as (Hlen2 & Hset2 & _).
  destruct (fill_loop_spec (fun _ : Z => -1) (BONE_COUNT - 4) 4
              (for_pure 0 4 (fun k l => array_set k (g k) l) boneIndex))
    as (_ & Hfill1 & Hkeep1).
  destruct (fill_loop_spec (fun _ : Z => 0) (BONE_COUNT - 4) 4
              (for_pure 0 4 (fun k l => array_set k (h k) l) boneWeight))
    as (_ & Hfill2 & Hkeep2).
  split.
  - intros k Hk. rewrite Hkeep1, Hkeep2 by lia.
    split; [apply Hset1 | apply Hset2]; lia.
  - intros k Hk. split; [apply Hfill1 | apply Hfill2]; lia.
Qed.

(** The body of the vertex loop of the version 0x14 decoder: a vertex it
    skins gets, in bone slot [k] for [k < 4], the 8-bit field [k] of the
    32-bit index word and of the 32-bit weight word, field 0 being the least
    significant byte (the index is stored as an [int8_t]), and (-1, 0) in
    every slot from 4 up to [BONE_COUNT - 1]. *)
Lemma decode_vertex_0x14_skin (buf : buffer) (piece : P14.t) (cur : Piece.t)
    (poolSize j : Z) (vert : Vertex.t) :
  piece.(P14.m_vert_bone_index_offset) <> -1 ->
  piece.(P14.m_vert_bone_weight_offset) <> -1 ->
  (4 <= BONE_COUNT)%nat ->
  length vert.(Vertex.m_boneIndex) = BONE_COUNT ->
  length vert.(Vertex.m_boneWeight) = BONE_COUNT ->
  let v := decode_vertex_0x14 BONE_COUNT buf piece cur poolSize j vert in
  let indexes :=
    read_u32 buf (piece.(P14.m_vert_bone_index_offset) + wrap_u32 (poolSize * j)) in
  let weights :=
    read_u32 buf (piece.(P14.m_vert_bone_weight_offset) + wrap_u32 (poolSize * j)) in
  (forall k : nat, (k < 4)%nat ->
     v.(Vertex.m_boneIndex) !! k
     = Some (to_i8 (Z.land (Z.shiftr indexes (8 * Z.of_nat k)) 0xff)) /\
     v.(Vertex.m_boneWeight) !! k
     = Some (Z.land (Z.shiftr weights (8 * Z.of_nat k)) 0xff)) /\
  (forall k : nat, (4 <= k < BONE_COUNT)%nat ->
     v.(Vertex.m_boneIndex) !! k = Some (-1) /\
     v.(Vertex.m_boneWeight) !! k = Some 0) /\
  (indexes = 0x04030201 -> take 4 v.(Vertex.m_boneIndex) = [1; 2; 3; 4]).
Proof.
  intros Hindex Hweight Hcap Hidx Hwgt v indexes weights.
  destruct (skin_0x14_spec buf piece poolSize j _ _ Hcap Hidx Hwgt)
    as [Hpacked Hunused].
  assert (Hv : v.(Vertex.m_boneIndex)
               = (skin_0x14 BONE_COUNT buf piece poolSize j
                    (vert.(Vertex.m_boneIndex), vert.(Vertex.m_boneWeight))).1 /\
               v.(Vertex.m_boneWeight)
               = (skin_0x14 BONE_COUNT buf piece poolSize j
                    (vert.(Vertex.m_boneIndex), vert.(Vertex.m_boneWeight))).2).
  { subst v. unfold decode_vertex_0x14.
    cbn [Vertex.m_boneIndex Vertex.m_boneWeight].
    destruct (Z.eqb_spec piece.(P14.m_vert_bone_index_offset) (-1)); [done |].
    destruct (Z.eqb_spec piece.(P14.m_vert_bone_weight_offset) (-1)); [done |].
    done. }
  destruct Hv as [-> ->].
  split; [exact Hpacked | split; [exact Hunused |]].
  intros Hword.
  set (idx := (skin_0x14 BONE_COUNT buf piece poolSize j
                 (vert.(Vertex.m_boneIndex), vert.(Vertex.m_boneWeight))).1) in *.
  apply list_eq. intros k.
  destruct (decide (k < 4)%nat) as [Hk | Hk].
  - rewrite lookup_take_lt by exact Hk.
    rewrite (proj1 (Hpacked k Hk)). fold indexes. rewrite Hword.
    by do 4 (destruct k as [| k]; [reflexivity |]); lia.
  - rewrite lookup_take_ge by lia.
    symmetry. apply lookup_ge_None_2. simpl. lia.
Qed.

(** The table scheme: what [skin_0x13] leaves in arrays of the declared
    capacity, for a bone count that is not negative. *)
Lemma skin_0x13_spec (buf : buffer) (piece : P13.t) (animBind : Z)
    (boneIndex boneWeight : list Z) :
  0 <= piece.(P13.m_bone_count) ->
  length boneIndex = BONE_COUNT ->
  length boneWeight = BONE_COUNT ->
  let width := Z.min piece.(P13.m_bone_count) (Z.of_nat BONE_COUNT) in
  let bones := skin_0x13 BONE_COUNT buf piece animBind (boneIndex, boneWeight) in
  (forall k : nat, Z.of_nat k < width ->
     bones.1 !! k
     = Some (read_i8 buf (piece.(P13.m_anim_bind_bones_offset)
                          + animBind * piece.(P13.m_bone_count) + Z.of_nat k)) /\
     bones.2 !! k
     = Some (read_u8 buf (piece.(P13.m_anim_bind_bones_weight_offset)
                          + animBind * piece.(P13.m_bone_count) + Z.of_nat k))) /\
  (forall k : nat, width <= Z.of_nat k -> (k < BONE_COUNT)%nat ->
     bones.1 !! k = Some (-1) /\ bones.2 !! k = Some 0).
Proof.
  intros Hcount Hidx Hwgt width bones.
  subst bones. unfold skin_0x13. cbv zeta. fold width.
  destruct (Z.ltb_spec width 0) as [Hneg | _]; [lia |].
  set (g := fun k => read_i8 buf (piece.(P13.m_anim_bind_bones_offset)
                                  + animBind * piece.(P13.m_bone_count) + k)).
  set (h := fun k => read_u8 buf (piece.(P13.m_anim_bind_bones_weight_offset)
                                  + animBind * piece.(P13.m_bone_count) + k)).
  rewrite (pair_loop_split g h).
  rewrite (pair_loop_split (fun _ => -1) (fun _ => 0)).
  cbn [fst snd].
  destruct (fill_loop_spec g (Z.to_nat width) 0 boneIndex) as (Hlen1 & Hset1 & _).
  destruct (fill_loop_spec h (Z.to_nat width) 0 boneWeight) as (Hlen2 & Hset2 & _).
  destruct (fill_loop_spec (fun _ : Z => -1) (BONE_COUNT - Z.to_nat width) width
              (for_pure 0 (Z.to_nat width) (fun k l => array_set k (g k) l) boneIndex))
    as (_ & Hfill1 & Hkeep1).
  destruct (fill_loop_spec (fun _ : Z => 0) (BONE_COUNT - Z.to_nat width) width
              (for_pure 0 (Z.to_nat width) (fun k l => array_set k (h k) l) boneWeight))
    as (_ & Hfill2 & Hkeep2).
  split.
  - intros k Hk. rewrite Hkeep1, Hkeep2 by lia.
    split; [apply Hset1 | apply Hset2]; lia.
  - intros k Hk Hcap. split; [apply Hfill1 | apply Hfill2]; lia.
Qed.

(** One pass of the piece loop of the version 0x13 decoder on a newly
    constructed piece: two vertices with the same 16-bit bind index have the
    same bone arrays.  When the piece has a bind stream and new arrays have
    their declared capacity, slot [k] of a vertex holds, for
    [k < min(m_bone_count, BONE_COUNT)], the bytes of the two tables at
    table base + bind index * m_bone_count + k, and (-1, 0) in every
    further slot. *)
Lemma decode_piece_0x13_same_bind (buf : buffer) (piece : P13.t) (i : Z)
    (cur p : Piece.t) (j1 j2 : nat) (v1 v2 : Vertex.t) :
  decode_piece_0x13 BONE_COUNT buf piece i cur = Some p ->
  cur.(Piece.m_vertices) = [] ->
  p.(Piece.m_vertices) !! j1 = Some v1 ->
  p.(Piece.m_vertices) !! j2 = Some v2 ->
  bind_index buf piece (Z.of_nat j1) = bind_index buf piece (Z.of_nat j2) ->
  (v1.(Vertex.m_boneIndex) = v2.(Vertex.m_boneIndex) /\
   v1.(Vertex.m_boneWeight) = v2.(Vertex.m_boneWeight)) /\
  (piece.(P13.m_anim_bind_offset) <> -1 ->
   0 <= piece.(P13.m_bone_count) ->
   length (default_constructed Vertex.t).(Vertex.m_boneIndex) = BONE_COUNT ->
   length (default_constructed Vertex.t).(Vertex.m_boneWeight) = BONE_COUNT ->
   let width := Z.min piece.(P13.m_bone_count) (Z.of_nat BONE_COUNT) in
   let entry := bind_index buf piece (Z.of_nat j1) * piece.(P13.m_bone_count) in
   (forall k : nat, Z.of_nat k < width ->
      v1.(Vertex.m_boneIndex) !! k
      = Some (read_i8 buf (piece.(P13.m_anim_bind_bones_offset) + entry + Z.of_nat k)) /\
      v1.(Vertex.m_boneWeight) !! k
      = Some (read_u8 buf (piece.(P13.m_anim_bind_bones_weight_offset) + entry
                           + Z.of_nat k))) /\
   (forall k : nat, width <= Z.of_nat k -> (k < BONE_COUNT)%nat ->
      v1.(Vertex.m_boneIndex) !! k = Some (-1) /\
      v1.(Vertex.m_boneWeight) !! k = Some 0)).
Proof.
  intros Hp Hnew Hv1 Hv2 Hbind.
  destruct (decode_piece_0x13_inv _ _ _ _ _ Hp)
    as (_ & _ & _ & _ & _ & _ & _ & _ & _ & _ & _ & Hvert).
  destruct (Hvert j1 v1 Hv1) as (vert1 & Hold1 & ->).
  destruct (Hvert j2 v2 Hv2) as (vert2 & Hold2 & ->).
  rewrite Hnew, resize_nil in Hold1, Hold2.
  apply lookup_replicate in Hold1 as [-> _].
  apply lookup_replicate in Hold2 as [-> _].
  unfold decode_vertex_0x13. cbn [Vertex.m_boneIndex Vertex.m_boneWeight].
  fold (bind_index buf piece (Z.of_nat j1)).
  fold (bind_index buf piece (Z.of_nat j2)).
  split; [by rewrite Hbind |].
  intros Hstream Hcount Hidx Hwgt.
  destruct (Z.eqb_spec piece.(P13.m_anim_bind_offset) (-1)); [done |].
  cbn [negb].
  apply (skin_0x13_spec buf piece (bind_index buf piece (Z.of_nat j1))
           _ _ Hcount Hidx Hwgt).
Qed.

(** The second colour of a version 0x14 vertex is decoded from the bytes at
    the base offset of the first colour stream, [m_vert_color_offset]: the
    decoder never reads at [m_vert_color2_offset]. *)
Lemma decode_vertex_0x14_color2 (buf : buffer) (piece : P14.t) (cur : Piece.t)
    (poolSize j : Z) (vert : Vertex.t) :
  cur.(Piece.m_color2) = true ->
  (decode_vertex_0x14 BONE_COUNT buf piece cur poolSize j vert).(Vertex.m_color2)
  = decode_color (pmg_vert_color_t.read buf
                    (piece.(P14.m_vert_color_offset) + wrap_u32 (poolSize * j))).
Proof. intros Hflag. unfold decode_vertex_0x14. simpl. by rewrite Hflag. Qed.

End PieceProperties.

(** ** The piece loop

    Both decoders run the same loop: pass [i] decodes [m_pieces[i]] in place
    and adds to the three counters. *)
Section PieceLoop.

Variable decode : Z -> Piece.t -> option Piece.t.
Variables verts edges bones : Z -> Z.
Variable new_piece : Piece.t.

Local Abbreviation pass := (piece_pass decode verts edges new_piece).
Local Abbreviation post := (piece_loop_post decode verts edges bones).

Hypothesis decode_inv : forall i cur p,
  decode i cur = Some p ->
  0 <= verts i /\ 0 <= edges i ÷ 3 /\
  p.(Piece.m_bones) = bones i /\
  length p.(Piece.m_vertices) = Z.to_nat (verts i) /\
  length p.(Piece.m_triangles) = Z.to_nat (edges i ÷ 3).

Lemma sumZ_snoc (l : list Z) (x : Z) : sumZ (l ++ [x]) = sumZ l + x.
Proof.
  unfold sumZ. induction l as [| y l IH]; simpl; [lia | rewrite IH; lia].
Qed.

Lemma sum_upto_succ (f : Z -> Z) (n : nat) :
  sum_upto f (Z.of_nat n + 1) = sum_upto f (Z.of_nat n) + f (Z.of_nat n).
Proof.
  unfold sum_upto.
  replace (Z.of_nat n + 1) with (Z.of_nat (S n)) by lia.
  rewrite seqZ_S, fmap_app. cbn [fmap list_fmap].
  by rewrite sumZ_snoc, Z.add_0_l.
Qed.

Lemma sum_upto_nonneg (f : Z -> Z) (n : nat) :
  (forall k : nat, (k < n)%nat -> 0 <= f (Z.of_nat k)) ->
  0 <= sum_upto f (Z.of_nat n).
Proof.
  induction n as [| n IH]; intros Hf; [done |].
  replace (Z.of_nat (S n)) with (Z.of_nat n + 1) by lia.
  rewrite sum_upto_succ.
  assert (0 <= f (Z.of_nat n)) by (apply Hf; lia).
  assert (0 <= sum_upto f (Z.of_nat n)) by (apply IH; intros k Hk; apply Hf; lia).
  lia.
Qed.

Lemma piece_loop_spec (n : nat) (pieces : list Piece.t) (c : counters)
    (st : list Piece.t * counters) :
  (n <= length pieces)%nat ->
  c.(vertCount) = wrap_u32 c.(vertCount) ->
  c.(triangleCount) = wrap_u32 c.(triangleCount) ->
  c.(skinVertCount) = wrap_u32 c.(skinVertCount) ->
  for_loop 0 n pass (pieces, c) = Some st ->
  post pieces c (Z.of_nat n) st.
Proof.
  intros Hn Hv Ht Hs Hrun.
  apply (for_loop_inv (post pieces c) pass n 0 (pieces, c) st);
    [| | exact Hrun].
  - clear st Hrun. intros i [ps cs] st Hi (Hlen & Hdone & Hrest & Hvc & Htc & Hsc) Hpass.
    simpl in Hlen, Hdone, Hrest, Hvc, Htc, Hsc.
    destruct (Z_of_nat_complete i) as [k ->]; [lia |].
    unfold piece_pass in Hpass. simpl in Hpass.
    apply bind_Some in Hpass as (p & Hp & Hst). injection Hst as <-.
    destruct (lookup_lt_is_Some_2 pieces k) as [cur Hcur]; [lia |].
    assert (Hps : ps !! k = Some cur) by (rewrite Hrest; [done | lia]).
    rewrite (array_get_lookup _ _ _ _ Hps) in Hp.
    destruct (decode_inv _ _ _ Hp) as (Hverts & Hedges & Hbones & Hlv & Hlt).
    unfold piece_loop_post. simpl.
    rewrite array_set_length, !sum_upto_succ, Hvc, Htc, Hsc, Hbones, Hlv.
    rewrite !wrap_u32_add_l, Z2Nat.id by exact Hverts.
    repeat split; try (f_equal; lia).
    + exact Hlen.
    + intros j Hj. destruct (decide (j = k)) as [-> | Hne].
      * exists cur, p. split; [exact Hcur | split; [exact Hp |]].
        apply array_set_lookup_eq. lia.
      * rewrite array_set_lookup_ne by lia. apply Hdone. lia.
    + intros j Hj. rewrite array_set_lookup_ne by lia. apply Hrest. lia.
  - unfold piece_loop_post, sum_upto. simpl.
    rewrite !Z.add_0_r. repeat split; try done.
    intros k Hk. lia.
Qed.

End PieceLoop.

Lemma triangles_of_edges_quot (e : Z) :
  0 <= e ÷ 3 -> Z.of_nat (triangles_of_edges e) = e ÷ 3.
Proof.
  unfold triangles_of_edges. intros H.
  Z.to_euclidean_division_equations. lia.
Qed.

Lemma sumZ_cons (x : Z) (l : list Z) : sumZ (x :: l) = x + sumZ l.
Proof. reflexivity. Qed.

Lemma sumZ_ext {A : Type} (f g : A -> Z) (l : list A) :
  (forall x, x ∈ l -> f x = g x) -> sumZ (f <$> l) = sumZ (g <$> l).
Proof.
  induction l as [| x l IH]; intros H; [done |].
  rewrite !fmap_cons, !sumZ_cons.
  rewrite (H x) by apply list_elem_of_here.
  rewrite IH; [done |]. intros y Hy. apply H. by apply list_elem_of_further.
Qed.

Lemma sumZ_nonneg {A : Type} (f : A -> Z) (l : list A) :
  (forall x, x ∈ l -> 0 <= f x) -> 0 <= sumZ (f <$> l).
Proof.
  induction l as [| x l IH]; intros H; [done |].
  rewrite fmap_cons, sumZ_cons.
  assert (0 <= f x) by (apply H, list_elem_of_here).
  assert (0 <= sumZ (f <$> l)).
  { apply IH. intros y Hy. apply H. by apply list_elem_of_further. }
  lia.
Qed.

(** A sum over the indices is a sum over the declared records. *)
Lemma sum_upto_declared {A : Type} (record : Z -> A) (f : A -> Z) (n : Z) :
  sum_upto (fun k => f (record k)) n = sumZ (f <$> (record <$> seqZ 0 n)).
Proof. unfold sum_upto. by rewrite <- list_fmap_compose. Qed.

(** From the pieces and the counters an accepting decoder leaves to the
    counts every piece declares. *)
Lemma accepted_counts {A : Type} (verts edges : A -> Z) (ps : list A)
    (pieces : list Piece.t) (vc tc : Z) :
  length pieces = length ps ->
  (forall (i : nat) (p : Piece.t) (piece : A),
     pieces !! i = Some p -> ps !! i = Some piece ->
     0 <= verts piece /\ 0 <= edges piece ÷ 3 /\
     length p.(Piece.m_vertices) = Z.to_nat (verts piece) /\
     length p.(Piece.m_triangles) = Z.to_nat (edges piece ÷ 3)) ->
  vc = wrap_u32 (0 + sumZ (verts <$> ps)) ->
  tc = wrap_u32 (0 + sumZ ((fun piece => edges piece ÷ 3) <$> ps)) ->
  let declared := (fun piece => (verts piece, edges piece)) <$> ps in
  let thirds := (fun d : Z * Z => d.2 ÷ 3) <$> declared in
  length pieces = length declared /\
  (forall (i : nat) (d : Z * Z),
     declared !! i = Some d ->
     exists p : Piece.t,
       pieces !! i = Some p /\
       Z.of_nat (length p.(Piece.m_triangles)) = d.2 ÷ 3 /\
       Z.of_nat (length p.(Piece.m_vertices)) = d.1 /\
       (0 <= d.2 -> length p.(Piece.m_triangles) = triangles_of_edges d.2)) /\
  tc = wrap_u32 (sumZ thirds) /\
  vc = wrap_u32 (sumZ (fst <$> declared)) /\
  (sumZ thirds < 2 ^ 32 -> tc = sumZ thirds) /\
  (sumZ (fst <$> declared) < 2 ^ 32 -> vc = sumZ (fst <$> declared)).
Proof.
  intros Hlen Hpieces Hvc Htc declared thirds.
  assert (Hall : forall piece, piece ∈ ps ->
                   0 <= verts piece /\ 0 <= edges piece ÷ 3).
  { intros piece Hin. apply list_elem_of_lookup in Hin as [i Hi].
    destruct (lookup_lt_is_Some_2 pieces i) as [p Hp].
    { rewrite Hlen. by apply lookup_lt_Some in Hi. }
    destruct (Hpieces i p piece Hp Hi) as (? & ? & _). by split. }
  assert (Hverts : sumZ (fst <$> declared) = sumZ (verts <$> ps)).
  { subst declared. by rewrite <- list_fmap_compose. }
  assert (Hthirds : sumZ thirds = sumZ ((fun piece => edges piece ÷ 3) <$> ps)).
  { subst thirds declared. by rewrite <- list_fmap_compose. }
  rewrite Hverts, Hthirds. rewrite Z.add_0_l in Hvc, Htc.
  split; [subst declared; by rewrite length_fmap |].
  split.
  - intros i d Hd. subst declared. rewrite list_lookup_fmap in Hd.
    destruct (ps !! i) as [piece |] eqn:Hpiece; [| discriminate].
    injection Hd as <-. simpl.
    destruct (lookup_lt_is_Some_2 pieces i) as [p Hp].
    { rewrite Hlen. by apply lookup_lt_Some in Hpiece. }
    destruct (Hpieces i p piece Hp Hpiece) as (Hv & He & Hlv & Hlt).
    exists p. rewrite Hlv, Hlt.
    split; [exact Hp |]. split; [lia |]. split; [lia |].
    intros Hedges. unfold triangles_of_edges.
    by rewrite Z.quot_div_nonneg by lia.
  - split; [exact Htc |]. split; [exact Hvc |].
    split; intros Hfit; [rewrite Htc | rewrite Hvc];
      apply wrap_u32_small; (split; [| exact Hfit]);
      apply sumZ_nonneg; intros piece Hin; by apply Hall.
Qed.
(** ** The model loader *)
Section Loader.

Context {Prefab Collision : Type}.
Variable BONE_COUNT : nat.
Context {bone_ctor : Constructible Bone.t}
        {locator_ctor : Constructible Locator.t}
        {part_ctor : Constructible Part.t}
        {piece_ctor : Constructible Piece.t}
        {vertex_ctor : Constructible Vertex.t}
        {triangle_ctor : Constructible Triangle.t}
        {collision_ctor : Constructible Collision}.
Context {token_layout : Layout token_t}
        {header13_layout : Layout H13.t}
        {bone13_layout : Layout pmg_0x13.pmg_bone_t.t}
        {part13_layout : Layout pmg_0x13.pmg_part_t.t}
        {locator13_layout : Layout pmg_0x13.pmg_locator_t.t}
        {piece13_layout : Layout P13.t}
        {triangle13_layout : Layout pmg_0x13.pmg_triangle_t.t}
        {header14_layout : Layout H14.t}
        {bone14_layout : Layout pmg_0x14.pmg_bone_data_t.t}
        {part14_layout : Layout pmg_0x14.pmg_part_t.t}
        {locator14_layout : Layout pmg_0x14.pmg_locator_t.t}
        {piece14_layout : Layout P14.t}
        {index14_layout : Layout pmg_0x14.pmg_index_t.t}
        {pmd_header_layout : Layout HD.t}
        {attrib_link_layout : Layout pmd.pmd_attrib_link_t.t}
        {attrib_def_layout : Layout pmd.pmd_attrib_def_t.t}
        {attrib_value_layout : Layout pmd.pmd_attrib_value_t.t}.
Variable token_to_string : token_t -> string.
Variable token_t_to_string : token_t -> string.
Variable pmd_SUPPORTED_VERSION : Z.
Variable Attribute_ctor : string -> Variant.Attribute.t.
Variable Material_load : string -> Material.t -> Material.t.
Variable directory : string -> string.
Variable ufs : FileSystem.
Variable Prefab_load : string -> option Prefab.
Variable Collision_load :
  Model.t Prefab Collision -> string -> Collision -> Collision * bool.

Local Abbreviation model := (Model.t Prefab Collision).
Local Abbreviation loadModel0x13 :=
  (Model.loadModel0x13 (Prefab := Prefab) (Collision := Collision)
     BONE_COUNT token_to_string).
Local Abbreviation loadModel0x14 :=
  (Model.loadModel0x14 (Prefab := Prefab) (Collision := Collision)
     BONE_COUNT token_to_string).
Local Abbreviation loadModel :=
  (Model.loadModel (Prefab := Prefab) (Collision := Collision)
     BONE_COUNT token_to_string ufs).
Local Abbreviation loadDescriptor_buffer :=
  (Model.loadDescriptor_buffer (Prefab := Prefab) (Collision := Collision)
     token_to_string token_t_to_string pmd_SUPPORTED_VERSION Attribute_ctor
     Material_load).
Local Abbreviation loadDescriptor :=
  (Model.loadDescriptor (Prefab := Prefab) (Collision := Collision)
     token_to_string token_t_to_string pmd_SUPPORTED_VERSION Attribute_ctor
     Material_load ufs).
Local Abbreviation loadCollision :=
  (Model.loadCollision (Prefab := Prefab) (Collision := Collision)
     ufs Collision_load).
Local Abbreviation load :=
  (Model.load BONE_COUNT token_to_string token_t_to_string
     pmd_SUPPORTED_VERSION Attribute_ctor Material_load directory ufs
     Prefab_load Collision_load).

Lemma loadDescriptor_buffer_frame (buf : buffer) (m m' : model) ok out :
  loadDescriptor_buffer buf m = Some (ok, m', out) ->
  same_geometry m m' /\ same_frame m m'.
Proof.
  unfold Model.loadDescriptor_buffer. intros H.
  destruct (negb _); [by simplify_eq/= |].
  apply bind_Some in H as (looks & _ & H).
  apply bind_Some in H as (looks' & _ & H).
  apply bind_Some in H as (variants & _ & H).
  apply bind_Some in H as (st & _ & H).
  simplify_eq/=. by repeat split.
Qed.

Lemma loadDescriptor_frame (m m' : model) ok out :
  loadDescriptor m = Some (ok, m', out) ->
  same_geometry m m' /\ same_frame m m'.
Proof.
  unfold Model.loadDescriptor. intros H.
  destruct (fs_open ufs _) as [buf |].
  - by apply loadDescriptor_buffer_frame in H.
  - by simplify_eq/=.
Qed.

Lemma loadModel0x13_frame (buf : buffer) (m m' : model) ok :
  loadModel0x13 buf m = Some (ok, m') ->
  same_frame m m' /\
  m'.(Model.m_looks) = m.(Model.m_looks) /\
  m'.(Model.m_variants) = m.(Model.m_variants) /\
  m'.(Model.m_materialCount) = m.(Model.m_materialCount).
Proof.
  unfold Model.loadModel0x13. intros H.
  destruct (H13.m_signature _) as [[s0 s1] s2].
  destruct (_ || _); [by simplify_eq/= |].
  do 5 (apply bind_Some in H as (? & _ & H)).
  simplify_eq/=. by repeat split.
Qed.

Lemma loadModel0x14_frame (buf : buffer) (m m' : model) ok :
  loadModel0x14 buf m = Some (ok, m') ->
  same_frame m m' /\
  m'.(Model.m_looks) = m.(Model.m_looks) /\
  m'.(Model.m_variants) = m.(Model.m_variants) /\
  m'.(Model.m_materialCount) = m.(Model.m_materialCount).
Proof.
  unfold Model.loadModel0x14. intros H.
  destruct (H14.m_signature _) as [[s0 s1] s2].
  destruct (_ || _); [by simplify_eq/= |].
  do 5 (apply bind_Some in H as (? & _ & H)).
  simplify_eq/=. by repeat split.
Qed.

Lemma loadModel_frame (m m' : model) ok :
  loadModel m = Some (ok, m') ->
  same_frame m m' /\
  m'.(Model.m_looks) = m.(Model.m_looks) /\
  m'.(Model.m_variants) = m.(Model.m_variants) /\
  m'.(Model.m_materialCount) = m.(Model.m_materialCount).
Proof.
  unfold Model.loadModel. intros H.
  destruct (fs_open ufs _) as [buf |]; [| by simplify_eq/=].
  destruct (_ =? _); [by apply loadModel0x13_frame in H |].
  destruct (_ =? _); [by apply loadModel0x14_frame in H |].
  by simplify_eq/=.
Qed.

(** A geometry file with an unknown tag is refused and nothing changes. *)
Lemma loadModel_unknown_tag (m : model) (buf : buffer) :
  ufs.(fs_open) (m.(Model.m_filePath) +:+ ".pmg") = Some buf ->
  read_u32 buf 0 <> MAKEFOURCC 0x13 char_g char_m char_P ->
  read_u32 buf 0 <> MAKEFOURCC 0x14 char_g char_m char_P ->
  loadModel m = Some (false, m).
Proof.
  intros Hopen H13 H14. unfold Model.loadModel. rewrite Hopen.
  destruct (Z.eqb_spec (read_u32 buf 0) (MAKEFOURCC 19 char_g char_m char_P));
    [contradiction |].
  destruct (Z.eqb_spec (read_u32 buf 0) (MAKEFOURCC 20 char_g char_m char_P));
    [contradiction | reflexivity].
Qed.

Lemma loadCollision_absent (m : model) :
  ufs.(fs_exists) (m.(Model.m_filePath) +:+ ".pmc") = false ->
  loadCollision m = (false, m).
Proof. intros H. unfold Model.loadCollision. by rewrite H. Qed.

(** C1 (amended): when the geometry file starts with a tag that is neither
    of the two known ones, [Model::load] returns false and the flag
    [m_loaded] is false.  The geometry decoder has populated nothing: bones,
    locators, parts, pieces and the vertex, triangle and skinned-vertex
    counts are those of the model before the decoders ran, so they are empty
    and zero for a model that was loaded before (it is destroyed first).
    What the descriptor decoder populated before the geometry file was read
    (looks, variants, material count) is kept: the model [load] leaves is
    the very model [md] the descriptor decoder produced. *)
Theorem load_unknown_geometry_tag
    (filePath m_fileName : string) (m md : model) (buf : buffer) okd out :
  let m0 := if m.(Model.m_loaded) then Model.destroy m else m in
  let m1 := Model.with_path filePath (directory filePath) m_fileName m0 in
  substr_from filePath (String.length (directory filePath) + 1) = Some m_fileName ->
  loadDescriptor m1 = Some (okd, md, out) ->
  ufs.(fs_open) (filePath +:+ ".pmg") = Some buf ->
  read_u32 buf 0 <> MAKEFOURCC 0x13 char_g char_m char_P ->
  read_u32 buf 0 <> MAKEFOURCC 0x14 char_g char_m char_P ->
  load filePath m = Some (false, md) /\
  md.(Model.m_loaded) = false /\
  same_geometry m0 md /\
  (m.(Model.m_loaded) = true ->
   md.(Model.m_bones) = [] /\ md.(Model.m_locators) = [] /\
   md.(Model.m_parts) = [] /\ md.(Model.m_pieces) = [] /\
   md.(Model.m_vertCount) = 0 /\ md.(Model.m_triangleCount) = 0 /\
   md.(Model.m_skinVertCount) = 0).
Proof.
  intros m0 m1 Hname Hdesc Hopen Htag13 Htag14.
  destruct (loadDescriptor_frame _ _ _ _ Hdesc) as [Hgeo Hfr].
  assert (Hgeo0 : same_geometry m0 md) by exact Hgeo.
  assert (Hloaded : md.(Model.m_loaded) = false).
  { destruct Hfr as (-> & _). subst m1 m0. simpl.
    by destruct (Model.m_loaded m) eqn:E. }
  split; [| split; [exact Hloaded | split; [exact Hgeo0 |]]].
  - unfold Model.load. fold m0. rewrite Hname. simpl. fold m1.
    rewrite Hdesc. simpl. destruct okd; simpl; [| reflexivity].
    rewrite (loadModel_unknown_tag md buf); [reflexivity | | exact Htag13 | exact Htag14].
    destruct Hfr as (_ & -> & _). exact Hopen.
  - intros Hwas. destruct Hgeo0 as (-> & -> & -> & -> & -> & -> & ->).
    subst m0. rewrite Hwas. by repeat split.
Qed.

(** C9: [Model::destroy] clears the six containers, zeroes the four counts,
    clears [m_loaded], [m_filePath] and [m_fileName], and leaves
    [m_directory], [m_prefab] and [m_collision] as they were.  So a load
    that succeeds for a model without .ppd and .pmc files keeps the prefab
    and the collision the model held before, and [saveToMidFormat] then
    calls [saveToPic] and [saveToPip] on them. *)
Theorem destroy_keeps_prefab_and_collision (m : model) :
  let d := Model.destroy m in
  (d.(Model.m_bones) = [] /\ d.(Model.m_locators) = [] /\
   d.(Model.m_parts) = [] /\ d.(Model.m_pieces) = [] /\
   d.(Model.m_looks) = [] /\ d.(Model.m_variants) = [] /\
   d.(Model.m_vertCount) = 0 /\ d.(Model.m_triangleCount) = 0 /\
   d.(Model.m_skinVertCount) = 0 /\ d.(Model.m_materialCount) = 0 /\
   d.(Model.m_loaded) = false /\
   d.(Model.m_filePath) = "" /\ d.(Model.m_fileName) = "" /\
   d.(Model.m_directory) = m.(Model.m_directory) /\
   d.(Model.m_prefab) = m.(Model.m_prefab) /\
   d.(Model.m_collision) = m.(Model.m_collision)) /\
  (forall (filePath exportPath : string) (convertTexture : bool) (m' : model),
     ufs.(fs_exists) (filePath +:+ ".ppd") = false ->
     ufs.(fs_exists) (filePath +:+ ".pmc") = false ->
     load filePath m = Some (true, m') ->
     m'.(Model.m_prefab) = m.(Model.m_prefab) /\
     m'.(Model.m_collision) = m.(Model.m_collision) /\
     (forall c, m.(Model.m_collision) = Some c ->
        Model.SaveToPic c exportPath
          ∈ Model.saveToMidFormat exportPath convertTexture m') /\
     (forall p, m.(Model.m_prefab) = Some p ->
        Model.SaveToPip p exportPath
          ∈ Model.saveToMidFormat exportPath convertTexture m')).
Proof.
  intros d. split; [by repeat split |].
  intros filePath exportPath convertTexture m' Hppd Hpmc Hload.
  assert (Hkeep : m'.(Model.m_prefab) = m.(Model.m_prefab) /\
                  m'.(Model.m_collision) = m.(Model.m_collision)).
  { unfold Model.load in Hload.
    apply bind_Some in Hload as (m_fileName & _ & Hload).
    apply bind_Some in Hload as ([[okd md] out] & Hdesc & Hload).
    destruct okd; simpl in Hload; [| discriminate].
    apply bind_Some in Hload as ([okg mg] & Hgeo & Hload).
    destruct okg; simpl in Hload; [| discriminate].
    apply loadDescriptor_frame in Hdesc as (_ & Hf1).
    apply loadModel_frame in Hgeo as (Hf2 & _).
    destruct Hf1 as (_ & Hpath1 & _ & _ & Hp1 & Hc1).
    destruct Hf2 as (_ & Hpath2 & _ & _ & Hp2 & Hc2).
    simpl in Hpath1, Hp1, Hc1.
    rewrite Hpath2, Hpath1, Hppd in Hload.
    rewrite loadCollision_absent in Hload by (by rewrite Hpath2, Hpath1).
    simplify_eq/=. rewrite Hp2, Hp1, Hc2, Hc1.
    by destruct (Model.m_loaded m) eqn:E. }
  destruct Hkeep as [Hp Hc].
  split; [exact Hp | split; [exact Hc | split]].
  - intros c Hsome. unfold Model.saveToMidFormat. rewrite Hc, Hsome.
    rewrite !elem_of_app, list_elem_of_singleton. auto.
  - intros p Hsome. unfold Model.saveToMidFormat. rewrite Hp, Hsome.
    rewrite !elem_of_app, list_elem_of_singleton. auto.
Qed.

(** *** What an accepting geometry decoder leaves in the model *)

Lemma loadModel0x14_pieces (buf : buffer) (m m' : model) :
  loadModel0x14 buf m = Some (true, m') ->
  m.(Model.m_vertCount) = wrap_u32 m.(Model.m_vertCount) ->
  m.(Model.m_triangleCount) = wrap_u32 m.(Model.m_triangleCount) ->
  m.(Model.m_skinVertCount) = wrap_u32 m.(Model.m_skinVertCount) ->
  let weight_width := (cast_at H14.t buf 0).(H14.m_weight_width) in
  let declared := declared_pieces_0x14 buf in
  length m'.(Model.m_pieces) = length declared /\
  (forall (i : nat) (p : Piece.t) (piece : P14.t),
     m'.(Model.m_pieces) !! i = Some p ->
     declared !! i = Some piece ->
     0 <= piece.(P14.m_verts) /\ 0 <= piece.(P14.m_edges) ÷ 3 /\
     p.(Piece.m_bones) = weight_width /\
     length p.(Piece.m_vertices) = Z.to_nat piece.(P14.m_verts) /\
     length p.(Piece.m_triangles) = Z.to_nat (piece.(P14.m_edges) ÷ 3)) /\
  m'.(Model.m_vertCount)
  = wrap_u32 (m.(Model.m_vertCount) + sumZ (P14.m_verts <$> declared)) /\
  m'.(Model.m_triangleCount)
  = wrap_u32 (m.(Model.m_triangleCount)
              + sumZ ((fun piece => piece.(P14.m_edges) ÷ 3) <$> declared)) /\
  m'.(Model.m_skinVertCount)
  = wrap_u32 (m.(Model.m_skinVertCount)
              + sumZ ((fun piece => if 0 <? weight_width
                                    then piece.(P14.m_verts) else 0) <$> declared)).
Proof.
  intros H Hvc Htc Hsc weight_width declared.
  unfold Model.loadModel0x14 in H.
  destruct (H14.m_signature _) as [[s0 s1] s2].
  destruct (_ || _); [discriminate |].
  apply bind_Some in H as (pieces & Hpieces & H).
  apply bind_Some in H as (bones & _ & H).
  apply bind_Some in H as (locators & _ & H).
  apply bind_Some in H as (parts & _ & H).
  apply bind_Some in H as (st & Hloop & H).
  injection H as <-.
  apply vec_resize_Some in Hpieces as [Hcount ->].
  set (header := cast_at H14.t buf 0) in *.
  set (record := elem_at P14.t buf header.(H14.m_pieces_offset)).
  apply (piece_loop_spec
           (fun i cur =>
              decode_piece_0x14 BONE_COUNT buf header.(H14.m_weight_width)
                (record i) i cur)
           (fun i => (record i).(P14.m_verts))
           (fun i => (record i).(P14.m_edges))
           (fun _ => header.(H14.m_weight_width))
           (default_constructed Piece.t)) in Hloop.
  - destruct Hloop as (Hlen & Hdone & _ & Hv & Ht & Hs).
    rewrite Z2Nat.id in Hdone, Hv, Ht, Hs by exact Hcount.
    rewrite length_resize in Hlen.
    rewrite (sum_upto_declared record P14.m_verts) in Hv.
    rewrite (sum_upto_declared record (fun piece => piece.(P14.m_edges) ÷ 3)) in Ht.
    rewrite (sum_upto_declared record
               (fun piece => if 0 <? header.(H14.m_weight_width)
                             then piece.(P14.m_verts) else 0)) in Hs.
    simpl. split; [| split; [| by repeat split]].
    + subst declared. unfold declared_pieces_0x14.
      by rewrite Hlen, length_fmap, length_seqZ.
    + intros i p piece Hp Hpiece.
      subst declared. unfold declared_pieces_0x14 in Hpiece.
      rewrite list_lookup_fmap in Hpiece.
      destruct (seqZ 0 _ !! i) as [k |] eqn:Hk; [| discriminate].
      apply lookup_seqZ in Hk as [-> Hi]. injection Hpiece as <-.
      destruct (Hdone i Hi) as (cur & p' & _ & Hdec & Hp').
      rewrite Hp in Hp'. injection Hp' as <-.
      rewrite Z.add_0_l.
      destruct (decode_piece_0x14_inv _ _ _ _ _ _ _ Hdec)
        as (? & ? & ? & ? & ? & _).
      by repeat split.
  - intros i cur p Hdec.
    destruct (decode_piece_0x14_inv _ _ _ _ _ _ _ Hdec)
      as (? & ? & ? & ? & ? & _).
    by repeat split.
  - rewrite length_resize. lia.
  - exact Hvc.
  - exact Htc.
  - exact Hsc.
Qed.

Lemma loadModel0x13_pieces (buf : buffer) (m m' : model) :
  loadModel0x13 buf m = Some (true, m') ->
  m.(Model.m_vertCount) = wrap_u32 m.(Model.m_vertCount) ->
  m.(Model.m_triangleCount) = wrap_u32 m.(Model.m_triangleCount) ->
  m.(Model.m_skinVertCount) = wrap_u32 m.(Model.m_skinVertCount) ->
  let declared := declared_pieces_0x13 buf in
  length m'.(Model.m_pieces) = length declared /\
  (forall (i : nat) (p : Piece.t) (piece : P13.t),
     m'.(Model.m_pieces) !! i = Some p ->
     declared !! i = Some piece ->
     0 <= piece.(P13.m_verts) /\ 0 <= piece.(P13.m_edges) ÷ 3 /\
     p.(Piece.m_bones) = piece.(P13.m_bone_count) /\
     length p.(Piece.m_vertices) = Z.to_nat piece.(P13.m_verts) /\
     length p.(Piece.m_triangles) = Z.to_nat (piece.(P13.m_edges) ÷ 3)) /\
  m'.(Model.m_vertCount)
  = wrap_u32 (m.(Model.m_vertCount) + sumZ (P13.m_verts <$> declared)) /\
  m'.(Model.m_triangleCount)
  = wrap_u32 (m.(Model.m_triangleCount)
              + sumZ ((fun piece => piece.(P13.m_edges) ÷ 3) <$> declared)) /\
  m'.(Model.m_skinVertCount)
  = wrap_u32 (m.(Model.m_skinVertCount)
              + sumZ ((fun piece => if 0 <? piece.(P13.m_bone_count)
                                    then piece.(P13.m_verts) else 0) <$> declared)).
Proof.
  intros H Hvc Htc Hsc declared.
  unfold Model.loadModel0x13 in H.
  destruct (H13.m_signature _) as [[s0 s1] s2].
  destruct (_ || _); [discriminate |].
  apply bind_Some in H as (pieces & Hpieces & H).
  apply bind_Some in H as (bones & _ & H).
  apply bind_Some in H as (locators & _ & H).
  apply bind_Some in H as (parts & _ & H).
  apply bind_Some in H as (st & Hloop & H).
  injection H as <-.
  apply vec_resize_Some in Hpieces as [Hcount ->].
  set (header := cast_at H13.t buf 0) in *.
  set (record := elem_at P13.t buf header.(H13.m_piece_offset)).
  apply (piece_loop_spec
           (fun i cur => decode_piece_0x13 BONE_COUNT buf (record i) i cur)
           (fun i => (record i).(P13.m_verts))
           (fun i => (record i).(P13.m_edges))
           (fun i => (record i).(P13.m_bone_count))
           (default_constructed Piece.t)) in Hloop.
  - destruct Hloop as (Hlen & Hdone & _ & Hv & Ht & Hs).
    rewrite Z2Nat.id in Hdone, Hv, Ht, Hs by exact Hcount.
    rewrite length_resize in Hlen.
    rewrite (sum_upto_declared record P13.m_verts) in Hv.
    rewrite (sum_upto_declared record (fun piece => piece.(P13.m_edges) ÷ 3)) in Ht.
    rewrite (sum_upto_declared record
               (fun piece => if 0 <? piece.(P13.m_bone_count)
                             then piece.(P13.m_verts) else 0)) in Hs.
    simpl. split; [| split; [| by repeat split]].
    + subst declared. unfold declared_pieces_0x13.
      by rewrite Hlen, length_fmap, length_seqZ.
    + intros i p piece Hp Hpiece.
      subst declared. unfold declared_pieces_0x13 in Hpiece.
      rewrite list_lookup_fmap in Hpiece.
      destruct (seqZ 0 _ !! i) as [k |] eqn:Hk; [| discriminate].
      apply lookup_seqZ in Hk as [-> Hi]. injection Hpiece as <-.
      destruct (Hdone i Hi) as (cur & p' & _ & Hdec & Hp').
      rewrite Hp in Hp'. injection Hp' as <-.
      rewrite Z.add_0_l.
      destruct (decode_piece_0x13_inv _ _ _ _ _ _ Hdec)
        as (? & ? & ? & ? & ? & _).
      by repeat split.
  - intros i cur p Hdec.
    destruct (decode_piece_0x13_inv _ _ _ _ _ _ Hdec)
      as (? & ? & ? & ? & ? & _).
    by repeat split.
  - rewrite length_resize. lia.
  - exact Hvc.
  - exact Htc.
  - exact Hsc.
Qed.

(** C8: when a geometry decoder of either version accepts a buffer, starting
    from counters at zero, every piece holds as many vertices as its record
    declares and as many triangles as the declared edge count divided by 3
    the way the source divides, towards zero: the floor of the quotient when
    the edge count is not negative, and 0, not -1, for -1 or -2 edges, which
    the decoder accepts.  [m_triangleCount] is the sum of these quotients
    over the pieces and [m_vertCount] the sum of the declared vertex counts,
    both modulo 2^32, the width of the counters; they are the sums when the
    sums are below 2^32. *)
Theorem loadModel_counts (m m' : model) (buf : buffer) :
  ufs.(fs_open) (m.(Model.m_filePath) +:+ ".pmg") = Some buf ->
  loadModel m = Some (true, m') ->
  m.(Model.m_vertCount) = 0 ->
  m.(Model.m_triangleCount) = 0 ->
  m.(Model.m_skinVertCount) = 0 ->
  let declared := declared_counts buf in
  let thirds := (fun d : Z * Z => d.2 ÷ 3) <$> declared in
  length m'.(Model.m_pieces) = length declared /\
  (forall (i : nat) (d : Z * Z),
     declared !! i = Some d ->
     exists p : Piece.t,
       m'.(Model.m_pieces) !! i = Some p /\
       Z.of_nat (length p.(Piece.m_triangles)) = d.2 ÷ 3 /\
       Z.of_nat (length p.(Piece.m_vertices)) = d.1 /\
       (0 <= d.2 -> length p.(Piece.m_triangles) = triangles_of_edges d.2)) /\
  m'.(Model.m_triangleCount) = wrap_u32 (sumZ thirds) /\
  m'.(Model.m_vertCount) = wrap_u32 (sumZ (fst <$> declared)) /\
  (sumZ thirds < 2 ^ 32 -> m'.(Model.m_triangleCount) = sumZ thirds) /\
  (sumZ (fst <$> declared) < 2 ^ 32 ->
   m'.(Model.m_vertCount) = sumZ (fst <$> declared)).
Proof.
  intros Hopen Hload Hvc Htc Hsc. unfold declared_counts.
  unfold Model.loadModel in Hload. rewrite Hopen in Hload.
  destruct (read_u32 buf 0 =? MAKEFOURCC 19 char_g char_m char_P).
  - apply loadModel0x13_pieces in Hload
      as (Hlen & Hpieces & Hv & Ht & _); [| by rewrite ?Hvc, ?Htc, ?Hsc ..].
    rewrite Hvc in Hv. rewrite Htc in Ht.
    apply (accepted_counts P13.m_verts P13.m_edges); try assumption.
    intros i p piece Hp Hpiece.
    destruct (Hpieces i p piece Hp Hpiece) as (? & ? & _ & ? & ?). by repeat split.
  - destruct (read_u32 buf 0 =? MAKEFOURCC 20 char_g char_m char_P);
      [| discriminate].
    apply loadModel0x14_pieces in Hload
      as (Hlen & Hpieces & Hv & Ht & _); [| by rewrite ?Hvc, ?Htc, ?Hsc ..].
    rewrite Hvc in Hv. rewrite Htc in Ht.
    apply (accepted_counts P14.m_verts P14.m_edges); try assumption.
    intros i p piece Hp Hpiece.
    destruct (Hpieces i p piece Hp Hpiece) as (? & ? & _ & ? & ?). by repeat split.
Qed.

(** C10: when the version 0x14 decoder accepts a buffer, starting from
    counters at zero, every piece has the influence width [m_weight_width]
    of the header, so all pieces have the same one, and [m_skinVertCount] is
    either 0 or [m_vertCount], the total of the vertex counts the pieces
    declare: 0 when that width is 0, the total when it is positive. *)
Theorem loadModel0x14_weight_width (buf : buffer) (m m' : model) :
  loadModel0x14 buf m = Some (true, m') ->
  m.(Model.m_vertCount) = 0 ->
  m.(Model.m_triangleCount) = 0 ->
  m.(Model.m_skinVertCount) = 0 ->
  let weight_width := (cast_at H14.t buf 0).(H14.m_weight_width) in
  let total := sumZ (P14.m_verts <$> declared_pieces_0x14 buf) in
  (forall (i : nat) (p : Piece.t),
     m'.(Model.m_pieces) !! i = Some p -> p.(Piece.m_bones) = weight_width) /\
  (forall (i j : nat) (p q : Piece.t),
     m'.(Model.m_pieces) !! i = Some p -> m'.(Model.m_pieces) !! j = Some q ->
     p.(Piece.m_bones) = q.(Piece.m_bones)) /\
  (m'.(Model.m_skinVertCount) = 0 \/
   m'.(Model.m_skinVertCount) = m'.(Model.m_vertCount)) /\
  (weight_width = 0 -> m'.(Model.m_skinVertCount) = 0) /\
  (0 < weight_width -> m'.(Model.m_skinVertCount) = m'.(Model.m_vertCount)) /\
  m'.(Model.m_vertCount) = wrap_u32 total /\
  (total < 2 ^ 32 -> m'.(Model.m_vertCount) = total).
Proof.
  intros Hload Hvc Htc Hsc weight_width total.
  apply loadModel0x14_pieces in Hload
    as (Hlen & Hpieces & Hv & _ & Hs); [| by rewrite ?Hvc, ?Htc, ?Hsc ..].
  rewrite Hvc, Z.add_0_l in Hv. rewrite Hsc, Z.add_0_l in Hs.
  fold weight_width in Hs, Hpieces. fold total in Hv.
  assert (Hwidth : forall (i : nat) (p : Piece.t),
            m'.(Model.m_pieces) !! i = Some p -> p.(Piece.m_bones) = weight_width).
  { intros i p Hp.
    destruct (lookup_lt_is_Some_2 (declared_pieces_0x14 buf) i) as [piece Hpiece].
    { rewrite <- Hlen. by apply lookup_lt_Some in Hp. }
    by destruct (Hpieces i p piece Hp Hpiece) as (_ & _ & ? & _). }
  assert (Hnone : weight_width <= 0 -> m'.(Model.m_skinVertCount) = 0).
  { intros Hw. rewrite Hs.
    destruct (Z.ltb_spec 0 weight_width) as [Hpos | _]; [lia |].
    assert (Hzero : forall l : list P14.t,
              sumZ ((fun _ : P14.t => 0) <$> l) = 0).
    { induction l as [| x l IH]; [done |].
      by rewrite fmap_cons, sumZ_cons, IH. }
    change (wrap_u32 (sumZ ((fun _ : P14.t => 0) <$> declared_pieces_0x14 buf)) = 0).
    by rewrite Hzero. }
  assert (Hall : 0 < weight_width ->
                 m'.(Model.m_skinVertCount) = m'.(Model.m_vertCount)).
  { intros Hw. rewrite Hs, Hv.
    destruct (Z.ltb_spec 0 weight_width) as [_ | Hneg]; [done | lia]. }
  split; [exact Hwidth |].
  split; [intros i j p q Hp Hq; by rewrite (Hwidth i p Hp), (Hwidth j q Hq) |].
  split; [destruct (Z.le_gt_cases weight_width 0); [left | right]; auto with zarith |].
  split; [intros Hw; apply Hnone; lia | split; [exact Hall | split; [exact Hv |]]].
  intros Hfit. rewrite Hv. apply wrap_u32_small. split; [| exact Hfit].
  apply sumZ_nonneg. intros piece Hin.
  apply list_elem_of_lookup in Hin as [i Hi].
  destruct (lookup_lt_is_Some_2 m'.(Model.m_pieces) i) as [p Hp].
  { rewrite Hlen. by apply lookup_lt_Some in Hi. }
  by destruct (Hpieces i p piece Hp Hi) as (? & _).
Qed.

(** *** The descriptor decoder: looks *)

Local Abbreviation load_material :=
  (Model.load_material Material_load).
Local Abbreviation load_look :=
  (Model.load_look token_to_string Material_load).




(** *** The descriptor decoder: variants *)

Local Abbreviation load_attribute :=
  (Model.load_attribute token_t_to_string Attribute_ctor).
Local Abbreviation load_attributes :=
  (Model.load_attributes token_t_to_string Attribute_ctor).
Local Abbreviation load_variant_part :=
  (Model.load_variant_part token_t_to_string Attribute_ctor).
Local Abbreviation load_variant :=
  (Model.load_variant token_t_to_string Attribute_ctor).
Local Abbreviation attributes_of :=
  (expected_attributes token_t_to_string Attribute_ctor).
Local Abbreviation warnings_of_part :=
  (part_warnings token_t_to_string Attribute_ctor).
Local Abbreviation warnings_of_variant :=
  (variant_warnings token_t_to_string Attribute_ctor).
Local Abbreviation warnings_of_descriptor :=
  (descriptor_warnings token_t_to_string Attribute_ctor).
Local Abbreviation part_loop_post :=
  (part_loop_post token_t_to_string Attribute_ctor).
Local Abbreviation variant_loop_post :=
  (variant_loop_post token_t_to_string Attribute_ctor).

Lemma seqZ_to_nat (m n : Z) : seqZ m (Z.of_nat (Z.to_nat n)) = seqZ m n.
Proof.
  destruct (Z.le_gt_cases 0 n) as [Hpos | Hneg].
  - by rewrite Z2Nat.id.
  - rewrite (seqZ_nil m n) by lia.
    replace (Z.to_nat n) with 0%nat by lia. reflexivity.
Qed.

Lemma seqZ_snoc (n : nat) :
  seqZ 0 (Z.of_nat n + 1) = seqZ 0 (Z.of_nat n) ++ [Z.of_nat n].
Proof.
  replace (Z.of_nat n + 1) with (Z.of_nat (S n)) by lia.
  by rewrite seqZ_S, Z.add_0_l.
Qed.

(** A loop that pushes one element per pass. *)
Lemma push_loop_spec {A B : Type} (f : Z -> A * list B) (n : nat) :
  forall (from : Z) (pushed : list A) (out : list B),
    for_pure from n
      (fun k '(pushed, out) => let '(x, w) := f k in (pushed ++ [x], out ++ w))
      (pushed, out)
    = (pushed ++ ((fun k => (f k).1) <$> seqZ from (Z.of_nat n)),
       out ++ (seqZ from (Z.of_nat n) ≫= fun k => (f k).2)).
Proof.
  induction n as [| n IH]; intros from pushed out.
  - simpl. by rewrite !app_nil_r.
  - rewrite seqZ_cons by lia.
    replace (Z.pred (Z.of_nat (S n))) with (Z.of_nat n) by lia.
    cbn [for_pure]. destruct (f from) as [x w] eqn:Hf.
    rewrite IH, fmap_cons, Hf. cbn [fst snd mbind list_bind].
    rewrite Hf. cbn [snd]. replace (Z.succ from) with (from + 1) by lia.
    by rewrite <- !app_assoc.
Qed.

(** The attribute loop pushes one attribute per definition of the range. *)
Lemma load_attributes_spec (buf : buffer) (header : HD.t) (i j : Z)
    (m_attributes : list Variant.Attribute.t) (out : list warning) :
  load_attributes buf header i j (m_attributes, out)
  = (m_attributes ++ attributes_of buf header i j,
     out ++ warnings_of_part buf header i j).
Proof.
  unfold Model.load_attributes, expected_attributes, part_warnings,
    attribute_range. cbv zeta.
  rewrite (push_loop_spec (load_attribute buf header i)).
  by rewrite seqZ_to_nat.
Qed.

Lemma bind_snoc {A B : Type} (f : A -> list B) (l : list A) (x : A) :
  (l ++ [x]) ≫= f = (l ≫= f) ++ f x.
Proof. rewrite bind_app. simpl. by rewrite app_nil_r. Qed.

Lemma part_loop_spec (buf : buffer) (header : HD.t) (i : Z) (name : string)
    (parts n : nat) (out : list warning) :
  (n <= parts)%nat ->
  part_loop_post buf header i name parts out (Z.of_nat n)
    (for_pure 0 n (load_variant_part buf header i)
       ({| Variant.m_name := name;
           Variant.m_parts := replicate parts Variant.Part.ctor |}, out)).
Proof.
  intros Hn.
  apply (for_pure_inv (part_loop_post buf header i name parts out)).
  - intros jz [variant o] Hj (Hname & Hlen & Hdone & Hnew & Hout).
    simpl in Hname, Hlen, Hdone, Hnew, Hout.
    destruct (Z_of_nat_complete jz) as [j ->]; [lia |].
    unfold Model.load_variant_part.
    rewrite (array_get_lookup _ _ _ _ (Hnew j ltac:(lia) ltac:(lia))).
    rewrite load_attributes_spec. cbn [Variant.Part.m_attributes Variant.Part.ctor].
    unfold part_loop_post. cbn [fst snd Variant.m_name Variant.m_parts].
    rewrite array_set_length, seqZ_snoc, bind_snoc, Hout, app_assoc.
    repeat split; try done.
    + intros j' Hj'. destruct (decide (j' = j)) as [-> | Hne].
      * rewrite array_set_lookup_eq by lia. reflexivity.
      * rewrite array_set_lookup_ne by lia. apply Hdone. lia.
    + intros j' Hj' Hcap. rewrite array_set_lookup_ne by lia.
      apply Hnew; [lia | exact Hcap].
  - unfold part_loop_post. simpl. rewrite length_replicate, app_nil_r.
    repeat split; try done.
    + intros j Hj. lia.
    + intros j _ Hj. by apply lookup_replicate_2.
Qed.

Lemma variant_loop_spec (buf : buffer) (header : HD.t) (variants : nat)
    (st : list Variant.t * list warning) :
  for_loop 0 variants (load_variant buf header)
    (replicate variants Variant.ctor, []) = Some st ->
  variant_loop_post buf header variants (Z.of_nat variants) st.
Proof.
  intros Hrun.
  apply (for_loop_inv (variant_loop_post buf header variants)
           (load_variant buf header) variants 0
           (replicate variants Variant.ctor, []) st); [| | exact Hrun].
  - clear st Hrun. intros iz [vs o] st Hi (Hlen & Hdone & Hnew & Hout) Hpass.
    simpl in Hlen, Hdone, Hnew, Hout.
    destruct (Z_of_nat_complete iz) as [i ->]; [lia |].
    unfold Model.load_variant in Hpass.
    rewrite (array_get_lookup _ _ _ _ (Hnew i ltac:(lia) ltac:(lia))) in Hpass.
    apply bind_Some in Hpass as (variant & Hresize & Hpass).
    unfold Variant.setPartCount in Hresize.
    apply bind_Some in Hresize as (ps & Hps & Hvariant).
    apply vec_resize_Some in Hps as [Hcount ->].
    injection Hvariant as <-.
    cbn [Variant.m_parts Variant.m_name Variant.ctor] in Hpass.
    rewrite resize_nil in Hpass.
    pose proof (part_loop_spec buf header (Z.of_nat i)
                  (token_t_to_string
                     (elem_at token_t buf header.(HD.m_variant_offset) (Z.of_nat i)))
                  (Z.to_nat header.(HD.m_part_count))
                  (Z.to_nat header.(HD.m_part_count)) o (le_n _)) as Hparts.
    destruct (for_pure 0 _ _ _) as [variant' o'].
    injection Hpass as <-.
    destruct Hparts as (_ & Hplen & Hpdone & _ & Ho').
    simpl in Hplen, Hpdone, Ho'.
    rewrite Z2Nat.id in Hpdone, Ho' by exact Hcount.
    unfold variant_loop_post. cbn [fst snd].
    rewrite array_set_length, seqZ_snoc, bind_snoc, Ho', Hout.
    split; [exact Hlen |]. split; [| split; [| reflexivity]].
    + intros i' variant Hi' Hv.
      destruct (decide (i' = i)) as [-> | Hne].
      * rewrite array_set_lookup_eq in Hv by lia. injection Hv as <-.
        split; [exact Hplen |].
        intros j part Hpart.
        assert (Hj : (j < Z.to_nat header.(HD.m_part_count))%nat).
        { rewrite <- Hplen. by apply lookup_lt_Some in Hpart. }
        rewrite Hpdone in Hpart by lia. by injection Hpart as <-.
      * rewrite array_set_lookup_ne in Hv by lia.
        apply (Hdone i' variant); [lia | exact Hv].
    + intros i' Hi' Hcap. rewrite array_set_lookup_ne by lia.
      apply Hnew; [lia | exact Hcap].
  - unfold variant_loop_post. simpl. rewrite length_replicate.
    split; [reflexivity |]. split; [| split; [| reflexivity]].
    + intros i variant Hi. lia.
    + intros i _ Hi. by apply lookup_replicate_2.
Qed.

(** C2 (amended): for an attribute definition whose type code is not 0, the
    descriptor decoder prints a warning and still pushes the attribute, as
    its constructor made it from the name.  So, in a model that had no
    variants, the attribute list of every part of every variant has exactly
    one attribute per definition of the [from, to) range of the part,
    whatever the type codes, and one warning is printed per definition of an
    unknown type, for every variant. *)
Theorem loadDescriptor_keeps_unknown_attributes
    (m m' : model) (buf : buffer) (out : list warning) :
  ufs.(fs_open) (m.(Model.m_filePath) +:+ ".pmd") = Some buf ->
  loadDescriptor m = Some (true, m', out) ->
  m.(Model.m_variants) = [] ->
  let header := cast_at HD.t buf 0 in
  (forall (i k : Z),
     let attribDef :=
       elem_at pmd.pmd_attrib_def_t.t buf header.(HD.m_attribs_offset) k in
     attribDef.(pmd.pmd_attrib_def_t.m_type) <> 0 ->
     load_attribute buf header i k
     = (Attribute_ctor (token_t_to_string attribDef.(pmd.pmd_attrib_def_t.m_name)),
        [InvalidAttributeType attribDef.(pmd.pmd_attrib_def_t.m_type)])) /\
  (forall (i j : nat) (variant : Variant.t) (part : Variant.Part.t),
     m'.(Model.m_variants) !! i = Some variant ->
     variant.(Variant.m_parts) !! j = Some part ->
     let attribLink :=
       elem_at pmd.pmd_attrib_link_t.t buf header.(HD.m_part_attribs_offset)
         (Z.of_nat j) in
     part.(Variant.Part.m_attributes)
     = attributes_of buf header (Z.of_nat i) (Z.of_nat j) /\
     length part.(Variant.Part.m_attributes)
     = Z.to_nat (attribLink.(pmd.pmd_attrib_link_t.m_to)
                 - attribLink.(pmd.pmd_attrib_link_t.m_from))) /\
  out = warnings_of_descriptor buf header.
Proof.
  intros Hopen H Hnew header.
  split.
  { intros i k attribDef Htype. unfold Model.load_attribute. fold attribDef.
    by destruct (Z.eqb_spec attribDef.(pmd.pmd_attrib_def_t.m_type) 0). }
  unfold Model.loadDescriptor in H. rewrite Hopen in H.
  unfold Model.loadDescriptor_buffer in H. fold header in H.
  destruct (negb _); [discriminate |].
  apply bind_Some in H as (looks & _ & H).
  apply bind_Some in H as (looks' & _ & H).
  apply bind_Some in H as (variants & Hvariants & H).
  apply bind_Some in H as (st & Hloop & H).
  injection H as <- <-. cbn [Model.m_variants Model.with_descriptor].
  apply vec_resize_Some in Hvariants as [Hcount ->].
  rewrite Hnew, resize_nil, length_replicate in Hloop.
  apply variant_loop_spec in Hloop as (Hlen & Hdone & _ & Hout).
  rewrite Z2Nat.id in Hdone, Hout by exact Hcount.
  split; [| exact Hout].
  intros i j variant part Hvariant Hpart. cbv zeta.
  destruct (Hdone i variant) as [_ Hattrs]; [| exact Hvariant |].
  { apply lookup_lt_Some in Hvariant. lia. }
  rewrite (Hattrs j part Hpart). split; [reflexivity |].
  unfold expected_attributes, attribute_range.
  by rewrite length_fmap, length_seqZ.
Qed.

(** *** The geometry decoders run on a model without geometry

    [load] keeps the invariant [consistent], which an empty model has, and
    gives the geometry decoder a model whose geometry containers are empty
    and whose counters are zero: the pieces it decodes are new. *)

Lemma loadModel_refused (m m' : model) :
  loadModel m = Some (false, m') -> m' = m.
Proof.
  unfold Model.loadModel. intros H.
  destruct (fs_open ufs _) as [buf |]; [| by simplify_eq/=].
  destruct (_ =? _).
  - unfold Model.loadModel0x13 in H.
    destruct (H13.m_signature _) as [[s0 s1] s2].
    destruct (_ || _); [by simplify_eq/= |].
    do 5 (apply bind_Some in H as (? & _ & H)). discriminate.
  - destruct (_ =? _); [| by simplify_eq/=].
    unfold Model.loadModel0x14 in H.
    destruct (H14.m_signature _) as [[s0 s1] s2].
    destruct (_ || _); [by simplify_eq/= |].
    do 5 (apply bind_Some in H as (? & _ & H)). discriminate.
Qed.

Lemma load_from_scratch (filePath : string) (m m' : model) (ok : bool) :
  consistent m ->
  load filePath m = Some (ok, m') ->
  consistent m' /\
  (ok = true ->
   exists md : model,
     no_geometry md /\ md.(Model.m_filePath) = filePath /\
     exists mg : model,
       loadModel md = Some (true, mg) /\ same_geometry mg m').
Proof.
  intros Hinv Hload. unfold Model.load in Hload.
  apply bind_Some in Hload as (m_fileName & _ & Hload).
  apply bind_Some in Hload as ([[okd md] out] & Hdesc & Hload).
  apply loadDescriptor_frame in Hdesc as (Hgeo & Hframe).
  assert (Hscratch : no_geometry md /\ md.(Model.m_loaded) = false
                     /\ md.(Model.m_filePath) = filePath).
  { destruct Hgeo as (Hb & Hl & Hp & Hpc & Hv & Ht & Hs).
    destruct Hframe as (Hloaded & Hpath & _).
    unfold no_geometry. rewrite Hb, Hl, Hp, Hpc, Hv, Ht, Hs, Hloaded, Hpath.
    destruct (Model.m_loaded m) eqn:Hwas; simpl; [by repeat split |].
    split; [exact (Hinv Hwas) | by split]. }
  destruct Hscratch as (Hnone & Hnotloaded & Hpath).
  destruct okd; simpl in Hload.
  - apply bind_Some in Hload as ([okg mg] & Hmodel & Hload).
    destruct okg; simpl in Hload.
    + injection Hload as <- <-. split; [intros Hl; discriminate Hl |].
      intros _. exists md. split; [exact Hnone | split; [exact Hpath |]].
      exists mg. split; [exact Hmodel |].
      unfold same_geometry, Model.loadCollision.
      destruct (fs_exists ufs (Model.m_filePath mg +:+ ".ppd"));
        destruct (fs_exists ufs _); simpl;
        try destruct (Collision_load _ _ _); by repeat split.
    + injection Hload as <- <-.
      apply loadModel_refused in Hmodel as ->.
      split; [intros _; exact Hnone | discriminate].
  - injection Hload as <- <-. split; [intros _; exact Hnone | discriminate].
Qed.

End Loader.

(** * Further properties of the loader *)

(** ** Loops that must throw, loops that fill a vector *)

(** A loop with a pass that throws on every state throws. *)
Lemma for_loop_throws {St : Type} (body : Z -> St -> option St) :
  forall (n : nat) (from : Z) (s : St) (i : Z),
    from <= i < from + Z.of_nat n ->
    (forall s, body i s = None) ->
    for_loop from n body s = None.
Proof.
  induction n as [| n IH]; intros from s i Hi Hthrow; [lia |].
  simpl. destruct (decide (i = from)) as [-> | Hne].
  - by rewrite Hthrow.
  - destruct (body from s) as [s1 |]; [| reflexivity]. simpl.
    apply (IH (from + 1) s1 i); [lia | exact Hthrow].
Qed.

(** A loop that assigns every element of a vector leaves the assigned
    values and nothing of what the vector held. *)
Lemma fill_loop_all {A : Type} (g : Z -> A) (n : nat) (l : list A) :
  length l = n ->
  for_pure 0 n (fun k l => array_set k (g k) l) l = g <$> seqZ 0 (Z.of_nat n).
Proof.
  intros Hn.
  destruct (fill_loop_spec g n 0 l) as (Hlen & Hset & _).
  apply list_eq. intros k.
  destruct (decide (k < n)%nat) as [Hk | Hk].
  - rewrite Hset by lia.
    rewrite list_lookup_fmap, lookup_seqZ_lt by lia.
    simpl. by rewrite Z.add_0_l.
  - rewrite (lookup_ge_None_2 _ k) by lia.
    symmetry. apply lookup_ge_None_2. rewrite length_fmap, length_seqZ. lia.
Qed.

Lemma vec_resize_throws {A : Type} (n : Z) (d : A) (v : list A) :
  n < 0 -> vec_resize n d v = None.
Proof. intros Hn. unfold vec_resize. by destruct (Z.ltb_spec n 0); [| lia]. Qed.

Lemma vec_resize_returns {A : Type} (n : Z) (d : A) (v : list A) :
  0 <= n -> vec_resize n d v = Some (resize (Z.to_nat n) d v).
Proof. intros Hn. unfold vec_resize. by destruct (Z.ltb_spec n 0); [lia |]. Qed.

(** The truncating quotient by 3 is negative from -3 downwards. *)
Lemma quot3_nonneg (e : Z) : 0 <= e ÷ 3 <-> -3 < e.
Proof. Z.to_euclidean_division_equations. lia. Qed.

(** ** Further properties of the piece decoders *)





Section PieceFacts.

Variable BONE_COUNT : nat.
Context {vertex_ctor : Constructible Vertex.t}
        {triangle_ctor : Constructible Triangle.t}
        {triangle_layout : Layout pmg_0x13.pmg_triangle_t.t}
        {index_layout : Layout pmg_0x14.pmg_index_t.t}.

(** A pass of the piece loop throws exactly when the piece record declares
    a negative vertex count or an edge count of -3 or less. *)
Lemma decode_piece_0x14_returns (buf : buffer) (weight_width : Z) (piece : P14.t)
    (i : Z) (cur : Piece.t) :
  is_Some (decode_piece_0x14 BONE_COUNT buf weight_width piece i cur)
  <-> 0 <= piece.(P14.m_verts) /\ -3 < piece.(P14.m_edges).
Proof.
  rewrite <- quot3_nonneg. split.
  - intros [p Hp].
    by destruct (decode_piece_0x14_inv _ _ _ _ _ _ _ Hp) as (? & ? & _).
  - intros [Hv He]. unfold decode_piece_0x14.
    rewrite (vec_resize_returns _ _ _ Hv), (vec_resize_returns _ _ _ He).
    simpl. by eexists.
Qed.

Lemma decode_piece_0x13_returns (buf : buffer) (piece : P13.t)
    (i : Z) (cur : Piece.t) :
  is_Some (decode_piece_0x13 BONE_COUNT buf piece i cur)
  <-> 0 <= piece.(P13.m_verts) /\ -3 < piece.(P13.m_edges).
Proof.
  rewrite <- quot3_nonneg. split.
  - intros [p Hp].
    by destruct (decode_piece_0x13_inv _ _ _ _ _ _ Hp) as (? & ? & _).
  - intros [Hv He]. unfold decode_piece_0x13.
    rewrite (vec_resize_returns _ _ _ Hv), (vec_resize_returns _ _ _ He).
    simpl. destruct (pool_sizes_0x13 piece). by eexists.
Qed.

(** X1: The triangles of a decoded piece are the index records of the piece,
    in order, whatever the piece held before: triangle [j] has the three
    vertex indices of record [j] at the triangle offset, and there are as
    many as the edge count divided by 3 towards zero. *)
Theorem decode_piece_triangles :
  (forall (buf : buffer) (weight_width : Z) (piece : P14.t) (i : Z)
          (cur p : Piece.t),
     decode_piece_0x14 BONE_COUNT buf weight_width piece i cur = Some p ->
     p.(Piece.m_triangles) = declared_triangles_0x14 buf piece) /\
  (forall (buf : buffer) (piece : P13.t) (i : Z) (cur p : Piece.t),
     decode_piece_0x13 BONE_COUNT buf piece i cur = Some p ->
     p.(Piece.m_triangles) = declared_triangles_0x13 buf piece).
Proof.
  split.
  - intros buf weight_width piece i cur p H. unfold decode_piece_0x14 in H.
    apply bind_Some in H as (vertices & Hv & H).
    apply bind_Some in H as (triangles & Ht & H).
    apply vec_resize_Some in Ht as [Hedges ->].
    injection H as <-. cbn [Piece.m_triangles stream_flags_0x14].
    unfold decode_triangles_0x14, declared_triangles_0x14.
    rewrite (fill_loop_all
               (fun j => {| Triangle.m_a :=
                              (elem_at pmg_0x14.pmg_index_t.t buf
                                 piece.(P14.m_index_offset) j).(pmg_0x14.pmg_index_t.a) |}))
      by apply length_resize.
    by rewrite Z2Nat.id.
  - intros buf piece i cur p H. unfold decode_piece_0x13 in H.
    apply bind_Some in H as (vertices & Hv & H).
    apply bind_Some in H as (triangles & Ht & H).
    apply vec_resize_Some in Ht as [Hedges ->].
    destruct (pool_sizes_0x13 piece).
    injection H as <-. cbn [Piece.m_triangles stream_flags_0x13].
    unfold decode_triangles_0x13, declared_triangles_0x13.
    rewrite (fill_loop_all
               (fun j => {| Triangle.m_a :=
                              (elem_at pmg_0x13.pmg_triangle_t.t buf
                                 piece.(P13.m_triangle_offset) j).(pmg_0x13.pmg_triangle_t.a) |}))
      by apply length_resize.
    by rewrite Z2Nat.id.
Qed.

(** X2: In a new piece the stream count a decoder leaves is the number of
    streams the piece record has: one for each of the position, normal,
    tangent and two colour streams that is present, and the number of
    texture coordinate channels if the texture coordinate stream is; a flag
    is set exactly when its stream is present.  The bone streams are not
    counted. *)
Theorem decode_piece_stream_count :
  (forall (buf : buffer) (weight_width : Z) (piece : P14.t) (i : Z)
          (cur p : Piece.t),
     decode_piece_0x14 BONE_COUNT buf weight_width piece i cur = Some p ->
     no_streams cur ->
     p.(Piece.m_streamCount)
     = stream_size piece.(P14.m_vert_position_offset) 1
       + stream_size piece.(P14.m_vert_normal_offset) 1
       + stream_size piece.(P14.m_vert_tangent_offset) 1
       + stream_size piece.(P14.m_vert_texcoord_offset) piece.(P14.m_texcoord_width)
       + stream_size piece.(P14.m_vert_color_offset) 1
       + stream_size piece.(P14.m_vert_color2_offset) 1 /\
     p.(Piece.m_position) = present piece.(P14.m_vert_position_offset) /\
     p.(Piece.m_normal) = present piece.(P14.m_vert_normal_offset) /\
     p.(Piece.m_tangent) = present piece.(P14.m_vert_tangent_offset) /\
     p.(Piece.m_texcoord) = present piece.(P14.m_vert_texcoord_offset) /\
     p.(Piece.m_color) = present piece.(P14.m_vert_color_offset) /\
     p.(Piece.m_color2) = present piece.(P14.m_vert_color2_offset)) /\
  (forall (buf : buffer) (piece : P13.t) (i : Z) (cur p : Piece.t),
     decode_piece_0x13 BONE_COUNT buf piece i cur = Some p ->
     no_streams cur ->
     p.(Piece.m_streamCount)
     = stream_size piece.(P13.m_vert_position_offset) 1
       + stream_size piece.(P13.m_vert_normal_offset) 1
       + stream_size piece.(P13.m_vert_tangent_offset) 1
       + stream_size piece.(P13.m_vert_uv_offset) piece.(P13.m_uv_channels)
       + stream_size piece.(P13.m_vert_rgba_offset) 1
       + stream_size piece.(P13.m_vert_rgba2_offset) 1 /\
     p.(Piece.m_position) = present piece.(P13.m_vert_position_offset) /\
     p.(Piece.m_normal) = present piece.(P13.m_vert_normal_offset) /\
     p.(Piece.m_tangent) = present piece.(P13.m_vert_tangent_offset) /\
     p.(Piece.m_texcoord) = present piece.(P13.m_vert_uv_offset) /\
     p.(Piece.m_color) = present piece.(P13.m_vert_rgba_offset) /\
     p.(Piece.m_color2) = present piece.(P13.m_vert_rgba2_offset)).
Proof.
  split.
  - intros buf weight_width piece i cur p H (Hc & Hp & Hn & Ht & Hx & Hr & Hr2).
    unfold decode_piece_0x14 in H.
    apply bind_Some in H as (vertices & _ & H).
    apply bind_Some in H as (triangles & _ & H).
    injection H as <-. simpl. rewrite Hc, Hp, Hn, Ht, Hx, Hr, Hr2.
    unfold stream_size, present. rewrite !orb_false_r.
    split; [| by repeat split].
    repeat match goal with
           | |- context [?o =? -1] => destruct (o =? -1)
           end; simpl; lia.
  - intros buf piece i cur p H (Hc & Hp & Hn & Ht & Hx & Hr & Hr2).
    unfold decode_piece_0x13 in H.
    apply bind_Some in H as (vertices & _ & H).
    apply bind_Some in H as (triangles & _ & H).
    destruct (pool_sizes_0x13 piece).
    injection H as <-. simpl. rewrite Hc, Hp, Hn, Ht, Hx, Hr, Hr2.
    unfold stream_size, present. rewrite !orb_false_r.
    split; [| by repeat split].
    repeat match goal with
           | |- context [?o =? -1] => destruct (o =? -1)
           end; simpl; lia.
Qed.


(** X4: A vertex is skinned only from streams that are all there.  Take a
    new piece whose texture coordinate channels, if it has that stream, fit
    the texture coordinate array of a vertex.  If it is of version 0x14 and
    lacks the bone index stream or the bone weight stream, or of version
    0x13 and lacks the bind stream, every vertex keeps the bone arrays its
    constructor made, whatever influence width the piece has. *)
Theorem unskinned_piece_keeps_bone_arrays :
  (forall (buf : buffer) (weight_width : Z) (piece : P14.t) (i : Z)
          (cur p : Piece.t) (j : nat) (v : Vertex.t),
     decode_piece_0x14 BONE_COUNT buf weight_width piece i cur = Some p ->
     cur.(Piece.m_vertices) = [] ->
     (p.(Piece.m_texcoord) = true ->
      piece.(P14.m_texcoord_width)
      <= Z.of_nat (length (default_constructed Vertex.t).(Vertex.m_texcoords))) ->
     piece.(P14.m_vert_bone_index_offset) = -1
     \/ piece.(P14.m_vert_bone_weight_offset) = -1 ->
     p.(Piece.m_vertices) !! j = Some v ->
     p.(Piece.m_bones) = weight_width /\
     v.(Vertex.m_boneIndex) = (default_constructed Vertex.t).(Vertex.m_boneIndex) /\
     v.(Vertex.m_boneWeight) = (default_constructed Vertex.t).(Vertex.m_boneWeight)) /\
  (forall (buf : buffer) (piece : P13.t) (i : Z) (cur p : Piece.t)
          (j : nat) (v : Vertex.t),
     decode_piece_0x13 BONE_COUNT buf piece i cur = Some p ->
     cur.(Piece.m_vertices) = [] ->
     (p.(Piece.m_texcoord) = true ->
      piece.(P13.m_uv_channels)
      <= Z.of_nat (length (default_constructed Vertex.t).(Vertex.m_texcoords))) ->
     piece.(P13.m_anim_bind_offset) = -1 ->
     p.(Piece.m_vertices) !! j = Some v ->
     p.(Piece.m_bones) = piece.(P13.m_bone_count) /\
     v.(Vertex.m_boneIndex) = (default_constructed Vertex.t).(Vertex.m_boneIndex) /\
     v.(Vertex.m_boneWeight) = (default_constructed Vertex.t).(Vertex.m_boneWeight)).
Proof.
  split.
  - intros buf weight_width piece i cur p j v Hp Hnew _ Hoff Hv.
    destruct (decode_piece_0x14_inv _ _ _ _ _ _ _ Hp)
      as (_ & _ & Hbones & _ & _ & _ & _ & _ & _ & _ & _ & Hvert).
    destruct (Hvert j v Hv) as (vert & Hold & ->).
    rewrite Hnew, resize_nil in Hold. apply lookup_replicate in Hold as [-> _].
    split; [exact Hbones |].
    unfold decode_vertex_0x14. cbn [Vertex.m_boneIndex Vertex.m_boneWeight].
    destruct Hoff as [-> | ->]; simpl; [done |].
    by rewrite andb_false_r.
  - intros buf piece i cur p j v Hp Hnew _ Hoff Hv.
    destruct (decode_piece_0x13_inv _ _ _ _ _ _ Hp)
      as (_ & _ & Hbones & _ & _ & _ & _ & _ & _ & _ & _ & Hvert).
    destruct (Hvert j v Hv) as (vert & Hold & ->).
    rewrite Hnew, resize_nil in Hold. apply lookup_replicate in Hold as [-> _].
    split; [exact Hbones |].
    unfold decode_vertex_0x13. cbn [Vertex.m_boneIndex Vertex.m_boneWeight].
    by rewrite Hoff.
Qed.

(** *** The bone arrays keep their size *)

Lemma skin_0x14_lengths (buf : buffer) (piece : P14.t) (poolSize j : Z)
    (bones : list Z * list Z) :
  length (skin_0x14 BONE_COUNT buf piece poolSize j bones).1 = length bones.1 /\
  length (skin_0x14 BONE_COUNT buf piece poolSize j bones).2 = length bones.2.
Proof.
  unfold skin_0x14. cbv zeta.
  pose (I := fun (_ : Z) (st : list Z * list Z) =>
    length st.1 = length bones.1 /\ length st.2 = length bones.2).
  apply (for_pure_inv I).
  - intros k [boneIndex boneWeight] _ [Hi Hw]. unfold I. simpl in *.
    by rewrite !array_set_length.
  - apply (for_pure_inv I); [| by split].
    intros k [boneIndex boneWeight] _ [Hi Hw]. unfold I. simpl in *.
    by rewrite !array_set_length.
Qed.

Lemma skin_0x13_lengths (buf : buffer) (piece : P13.t) (animBind : Z)
    (bones : list Z * list Z) :
  length (skin_0x13 BONE_COUNT buf piece animBind bones).1 = length bones.1 /\
  length (skin_0x13 BONE_COUNT buf piece animBind bones).2 = length bones.2.
Proof.
  unfold skin_0x13. cbv zeta.
  assert (Hloop : forall body : Z -> list Z * list Z -> list Z * list Z,
            (forall k st, length (body k st).1 = length st.1 /\
                          length (body k st).2 = length st.2) ->
            forall n from st,
              length st.1 = length bones.1 /\ length st.2 = length bones.2 ->
              length (for_pure from n body st).1 = length bones.1 /\
              length (for_pure from n body st).2 = length bones.2).
  { intros body Hbody n from st Hst.
    apply (for_pure_inv
             (fun _ st => length st.1 = length bones.1 /\
                          length st.2 = length bones.2)); [| exact Hst].
    intros k st' _ [Hi Hw]. destruct (Hbody k st') as [-> ->]. by split. }
  destruct (_ <? 0);
    repeat (apply Hloop;
            [intros k [boneIndex boneWeight]; simpl; by rewrite !array_set_length |]);
    by split.
Qed.

(** The bone arrays of the vertices of a piece decoded into a new piece are
    as long as those of a new vertex. *)
Lemma decoded_bone_arrays_0x14 (buf : buffer) (weight_width : Z) (piece : P14.t)
    (i : Z) (cur p : Piece.t) (j : nat) (v : Vertex.t) :
  decode_piece_0x14 BONE_COUNT buf weight_width piece i cur = Some p ->
  cur.(Piece.m_vertices) = [] ->
  p.(Piece.m_vertices) !! j = Some v ->
  length v.(Vertex.m_boneIndex)
  = length (default_constructed Vertex.t).(Vertex.m_boneIndex) /\
  length v.(Vertex.m_boneWeight)
  = length (default_constructed Vertex.t).(Vertex.m_boneWeight).
Proof.
  intros Hp Hnew Hv.
  destruct (decode_piece_0x14_inv _ _ _ _ _ _ _ Hp)
    as (_ & _ & _ & _ & _ & _ & _ & _ & _ & _ & _ & Hvert).
  destruct (Hvert j v Hv) as (vert & Hold & ->).
  rewrite Hnew, resize_nil in Hold. apply lookup_replicate in Hold as [-> _].
  unfold decode_vertex_0x14. cbn [Vertex.m_boneIndex Vertex.m_boneWeight].
  destruct (_ && _); [apply skin_0x14_lengths | by split].
Qed.

Lemma decoded_bone_arrays_0x13 (buf : buffer) (piece : P13.t)
    (i : Z) (cur p : Piece.t) (j : nat) (v : Vertex.t) :
  decode_piece_0x13 BONE_COUNT buf piece i cur = Some p ->
  cur.(Piece.m_vertices) = [] ->
  p.(Piece.m_vertices) !! j = Some v ->
  length v.(Vertex.m_boneIndex)
  = length (default_constructed Vertex.t).(Vertex.m_boneIndex) /\
  length v.(Vertex.m_boneWeight)
  = length (default_constructed Vertex.t).(Vertex.m_boneWeight).
Proof.
  intros Hp Hnew Hv.
  destruct (decode_piece_0x13_inv _ _ _ _ _ _ Hp)
    as (_ & _ & _ & _ & _ & _ & _ & _ & _ & _ & _ & Hvert).
  destruct (Hvert j v Hv) as (vert & Hold & ->).
  rewrite Hnew, resize_nil in Hold. apply lookup_replicate in Hold as [-> _].
  unfold decode_vertex_0x13. cbn [Vertex.m_boneIndex Vertex.m_boneWeight].
  destruct (negb _); [apply skin_0x13_lengths | by split].
Qed.

End PieceFacts.

(** ** Further properties of the geometry decoders *)

Lemma piece_loop_throws (decode : Z -> Piece.t -> option Piece.t)
    (verts edges : Z -> Z) (new_piece : Piece.t) (n : nat)
    (st : list Piece.t * counters) (i : Z) :
  0 <= i < Z.of_nat n ->
  (forall cur, decode i cur = None) ->
  for_loop 0 n (piece_pass decode verts edges new_piece) st = None.
Proof.
  intros Hi Hdec. apply (for_loop_throws _ n 0 st i); [lia |].
  intros s. unfold piece_pass. by rewrite Hdec.
Qed.


Section GeometryFacts.

Context {Prefab Collision : Type}.
Variable BONE_COUNT : nat.
Context {bone_ctor : Constructible Bone.t}
        {locator_ctor : Constructible Locator.t}
        {part_ctor : Constructible Part.t}
        {piece_ctor : Constructible Piece.t}
        {vertex_ctor : Constructible Vertex.t}
        {triangle_ctor : Constructible Triangle.t}.
Context {header13_layout : Layout H13.t}
        {bone13_layout : Layout pmg_0x13.pmg_bone_t.t}
        {part13_layout : Layout pmg_0x13.pmg_part_t.t}
        {locator13_layout : Layout pmg_0x13.pmg_locator_t.t}
        {piece13_layout : Layout P13.t}
        {triangle13_layout : Layout pmg_0x13.pmg_triangle_t.t}
        {header14_layout : Layout H14.t}
        {bone14_layout : Layout pmg_0x14.pmg_bone_data_t.t}
        {part14_layout : Layout pmg_0x14.pmg_part_t.t}
        {locator14_layout : Layout pmg_0x14.pmg_locator_t.t}
        {piece14_layout : Layout P14.t}
        {index14_layout : Layout pmg_0x14.pmg_index_t.t}.
Variable token_to_string : token_t -> string.

Local Abbreviation model := (Model.t Prefab Collision).
Local Abbreviation loadModel0x13 :=
  (Model.loadModel0x13 (Prefab := Prefab) (Collision := Collision)
     BONE_COUNT token_to_string).
Local Abbreviation loadModel0x14 :=
  (Model.loadModel0x14 (Prefab := Prefab) (Collision := Collision)
     BONE_COUNT token_to_string).

Lemma header_test_0x14 (header : H14.t) :
  (let '(signature0, signature1, signature2) := header.(H14.m_signature) in
   negb (header.(H14.m_version) =? pmg_0x14.SUPPORTED_VERSION)
   || negb ((signature2 =? char_P) && (signature1 =? char_m)
            && (signature0 =? char_g))) = false
  <-> tagged_0x14 header.
Proof.
  unfold tagged_0x14. destruct (H14.m_signature header) as [[s0 s1] s2].
  destruct (Z.eqb_spec header.(H14.m_version) pmg_0x14.SUPPORTED_VERSION);
    destruct (Z.eqb_spec s2 char_P); destruct (Z.eqb_spec s1 char_m);
    destruct (Z.eqb_spec s0 char_g); simpl; split;
    try discriminate; try (intros [? [=]]; congruence);
    try (intros _; split; congruence).
Qed.

Lemma header_test_0x13 (header : H13.t) :
  (let '(signature0, signature1, signature2) := header.(H13.m_signature) in
   negb (header.(H13.m_version) =? pmg_0x13.SUPPORTED_VERSION)
   || negb ((signature2 =? char_P) && (signature1 =? char_m)
            && (signature0 =? char_g))) = false
  <-> tagged_0x13 header.
Proof.
  unfold tagged_0x13. destruct (H13.m_signature header) as [[s0 s1] s2].
  destruct (Z.eqb_spec header.(H13.m_version) pmg_0x13.SUPPORTED_VERSION);
    destruct (Z.eqb_spec s2 char_P); destruct (Z.eqb_spec s1 char_m);
    destruct (Z.eqb_spec s0 char_g); simpl; split;
    try discriminate; try (intros [? [=]]; congruence);
    try (intros _; split; congruence).
Qed.

(** X5: The outcomes of a geometry decoder.  It returns false, and leaves
    the model as it was, when the header does not carry its version and the
    signature g, m, P, and only then: once the header is accepted it never
    returns false.  With an accepted header it throws when the header
    declares a negative number of pieces, bones, locators or parts, or a
    piece record declares a negative number of vertices or -3 edges or
    fewer (the edge count is divided by 3 towards zero, so -1 and -2 edges
    are 0 triangles and are not refused). *)
Theorem geometry_decoder_outcome :
  (forall (buf : buffer) (m : model),
     let header := cast_at H14.t buf 0 in
     (~ tagged_0x14 header -> loadModel0x14 buf m = Some (false, m)) /\
     (tagged_0x14 header ->
      forall m' : model, loadModel0x14 buf m <> Some (false, m')) /\
     (tagged_0x14 header -> ~ sized_0x14 buf -> loadModel0x14 buf m = None)) /\
  (forall (buf : buffer) (m : model),
     let header := cast_at H13.t buf 0 in
     (~ tagged_0x13 header -> loadModel0x13 buf m = Some (false, m)) /\
     (tagged_0x13 header ->
      forall m' : model, loadModel0x13 buf m <> Some (false, m')) /\
     (tagged_0x13 header -> ~ sized_0x13 buf -> loadModel0x13 buf m = None)).
Proof.
  split.
  - intros buf m header.
    pose proof (header_test_0x14 header) as Htest.
    unfold Model.loadModel0x14. fold header.
    destruct (H14.m_signature header) as [[s0 s1] s2] eqn:Hsig.
    destruct (negb _ || negb _) eqn:Hb.
    { split; [done |]. split; intros Htag; apply Htest in Htag; discriminate. }
    split; [intros Hno; exfalso; by apply Hno, Htest |].
    split.
    { intros _ m' Hfalse.
    do 5 (apply bind_Some in Hfalse as (? & _ & Hfalse)). discriminate. }
    unfold sized_0x14, declared_pieces_0x14. fold header.
    set (record := elem_at P14.t buf header.(H14.m_pieces_offset)).
    intros _ Hsized.
    destruct (Z.lt_ge_cases header.(H14.m_piece_count) 0) as [Hpc | Hpc];
      [by rewrite (vec_resize_throws _ _ _ Hpc) |].
    rewrite (vec_resize_returns _ _ _ Hpc). simpl.
    destruct (Z.lt_ge_cases header.(H14.m_bone_count) 0) as [Hbc | Hbc];
      [by rewrite (vec_resize_throws _ _ _ Hbc) |].
    rewrite (vec_resize_returns _ _ _ Hbc). simpl.
    destruct (Z.lt_ge_cases header.(H14.m_locator_count) 0) as [Hlc | Hlc];
      [by rewrite (vec_resize_throws _ _ _ Hlc) |].
    rewrite (vec_resize_returns _ _ _ Hlc). simpl.
    destruct (Z.lt_ge_cases header.(H14.m_part_count) 0) as [Hrc | Hrc];
      [by rewrite (vec_resize_throws _ _ _ Hrc) |].
    rewrite (vec_resize_returns _ _ _ Hrc). simpl.
    assert (Hbad : ~ Forall (fun piece => 0 <= piece.(P14.m_verts)
                                          /\ -3 < piece.(P14.m_edges))
                            (record <$> seqZ 0 header.(H14.m_piece_count))).
    { intros Hall. apply Hsized. repeat split; (lia || exact Hall). }
    apply not_Forall_Exists in Hbad; [| intros piece; apply _].
    apply Exists_exists in Hbad as (piece & Hin & Hpiece).
    apply list_elem_of_fmap in Hin as (i & -> & Hi).
    apply elem_of_seqZ in Hi.
    assert (Hloop : forall st,
              for_loop 0 (Z.to_nat header.(H14.m_piece_count))
                (Model.load_piece_0x14 BONE_COUNT buf header) st = None);
      [| by rewrite Hloop].
    intros st.
    apply (piece_loop_throws
             (fun i cur =>
                decode_piece_0x14 BONE_COUNT buf header.(H14.m_weight_width)
                  (record i) i cur)
             (fun i => (record i).(P14.m_verts))
             (fun i => (record i).(P14.m_edges))
             (default_constructed Piece.t) _ _ i); [lia |].
    intros cur.
    destruct (decode_piece_0x14 _ _ _ _ _ _) as [p |] eqn:Hp; [| reflexivity].
    exfalso. apply Hpiece. simpl.
    apply (decode_piece_0x14_returns BONE_COUNT buf header.(H14.m_weight_width)
             (record i) i cur). by eexists.
  - intros buf m header.
    pose proof (header_test_0x13 header) as Htest.
    unfold Model.loadModel0x13. fold header.
    destruct (H13.m_signature header) as [[s0 s1] s2] eqn:Hsig.
    destruct (negb _ || negb _) eqn:Hb.
    { split; [done |]. split; intros Htag; apply Htest in Htag; discriminate. }
    split; [intros Hno; exfalso; by apply Hno, Htest |].
    split.
    { intros _ m' Hfalse.
    do 5 (apply bind_Some in Hfalse as (? & _ & Hfalse)). discriminate. }
    unfold sized_0x13, declared_pieces_0x13. fold header.
    set (record := elem_at P13.t buf header.(H13.m_piece_offset)).
    intros _ Hsized.
    destruct (Z.lt_ge_cases header.(H13.m_piece_count) 0) as [Hpc | Hpc];
      [by rewrite (vec_resize_throws _ _ _ Hpc) |].
    rewrite (vec_resize_returns _ _ _ Hpc). simpl.
    destruct (Z.lt_ge_cases header.(H13.m_bone_count) 0) as [Hbc | Hbc];
      [by rewrite (vec_resize_throws _ _ _ Hbc) |].
    rewrite (vec_resize_returns _ _ _ Hbc). simpl.
    destruct (Z.lt_ge_cases header.(H13.m_locator_count) 0) as [Hlc | Hlc];
      [by rewrite (vec_resize_throws _ _ _ Hlc) |].
    rewrite (vec_resize_returns _ _ _ Hlc). simpl.
    destruct (Z.lt_ge_cases header.(H13.m_part_count) 0) as [Hrc | Hrc];
      [by rewrite (vec_resize_throws _ _ _ Hrc) |].
    rewrite (vec_resize_returns _ _ _ Hrc). simpl.
    assert (Hbad : ~ Forall (fun piece => 0 <= piece.(P13.m_verts)
                                          /\ -3 < piece.(P13.m_edges))
                            (record <$> seqZ 0 header.(H13.m_piece_count))).
    { intros Hall. apply Hsized. repeat split; (lia || exact Hall). }
    apply not_Forall_Exists in Hbad; [| intros piece; apply _].
    apply Exists_exists in Hbad as (piece & Hin & Hpiece).
    apply list_elem_of_fmap in Hin as (i & -> & Hi).
    apply elem_of_seqZ in Hi.
    assert (Hloop : forall st,
              for_loop 0 (Z.to_nat header.(H13.m_piece_count))
                (Model.load_piece_0x13 BONE_COUNT buf header) st = None);
      [| by rewrite Hloop].
    intros st.
    apply (piece_loop_throws
             (fun i cur => decode_piece_0x13 BONE_COUNT buf (record i) i cur)
             (fun i => (record i).(P13.m_verts))
             (fun i => (record i).(P13.m_edges))
             (default_constructed Piece.t) _ _ i); [lia |].
    intros cur.
    destruct (decode_piece_0x13 _ _ _ _ _) as [p |] eqn:Hp; [| reflexivity].
    exfalso. apply Hpiece. simpl.
    apply (decode_piece_0x13_returns BONE_COUNT buf (record i) i cur).
    by eexists.
Qed.


(** The piece loop decodes piece [k] from what the vector held at [k] and
    touches nothing else. *)
Lemma piece_loop_pieces (decode : Z -> Piece.t -> option Piece.t)
    (verts edges : Z -> Z) (new_piece : Piece.t) (n : nat)
    (pieces : list Piece.t) (c : counters) (st : list Piece.t * counters) :
  (n <= length pieces)%nat ->
  for_loop 0 n (piece_pass decode verts edges new_piece) (pieces, c) = Some st ->
  length st.1 = length pieces /\
  forall k : nat, (k < n)%nat ->
    exists cur p, pieces !! k = Some cur /\ decode (Z.of_nat k) cur = Some p /\
                  st.1 !! k = Some p.
Proof.
  intros Hn Hrun.
  pose (I := fun (i : Z) (st : list Piece.t * counters) =>
    length st.1 = length pieces /\
    (forall k : nat, Z.of_nat k < i ->
       exists cur p, pieces !! k = Some cur /\ decode (Z.of_nat k) cur = Some p /\
                     st.1 !! k = Some p) /\
    (forall k : nat, i <= Z.of_nat k -> st.1 !! k = pieces !! k)).
  assert (H : I (0 + Z.of_nat n) st).
  { apply (for_loop_inv I (piece_pass decode verts edges new_piece) n 0
             (pieces, c) st); [| | exact Hrun].
    - clear st Hrun. intros i [ps cs] st Hi (Hlen & Hdone & Hrest) Hpass.
      simpl in Hlen, Hdone, Hrest.
      destruct (Z_of_nat_complete i) as [k ->]; [lia |].
      unfold piece_pass in Hpass. simpl in Hpass.
      apply bind_Some in Hpass as (p & Hp & Hst). injection Hst as <-.
      destruct (lookup_lt_is_Some_2 pieces k) as [cur Hcur]; [lia |].
      assert (Hps : ps !! k = Some cur) by (rewrite Hrest; [done | lia]).
      rewrite (array_get_lookup _ _ _ _ Hps) in Hp.
      unfold I. simpl. rewrite array_set_length.
      split; [exact Hlen | split].
      + intros j Hj. destruct (decide (j = k)) as [-> | Hne].
        * exists cur, p. split; [exact Hcur | split; [exact Hp |]].
          apply array_set_lookup_eq. lia.
        * rewrite array_set_lookup_ne by lia. apply Hdone. lia.
      + intros j Hj. rewrite array_set_lookup_ne by lia. apply Hrest. lia.
    - unfold I. simpl. split; [reflexivity | split; [intros k Hk; lia | done]]. }
  destruct H as (Hlen & Hdone & _).
  split; [exact Hlen |]. intros k Hk. apply Hdone. lia.
Qed.

(** The pieces an accepting version 0x14 decoder leaves in the model. *)
Lemma loadModel0x14_passes (buf : buffer) (m m' : model) :
  loadModel0x14 buf m = Some (true, m') ->
  let header := cast_at H14.t buf 0 in
  length m'.(Model.m_pieces) = Z.to_nat header.(H14.m_piece_count) /\
  forall i : nat, (i < Z.to_nat header.(H14.m_piece_count))%nat ->
    exists cur p : Piece.t,
      resize (Z.to_nat header.(H14.m_piece_count)) (default_constructed Piece.t)
             m.(Model.m_pieces) !! i = Some cur /\
      decode_piece_0x14 BONE_COUNT buf header.(H14.m_weight_width)
        (elem_at P14.t buf header.(H14.m_pieces_offset) (Z.of_nat i)) (Z.of_nat i) cur
      = Some p /\
      m'.(Model.m_pieces) !! i = Some p.
Proof.
  intros H header. unfold Model.loadModel0x14 in H. fold header in H.
  destruct (H14.m_signature header) as [[s0 s1] s2].
  destruct (_ || _); [discriminate |].
  apply bind_Some in H as (pieces & Hpieces & H).
  apply bind_Some in H as (bones & _ & H).
  apply bind_Some in H as (locators & _ & H).
  apply bind_Some in H as (parts & _ & H).
  apply bind_Some in H as (st & Hloop & H).
  injection H as <-. cbn [Model.with_geometry Model.m_pieces].
  apply vec_resize_Some in Hpieces as [Hpc ->].
  set (record := elem_at P14.t buf header.(H14.m_pieces_offset)).
  apply (piece_loop_pieces
           (fun i cur => decode_piece_0x14 BONE_COUNT buf header.(H14.m_weight_width) (record i) i cur)
           (fun i => (record i).(P14.m_verts))
           (fun i => (record i).(P14.m_edges))
           (default_constructed Piece.t)) in Hloop;
    [| rewrite length_resize; lia].
  destruct Hloop as [Hlen Hdone]. rewrite length_resize in Hlen.
  split; [exact Hlen | exact Hdone].
Qed.

Lemma loadModel0x14_decoded (buf : buffer) (m m' : model) :
  loadModel0x14 buf m = Some (true, m') ->
  let header := cast_at H14.t buf 0 in
  length m'.(Model.m_pieces) = Z.to_nat header.(H14.m_piece_count) /\
  (m.(Model.m_pieces) = [] ->
   forall (i : nat) (p : Piece.t),
     m'.(Model.m_pieces) !! i = Some p ->
     decode_piece_0x14 BONE_COUNT buf header.(H14.m_weight_width)
       (elem_at P14.t buf header.(H14.m_pieces_offset) (Z.of_nat i)) (Z.of_nat i)
       (default_constructed Piece.t) = Some p).
Proof.
  intros H header.
  destruct (loadModel0x14_passes buf m m' H) as [Hlen Hdone].
  split; [exact Hlen |].
  intros Hnew i p Hp.
  assert (Hi : (i < Z.to_nat header.(H14.m_piece_count))%nat).
  { apply lookup_lt_Some in Hp. subst header. lia. }
  destruct (Hdone i Hi) as (cur & p' & Hcur & Hdec & Hp').
  rewrite Hp in Hp'. injection Hp' as <-.
  rewrite Hnew, resize_nil in Hcur. apply lookup_replicate in Hcur as [-> _].
  exact Hdec.
Qed.

(** The three tables an accepting version 0x14 decoder leaves. *)
Lemma loadModel0x14_filled (buf : buffer) (m m' : model) :
  loadModel0x14 buf m = Some (true, m') ->
  let header := cast_at H14.t buf 0 in
  (0 <= header.(H14.m_bone_count) /\
   m'.(Model.m_bones)
   = (fun i => Model.load_bone_0x14 token_to_string i
                 (elem_at pmg_0x14.pmg_bone_data_t.t buf header.(H14.m_skeleton_offset) i))
       <$> seqZ 0 header.(H14.m_bone_count)) /\
  (0 <= header.(H14.m_part_count) /\
   m'.(Model.m_parts)
   = (fun i => Model.load_part_0x14 token_to_string
                 (elem_at pmg_0x14.pmg_part_t.t buf header.(H14.m_parts_offset) i))
       <$> seqZ 0 header.(H14.m_part_count)) /\
  (0 <= header.(H14.m_locator_count) /\
   m'.(Model.m_locators)
   = (fun i => Model.load_locator_0x14 token_to_string buf header i
                 (elem_at pmg_0x14.pmg_locator_t.t buf header.(H14.m_locators_offset) i))
       <$> seqZ 0 header.(H14.m_locator_count)).
Proof.
  intros H header.
  unfold Model.loadModel0x14 in H. fold header in H.
  destruct (H14.m_signature header) as [[s0 s1] s2].
  destruct (_ || _); [discriminate |].
  apply bind_Some in H as (pieces & _ & H).
  apply bind_Some in H as (bones & Hbones & H).
  apply bind_Some in H as (locators & Hlocators & H).
  apply bind_Some in H as (parts & Hparts & H).
  apply bind_Some in H as (st & _ & H).
  injection H as <-. cbn [Model.with_geometry Model.m_bones Model.m_parts
    Model.m_locators Model.m_pieces].
  apply vec_resize_length in Hbones as [Hbc Hbones].
  apply vec_resize_length in Hlocators as [Hlc Hlocators].
  apply vec_resize_length in Hparts as [Hrc Hparts].
  split; [| split]; (split; [assumption |]).
  - rewrite (fill_loop_all
               (fun i => Model.load_bone_0x14 token_to_string i
                           (elem_at pmg_0x14.pmg_bone_data_t.t buf
                              header.(H14.m_skeleton_offset) i)) _ _ Hbones).
    by rewrite Z2Nat.id.
  - rewrite (fill_loop_all
               (fun i => Model.load_part_0x14 token_to_string
                           (elem_at pmg_0x14.pmg_part_t.t buf
                              header.(H14.m_parts_offset) i)) _ _ Hparts).
    by rewrite Z2Nat.id.
  - rewrite (fill_loop_all
               (fun i => Model.load_locator_0x14 token_to_string buf header i
                           (elem_at pmg_0x14.pmg_locator_t.t buf
                              header.(H14.m_locators_offset) i)) _ _ Hlocators).
    by rewrite Z2Nat.id.
Qed.

(** What one pass of the version 0x14 piece loop assigns from the piece
    record, whatever the piece held. *)
Lemma decode_piece_0x14_head (buf : buffer) (weight_width : Z) (piece : P14.t)
    (i : Z) (cur p : Piece.t) :
  decode_piece_0x14 BONE_COUNT buf weight_width piece i cur = Some p ->
  p.(Piece.m_index) = i /\
  p.(Piece.m_texcoordMask) = piece.(P14.m_texcoord_mask) /\
  p.(Piece.m_texcoordCount) = piece.(P14.m_texcoord_width) /\
  p.(Piece.m_material) = piece.(P14.m_material).
Proof.
  unfold decode_piece_0x14. intros H.
  apply bind_Some in H as (vertices & _ & H).
  apply bind_Some in H as (triangles & _ & H).
  
  injection H as <-. simpl. done.
Qed.

(** X6: What the version 0x14 decoder leaves when it accepts a buffer,
    whatever the model held before.  The model has as many bones, parts,
    locators and pieces as the header declares.  Bone [i] has the index [i]
    and the name, the matrices, the stretch, rotation, translation, scale,
    sign and parent of record [i] of the bone table.  Part [i] has the name
    and the locator and piece ranges of record [i] of the part table.
    Locator [i] has the index [i], the name, position, rotation and scale of
    record [i] of the locator table, and as hookup the empty string when the
    record's offset is -1, else the string at that offset of the name pool
    cut to the bytes left in the pool.  Piece [i] has the index [i], the
    texture coordinate mask and count and the material of piece record
    [i], as bone count the influence width of the header, as many
    vertices as the record declares and a third of its edges, rounded
    towards zero, as triangles. *)
Theorem loadModel0x14_tables (buf : buffer) (m m' : model) :
  loadModel0x14 buf m = Some (true, m') ->
  let header := cast_at H14.t buf 0 in
  (length m'.(Model.m_bones) = Z.to_nat header.(H14.m_bone_count) /\
   forall i : nat, (i < Z.to_nat header.(H14.m_bone_count))%nat ->
     let record :=
       elem_at pmg_0x14.pmg_bone_data_t.t buf header.(H14.m_skeleton_offset) (Z.of_nat i) in
     exists bone : Bone.t,
       m'.(Model.m_bones) !! i = Some bone /\
       bone.(Bone.m_index) = Z.of_nat i /\
       bone.(Bone.m_name) = token_to_string record.(pmg_0x14.pmg_bone_data_t.m_name) /\
       bone.(Bone.m_transReversed)
       = record.(pmg_0x14.pmg_bone_data_t.m_transformation_reversed) /\
       bone.(Bone.m_transformation) = record.(pmg_0x14.pmg_bone_data_t.m_transformation) /\
       bone.(Bone.m_stretch) = record.(pmg_0x14.pmg_bone_data_t.m_stretch) /\
       bone.(Bone.m_rotation) = record.(pmg_0x14.pmg_bone_data_t.m_rotation) /\
       bone.(Bone.m_translation) = record.(pmg_0x14.pmg_bone_data_t.m_translation) /\
       bone.(Bone.m_scale) = record.(pmg_0x14.pmg_bone_data_t.m_scale) /\
       bone.(Bone.m_signOfDeterminantOfMatrix)
       = record.(pmg_0x14.pmg_bone_data_t.m_sign_of_determinant_of_matrix) /\
       bone.(Bone.m_parent) = record.(pmg_0x14.pmg_bone_data_t.m_parent)) /\
  (length m'.(Model.m_parts) = Z.to_nat header.(H14.m_part_count) /\
   forall i : nat, (i < Z.to_nat header.(H14.m_part_count))%nat ->
     let record :=
       elem_at pmg_0x14.pmg_part_t.t buf header.(H14.m_parts_offset) (Z.of_nat i) in
     exists part : Part.t,
       m'.(Model.m_parts) !! i = Some part /\
       part.(Part.m_name) = token_to_string record.(pmg_0x14.pmg_part_t.m_name) /\
       part.(Part.m_locatorCount) = record.(pmg_0x14.pmg_part_t.m_locator_count) /\
       part.(Part.m_locatorId) = record.(pmg_0x14.pmg_part_t.m_locators_idx) /\
       part.(Part.m_pieceCount) = record.(pmg_0x14.pmg_part_t.m_piece_count) /\
       part.(Part.m_pieceId) = record.(pmg_0x14.pmg_part_t.m_pieces_idx)) /\
  (length m'.(Model.m_locators) = Z.to_nat header.(H14.m_locator_count) /\
   forall i : nat, (i < Z.to_nat header.(H14.m_locator_count))%nat ->
     let record :=
       elem_at pmg_0x14.pmg_locator_t.t buf header.(H14.m_locators_offset) (Z.of_nat i) in
     let offset := record.(pmg_0x14.pmg_locator_t.m_hookup_offset) in
     exists locator : Locator.t,
       m'.(Model.m_locators) !! i = Some locator /\
       locator.(Locator.m_index) = Z.of_nat i /\
       locator.(Locator.m_name) = token_to_string record.(pmg_0x14.pmg_locator_t.m_name) /\
       locator.(Locator.m_position) = record.(pmg_0x14.pmg_locator_t.m_position) /\
       locator.(Locator.m_rotation) = record.(pmg_0x14.pmg_locator_t.m_rotation) /\
       locator.(Locator.m_scale) = record.(pmg_0x14.pmg_locator_t.m_scale) /\
       (offset = -1 -> locator.(Locator.m_hookup) = ""%string) /\
       (offset <> -1 ->
        locator.(Locator.m_hookup)
        = substr_prefix (read_cstr buf (header.(H14.m_string_pool_offset) + offset))
            (header.(H14.m_string_pool_size) - offset))) /\
  (length m'.(Model.m_pieces) = Z.to_nat header.(H14.m_piece_count) /\
   forall i : nat, (i < Z.to_nat header.(H14.m_piece_count))%nat ->
     let record := elem_at P14.t buf header.(H14.m_pieces_offset) (Z.of_nat i) in
     exists piece : Piece.t,
       m'.(Model.m_pieces) !! i = Some piece /\
       piece.(Piece.m_index) = Z.of_nat i /\
       piece.(Piece.m_texcoordMask) = record.(P14.m_texcoord_mask) /\
       piece.(Piece.m_texcoordCount) = record.(P14.m_texcoord_width) /\
       piece.(Piece.m_bones) = header.(H14.m_weight_width) /\
       piece.(Piece.m_material) = record.(P14.m_material) /\
       Z.of_nat (length piece.(Piece.m_vertices)) = record.(P14.m_verts) /\
       Z.of_nat (length piece.(Piece.m_triangles)) = record.(P14.m_edges) ÷ 3).
Proof.
  intros H header.
  destruct (loadModel0x14_passes buf m m' H) as [Hlen Hdone].
  destruct (loadModel0x14_filled buf m m' H)
    as ((Hbc & Hbones) & (Hrc & Hparts) & (Hlc & Hlocators)).
  fold header in Hlen, Hdone, Hbc, Hbones, Hrc, Hparts, Hlc, Hlocators.
  split; [| split; [| split]].
  - split; [rewrite Hbones, length_fmap, length_seqZ; lia |].
    intros i Hi record. eexists. split.
    + rewrite Hbones, list_lookup_fmap, lookup_seqZ_lt by lia. reflexivity.
    + rewrite Z.add_0_l. repeat split.
  - split; [rewrite Hparts, length_fmap, length_seqZ; lia |].
    intros i Hi record. eexists. split.
    + rewrite Hparts, list_lookup_fmap, lookup_seqZ_lt by lia. reflexivity.
    + rewrite Z.add_0_l. repeat split.
  - split; [rewrite Hlocators, length_fmap, length_seqZ; lia |].
    intros i Hi record offset. eexists. split.
    + rewrite Hlocators, list_lookup_fmap, lookup_seqZ_lt by lia. reflexivity.
    + rewrite Z.add_0_l.
      do 5 (split; [reflexivity |]).
      cbn [Locator.m_hookup Model.load_locator_0x14]. fold record offset.
      split; intros Hoffset.
      * by rewrite Hoffset.
      * apply Z.eqb_neq in Hoffset. by rewrite Hoffset.
  - split; [exact Hlen |].
    intros i Hi record.
    destruct (Hdone i Hi) as (cur & p & _ & Hdec & Hp).
    exists p. split; [exact Hp |]. fold record in Hdec.
    destruct (decode_piece_0x14_head _ _ _ _ _ _ Hdec)
      as (Hindex & Hmask & Hcount & Hmaterial).
    destruct (decode_piece_0x14_inv _ _ _ _ _ _ _ Hdec)
      as (Hverts & Hedges & Hwidth & Hvertices & Htriangles & _).
    rewrite Hvertices, Htriangles.
    repeat split; (assumption || lia).
Qed.

(** The pieces an accepting version 0x13 decoder leaves in the model. *)
Lemma loadModel0x13_passes (buf : buffer) (m m' : model) :
  loadModel0x13 buf m = Some (true, m') ->
  let header := cast_at H13.t buf 0 in
  length m'.(Model.m_pieces) = Z.to_nat header.(H13.m_piece_count) /\
  forall i : nat, (i < Z.to_nat header.(H13.m_piece_count))%nat ->
    exists cur p : Piece.t,
      resize (Z.to_nat header.(H13.m_piece_count)) (default_constructed Piece.t)
             m.(Model.m_pieces) !! i = Some cur /\
      decode_piece_0x13 BONE_COUNT buf
        (elem_at P13.t buf header.(H13.m_piece_offset) (Z.of_nat i)) (Z.of_nat i) cur
      = Some p /\
      m'.(Model.m_pieces) !! i = Some p.
Proof.
  intros H header. unfold Model.loadModel0x13 in H. fold header in H.
  destruct (H13.m_signature header) as [[s0 s1] s2].
  destruct (_ || _); [discriminate |].
  apply bind_Some in H as (pieces & Hpieces & H).
  apply bind_Some in H as (bones & _ & H).
  apply bind_Some in H as (locators & _ & H).
  apply bind_Some in H as (parts & _ & H).
  apply bind_Some in H as (st & Hloop & H).
  injection H as <-. cbn [Model.with_geometry Model.m_pieces].
  apply vec_resize_Some in Hpieces as [Hpc ->].
  set (record := elem_at P13.t buf header.(H13.m_piece_offset)).
  apply (piece_loop_pieces
           (fun i cur => decode_piece_0x13 BONE_COUNT buf (record i) i cur)
           (fun i => (record i).(P13.m_verts))
           (fun i => (record i).(P13.m_edges))
           (default_constructed Piece.t)) in Hloop;
    [| rewrite length_resize; lia].
  destruct Hloop as [Hlen Hdone]. rewrite length_resize in Hlen.
  split; [exact Hlen | exact Hdone].
Qed.

Lemma loadModel0x13_decoded (buf : buffer) (m m' : model) :
  loadModel0x13 buf m = Some (true, m') ->
  let header := cast_at H13.t buf 0 in
  length m'.(Model.m_pieces) = Z.to_nat header.(H13.m_piece_count) /\
  (m.(Model.m_pieces) = [] ->
   forall (i : nat) (p : Piece.t),
     m'.(Model.m_pieces) !! i = Some p ->
     decode_piece_0x13 BONE_COUNT buf
       (elem_at P13.t buf header.(H13.m_piece_offset) (Z.of_nat i)) (Z.of_nat i)
       (default_constructed Piece.t) = Some p).
Proof.
  intros H header.
  destruct (loadModel0x13_passes buf m m' H) as [Hlen Hdone].
  split; [exact Hlen |].
  intros Hnew i p Hp.
  assert (Hi : (i < Z.to_nat header.(H13.m_piece_count))%nat).
  { apply lookup_lt_Some in Hp. subst header. lia. }
  destruct (Hdone i Hi) as (cur & p' & Hcur & Hdec & Hp').
  rewrite Hp in Hp'. injection Hp' as <-.
  rewrite Hnew, resize_nil in Hcur. apply lookup_replicate in Hcur as [-> _].
  exact Hdec.
Qed.

(** The three tables an accepting version 0x13 decoder leaves. *)
Lemma loadModel0x13_filled (buf : buffer) (m m' : model) :
  loadModel0x13 buf m = Some (true, m') ->
  let header := cast_at H13.t buf 0 in
  (0 <= header.(H13.m_bone_count) /\
   m'.(Model.m_bones)
   = (fun i => Model.load_bone_0x13 token_to_string i
                 (elem_at pmg_0x13.pmg_bone_t.t buf header.(H13.m_bone_offset) i))
       <$> seqZ 0 header.(H13.m_bone_count)) /\
  (0 <= header.(H13.m_part_count) /\
   m'.(Model.m_parts)
   = (fun i => Model.load_part_0x13 token_to_string
                 (elem_at pmg_0x13.pmg_part_t.t buf header.(H13.m_part_offset) i))
       <$> seqZ 0 header.(H13.m_part_count)) /\
  (0 <= header.(H13.m_locator_count) /\
   m'.(Model.m_locators)
   = (fun i => Model.load_locator_0x13 token_to_string buf header i
                 (elem_at pmg_0x13.pmg_locator_t.t buf header.(H13.m_locator_offset) i))
       <$> seqZ 0 header.(H13.m_locator_count)).
Proof.
  intros H header.
  unfold Model.loadModel0x13 in H. fold header in H.
  destruct (H13.m_signature header) as [[s0 s1] s2].
  destruct (_ || _); [discriminate |].
  apply bind_Some in H as (pieces & _ & H).
  apply bind_Some in H as (bones & Hbones & H).
  apply bind_Some in H as (locators & Hlocators & H).
  apply bind_Some in H as (parts & Hparts & H).
  apply bind_Some in H as (st & _ & H).
  injection H as <-. cbn [Model.with_geometry Model.m_bones Model.m_parts
    Model.m_locators Model.m_pieces].
  apply vec_resize_length in Hbones as [Hbc Hbones].
  apply vec_resize_length in Hlocators as [Hlc Hlocators].
  apply vec_resize_length in Hparts as [Hrc Hparts].
  split; [| split]; (split; [assumption |]).
  - rewrite (fill_loop_all
               (fun i => Model.load_bone_0x13 token_to_string i
                           (elem_at pmg_0x13.pmg_bone_t.t buf
                              header.(H13.m_bone_offset) i)) _ _ Hbones).
    by rewrite Z2Nat.id.
  - rewrite (fill_loop_all
               (fun i => Model.load_part_0x13 token_to_string
                           (elem_at pmg_0x13.pmg_part_t.t buf
                              header.(H13.m_part_offset) i)) _ _ Hparts).
    by rewrite Z2Nat.id.
  - rewrite (fill_loop_all
               (fun i => Model.load_locator_0x13 token_to_string buf header i
                           (elem_at pmg_0x13.pmg_locator_t.t buf
                              header.(H13.m_locator_offset) i)) _ _ Hlocators).
    by rewrite Z2Nat.id.
Qed.

(** What one pass of the version 0x13 piece loop assigns from the piece
    record, whatever the piece held. *)
Lemma decode_piece_0x13_head (buf : buffer) (piece : P13.t)
    (i : Z) (cur p : Piece.t) :
  decode_piece_0x13 BONE_COUNT buf piece i cur = Some p ->
  p.(Piece.m_index) = i /\
  p.(Piece.m_texcoordMask) = piece.(P13.m_uv_mask) /\
  p.(Piece.m_texcoordCount) = piece.(P13.m_uv_channels) /\
  p.(Piece.m_material) = piece.(P13.m_material).
Proof.
  unfold decode_piece_0x13. intros H.
  apply bind_Some in H as (vertices & _ & H).
  apply bind_Some in H as (triangles & _ & H).
  destruct (pool_sizes_0x13 piece) as [poolSizeStatic poolSizeDynamic].
  injection H as <-. simpl. done.
Qed.

(** X7: What the version 0x13 decoder leaves when it accepts a buffer,
    whatever the model held before.  The model has as many bones, parts,
    locators and pieces as the header declares.  Bone [i] has the index [i]
    and the name, the matrices, the stretch, rotation, translation, scale,
    sign and parent of record [i] of the bone table.  Part [i] has the name
    and the locator and piece ranges of record [i] of the part table.
    Locator [i] has the index [i], the name, position, rotation and scale of
    record [i] of the locator table, and as hookup the empty string when the
    record's offset is -1, else the string at that offset of the name pool
    cut to the bytes left in the pool.  Piece [i] has the index [i], the
    texture coordinate mask and count and the material of piece record
    [i], as bone count the bone count of the record, as many
    vertices as the record declares and a third of its edges, rounded
    towards zero, as triangles. *)
Theorem loadModel0x13_tables (buf : buffer) (m m' : model) :
  loadModel0x13 buf m = Some (true, m') ->
  let header := cast_at H13.t buf 0 in
  (length m'.(Model.m_bones) = Z.to_nat header.(H13.m_bone_count) /\
   forall i : nat, (i < Z.to_nat header.(H13.m_bone_count))%nat ->
     let record :=
       elem_at pmg_0x13.pmg_bone_t.t buf header.(H13.m_bone_offset) (Z.of_nat i) in
     exists bone : Bone.t,
       m'.(Model.m_bones) !! i = Some bone /\
       bone.(Bone.m_index) = Z.of_nat i /\
       bone.(Bone.m_name) = token_to_string record.(pmg_0x13.pmg_bone_t.m_name) /\
       bone.(Bone.m_transReversed)
       = record.(pmg_0x13.pmg_bone_t.m_transformation_reversed) /\
       bone.(Bone.m_transformation) = record.(pmg_0x13.pmg_bone_t.m_transformation) /\
       bone.(Bone.m_stretch) = record.(pmg_0x13.pmg_bone_t.m_stretch) /\
       bone.(Bone.m_rotation) = record.(pmg_0x13.pmg_bone_t.m_rotation) /\
       bone.(Bone.m_translation) = record.(pmg_0x13.pmg_bone_t.m_translation) /\
       bone.(Bone.m_scale) = record.(pmg_0x13.pmg_bone_t.m_scale) /\
       bone.(Bone.m_signOfDeterminantOfMatrix)
       = record.(pmg_0x13.pmg_bone_t.m_sign_of_determinant_of_matrix) /\
       bone.(Bone.m_parent) = record.(pmg_0x13.pmg_bone_t.m_parent)) /\
  (length m'.(Model.m_parts) = Z.to_nat header.(H13.m_part_count) /\
   forall i : nat, (i < Z.to_nat header.(H13.m_part_count))%nat ->
     let record :=
       elem_at pmg_0x13.pmg_part_t.t buf header.(H13.m_part_offset) (Z.of_nat i) in
     exists part : Part.t,
       m'.(Model.m_parts) !! i = Some part /\
       part.(Part.m_name) = token_to_string record.(pmg_0x13.pmg_part_t.m_name) /\
       part.(Part.m_locatorCount) = record.(pmg_0x13.pmg_part_t.m_locator_count) /\
       part.(Part.m_locatorId) = record.(pmg_0x13.pmg_part_t.m_locators_idx) /\
       part.(Part.m_pieceCount) = record.(pmg_0x13.pmg_part_t.m_piece_count) /\
       part.(Part.m_pieceId) = record.(pmg_0x13.pmg_part_t.m_pieces_idx)) /\
  (length m'.(Model.m_locators) = Z.to_nat header.(H13.m_locator_count) /\
   forall i : nat, (i < Z.to_nat header.(H13.m_locator_count))%nat ->
     let record :=
       elem_at pmg_0x13.pmg_locator_t.t buf header.(H13.m_locator_offset) (Z.of_nat i) in
     let offset := record.(pmg_0x13.pmg_locator_t.m_name_block_offset) in
     exists locator : Locator.t,
       m'.(Model.m_locators) !! i = Some locator /\
       locator.(Locator.m_index) = Z.of_nat i /\
       locator.(Locator.m_name) = token_to_string record.(pmg_0x13.pmg_locator_t.m_name) /\
       locator.(Locator.m_position) = record.(pmg_0x13.pmg_locator_t.m_position) /\
       locator.(Locator.m_rotation) = record.(pmg_0x13.pmg_locator_t.m_rotation) /\
       locator.(Locator.m_scale) = record.(pmg_0x13.pmg_locator_t.m_scale) /\
       (offset = -1 -> locator.(Locator.m_hookup) = ""%string) /\
       (offset <> -1 ->
        locator.(Locator.m_hookup)
        = substr_prefix (read_cstr buf (header.(H13.m_locator_name_offset) + offset))
            (header.(H13.m_locators_name_size) - offset))) /\
  (length m'.(Model.m_pieces) = Z.to_nat header.(H13.m_piece_count) /\
   forall i : nat, (i < Z.to_nat header.(H13.m_piece_count))%nat ->
     let record := elem_at P13.t buf header.(H13.m_piece_offset) (Z.of_nat i) in
     exists piece : Piece.t,
       m'.(Model.m_pieces) !! i = Some piece /\
       piece.(Piece.m_index) = Z.of_nat i /\
       piece.(Piece.m_texcoordMask) = record.(P13.m_uv_mask) /\
       piece.(Piece.m_texcoordCount) = record.(P13.m_uv_channels) /\
       piece.(Piece.m_bones) = record.(P13.m_bone_count) /\
       piece.(Piece.m_material) = record.(P13.m_material) /\
       Z.of_nat (length piece.(Piece.m_vertices)) = record.(P13.m_verts) /\
       Z.of_nat (length piece.(Piece.m_triangles)) = record.(P13.m_edges) ÷ 3).
Proof.
  intros H header.
  destruct (loadModel0x13_passes buf m m' H) as [Hlen Hdone].
  destruct (loadModel0x13_filled buf m m' H)
    as ((Hbc & Hbones) & (Hrc & Hparts) & (Hlc & Hlocators)).
  fold header in Hlen, Hdone, Hbc, Hbones, Hrc, Hparts, Hlc, Hlocators.
  split; [| split; [| split]].
  - split; [rewrite Hbones, length_fmap, length_seqZ; lia |].
    intros i Hi record. eexists. split.
    + rewrite Hbones, list_lookup_fmap, lookup_seqZ_lt by lia. reflexivity.
    + rewrite Z.add_0_l. repeat split.
  - split; [rewrite Hparts, length_fmap, length_seqZ; lia |].
    intros i Hi record. eexists. split.
    + rewrite Hparts, list_lookup_fmap, lookup_seqZ_lt by lia. reflexivity.
    + rewrite Z.add_0_l. repeat split.
  - split; [rewrite Hlocators, length_fmap, length_seqZ; lia |].
    intros i Hi record offset. eexists. split.
    + rewrite Hlocators, list_lookup_fmap, lookup_seqZ_lt by lia. reflexivity.
    + rewrite Z.add_0_l.
      do 5 (split; [reflexivity |]).
      cbn [Locator.m_hookup Model.load_locator_0x13]. fold record offset.
      split; intros Hoffset.
      * by rewrite Hoffset.
      * apply Z.eqb_neq in Hoffset. by rewrite Hoffset.
  - split; [exact Hlen |].
    intros i Hi record.
    destruct (Hdone i Hi) as (cur & p & _ & Hdec & Hp).
    exists p. split; [exact Hp |]. fold record in Hdec.
    destruct (decode_piece_0x13_head _ _ _ _ _ Hdec)
      as (Hindex & Hmask & Hcount & Hmaterial).
    destruct (decode_piece_0x13_inv _ _ _ _ _ _ Hdec)
      as (Hverts & Hedges & Hwidth & Hvertices & Htriangles & _).
    rewrite Hvertices, Htriangles.
    repeat split; (assumption || lia).
Qed.


(** *** The skin of the vertices an accepting decoder leaves *)

(** C6: when the version 0x14 decoder accepts a buffer, decoding into a
    model without pieces, every piece whose record has both bone streams
    holds as many vertices as the record declares, and vertex [j] of it
    has, in bone slot [k] for [k < 4], the 8-bit field [k] of the 32-bit
    index word and of the 32-bit weight word read for that vertex, one
    stride of the piece after those of vertex [j - 1], field 0 being the
    least significant byte (the index is stored as an [int8_t]), and
    (-1, 0) in every slot from 4 up to [BONE_COUNT - 1].  The index word
    0x04030201 gives the bone indices 1, 2, 3, 4 in the slots 0 to 3. *)
Theorem loadModel0x14_skin (buf : buffer) (m m' : model) :
  loadModel0x14 buf m = Some (true, m') ->
  m.(Model.m_pieces) = [] ->
  (default_constructed Piece.t).(Piece.m_vertices) = [] ->
  length (default_constructed Vertex.t).(Vertex.m_boneIndex) = BONE_COUNT ->
  length (default_constructed Vertex.t).(Vertex.m_boneWeight) = BONE_COUNT ->
  (4 <= BONE_COUNT)%nat ->
  let header := cast_at H14.t buf 0 in
  forall i : nat, (i < Z.to_nat header.(H14.m_piece_count))%nat ->
    let piece := elem_at P14.t buf header.(H14.m_pieces_offset) (Z.of_nat i) in
    piece.(P14.m_vert_bone_index_offset) <> -1 ->
    piece.(P14.m_vert_bone_weight_offset) <> -1 ->
    exists p : Piece.t,
      m'.(Model.m_pieces) !! i = Some p /\
      length p.(Piece.m_vertices) = Z.to_nat piece.(P14.m_verts) /\
      forall j : nat, (j < Z.to_nat piece.(P14.m_verts))%nat ->
        let indexes :=
          read_u32 buf (piece.(P14.m_vert_bone_index_offset)
                        + wrap_u32 (pool_size_0x14 piece * Z.of_nat j)) in
        let weights :=
          read_u32 buf (piece.(P14.m_vert_bone_weight_offset)
                        + wrap_u32 (pool_size_0x14 piece * Z.of_nat j)) in
        exists v : Vertex.t,
          p.(Piece.m_vertices) !! j = Some v /\
          (forall k : nat, (k < 4)%nat ->
             v.(Vertex.m_boneIndex) !! k
             = Some (to_i8 (Z.land (Z.shiftr indexes (8 * Z.of_nat k)) 0xff)) /\
             v.(Vertex.m_boneWeight) !! k
             = Some (Z.land (Z.shiftr weights (8 * Z.of_nat k)) 0xff)) /\
          (forall k : nat, (4 <= k < BONE_COUNT)%nat ->
             v.(Vertex.m_boneIndex) !! k = Some (-1) /\
             v.(Vertex.m_boneWeight) !! k = Some 0) /\
          (indexes = 0x04030201 -> take 4 v.(Vertex.m_boneIndex) = [1; 2; 3; 4]).
Proof.
  intros Hload Hnew Hempty Hidx Hwgt Hcap header i Hi piece Hindex Hweight.
  destruct (loadModel0x14_decoded buf m m' Hload) as [Hlen Hdecoded].
  destruct (lookup_lt_is_Some_2 m'.(Model.m_pieces) i) as [p Hp];
    [subst header; lia |].
  pose proof (Hdecoded Hnew i p Hp) as Hdec. fold header piece in Hdec.
  destruct (decode_piece_0x14_inv _ _ _ _ _ _ _ Hdec)
    as (_ & _ & _ & Hverts & _ & _ & _ & _ & _ & _ & _ & Hvert).
  exists p. split; [exact Hp |]. split; [exact Hverts |].
  intros j Hj indexes weights.
  destruct (lookup_lt_is_Some_2 p.(Piece.m_vertices) j) as [v Hv];
    [rewrite Hverts; exact Hj |].
  exists v. split; [exact Hv |].
  destruct (Hvert j v Hv) as (vert & Hold & ->).
  rewrite Hempty, resize_nil in Hold. apply lookup_replicate in Hold as [-> _].
  by apply decode_vertex_0x14_skin.
Qed.

(** C7: when the version 0x13 decoder accepts a buffer, decoding into a
    model without pieces, every piece holds as many vertices as its record
    declares, and two vertices of a piece with the same 16-bit bind index
    have the same bone index array and the same bone weight array.  When
    the record has a bind stream, slot [k] of vertex [j] holds, for
    [k < min(m_bone_count, BONE_COUNT)], the bytes of the two tables at
    table base + bind index of [j] * m_bone_count + k, and (-1, 0) in
    every further slot. *)
Theorem loadModel0x13_skin (buf : buffer) (m m' : model) :
  loadModel0x13 buf m = Some (true, m') ->
  m.(Model.m_pieces) = [] ->
  (default_constructed Piece.t).(Piece.m_vertices) = [] ->
  let header := cast_at H13.t buf 0 in
  forall i : nat, (i < Z.to_nat header.(H13.m_piece_count))%nat ->
    let piece := elem_at P13.t buf header.(H13.m_piece_offset) (Z.of_nat i) in
    exists p : Piece.t,
      m'.(Model.m_pieces) !! i = Some p /\
      length p.(Piece.m_vertices) = Z.to_nat piece.(P13.m_verts) /\
      (forall j1 j2 : nat,
         (j1 < Z.to_nat piece.(P13.m_verts))%nat ->
         (j2 < Z.to_nat piece.(P13.m_verts))%nat ->
         bind_index buf piece (Z.of_nat j1) = bind_index buf piece (Z.of_nat j2) ->
         exists v1 v2 : Vertex.t,
           p.(Piece.m_vertices) !! j1 = Some v1 /\
           p.(Piece.m_vertices) !! j2 = Some v2 /\
           v1.(Vertex.m_boneIndex) = v2.(Vertex.m_boneIndex) /\
           v1.(Vertex.m_boneWeight) = v2.(Vertex.m_boneWeight)) /\
      (piece.(P13.m_anim_bind_offset) <> -1 ->
       0 <= piece.(P13.m_bone_count) ->
       length (default_constructed Vertex.t).(Vertex.m_boneIndex) = BONE_COUNT ->
       length (default_constructed Vertex.t).(Vertex.m_boneWeight) = BONE_COUNT ->
       forall j : nat, (j < Z.to_nat piece.(P13.m_verts))%nat ->
         let width := Z.min piece.(P13.m_bone_count) (Z.of_nat BONE_COUNT) in
         let entry := bind_index buf piece (Z.of_nat j) * piece.(P13.m_bone_count) in
         exists v : Vertex.t,
           p.(Piece.m_vertices) !! j = Some v /\
           (forall k : nat, Z.of_nat k < width ->
              v.(Vertex.m_boneIndex) !! k
              = Some (read_i8 buf (piece.(P13.m_anim_bind_bones_offset) + entry
                                   + Z.of_nat k)) /\
              v.(Vertex.m_boneWeight) !! k
              = Some (read_u8 buf (piece.(P13.m_anim_bind_bones_weight_offset)
                                   + entry + Z.of_nat k))) /\
           (forall k : nat, width <= Z.of_nat k -> (k < BONE_COUNT)%nat ->
              v.(Vertex.m_boneIndex) !! k = Some (-1) /\
              v.(Vertex.m_boneWeight) !! k = Some 0)).
Proof.
  intros Hload Hnew Hempty header i Hi piece.
  destruct (loadModel0x13_decoded buf m m' Hload) as [Hlen Hdecoded].
  destruct (lookup_lt_is_Some_2 m'.(Model.m_pieces) i) as [p Hp];
    [subst header; lia |].
  pose proof (Hdecoded Hnew i p Hp) as Hdec. fold header piece in Hdec.
  destruct (decode_piece_0x13_inv _ _ _ _ _ _ Hdec)
    as (_ & _ & _ & Hverts & _).
  exists p. split; [exact Hp |]. split; [exact Hverts |].
  split.
  - intros j1 j2 Hj1 Hj2 Hbind.
    destruct (lookup_lt_is_Some_2 p.(Piece.m_vertices) j1) as [v1 Hv1];
      [rewrite Hverts; exact Hj1 |].
    destruct (lookup_lt_is_Some_2 p.(Piece.m_vertices) j2) as [v2 Hv2];
      [rewrite Hverts; exact Hj2 |].
    exists v1, v2. split; [exact Hv1 |]. split; [exact Hv2 |].
    exact (proj1 (decode_piece_0x13_same_bind BONE_COUNT buf piece (Z.of_nat i)
                    (default_constructed Piece.t) p j1 j2 v1 v2
                    Hdec Hempty Hv1 Hv2 Hbind)).
  - intros Hstream Hcount Hidx Hwgt j Hj width entry.
    destruct (lookup_lt_is_Some_2 p.(Piece.m_vertices) j) as [v Hv];
      [rewrite Hverts; exact Hj |].
    exists v. split; [exact Hv |].
    exact (proj2 (decode_piece_0x13_same_bind BONE_COUNT buf piece (Z.of_nat i)
                    (default_constructed Piece.t) p j j v v
                    Hdec Hempty Hv Hv eq_refl) Hstream Hcount Hidx Hwgt).
Qed.

End GeometryFacts.

(** ** Further properties of the descriptor decoder *)

(** *** The name a texture gives an alias *)

Lemma string_app_nil (b : string) : "" +:+ b = b.
Proof. reflexivity. Qed.

Lemma string_app_cons (c : ascii) (a b : string) :
  String c a +:+ b = String c (a +:+ b).
Proof. reflexivity. Qed.

Lemma string_app_assoc (a b c : string) : (a +:+ b) +:+ c = a +:+ (b +:+ c).
Proof.
  induction a as [| x a IH]; [reflexivity |].
  by rewrite !string_app_cons, IH.
Qed.








(** *** The decoded looks and variants *)

Lemma array_set_next {A : Type} (x d : A) (l : list A) (k r : nat) :
  length l = k ->
  array_set (Z.of_nat k) x (l ++ replicate (S r) d) = (l ++ [x]) ++ replicate r d.
Proof.
  intros Hk. unfold array_set.
  destruct (Z.ltb_spec (Z.of_nat k) 0) as [Hneg | _]; [lia |].
  rewrite Nat2Z.id, insert_app_r_alt by lia.
  rewrite Hk, Nat.sub_diag. simpl. by rewrite <- app_assoc.
Qed.

Lemma old_attributes_resize (variants : list Variant.t) (n i j : nat) :
  (i < n)%nat ->
  old_attributes (resize n Variant.ctor variants) i j = old_attributes variants i j.
Proof.
  intros Hi. unfold old_attributes.
  destruct (decide (i < length variants)%nat) as [Hlt | Hge].
  - by rewrite lookup_resize by lia.
  - rewrite lookup_resize_new by lia.
    rewrite (lookup_ge_None_2 variants i) by lia. reflexivity.
Qed.

(** [std::find_if] on a vector made of two. *)
Lemma find_app_first {A : Type} (p : A -> bool) (l k : list A) :
  List.find p (l ++ k)
  = match List.find p l with
    | Some x => Some x
    | None => List.find p k
    end.
Proof.
  induction l as [| x l IH]; [reflexivity |].
  simpl. by destruct (p x).
Qed.

(** [std::find_if] returns the first element that satisfies the test. *)
Lemma find_first_index {A : Type} (p : A -> bool) (l : list A) (n : nat) (x : A) :
  l !! n = Some x -> p x = true ->
  (forall (n' : nat) (y : A), (n' < n)%nat -> l !! n' = Some y -> p y = false) ->
  List.find p l = Some x.
Proof.
  revert n. induction l as [| y l IH]; intros n Hn Hx Hfirst; [discriminate |].
  destruct n as [| n]; simpl in *.
  - injection Hn as ->. by rewrite Hx.
  - rewrite (Hfirst 0%nat y); [| lia | reflexivity].
    apply (IH n Hn Hx). intros n' z Hn' Hz. apply (Hfirst (S n')); [lia | exact Hz].
Qed.

(** *** The slot number of an alias *)

Lemma digit_of_pretty_N_char (d : N) :
  (d < 10)%N -> digit_of (pretty_N_char d) = Some d.
Proof.
  intros Hd.
  assert (d = 0 \/ d = 1 \/ d = 2 \/ d = 3 \/ d = 4 \/ d = 5 \/ d = 6
          \/ d = 7 \/ d = 8 \/ d = 9)%N as H by lia.
  repeat (destruct H as [-> | H]; [reflexivity |]). by subst d.
Qed.

Lemma pretty_N_go_app (x : N) (s r : string) :
  pretty_N_go x s +:+ r = pretty_N_go x (s +:+ r).
Proof.
  revert s. induction (N.lt_wf_0 x) as [x _ IH]. intros s.
  assert (x = 0 \/ 0 < x)%N as [-> | Hpos] by lia.
  - by rewrite !pretty_N_go_0.
  - rewrite (pretty_N_go_step x s), (pretty_N_go_step x (s +:+ r)) by exact Hpos.
    rewrite IH by (by apply N.div_lt). by rewrite string_app_cons.
Qed.

Lemma read_decimal_pretty_N_go (x : N) (s : string) :
  read_decimal 0 (pretty_N_go x s) = read_decimal x s.
Proof.
  revert s. induction (N.lt_wf_0 x) as [x _ IH]. intros s.
  assert (x = 0 \/ 0 < x)%N as [-> | Hpos] by lia.
  - by rewrite pretty_N_go_0.
  - rewrite pretty_N_go_step by exact Hpos.
    rewrite IH by (by apply N.div_lt). simpl.
    rewrite digit_of_pretty_N_char by (by apply N.mod_lt).
    f_equal. pose proof (N.div_mod x 10 ltac:(done)). lia.
Qed.

Lemma read_decimal_stop (x : N) (r : string) :
  no_digit_ahead r -> read_decimal x r = x.
Proof. destruct r as [| c r]; [done |]. simpl. by intros ->. Qed.

Lemma read_decimal_pretty (j : Z) (r : string) :
  0 <= j -> no_digit_ahead r -> read_decimal 0 (pretty j +:+ r) = Z.to_N j.
Proof.
  intros Hj Hr. destruct j as [| p | p]; [| | lia].
  - change (pretty 0) with "0"%string. rewrite string_app_cons, string_app_nil.
    simpl. by apply read_decimal_stop.
  - change (pretty (Z.pos p)) with (pretty_N_go (N.pos p) "").
    rewrite pretty_N_go_app, string_app_nil, read_decimal_pretty_N_go.
    by apply read_decimal_stop.
Qed.

Lemma read_decimal_zeros (n : nat) (s : string) :
  read_decimal 0 (String.concat "" (replicate n "0"%string) +:+ s)
  = read_decimal 0 s.
Proof.
  induction n as [| n IH]; [reflexivity |].
  destruct n as [| n]; [reflexivity |].
  change (String.concat "" (replicate (S (S n)) "0"%string))
    with ("0" +:+ "" +:+ String.concat "" (replicate (S n) "0"%string)).
  rewrite string_app_nil, !string_app_cons, string_app_nil.
  simpl. exact IH.
Qed.

(** The number an alias of the first look carries behind mat_ is its slot. *)
Lemma first_look_alias_slot (j : Z) (mt : Material.t) :
  0 <= j ->
  exists rest : string,
    Model.first_look_alias j mt = "mat_" +:+ rest /\
    read_decimal 0 rest = Z.to_N j.
Proof.
  intros Hj. unfold Model.first_look_alias, pad4. cbv zeta.
  destruct mt.(Material.m_textures) as [| texture textures].
  - eexists. split; [reflexivity |].
    rewrite read_decimal_zeros.
    rewrite <- (read_decimal_pretty j "" Hj I). f_equal.
    clear. induction (pretty j) as [| c s IH]; [reflexivity |].
    by rewrite string_app_cons, <- IH.
  - eexists. split; [reflexivity |].
    rewrite string_app_assoc, read_decimal_zeros.
    by apply read_decimal_pretty.
Qed.

Section DescriptorFacts.

Context {Prefab Collision : Type}.
Context {token_layout : Layout token_t}
        {pmd_header_layout : Layout HD.t}
        {attrib_link_layout : Layout pmd.pmd_attrib_link_t.t}
        {attrib_def_layout : Layout pmd.pmd_attrib_def_t.t}
        {attrib_value_layout : Layout pmd.pmd_attrib_value_t.t}.
Variable token_to_string : token_t -> string.
Variable token_t_to_string : token_t -> string.
Variable pmd_SUPPORTED_VERSION : Z.
Variable Attribute_ctor : string -> Variant.Attribute.t.
Variable Material_load : string -> Material.t -> Material.t.
Variable ufs : FileSystem.

Local Abbreviation model := (Model.t Prefab Collision).
Local Abbreviation loadDescriptor_buffer :=
  (Model.loadDescriptor_buffer (Prefab := Prefab) (Collision := Collision)
     token_to_string token_t_to_string pmd_SUPPORTED_VERSION Attribute_ctor
     Material_load).
Local Abbreviation loadDescriptor :=
  (Model.loadDescriptor (Prefab := Prefab) (Collision := Collision)
     token_to_string token_t_to_string pmd_SUPPORTED_VERSION Attribute_ctor
     Material_load ufs).
Local Abbreviation load_material := (Model.load_material Material_load).
Local Abbreviation load_look := (Model.load_look token_to_string Material_load).
Local Abbreviation load_variant_part :=
  (Model.load_variant_part token_t_to_string Attribute_ctor).
Local Abbreviation load_variant :=
  (Model.load_variant token_t_to_string Attribute_ctor).
Local Abbreviation attributes_of :=
  (expected_attributes token_t_to_string Attribute_ctor).
Local Abbreviation warnings_of_part :=
  (part_warnings token_t_to_string Attribute_ctor).
Local Abbreviation warnings_of_variant :=
  (variant_warnings token_t_to_string Attribute_ctor).
Local Abbreviation warnings_of_descriptor :=
  (descriptor_warnings token_t_to_string Attribute_ctor).
Local Abbreviation material_of := (expected_material Material_load).
Local Abbreviation look_of := (expected_look token_to_string Material_load).

(** The material loop of a new look [i], after [n] passes: the first [n]
    slots hold the expected materials, the others are still new. *)
Lemma material_loop_decodes (buf : buffer) (header : HD.t) (dir : string)
    (i : nat) (looks0 : list Look.t) (name : string) (n : nat) :
  let M := Z.to_nat header.(HD.m_material_count) in
  (n <= M)%nat ->
  looks0 !! i = Some {| Look.m_name := name;
                        Look.m_materials := replicate M Material.ctor |} ->
  (i <> 0%nat -> looks0 !! 0%nat = Some (look_of buf header dir 0)) ->
  let looks :=
    for_pure 0 n (fun j looks => load_material buf header (Z.of_nat i) j dir looks)
      looks0 in
  length looks = length looks0 /\
  (forall i' : nat, i' <> i -> looks !! i' = looks0 !! i') /\
  looks !! i
  = Some {| Look.m_name := name;
            Look.m_materials :=
              (material_of buf header dir (Z.of_nat i) <$> seqZ 0 (Z.of_nat n))
              ++ replicate (M - n) Material.ctor |}.
Proof.
  intros M Hn Hli Hfirst looks. subst looks.
  pose (J := fun (j : Z) (looks : list Look.t) =>
    length looks = length looks0 /\
    (forall i' : nat, i' <> i -> looks !! i' = looks0 !! i') /\
    looks !! i
    = Some {| Look.m_name := name;
              Look.m_materials :=
                (material_of buf header dir (Z.of_nat i) <$> seqZ 0 j)
                ++ replicate (M - Z.to_nat j) Material.ctor |}).
  assert (H : J (0 + Z.of_nat n)
                (for_pure 0 n
                   (fun j looks => load_material buf header (Z.of_nat i) j dir looks)
                   looks0)).
  { apply (for_pure_inv J).
    - intros j looks Hj (Hlen & Hframe & Hcur).
      destruct (Z_of_nat_complete j) as [k ->]; [lia |].
      rewrite Nat2Z.id in Hcur.
      assert (Hi : (i < length looks)%nat) by (by apply lookup_lt_Some in Hcur).
      unfold Model.load_material.
      rewrite (array_get_lookup _ _ _ _ Hcur). cbn [Look.m_materials Look.m_name].
      set (prefix := material_of buf header dir (Z.of_nat i) <$> seqZ 0 (Z.of_nat k)).
      assert (Hprefix : length prefix = k).
      { unfold prefix. rewrite length_fmap, length_seqZ. lia. }
      assert (Hslot : (prefix ++ replicate (M - k) Material.ctor) !! k
                      = Some Material.ctor).
      { rewrite lookup_app_r by lia. rewrite Hprefix, Nat.sub_diag.
        apply lookup_replicate_2. lia. }
      rewrite (array_get_lookup _ _ _ _ Hslot).
      fold (material_path buf header dir (Z.of_nat i) (Z.of_nat k)).
      fold (loaded_material Material_load buf header dir (Z.of_nat i) (Z.of_nat k)).
      assert (Hnew : (if Z.of_nat i =? 0
                      then Material.setAlias
                             (Model.first_look_alias (Z.of_nat k)
                                (loaded_material Material_load buf header dir
                                   (Z.of_nat i) (Z.of_nat k)))
                             (loaded_material Material_load buf header dir
                                (Z.of_nat i) (Z.of_nat k))
                      else Material.setAlias
                             (Material.alias
                                (array_get Material.ctor (Z.of_nat k)
                                   (array_get Look.ctor 0 looks).(Look.m_materials)))
                             (loaded_material Material_load buf header dir
                                (Z.of_nat i) (Z.of_nat k)))
                     = material_of buf header dir (Z.of_nat i) (Z.of_nat k)).
      { destruct (Z.eqb_spec (Z.of_nat i) 0) as [Hz | Hnz].
        - by rewrite Hz.
        - assert (Hl0 : looks !! 0%nat = Some (look_of buf header dir 0)).
          { rewrite Hframe by lia. apply Hfirst. lia. }
          change 0 with (Z.of_nat 0) at 1.
          rewrite (array_get_lookup _ _ _ _ Hl0).
          cbn [expected_look Look.m_materials].
          assert (Hm0 : (material_of buf header dir 0
                           <$> seqZ 0 header.(HD.m_material_count)) !! k
                        = Some (material_of buf header dir 0 (Z.of_nat k))).
          { rewrite list_lookup_fmap, lookup_seqZ_lt by lia.
            simpl. by rewrite Z.add_0_l. }
          by rewrite (array_get_lookup _ _ _ _ Hm0). }
      rewrite Hnew.
      unfold J. rewrite array_set_length.
      split; [exact Hlen | split].
      + intros i' Hne. rewrite array_set_lookup_ne by lia. by apply Hframe.
      + rewrite array_set_lookup_eq by exact Hi. f_equal. f_equal.
        replace (M - k)%nat with (S (M - Z.to_nat (Z.of_nat k + 1))) by lia.
        rewrite (array_set_next _ _ _ _ _ Hprefix).
        unfold prefix. by rewrite seqZ_snoc, fmap_app.
    - unfold J. simpl. by rewrite Nat.sub_0_r. }
  destruct H as (Hlen & Hframe & Hcur).
  rewrite Z.add_0_l, Nat2Z.id in Hcur. by repeat split.
Qed.

(** The look loop on new looks. *)
Lemma look_loop_decodes (buf : buffer) (header : HD.t) (dir : string)
    (L : nat) (looks' : list Look.t) :
  for_loop 0 L (load_look buf header dir) (replicate L Look.ctor) = Some looks' ->
  looks' = look_of buf header dir <$> seqZ 0 (Z.of_nat L).
Proof.
  intros Hrun.
  pose (I := fun (i : Z) (looks : list Look.t) =>
    length looks = L /\
    (forall k : nat, Z.of_nat k < i ->
       looks !! k = Some (look_of buf header dir (Z.of_nat k))) /\
    (forall k : nat, i <= Z.of_nat k -> (k < L)%nat ->
       looks !! k = Some Look.ctor)).
  assert (H : I (0 + Z.of_nat L) looks').
  { apply (for_loop_inv I (load_look buf header dir) L 0
             (replicate L Look.ctor) looks'); [| | exact Hrun].
    - clear looks' Hrun. intros iz ls ls' Hi (Hlen & Hdone & Hnew) Hpass.
      destruct (Z_of_nat_complete iz) as [i ->]; [lia |].
      unfold Model.load_look in Hpass.
      rewrite (array_get_lookup _ _ _ _ (Hnew i ltac:(lia) ltac:(lia))) in Hpass.
      apply bind_Some in Hpass as (materials & Hres & Hpass).
      injection Hpass as <-.
      apply vec_resize_Some in Hres as [Hcount ->].
      cbn [Look.ctor Look.m_materials] in *. rewrite resize_nil.
      set (name := token_to_string _).
      set (ls1 := array_set (Z.of_nat i) _ ls).
      destruct (material_loop_decodes buf header dir i ls1 name
                  (Z.to_nat header.(HD.m_material_count)) (le_n _))
        as (Hlen' & Hframe & Hcur).
      { apply array_set_lookup_eq. lia. }
      { intros Hnot0. unfold ls1. rewrite array_set_lookup_ne by lia.
        apply (Hdone 0%nat). lia. }
      rewrite Nat.sub_diag, app_nil_r, Z2Nat.id in Hcur by exact Hcount.
      unfold I. rewrite Hlen'. unfold ls1 at 1. rewrite array_set_length.
      split; [exact Hlen | split].
      + intros k Hk. destruct (decide (k = i)) as [-> | Hne].
        * exact Hcur.
        * rewrite Hframe by exact Hne. unfold ls1.
          rewrite array_set_lookup_ne by lia. apply Hdone. lia.
      + intros k Hk Hcap. rewrite Hframe by lia. unfold ls1.
        rewrite array_set_lookup_ne by lia. apply Hnew; [lia | exact Hcap].
    - unfold I. rewrite length_replicate.
      split; [reflexivity | split; [intros k Hk; lia |]].
      intros k _ Hk. by apply lookup_replicate_2. }
  destruct H as (Hlen & Hdone & _).
  apply list_eq. intros k.
  destruct (decide (k < L)%nat) as [Hk | Hk].
  - rewrite Hdone by lia.
    rewrite list_lookup_fmap, lookup_seqZ_lt by lia. simpl. by rewrite Z.add_0_l.
  - rewrite (lookup_ge_None_2 _ k) by lia.
    symmetry. apply lookup_ge_None_2. rewrite length_fmap, length_seqZ. lia.
Qed.

(** The looks an accepting descriptor decoder leaves in a model that had
    none. *)
Lemma loadDescriptor_fresh_looks (m m' : model) (buf : buffer) (out : list warning) :
  ufs.(fs_open) (m.(Model.m_filePath) +:+ ".pmd") = Some buf ->
  loadDescriptor m = Some (true, m', out) ->
  m.(Model.m_looks) = [] ->
  let header := cast_at HD.t buf 0 in
  m'.(Model.m_looks)
  = look_of buf header m.(Model.m_directory) <$> seqZ 0 header.(HD.m_look_count) /\
  m'.(Model.m_materialCount) = wrap_u32 header.(HD.m_material_count).
Proof.
  intros Hopen H Hnew header.
  unfold Model.loadDescriptor in H. rewrite Hopen in H.
  unfold Model.loadDescriptor_buffer in H. fold header in H.
  destruct (negb _); [discriminate |].
  apply bind_Some in H as (looks & Hlooks & H).
  apply bind_Some in H as (looks' & Hloop & H).
  apply bind_Some in H as (variants & _ & H).
  apply bind_Some in H as (st & _ & H).
  injection H as <- _. cbn [Model.with_descriptor Model.m_looks Model.m_materialCount].
  apply vec_resize_Some in Hlooks as [Hcount ->].
  rewrite Hnew, resize_nil, length_replicate in Hloop.
  apply look_loop_decodes in Hloop as ->.
  rewrite Z2Nat.id by exact Hcount.
  split; reflexivity.
Qed.

(** The alias of a material of such a look is the one the first look gives
    its slot. *)
Lemma expected_look_alias (buf : buffer) (header : HD.t) (dir : string) (n : Z)
    (i j : nat) (look : Look.t) (material : Material.t) :
  (look_of buf header dir <$> seqZ 0 n) !! i = Some look ->
  look.(Look.m_materials) !! j = Some material ->
  Material.alias material
  = Model.first_look_alias (Z.of_nat j)
      (loaded_material Material_load buf header dir 0 (Z.of_nat j)).
Proof.
  intros Hlook Hmaterial.
  rewrite list_lookup_fmap in Hlook.
  destruct (seqZ 0 _ !! i) as [iz |] eqn:Hi; [| discriminate].
  injection Hlook as <-. cbn [expected_look Look.m_materials] in Hmaterial.
  rewrite list_lookup_fmap in Hmaterial.
  destruct (seqZ 0 _ !! j) as [jz |] eqn:Hj; [| discriminate].
  apply lookup_seqZ in Hj as [-> _]. injection Hmaterial as <-.
  by rewrite Z.add_0_l.
Qed.



(** X11: Aliases identify the slots.  In the looks the descriptor decoder
    leaves in a model that had none, the materials of two different slots of
    a look never have the same alias, whatever their textures are named: the
    number an alias carries behind mat_ is its slot; and, in any two looks,
    the materials of the same slot have the same alias. *)
Theorem decoded_aliases_identify_slots
    (m m' : model) (buf : buffer) (out : list warning)
    (i i' j j' : nat) (look look' : Look.t) (material material' : Material.t) :
  ufs.(fs_open) (m.(Model.m_filePath) +:+ ".pmd") = Some buf ->
  loadDescriptor m = Some (true, m', out) ->
  m.(Model.m_looks) = [] ->
  m'.(Model.m_looks) !! i = Some look ->
  m'.(Model.m_looks) !! i' = Some look' ->
  look.(Look.m_materials) !! j = Some material ->
  look'.(Look.m_materials) !! j' = Some material' ->
  (Material.alias material = Material.alias material' <-> j = j') /\
  exists rest : string,
    Material.alias material = "mat_" +:+ rest /\
    read_decimal 0 rest = N.of_nat j.
Proof.
  intros Hopen Hload Hnew Hlook Hlook' Hmaterial Hmaterial'.
  destruct (loadDescriptor_fresh_looks m m' buf out Hopen Hload Hnew)
    as [Hlooks _].
  rewrite Hlooks in Hlook, Hlook'.
  rewrite (expected_look_alias _ _ _ _ i j look material Hlook Hmaterial).
  rewrite (expected_look_alias _ _ _ _ i' j' look' material' Hlook' Hmaterial').
  destruct (first_look_alias_slot (Z.of_nat j)
              (loaded_material Material_load buf (cast_at HD.t buf 0)
                 m.(Model.m_directory) 0 (Z.of_nat j)) ltac:(lia))
    as (rest & Hrest & Hslot).
  destruct (first_look_alias_slot (Z.of_nat j')
              (loaded_material Material_load buf (cast_at HD.t buf 0)
                 m.(Model.m_directory) 0 (Z.of_nat j')) ltac:(lia))
    as (rest' & Hrest' & Hslot').
  split.
  - split; [| by intros ->].
    rewrite Hrest, Hrest'. intros Heq.
    assert (rest = rest') as <- by (by injection Heq).
    rewrite Hslot in Hslot'. lia.
  - exists rest. split; [exact Hrest |]. rewrite Hslot. lia.
Qed.

(** The part loop of variant [i] on the parts a variant holds: the
    attributes of the range of part [j] are pushed behind those the part
    held. *)
Lemma part_loop_appends (buf : buffer) (header : HD.t) (i : Z) (name : string)
    (parts0 : list Variant.Part.t) (n : nat) (out : list warning) :
  (n <= length parts0)%nat ->
  let st :=
    for_pure 0 n (load_variant_part buf header i)
      ({| Variant.m_name := name; Variant.m_parts := parts0 |}, out) in
  st.1.(Variant.m_name) = name /\
  length st.1.(Variant.m_parts) = length parts0 /\
  (forall (j : nat) (p0 : Variant.Part.t),
     (j < n)%nat -> parts0 !! j = Some p0 ->
     st.1.(Variant.m_parts) !! j
     = Some {| Variant.Part.m_attributes :=
                 p0.(Variant.Part.m_attributes)
                 ++ attributes_of buf header i (Z.of_nat j) |}) /\
  st.2 = out ++ (seqZ 0 (Z.of_nat n) ≫= warnings_of_part buf header i).
Proof.
  intros Hn st. subst st.
  pose (J := fun (jz : Z) (st : Variant.t * list warning) =>
    st.1.(Variant.m_name) = name /\
    length st.1.(Variant.m_parts) = length parts0 /\
    (forall (j : nat) (p0 : Variant.Part.t),
       Z.of_nat j < jz -> parts0 !! j = Some p0 ->
       st.1.(Variant.m_parts) !! j
       = Some {| Variant.Part.m_attributes :=
                   p0.(Variant.Part.m_attributes)
                   ++ attributes_of buf header i (Z.of_nat j) |}) /\
    (forall j : nat, jz <= Z.of_nat j ->
       st.1.(Variant.m_parts) !! j = parts0 !! j) /\
    st.2 = out ++ (seqZ 0 jz ≫= warnings_of_part buf header i)).
  assert (H : J (0 + Z.of_nat n)
                (for_pure 0 n (load_variant_part buf header i)
                   ({| Variant.m_name := name; Variant.m_parts := parts0 |}, out))).
  { apply (for_pure_inv J).
    - intros jz [variant o] Hj (Hname & Hlen & Hdone & Hrest & Hout).
      simpl in Hname, Hlen, Hdone, Hrest, Hout.
      destruct (Z_of_nat_complete jz) as [j ->]; [lia |].
      destruct (lookup_lt_is_Some_2 parts0 j) as [p0 Hp0]; [lia |].
      assert (Hcur : variant.(Variant.m_parts) !! j = Some p0)
        by (rewrite Hrest; [done | lia]).
      unfold Model.load_variant_part.
      rewrite (array_get_lookup _ _ _ _ Hcur), load_attributes_spec.
      unfold J. cbn [fst snd Variant.m_name Variant.m_parts].
      rewrite array_set_length, seqZ_snoc, bind_snoc, Hout, app_assoc.
      split; [exact Hname | split; [exact Hlen | split; [| split; [| reflexivity]]]].
      + intros j' p' Hj' Hp'. destruct (decide (j' = j)) as [-> | Hne].
        * rewrite array_set_lookup_eq by lia.
          rewrite Hp0 in Hp'. by injection Hp' as <-.
        * rewrite array_set_lookup_ne by lia. apply Hdone; [lia | exact Hp'].
      + intros j' Hj'. rewrite array_set_lookup_ne by lia. apply Hrest. lia.
    - unfold J. simpl. rewrite app_nil_r.
      split; [reflexivity | split; [reflexivity | split; [| done]]].
      intros j p0 Hj. lia. }
  destruct H as (Hname & Hlen & Hdone & _ & Hout).
  split; [exact Hname | split; [exact Hlen | split; [| exact Hout]]].
  intros j p0 Hj. apply Hdone. lia.
Qed.

(** The variant loop on the variants a model holds. *)
Lemma variant_loop_appends (buf : buffer) (header : HD.t)
    (variants0 : list Variant.t) (n : nat) (st : list Variant.t * list warning) :
  (n <= length variants0)%nat ->
  for_loop 0 n (load_variant buf header) (variants0, []) = Some st ->
  length st.1 = length variants0 /\
  (forall (i : nat) (variant : Variant.t),
     (i < n)%nat -> st.1 !! i = Some variant ->
     variant.(Variant.m_name)
     = token_t_to_string
         (elem_at token_t buf header.(HD.m_variant_offset) (Z.of_nat i)) /\
     length variant.(Variant.m_parts) = Z.to_nat header.(HD.m_part_count) /\
     forall (j : nat) (part : Variant.Part.t),
       variant.(Variant.m_parts) !! j = Some part ->
       part.(Variant.Part.m_attributes)
       = old_attributes variants0 i j
         ++ attributes_of buf header (Z.of_nat i) (Z.of_nat j)) /\
  st.2 = seqZ 0 (Z.of_nat n) ≫= warnings_of_variant buf header.
Proof.
  intros Hn Hrun.
  pose (I := fun (iz : Z) (st : list Variant.t * list warning) =>
    length st.1 = length variants0 /\
    (forall (i : nat) (variant : Variant.t),
       Z.of_nat i < iz -> st.1 !! i = Some variant ->
       variant.(Variant.m_name)
       = token_t_to_string
           (elem_at token_t buf header.(HD.m_variant_offset) (Z.of_nat i)) /\
       length variant.(Variant.m_parts) = Z.to_nat header.(HD.m_part_count) /\
       forall (j : nat) (part : Variant.Part.t),
         variant.(Variant.m_parts) !! j = Some part ->
         part.(Variant.Part.m_attributes)
         = old_attributes variants0 i j
           ++ attributes_of buf header (Z.of_nat i) (Z.of_nat j)) /\
    (forall i : nat, iz <= Z.of_nat i -> st.1 !! i = variants0 !! i) /\
    st.2 = seqZ 0 iz ≫= warnings_of_variant buf header).
  assert (H : I (0 + Z.of_nat n) st).
  { apply (for_loop_inv I (load_variant buf header) n 0 (variants0, []) st);
      [| | exact Hrun].
    - clear st Hrun. intros iz [vs o] st Hi (Hlen & Hdone & Hrest & Hout) Hpass.
      simpl in Hlen, Hdone, Hrest, Hout.
      destruct (Z_of_nat_complete iz) as [i ->]; [lia |].
      destruct (lookup_lt_is_Some_2 variants0 i) as [v0 Hv0]; [lia |].
      assert (Hcur : vs !! i = Some v0) by (rewrite Hrest; [done | lia]).
      unfold Model.load_variant in Hpass.
      rewrite (array_get_lookup _ _ _ _ Hcur) in Hpass.
      apply bind_Some in Hpass as (variant & Hresize & Hpass).
      unfold Variant.setPartCount in Hresize.
      apply bind_Some in Hresize as (ps & Hps & Hvariant).
      apply vec_resize_Some in Hps as [Hcount ->].
      injection Hvariant as <-.
      cbn [Variant.m_parts Variant.m_name] in Hpass.
      set (P := Z.to_nat header.(HD.m_part_count)) in *.
      pose proof (part_loop_appends buf header (Z.of_nat i)
                    (token_t_to_string
                       (elem_at token_t buf header.(HD.m_variant_offset)
                          (Z.of_nat i)))
                    (resize P Variant.Part.ctor v0.(Variant.m_parts)) P o) as Hparts.
      rewrite length_resize in Hparts. specialize (Hparts (le_n _)).
      destruct (for_pure 0 _ _ _) as [variant' o'].
      injection Hpass as <-.
      destruct Hparts as (Hpname & Hplen & Hpdone & Ho').
      simpl in Hpname, Hplen, Hpdone, Ho'.
      unfold P in Ho'. rewrite Z2Nat.id in Ho' by exact Hcount.
      unfold I. cbn [fst snd].
      rewrite array_set_length, seqZ_snoc, bind_snoc, Ho', Hout.
      split; [exact Hlen | split; [| split; [| reflexivity]]].
      + intros i' variant Hi' Hv.
        destruct (decide (i' = i)) as [-> | Hne].
        * rewrite array_set_lookup_eq in Hv by lia. injection Hv as <-.
          split; [exact Hpname | split; [exact Hplen |]].
          intros j part Hpart.
          assert (Hj : (j < P)%nat).
          { rewrite <- Hplen. by apply lookup_lt_Some in Hpart. }
          destruct (lookup_lt_is_Some_2
                      (resize P Variant.Part.ctor v0.(Variant.m_parts)) j)
            as [p0 Hp0]; [by rewrite length_resize |].
          rewrite (Hpdone j p0 Hj Hp0) in Hpart. injection Hpart as <-.
          cbn [Variant.Part.m_attributes]. f_equal.
          unfold old_attributes. rewrite Hv0.
          destruct (decide (j < length v0.(Variant.m_parts))%nat) as [Hlt | Hge].
          -- rewrite lookup_resize in Hp0 by lia. by rewrite Hp0.
          -- rewrite lookup_resize_new in Hp0 by lia. injection Hp0 as <-.
             by rewrite (lookup_ge_None_2 _ j) by lia.
        * rewrite array_set_lookup_ne in Hv by lia.
          apply (Hdone i' variant); [lia | exact Hv].
      + intros i' Hi'. rewrite array_set_lookup_ne by lia. apply Hrest. lia.
    - unfold I. simpl.
      split; [reflexivity | split; [| done]].
      intros i variant Hi. lia. }
  destruct H as (Hlen & Hdone & _ & Hout).
  split; [exact Hlen | split; [| exact Hout]].
  intros i variant Hi. apply Hdone. lia.
Qed.

(** The attributes of a part after an accepting descriptor decoder. *)
Lemma loadDescriptor_part_attributes (m m' : model) (buf : buffer)
    (out : list warning) (i j : nat) (variant : Variant.t)
    (part : Variant.Part.t) :
  ufs.(fs_open) (m.(Model.m_filePath) +:+ ".pmd") = Some buf ->
  loadDescriptor m = Some (true, m', out) ->
  m'.(Model.m_variants) !! i = Some variant ->
  variant.(Variant.m_parts) !! j = Some part ->
  part.(Variant.Part.m_attributes)
  = old_attributes m.(Model.m_variants) i j
    ++ attributes_of buf (cast_at HD.t buf 0) (Z.of_nat i) (Z.of_nat j).
Proof.
  intros Hopen H. set (header := cast_at HD.t buf 0).
  unfold Model.loadDescriptor in H. rewrite Hopen in H.
  unfold Model.loadDescriptor_buffer in H. fold header in H.
  destruct (negb _); [discriminate |].
  apply bind_Some in H as (looks & _ & H).
  apply bind_Some in H as (looks' & _ & H).
  apply bind_Some in H as (variants & Hvariants & H).
  apply bind_Some in H as (st & Hloop & H).
  injection H as <- <-. cbn [Model.m_variants Model.with_descriptor].
  apply vec_resize_Some in Hvariants as [Hcount ->].
  apply variant_loop_appends in Hloop as (Hlen & Hdone & _); [| lia].
  rewrite length_resize in Hlen, Hdone.
  intros Hvariant Hpart.
  assert (Hi : (i < Z.to_nat header.(HD.m_variant_count))%nat).
  { rewrite <- Hlen. by apply lookup_lt_Some in Hvariant. }
  destruct (Hdone i variant Hi Hvariant) as (_ & _ & Hattrs).
  rewrite (Hattrs j part Hpart).
  by rewrite old_attributes_resize.
Qed.


(** X12: The descriptor decoder never clears an attribute list.  Whatever
    the model held, after it succeeds the model has one variant per variant
    of the header, variant [i] has the name of token [i] of the variant
    table and one part per part of the header, and the attributes of part
    [j] are those the part held before, if the model had such a part,
    followed by one attribute per definition of the range of the part; the
    warnings printed are those of the definitions of unknown type.  So a
    descriptor decoded into a model that still holds the variants of an
    earlier descriptor leaves the attributes of both. *)
Theorem loadDescriptor_appends_attributes
    (m m' : model) (buf : buffer) (out : list warning) :
  ufs.(fs_open) (m.(Model.m_filePath) +:+ ".pmd") = Some buf ->
  loadDescriptor m = Some (true, m', out) ->
  let header := cast_at HD.t buf 0 in
  length m'.(Model.m_variants) = Z.to_nat header.(HD.m_variant_count) /\
  (forall (i : nat) (variant : Variant.t),
     m'.(Model.m_variants) !! i = Some variant ->
     variant.(Variant.m_name)
     = token_t_to_string
         (elem_at token_t buf header.(HD.m_variant_offset) (Z.of_nat i)) /\
     length variant.(Variant.m_parts) = Z.to_nat header.(HD.m_part_count) /\
     forall (j : nat) (part : Variant.Part.t),
       variant.(Variant.m_parts) !! j = Some part ->
       part.(Variant.Part.m_attributes)
       = old_attributes m.(Model.m_variants) i j
         ++ attributes_of buf header (Z.of_nat i) (Z.of_nat j)) /\
  out = warnings_of_descriptor buf header.
Proof.
  intros Hopen H header.
  pose proof (fun i j variant part =>
                loadDescriptor_part_attributes m m' buf out i j variant part
                  Hopen H) as Hattributes.
  unfold Model.loadDescriptor in H. rewrite Hopen in H.
  unfold Model.loadDescriptor_buffer in H. fold header in H.
  destruct (negb _); [discriminate |].
  apply bind_Some in H as (looks & _ & H).
  apply bind_Some in H as (looks' & _ & H).
  apply bind_Some in H as (variants & Hvariants & H).
  apply bind_Some in H as (st & Hloop & H).
  injection H as <- <-. cbn [Model.m_variants Model.with_descriptor].
  apply vec_resize_Some in Hvariants as [Hcount ->].
  apply variant_loop_appends in Hloop as (Hlen & Hdone & Hout); [| lia].
  rewrite length_resize in Hlen, Hdone, Hout.
  rewrite Z2Nat.id in Hout by exact Hcount.
  split; [exact Hlen | split; [| exact Hout]].
  intros i variant Hvariant.
  assert (Hi : (i < Z.to_nat header.(HD.m_variant_count))%nat).
  { rewrite <- Hlen. by apply lookup_lt_Some in Hvariant. }
  destruct (Hdone i variant Hi Hvariant) as (Hname & Hparts & _).
  split; [exact Hname | split; [exact Hparts |]].
  intros j part Hpart. exact (Hattributes i j variant part Hvariant Hpart).
Qed.

(** X13: Attributes by name after a decode.  In part [j] of variant [i] of
    the model an accepting descriptor decoder leaves, the subscript by name
    returns the first attribute of that name the part held before the
    decode, if it held one, and otherwise the first of that name among the
    attributes of the definitions of the range of the part.  So, when the
    constructor of an attribute stores the name it is given, in a part that
    held nothing, the subscript by the name of a definition returns the
    attribute of the first definition of the range with that name. *)
Theorem Part_subscript_name_after_decode
    (m m' : model) (buf : buffer) (out : list warning)
    (i j : nat) (variant : Variant.t) (part : Variant.Part.t) :
  ufs.(fs_open) (m.(Model.m_filePath) +:+ ".pmd") = Some buf ->
  loadDescriptor m = Some (true, m', out) ->
  m'.(Model.m_variants) !! i = Some variant ->
  Variant_subscript j variant = Some part ->
  let header := cast_at HD.t buf 0 in
  let old := old_attributes m.(Model.m_variants) i j in
  let definition_name (k : Z) :=
    token_t_to_string
      (elem_at pmd.pmd_attrib_def_t.t buf header.(HD.m_attribs_offset) k)
        .(pmd.pmd_attrib_def_t.m_name) in
  (forall name : string,
     Part_subscript_name name part
     = match Part_subscript_name name {| Variant.Part.m_attributes := old |} with
       | Some attr => Some attr
       | None =>
           Part_subscript_name name
             {| Variant.Part.m_attributes :=
                  attributes_of buf header (Z.of_nat i) (Z.of_nat j) |}
       end) /\
  ((forall name : string, (Attribute_ctor name).(Variant.Attribute.m_name) = name) ->
   old = [] ->
   forall (n : nat) (k : Z),
     attribute_range buf header (Z.of_nat j) !! n = Some k ->
     (forall (n' : nat) (k' : Z),
        (n' < n)%nat -> attribute_range buf header (Z.of_nat j) !! n' = Some k' ->
        definition_name k' <> definition_name k) ->
     Part_subscript_name (definition_name k) part
     = Some (Model.load_attribute token_t_to_string Attribute_ctor buf header
               (Z.of_nat i) k).1).
Proof.
  intros Hopen Hload Hvariant Hpart header old definition_name.
  pose proof (loadDescriptor_part_attributes m m' buf out i j variant part
                Hopen Hload Hvariant Hpart) as Hattrs.
  fold header old in Hattrs.
  unfold Part_subscript_name. cbn [Variant.Part.m_attributes]. rewrite Hattrs.
  split; [intros name; apply find_app_first |].
  intros Hctor -> n k Hk Hfirst. rewrite app_nil_l.
  assert (Hname : forall k0,
            (Model.load_attribute token_t_to_string Attribute_ctor buf header
               (Z.of_nat i) k0).1.(Variant.Attribute.m_name)
            = definition_name k0).
  { intros k0. unfold Model.load_attribute. cbv zeta.
    destruct (_ =? 0); cbn [fst Variant.Attribute.m_name]; apply Hctor. }
  apply (find_first_index _ _ n).
  - unfold expected_attributes. by rewrite list_lookup_fmap, Hk.
  - rewrite Hname. apply String.eqb_refl.
  - intros n' attr Hn' Hattr. unfold expected_attributes in Hattr.
    rewrite list_lookup_fmap in Hattr.
    destruct (attribute_range buf header (Z.of_nat j) !! n') as [k' |] eqn:Hk';
      [| discriminate].
    injection Hattr as <-. rewrite Hname.
    apply String.eqb_neq. by apply (Hfirst n').
Qed.

(** X14: The outcomes of the descriptor decoder.  It returns false,
    prints no warning about attributes and leaves the model as it was when
    the descriptor file cannot be opened and when its version is not the
    supported one, and only then: once the version is accepted it never
    returns false.  With an accepted version it throws when the header
    declares a negative number of looks or of variants, or a negative
    number of materials with at least one look, or a negative number of
    parts with at least one variant. *)
Theorem loadDescriptor_outcome (m : model) :
  (ufs.(fs_open) (m.(Model.m_filePath) +:+ ".pmd") = None ->
   loadDescriptor m = Some (false, m, [])) /\
  (forall buf : buffer,
     ufs.(fs_open) (m.(Model.m_filePath) +:+ ".pmd") = Some buf ->
     let header := cast_at HD.t buf 0 in
     (header.(HD.m_version) <> pmd_SUPPORTED_VERSION ->
      loadDescriptor m = Some (false, m, [])) /\
     (header.(HD.m_version) = pmd_SUPPORTED_VERSION ->
      ~ descriptor_sized header -> loadDescriptor m = None) /\
     (header.(HD.m_version) = pmd_SUPPORTED_VERSION ->
      forall (m' : model) (out : list warning),
        loadDescriptor m <> Some (false, m', out))).
Proof.
  split; [intros Hopen; unfold Model.loadDescriptor; by rewrite Hopen |].
  intros buf Hopen header.
  unfold Model.loadDescriptor. rewrite Hopen.
  unfold Model.loadDescriptor_buffer. fold header.
  destruct (Z.eqb_spec header.(HD.m_version) pmd_SUPPORTED_VERSION)
    as [Hv | Hv]; cbn [negb].
  2:{ split; [done | split; intros Heq; contradiction]. }
  split; [intros Hne; contradiction |].
  assert (Hlooks : forall (L : nat) (looks : list Look.t),
            (0 < L)%nat -> header.(HD.m_material_count) < 0 ->
            for_loop 0 L (load_look buf header m.(Model.m_directory)) looks = None).
  { intros L looks HL Hneg. apply (for_loop_throws _ L 0 looks 0); [lia |].
    intros s. unfold Model.load_look.
    by rewrite (vec_resize_throws _ _ _ Hneg). }
  assert (Hvariants : forall (V : nat) (st : list Variant.t * list warning),
            (0 < V)%nat -> header.(HD.m_part_count) < 0 ->
            for_loop 0 V (load_variant buf header) st = None).
  { intros V st HV Hneg. apply (for_loop_throws _ V 0 st 0); [lia |].
    intros [vs o]. unfold Model.load_variant, Variant.setPartCount.
    cbn [Variant.m_parts]. by rewrite (vec_resize_throws _ _ _ Hneg). }
  unfold descriptor_sized. split.
  - intros _ Hsized.
    destruct (Z.lt_ge_cases header.(HD.m_look_count) 0) as [Hlc | Hlc];
      [by rewrite (vec_resize_throws _ _ _ Hlc) |].
    rewrite (vec_resize_returns _ _ _ Hlc). simpl. rewrite length_resize.
    destruct (decide (0 < header.(HD.m_look_count)
                      /\ header.(HD.m_material_count) < 0)) as [[HL Hmc] | Hlook].
    { rewrite Hlooks by lia. reflexivity. }
    destruct (for_loop 0 _ (load_look _ _ _) _) as [looks' |]; [| reflexivity].
    simpl.
    destruct (Z.lt_ge_cases header.(HD.m_variant_count) 0) as [Hvc | Hvc];
      [by rewrite (vec_resize_throws _ _ _ Hvc) |].
    rewrite (vec_resize_returns _ _ _ Hvc). simpl. rewrite length_resize.
    destruct (decide (0 < header.(HD.m_variant_count)
                      /\ header.(HD.m_part_count) < 0)) as [[HV Hpc] | Hvar].
    { rewrite Hvariants by lia. reflexivity. }
    exfalso. apply Hsized. repeat split; lia.
  - intros _ m' out Hfalse.
    repeat (apply bind_Some in Hfalse as (? & _ & Hfalse)).
    discriminate Hfalse.
Qed.

End DescriptorFacts.

(** ** Further properties of [Model::load] *)
Section LoadFacts.

Context {Prefab Collision : Type}.
Variable BONE_COUNT : nat.
Context {bone_ctor : Constructible Bone.t}
        {locator_ctor : Constructible Locator.t}
        {part_ctor : Constructible Part.t}
        {piece_ctor : Constructible Piece.t}
        {vertex_ctor : Constructible Vertex.t}
        {triangle_ctor : Constructible Triangle.t}
        {collision_ctor : Constructible Collision}.
Context {token_layout : Layout token_t}
        {header13_layout : Layout H13.t}
        {bone13_layout : Layout pmg_0x13.pmg_bone_t.t}
        {part13_layout : Layout pmg_0x13.pmg_part_t.t}
        {locator13_layout : Layout pmg_0x13.pmg_locator_t.t}
        {piece13_layout : Layout P13.t}
        {triangle13_layout : Layout pmg_0x13.pmg_triangle_t.t}
        {header14_layout : Layout H14.t}
        {bone14_layout : Layout pmg_0x14.pmg_bone_data_t.t}
        {part14_layout : Layout pmg_0x14.pmg_part_t.t}
        {locator14_layout : Layout pmg_0x14.pmg_locator_t.t}
        {piece14_layout : Layout P14.t}
        {index14_layout : Layout pmg_0x14.pmg_index_t.t}
        {pmd_header_layout : Layout HD.t}
        {attrib_link_layout : Layout pmd.pmd_attrib_link_t.t}
        {attrib_def_layout : Layout pmd.pmd_attrib_def_t.t}
        {attrib_value_layout : Layout pmd.pmd_attrib_value_t.t}.
Variable token_to_string : token_t -> string.
Variable token_t_to_string : token_t -> string.
Variable pmd_SUPPORTED_VERSION : Z.
Variable Attribute_ctor : string -> Variant.Attribute.t.
Variable Material_load : string -> Material.t -> Material.t.
Variable directory : string -> string.
Variable ufs : FileSystem.
Variable Prefab_load : string -> option Prefab.
Variable Collision_load :
  Model.t Prefab Collision -> string -> Collision -> Collision * bool.

Local Abbreviation model := (Model.t Prefab Collision).
Local Abbreviation loadModel :=
  (Model.loadModel (Prefab := Prefab) (Collision := Collision)
     BONE_COUNT token_to_string ufs).
Local Abbreviation loadDescriptor :=
  (Model.loadDescriptor (Prefab := Prefab) (Collision := Collision)
     token_to_string token_t_to_string pmd_SUPPORTED_VERSION Attribute_ctor
     Material_load ufs).
Local Abbreviation loadCollision :=
  (Model.loadCollision (Prefab := Prefab) (Collision := Collision)
     ufs Collision_load).
Local Abbreviation load :=
  (Model.load BONE_COUNT token_to_string token_t_to_string
     pmd_SUPPORTED_VERSION Attribute_ctor Material_load directory ufs
     Prefab_load Collision_load).

(** The steps of a load that returns true. *)
Lemma load_accepted (filePath : string) (m m' : model) :
  load filePath m = Some (true, m') ->
  let m0 := if m.(Model.m_loaded) then Model.destroy m else m in
  exists (m_fileName : string) (md mg : model) (out : list warning),
    substr_from filePath (String.length (directory filePath) + 1)
    = Some m_fileName /\
    loadDescriptor (Model.with_path filePath (directory filePath) m_fileName m0)
    = Some (true, md, out) /\
    loadModel md = Some (true, mg) /\
    mg.(Model.m_filePath) = filePath /\
    m' = Model.with_loaded true
           (loadCollision
              (if ufs.(fs_exists) (filePath +:+ ".ppd")
               then Model.with_prefab (Prefab_load filePath) mg
               else mg)).2.
Proof.
  intros Hload m0. unfold Model.load in Hload. fold m0 in Hload.
  apply bind_Some in Hload as (m_fileName & Hname & Hload).
  apply bind_Some in Hload as ([[okd md] out] & Hdesc & Hload).
  destruct okd; simpl in Hload; [| discriminate].
  apply bind_Some in Hload as ([okg mg] & Hgeo & Hload).
  destruct okg; simpl in Hload; [| discriminate].
  exists m_fileName, md, mg, out.
  assert (Hpath : mg.(Model.m_filePath) = filePath).
  { apply loadDescriptor_frame in Hdesc as (_ & _ & Hp1 & _).
    apply loadModel_frame in Hgeo as ((_ & Hp2 & _) & _).
    by rewrite Hp2, Hp1. }
  rewrite Hpath in Hload. injection Hload as <-.
  by repeat split.
Qed.

(** X15: What a load that returns true leaves outside the geometry and the
    descriptor.  The model is loaded; its path is the path given, its
    directory the directory of that path and its file name what follows the
    directory and one more character.  The prefab is the loaded prefab when
    a .ppd file exists (none when its load fails) and the prefab the model
    held otherwise.  The collision is the one the model held when no .pmc
    file exists; when one exists it is the new collision after its load,
    also when that load returns false:  [load] returns true all the same and
    keeps the collision. *)
Theorem load_success_state (filePath : string) (m m' : model) :
  load filePath m = Some (true, m') ->
  m'.(Model.m_loaded) = true /\
  m'.(Model.m_filePath) = filePath /\
  m'.(Model.m_directory) = directory filePath /\
  substr_from filePath (String.length (directory filePath) + 1)
  = Some m'.(Model.m_fileName) /\
  (ufs.(fs_exists) (filePath +:+ ".ppd") = true ->
   m'.(Model.m_prefab) = Prefab_load filePath) /\
  (ufs.(fs_exists) (filePath +:+ ".ppd") = false ->
   m'.(Model.m_prefab) = m.(Model.m_prefab)) /\
  (ufs.(fs_exists) (filePath +:+ ".pmc") = true ->
   exists (this : model) (collision : Collision) (ok : bool),
     Collision_load this filePath (default_constructed Collision)
     = (collision, ok) /\
     m'.(Model.m_collision) = Some collision) /\
  (ufs.(fs_exists) (filePath +:+ ".pmc") = false ->
   m'.(Model.m_collision) = m.(Model.m_collision)).
Proof.
  intros Hload.
  destruct (load_accepted _ _ _ Hload)
    as (m_fileName & md & mg & out & Hname & Hdesc & Hgeo & Hpath & ->).
  apply loadDescriptor_frame in Hdesc as (_ & Hf1).
  apply loadModel_frame in Hgeo as (Hf2 & _).
  destruct Hf1 as (_ & _ & Hn1 & Hd1 & Hp1 & Hc1).
  destruct Hf2 as (_ & _ & Hn2 & Hd2 & Hp2 & Hc2).
  simpl in Hn1, Hd1, Hp1, Hc1.
  assert (Hp0 : (if m.(Model.m_loaded) then Model.destroy m else m).(Model.m_prefab)
                = m.(Model.m_prefab)) by (by destruct (Model.m_loaded m)).
  assert (Hc0 : (if m.(Model.m_loaded) then Model.destroy m else m).(Model.m_collision)
                = m.(Model.m_collision)) by (by destruct (Model.m_loaded m)).
  unfold Model.loadCollision.
  destruct (fs_exists ufs (filePath +:+ ".ppd")) eqn:Hppd;
    cbn [Model.with_prefab Model.m_filePath]; rewrite Hpath;
    destruct (fs_exists ufs (filePath +:+ ".pmc")) eqn:Hpmc;
    try destruct (Collision_load _ _ _) as [collision ok] eqn:Hcol; simpl;
    rewrite ?Hpath, ?Hn2, ?Hn1, ?Hd2, ?Hd1, ?Hp2, ?Hp1, ?Hc2, ?Hc1, ?Hp0, ?Hc0;
    repeat split; try done;
    try (intros _; eexists _, collision, ok; split; [| reflexivity];
         cbn [Model.m_filePath Model.with_collision Model.with_prefab] in Hcol;
         rewrite Hpath in Hcol; exact Hcol).
Qed.

(** X16: A load that fails does not keep the model that was loaded: its
    geometry is gone and it is not loaded any more, whether the descriptor
    or the geometry was refused.  Its prefab and its collision stay. *)
Theorem load_failure_destroys (filePath : string) (m m' : model) :
  m.(Model.m_loaded) = true ->
  load filePath m = Some (false, m') ->
  m'.(Model.m_loaded) = false /\ no_geometry m' /\
  m'.(Model.m_filePath) = filePath /\
  m'.(Model.m_prefab) = m.(Model.m_prefab) /\
  m'.(Model.m_collision) = m.(Model.m_collision).
Proof.
  intros Hwas Hload. unfold Model.load in Hload. rewrite Hwas in Hload.
  apply bind_Some in Hload as (m_fileName & _ & Hload).
  apply bind_Some in Hload as ([[okd md] out] & Hdesc & Hload).
  apply loadDescriptor_frame in Hdesc as (Hgeo & Hframe).
  assert (Hmd : md.(Model.m_loaded) = false /\ no_geometry md /\
                md.(Model.m_filePath) = filePath /\
                md.(Model.m_prefab) = m.(Model.m_prefab) /\
                md.(Model.m_collision) = m.(Model.m_collision)).
  { destruct Hgeo as (Hb & Hl & Hp & Hpc & Hv & Ht & Hs).
    destruct Hframe as (Hloaded & Hpath & _ & _ & Hprefab & Hcollision).
    unfold no_geometry.
    rewrite Hb, Hl, Hp, Hpc, Hv, Ht, Hs, Hloaded, Hpath, Hprefab, Hcollision.
    by repeat split. }
  destruct okd; simpl in Hload.
  - apply bind_Some in Hload as ([okg mg] & Hmodel & Hload).
    destruct okg; simpl in Hload; [discriminate |].
    injection Hload as <-. by apply loadModel_refused in Hmodel as ->.
  - by injection Hload as <-.
Qed.

(** *** Loading the same file again *)

Lemma loadDescriptor_reframe (prefab : option Prefab)
    (collision : option Collision) (m : model) :
  loadDescriptor (reframe prefab collision m)
  = (fun r : bool * model * list warning =>
       (r.1.1, reframe prefab collision r.1.2, r.2)) <$> loadDescriptor m.
Proof.
  unfold Model.loadDescriptor, reframe.
  cbn [Model.m_filePath Model.with_prefab Model.with_collision].
  destruct (fs_open ufs _) as [buf |]; [| reflexivity].
  unfold Model.loadDescriptor_buffer.
  destruct (negb _); [reflexivity |].
  cbn [Model.m_looks Model.m_variants Model.m_directory
       Model.with_prefab Model.with_collision].
  destruct (vec_resize _ Look.ctor _) as [looks |]; [| reflexivity]. simpl.
  destruct (for_loop 0 _ _ looks) as [looks' |]; [| reflexivity]. simpl.
  destruct (vec_resize _ Variant.ctor _) as [variants |]; [| reflexivity]. simpl.
  destruct (for_loop 0 _ _ (variants, [])) as [st |]; reflexivity.
Qed.

Lemma loadModel_reframe (prefab : option Prefab)
    (collision : option Collision) (m : model) :
  loadModel (reframe prefab collision m)
  = (fun r : bool * model => (r.1, reframe prefab collision r.2)) <$> loadModel m.
Proof.
  unfold Model.loadModel, reframe.
  cbn [Model.m_filePath Model.with_prefab Model.with_collision].
  destruct (fs_open ufs _) as [buf |]; [| reflexivity].
  destruct (_ =? _).
  - unfold Model.loadModel0x13.
    destruct (H13.m_signature _) as [[s0 s1] s2].
    destruct (_ || _); [reflexivity |].
    cbn [Model.m_pieces Model.m_bones Model.m_locators Model.m_parts
         Model.with_prefab Model.with_collision].
    destruct (vec_resize _ (default_constructed Piece.t) _) as [pieces |];
      [| reflexivity]. simpl.
    destruct (vec_resize _ (default_constructed Bone.t) _) as [bones |];
      [| reflexivity]. simpl.
    destruct (vec_resize _ (default_constructed Locator.t) _) as [locators |];
      [| reflexivity]. simpl.
    destruct (vec_resize _ (default_constructed Part.t) _) as [parts |];
      [| reflexivity]. simpl.
    destruct (for_loop 0 _ _ _) as [st |]; reflexivity.
  - destruct (_ =? _); [| reflexivity].
    unfold Model.loadModel0x14.
    destruct (H14.m_signature _) as [[s0 s1] s2].
    destruct (_ || _); [reflexivity |].
    cbn [Model.m_pieces Model.m_bones Model.m_locators Model.m_parts
         Model.with_prefab Model.with_collision].
    destruct (vec_resize _ (default_constructed Piece.t) _) as [pieces |];
      [| reflexivity]. simpl.
    destruct (vec_resize _ (default_constructed Bone.t) _) as [bones |];
      [| reflexivity]. simpl.
    destruct (vec_resize _ (default_constructed Locator.t) _) as [locators |];
      [| reflexivity]. simpl.
    destruct (vec_resize _ (default_constructed Part.t) _) as [parts |];
      [| reflexivity]. simpl.
    destruct (for_loop 0 _ _ _) as [st |]; reflexivity.
Qed.

Lemma with_collision_prefab_reframe (x c : option Collision)
    (y p : option Prefab) (m : model) :
  Model.with_collision x (Model.with_prefab y (reframe p c m))
  = Model.with_collision x (Model.with_prefab y m).
Proof. reflexivity. Qed.

Lemma with_collision_reframe (x c : option Collision) (p : option Prefab)
    (m : model) :
  Model.with_collision x (reframe p c m) = Model.with_collision x (Model.with_prefab p m).
Proof. reflexivity. Qed.

Lemma with_prefab_reframe (c : option Collision) (y p : option Prefab)
    (m : model) :
  Model.with_prefab y (reframe p c m) = Model.with_prefab y (Model.with_collision c m).
Proof. reflexivity. Qed.

Lemma with_prefab_same (m : model) : Model.with_prefab m.(Model.m_prefab) m = m.
Proof. by destruct m. Qed.

Lemma with_collision_same (m : model) :
  Model.with_collision m.(Model.m_collision) m = m.
Proof. by destruct m. Qed.

(** X17: Loading is idempotent.  When a model that is loaded, or that holds
    nothing yet, loads a file, loading the same file again (the files being
    unchanged) leaves the very same model: the second load destroys the
    model and decodes it again from nothing, and the prefab and collision it
    kept are replaced or kept as they were the first time. *)
Theorem load_twice (filePath : string) (m m1 : model) :
  m.(Model.m_loaded) = true \/ unloaded_state m ->
  load filePath m = Some (true, m1) ->
  load filePath m1 = Some (true, m1).
Proof.
  intros Hstart Hload.
  destruct (load_accepted _ _ _ Hload)
    as (m_fileName & md & mg & out & Hname & Hdesc & Hgeo & Hpath & Hm1).
  set (m0 := if m.(Model.m_loaded) then Model.destroy m else m) in *.
  assert (Hm0 : unloaded_state m0).
  { subst m0. destruct (Model.m_loaded m) eqn:Hwas.
    - unfold unloaded_state. simpl. by repeat split.
    - destruct Hstart as [Htrue | Hnew]; [discriminate | exact Hnew]. }
  assert (Hloaded : m1.(Model.m_loaded) = true) by (by rewrite Hm1).
  assert (Hs : Model.with_path filePath (directory filePath) m_fileName
                 (Model.destroy m1)
               = reframe m1.(Model.m_prefab) m1.(Model.m_collision)
                   (Model.with_path filePath (directory filePath) m_fileName m0)).
  { destruct Hm0 as (Hb & Hl & Hp & Hpc & Hlk & Hvr & Hv & Ht & Hs & Hmc & Hld).
    unfold reframe, Model.with_path, Model.destroy, Model.with_prefab,
      Model.with_collision. simpl.
    by rewrite Hb, Hl, Hp, Hpc, Hlk, Hvr, Hv, Ht, Hs, Hmc, Hld. }
  unfold Model.load. rewrite Hloaded, Hname. simpl.
  rewrite Hs, loadDescriptor_reframe, Hdesc. simpl.
  rewrite loadModel_reframe, Hgeo. simpl.
  rewrite Hpath. f_equal. f_equal.
  clear Hs Hload Hdesc Hgeo Hloaded Hm0 Hstart Hname m0 md out.
  unfold Model.loadCollision in *.
  destruct (fs_exists ufs (filePath +:+ ".ppd")) eqn:Hppd.
  - rewrite with_prefab_reframe.
    cbn [Model.m_filePath Model.with_prefab Model.with_collision] in *.
    rewrite Hpath in *.
    destruct (fs_exists ufs (filePath +:+ ".pmc")) eqn:Hpmc.
    + destruct (Collision_load _ _ _) as [collision ok] eqn:Hcol in Hm1.
      cbn [snd] in Hm1.
      change (Model.with_collision (Some (default_constructed Collision))
                (Model.with_prefab (Prefab_load filePath)
                   (Model.with_collision m1.(Model.m_collision) mg)))
        with (Model.with_collision (Some (default_constructed Collision))
                (Model.with_prefab (Prefab_load filePath) mg)).
      rewrite Hcol. cbn [snd]. by subst m1.
    + cbn [snd] in *.
      assert (Hc : m1.(Model.m_collision) = mg.(Model.m_collision))
        by (by rewrite Hm1).
      rewrite Hc, with_collision_same. by subst m1.
  - unfold reframe. cbn [Model.m_filePath Model.with_prefab Model.with_collision] in *.
    rewrite Hpath in *.
    destruct (fs_exists ufs (filePath +:+ ".pmc")) eqn:Hpmc.
    + destruct (Collision_load _ _ _) as [collision ok] eqn:Hcol in Hm1.
      cbn [snd] in Hm1.
      assert (Hp : m1.(Model.m_prefab) = mg.(Model.m_prefab))
        by (by rewrite Hm1).
      change (Model.with_collision (Some (default_constructed Collision))
                (Model.with_prefab m1.(Model.m_prefab)
                   (Model.with_collision m1.(Model.m_collision) mg)))
        with (Model.with_collision (Some (default_constructed Collision))
                (Model.with_prefab m1.(Model.m_prefab) mg)).
      rewrite Hp, with_prefab_same, Hcol. cbn [snd]. by subst m1.
    + cbn [snd] in *.
      assert (Hp : m1.(Model.m_prefab) = mg.(Model.m_prefab))
        by (by rewrite Hm1).
      assert (Hc : m1.(Model.m_collision) = mg.(Model.m_collision))
        by (by rewrite Hm1).
      rewrite Hp, Hc, with_collision_same, with_prefab_same. by subst m1.
Qed.

End LoadFacts.

(** ** The encoders *)

(** A loop on a vector whose passes are all defined is defined. *)
Lemma for_each_defined {A St : Type} (P : Z -> A -> Prop)
    (body : Z -> A -> St -> option St) :
  (forall i x s, is_Some (body i x s) <-> P i x) ->
  forall (v : list A) (from : Z) (s : St),
    is_Some (for_each from v body s)
    <-> forall (k : nat) (x : A), v !! k = Some x -> P (from + Z.of_nat k) x.
Proof.
  intros Hbody. induction v as [| x v IH]; intros from s; simpl.
  - split; [intros _ k y Hk; discriminate | intros _; by eexists].
  - split.
    + intros Hrun k y Hk.
      destruct (body from x s) as [s1 |] eqn:Hb;
        [| by destruct Hrun as [? [=]]].
      simpl in Hrun. destruct k as [| k]; simpl in Hk.
      * injection Hk as <-. rewrite Z.add_0_r. apply (Hbody from x s). by eexists.
      * replace (from + Z.of_nat (S k)) with ((from + 1) + Z.of_nat k) by lia.
        by apply (IH (from + 1) s1).
    + intros Hall.
      assert (Hx : is_Some (body from x s)).
      { apply Hbody. specialize (Hall 0%nat x eq_refl).
        by rewrite Z.add_0_r in Hall. }
      destruct Hx as [s1 ->]. simpl. apply IH. intros k y Hk.
      replace (from + 1 + Z.of_nat k) with (from + Z.of_nat (S k)) by lia.
      by apply Hall.
Qed.

Lemma for_each_total {A St : Type} (body : Z -> A -> St -> option St) :
  (forall i x s, is_Some (body i x s)) ->
  forall (v : list A) (from : Z) (s : St), is_Some (for_each from v body s).
Proof.
  intros Hbody v from s.
  apply (for_each_defined (fun _ _ => True)); [| done].
  intros i x t. split; [done | intros _; apply Hbody].
Qed.

(** What a loop on a vector establishes. *)
Lemma for_each_inv {A St : Type} (I : nat -> St -> Prop)
    (body : Z -> A -> St -> option St) (v : list A) :
  forall (done : nat) (from : Z) (s s' : St),
    (forall (k : nat) (x : A) (s s' : St),
       v !! k = Some x -> I (done + k)%nat s ->
       body (from + Z.of_nat k) x s = Some s' -> I (S (done + k)) s') ->
    I done s ->
    for_each from v body s = Some s' ->
    I (done + length v)%nat s'.
Proof.
  induction v as [| x v IH]; intros done from s s' Hstep Hinit Hrun; simpl in *.
  - injection Hrun as <-. by rewrite Nat.add_0_r.
  - destruct (body from x s) as [s1 |] eqn:Hb; [| discriminate]. simpl in Hrun.
    replace (done + S (length v))%nat with (S done + length v)%nat by lia.
    apply (IH (S done) (from + 1) s1 s'); [| | exact Hrun].
    + intros k y t t' Hk Ht Hbody.
      replace (S done + k)%nat with (done + S k)%nat in * by lia.
      apply (Hstep (S k) y t t'); [exact Hk | exact Ht |].
      by replace (from + Z.of_nat (S k)) with (from + 1 + Z.of_nat k) by lia.
    + replace (S done) with (S (done + 0)) by lia.
      apply (Hstep 0%nat x s s1); [done | by rewrite Nat.add_0_r |].
      by rewrite Z.add_0_r.
Qed.

Lemma bind_is_Some {A B : Type} (o : option A) (f : A -> option B) (Q : Prop) :
  (forall x, is_Some (f x) <-> Q) ->
  is_Some (o ≫= f) <-> is_Some o /\ Q.
Proof.
  intros Hf. destruct o as [x |]; simpl.
  - rewrite (Hf x). split; [intros HQ; split; [by eexists | done] | by intros [_ HQ]].
  - split; [intros [? [=]] | intros [[? [=]] _]].
Qed.

Lemma is_Some_Some_iff {A : Type} (x : A) (Q : Prop) :
  Q -> (is_Some (Some x) <-> Q).
Proof. intros HQ. split; [done | intros _; by eexists]. Qed.

Lemma for_loop_defined {St : Type} (P : Z -> Prop)
    (body : Z -> St -> option St) :
  (forall i s, is_Some (body i s) <-> P i) ->
  forall (n : nat) (from : Z) (s : St),
    is_Some (for_loop from n body s)
    <-> forall i, from <= i < from + Z.of_nat n -> P i.
Proof.
  intros Hbody. induction n as [| n IH]; intros from s; simpl.
  - split; [intros _ i Hi; lia | intros _; by eexists].
  - split.
    + intros Hrun i Hi.
      destruct (body from s) as [s1 |] eqn:Hb;
        [| by destruct Hrun as [? [=]]].
      simpl in Hrun. destruct (decide (i = from)) as [-> | Hne].
      * apply (Hbody from s). by eexists.
      * apply (IH (from + 1) s1); [exact Hrun | lia].
    + intros Hall.
      assert (Hx : is_Some (body from s)) by (apply Hbody, Hall; lia).
      destruct Hx as [s1 ->]. simpl. apply IH. intros i Hi. apply Hall. lia.
Qed.

Lemma bind_total_iff {A B : Type} (o : option A) (f : A -> option B) (Q : Prop) :
  is_Some o -> (forall x, is_Some (f x) <-> Q) -> (is_Some (o ≫= f) <-> Q).
Proof. intros [x ->] Hf. simpl. apply Hf. Qed.

Lemma bind_total {A B : Type} (o : option A) (f : A -> option B) :
  is_Some o -> (forall x, is_Some (f x)) -> is_Some (o ≫= f).
Proof. intros [x ->] Hf. simpl. apply Hf. Qed.

Section EncoderFacts.

Context {Prefab Collision : Type}.
Variables SEOL TAB STRING_VERSION : string.
Variable sfs_open : string -> bool.
Variable float2_to_string : float2 -> string.
Variable float3_to_string : float3 -> string.
Variable float4_to_string : float4 -> string.
Variable color_to_string : Q * Q * Q * Q -> string.
Variable FLT_FT_flh : float -> string.
Variable weight_of_byte : Z -> float.
Variable glm_cast : list float -> Z -> Z -> float.
Variable Material_toDeclaration : Material.t -> string.
Variable Material_toDefinition : string -> Material.t -> string.
Variable Piece_texCoords : Z -> Piece.t -> list Z.

Local Abbreviation model := (Model.t Prefab Collision).
Local Abbreviation saveToPit :=
  (Encoder.saveToPit (Prefab := Prefab) (Collision := Collision)
     SEOL TAB STRING_VERSION sfs_open Material_toDefinition).
Local Abbreviation pit_text :=
  (Encoder.pit_text (Prefab := Prefab) (Collision := Collision)
     SEOL TAB STRING_VERSION Material_toDefinition).
Local Abbreviation saveToPis :=
  (Encoder.saveToPis (Prefab := Prefab) (Collision := Collision)
     SEOL TAB STRING_VERSION sfs_open FLT_FT_flh glm_cast).
Local Abbreviation pis_text :=
  (Encoder.pis_text (Prefab := Prefab) (Collision := Collision)
     SEOL TAB STRING_VERSION FLT_FT_flh glm_cast).

Lemma pit_text_defined (m : model) :
  is_Some (pit_text m) <-> variants_cover_parts m.
Proof.
  unfold Encoder.pit_text. cbv zeta.
  rewrite (bind_is_Some _ _ (variants_cover_parts m)).
  - split; [by intros [_ H] | intros H; split; [| exact H]].
    apply for_each_total. intros i look s. unfold Encoder.pit_look.
    destruct (for_each_total
                (fun (j : Z) material (file : string) =>
                   Some (file +:+ Material_toDefinition TAB material))
                ltac:(by eexists) look.(Look.m_materials) 0
                (s +:+ ("Look {" +:+ SEOL +:+ TAB +:+ "Name: " +:+ dquote
                        +:+ c_str look.(Look.m_name) +:+ dquote +:+ SEOL)))
      as [text Htext].
    rewrite Htext. simpl. by eexists.
  - intros file. unfold variants_cover_parts.
    rewrite (for_each_defined
               (fun _ variant =>
                  (length m.(Model.m_parts) <= length variant.(Variant.m_parts))%nat)).
    + rewrite Forall_lookup. done.
    + intros i variant s. unfold Encoder.pit_variant.
      rewrite (bind_is_Some _ _ True); [| intros x; by apply is_Some_Some_iff].
      rewrite (for_each_defined
                 (fun j _ => is_Some (variant.(Variant.m_parts) !! Z.to_nat j))).
      * split.
        -- intros [Hall _].
           destruct (decide (length m.(Model.m_parts)
                             <= length variant.(Variant.m_parts))%nat) as [Hle | Hgt];
             [exact Hle |].
           destruct (lookup_lt_is_Some_2 m.(Model.m_parts)
                       (length variant.(Variant.m_parts))) as [part Hpart]; [lia |].
           specialize (Hall _ part Hpart).
           rewrite Z.add_0_l, Nat2Z.id in Hall.
           apply lookup_lt_is_Some in Hall. lia.
        -- intros Hle. split; [| done]. intros k part Hk.
           rewrite Z.add_0_l, Nat2Z.id. apply lookup_lt_is_Some.
           apply lookup_lt_Some in Hk. lia.
      * intros j part t. unfold Encoder.pit_part.
        destruct (variant.(Variant.m_parts) !! Z.to_nat j) as [vpart |]; simpl.
        -- split; [intros _; by eexists |]. intros _.
           destruct (for_each_total
                       (fun (k : Z) attribute (file : string) =>
                          Some (file
                                +:+ Encoder.Attribute_toDefinition SEOL TAB
                                      (TAB +:+ TAB) attribute))
                       ltac:(by eexists) vpart.(Variant.Part.m_attributes) 0
                       (t +:+ (TAB +:+ "Part {" +:+ SEOL +:+ TAB +:+ TAB +:+ "Name: "
                               +:+ dquote +:+ c_str part.(Part.m_name) +:+ dquote
                               +:+ SEOL +:+ TAB +:+ TAB +:+ "AttributeCount: "
                               +:+ fmt_i (Z.of_nat
                                            (length vpart.(Variant.Part.m_attributes)))
                               +:+ SEOL)))
             as [text Htext].
           rewrite Htext. simpl. by eexists.
        -- split; intros [? [=]].
Qed.

(** X18: The trait encoder.  It returns false and writes nothing when the
    file cannot be opened.  Otherwise it indexes the parts of every variant
    by the parts of the model: it writes one file, at the export path
    followed by the path of the model and .pit, and returns true when every
    variant has at least as many parts as the model, and reads outside the
    part vector of a variant, which is undefined, when one has fewer. *)
Theorem saveToPit_outcome (exportPath : string) (m : model) :
  let path := exportPath +:+ m.(Model.m_filePath) +:+ ".pit" in
  (sfs_open path = false -> saveToPit exportPath m = Some (false, [])) /\
  (sfs_open path = true -> variants_cover_parts m ->
   exists text, pit_text m = Some text /\
                saveToPit exportPath m
                = Some (true, [{| fw_path := path; fw_text := text |}])) /\
  (sfs_open path = true -> ~ variants_cover_parts m ->
   saveToPit exportPath m = None).
Proof.
  intros path. unfold Encoder.saveToPit. fold path.
  split; [intros ->; reflexivity |].
  split; intros -> Hcover; cbn [negb].
  - apply pit_text_defined in Hcover as [text Htext].
    exists text. split; [exact Htext |]. by rewrite Htext.
  - destruct (pit_text m) as [text |] eqn:Htext; [| reflexivity].
    exfalso. apply Hcover, pit_text_defined. by eexists.
Qed.

Lemma pis_text_defined (m : model) :
  is_Some (pis_text m) <-> parents_in_range m.
Proof.
  unfold Encoder.pis_text. cbv zeta.
  rewrite (bind_is_Some _ _ True); [| intros x; by apply is_Some_Some_iff].
  unfold parents_in_range.
  rewrite (for_each_defined
             (fun _ bone =>
                bone.(Bone.m_parent) = -1
                \/ 0 <= bone.(Bone.m_parent) < Z.of_nat (length m.(Model.m_bones)))).
  - rewrite Forall_lookup. split; [by intros [H _] | by intros H; split].
  - intros i bone s. unfold Encoder.pis_bone, Encoder.pis_parent.
    destruct (Z.eqb_spec bone.(Bone.m_parent) (-1)) as [Hroot | Hroot]; cbn [negb].
    + simpl. split; [intros _; by left | intros _; by eexists].
    + destruct (Z.ltb_spec bone.(Bone.m_parent) 0) as [Hneg | Hpos]; simpl.
      * split; [intros [? [=]] | intros [? | ?]; [contradiction | lia]].
      * destruct (m.(Model.m_bones) !! Z.to_nat bone.(Bone.m_parent))
          as [parent |] eqn:Hparent; simpl.
        -- apply lookup_lt_Some in Hparent.
           split; [intros _; right; lia | intros _; by eexists].
        -- apply lookup_ge_None in Hparent.
           split; [intros [? [=]] | intros [? | ?]; [contradiction | lia]].
Qed.

(** X19: The skeleton encoder.  For a model without bones it returns false
    without opening a file; it returns false too, and writes nothing, when
    the file cannot be opened.  Otherwise it writes one file, at the export
    path followed by the path of the model and .pis, and returns true when
    the parent of every bone is -1 or the index of a bone of the model; a
    parent that is neither makes it read outside the bone vector, which is
    undefined. *)
Theorem saveToPis_outcome (exportPath : string) (m : model) :
  let path := exportPath +:+ m.(Model.m_filePath) +:+ ".pis" in
  (m.(Model.m_bones) = [] -> saveToPis exportPath m = Some (false, [])) /\
  (sfs_open path = false -> saveToPis exportPath m = Some (false, [])) /\
  (m.(Model.m_bones) <> [] -> sfs_open path = true -> parents_in_range m ->
   exists text, pis_text m = Some text /\
                saveToPis exportPath m
                = Some (true, [{| fw_path := path; fw_text := text |}])) /\
  (m.(Model.m_bones) <> [] -> sfs_open path = true -> ~ parents_in_range m ->
   saveToPis exportPath m = None).
Proof.
  intros path. unfold Encoder.saveToPis. fold path.
  split; [intros ->; reflexivity |].
  split; [intros ->; by destruct (_ =? _)%nat |].
  assert (Hbones : m.(Model.m_bones) <> [] ->
                   (length m.(Model.m_bones) =? 0)%nat = false).
  { intros Hne. destruct m.(Model.m_bones); [done | reflexivity]. }
  split; intros Hne -> Hrange; rewrite (Hbones Hne); cbn [negb].
  - apply pis_text_defined in Hrange as [text Htext].
    exists text. split; [exact Htext |]. by rewrite Htext.
  - destruct (pis_text m) as [text |] eqn:Htext; [| reflexivity].
    exfalso. apply Hrange, pis_text_defined. by eexists.
Qed.

(** *** The Skin block of the model encoder *)

Local Abbreviation skin_influences :=
  (Encoder.skin_influences FLT_FT_flh weight_of_byte).
Local Abbreviation skin_vertex :=
  (Encoder.skin_vertex SEOL TAB float3_to_string FLT_FT_flh weight_of_byte).
Local Abbreviation skin_piece :=
  (Encoder.skin_piece SEOL TAB float3_to_string FLT_FT_flh weight_of_byte).
Local Abbreviation skin_items :=
  (Encoder.skin_items (Prefab := Prefab) (Collision := Collision)
     SEOL TAB float3_to_string FLT_FT_flh weight_of_byte).

Lemma skin_weights_defined (bones : Z) (vert : Vertex.t) :
  is_Some (Encoder.skin_weights bones vert)
  <-> forall k : nat, (k < Z.to_nat (wrap_u32 bones))%nat ->
                      is_Some (vert.(Vertex.m_boneWeight) !! k).
Proof.
  unfold Encoder.skin_weights.
  rewrite (for_loop_defined
             (fun k => is_Some (vert.(Vertex.m_boneWeight) !! Z.to_nat k))).
  - split.
    + intros H k Hk. specialize (H (Z.of_nat k)).
      rewrite Nat2Z.id in H. apply H. lia.
    + intros H i Hi. apply H. lia.
  - intros i s. destruct (vert.(Vertex.m_boneWeight) !! Z.to_nat i); simpl.
    + split; intros _; by eexists.
    + split; intros [? [=]].
Qed.

Lemma skin_weights_count (bones : Z) (vert : Vertex.t) (weights : Z) :
  Encoder.skin_weights bones vert = Some weights ->
  weights = wrap_u32 (nonzero_weights bones vert) /\
  (Z.to_nat (wrap_u32 bones) <= length vert.(Vertex.m_boneWeight))%nat.
Proof.
  unfold Encoder.skin_weights, nonzero_weights. intros Hrun.
  set (bw := vert.(Vertex.m_boneWeight)) in *.
  pose (I := fun (k : Z) (w : Z) =>
    (Z.to_nat k <= length bw)%nat /\
    w = wrap_u32 (Z.of_nat (length (filter (fun w => w <> 0)
                                      (take (Z.to_nat k) bw))))).
  assert (H : I (0 + Z.of_nat (Z.to_nat (wrap_u32 bones))) weights).
  { refine (for_loop_inv I _ _ 0 0 weights _ _ Hrun).
    - intros i w w' Hi [Hlen Hw] Hbody.
      destruct (bw !! Z.to_nat i) as [x |] eqn:Hx; [| discriminate].
      simpl in Hbody. injection Hbody as <-.
      assert (Hlt : (Z.to_nat i < length bw)%nat) by (by apply lookup_lt_Some in Hx).
      unfold I. replace (Z.to_nat (i + 1)) with (S (Z.to_nat i)) by lia.
      split; [lia |].
      rewrite (take_S_r _ _ _ Hx), filter_app, length_app, Hw.
      destruct (Z.eqb_spec x 0) as [-> | Hnz]; cbn [negb].
      + rewrite filter_cons_False by (intros H; by apply H). simpl.
        by rewrite Nat.add_0_r.
      + rewrite filter_cons_True by exact Hnz. simpl.
        rewrite wrap_u32_add_l. f_equal. lia.
    - split; [simpl; lia | reflexivity]. }
  destruct H as [Hlen ->]. rewrite Z.add_0_l, Nat2Z.id in *. by split.
Qed.

Lemma skin_influences_defined (bones : Z) (vert : Vertex.t) (s : string) :
  is_Some (skin_influences bones vert s)
  <-> forall k : nat, (k < Z.to_nat (wrap_u32 bones))%nat ->
        exists w, vert.(Vertex.m_boneWeight) !! k = Some w /\
                  (w <> 0 -> is_Some (vert.(Vertex.m_boneIndex) !! k)).
Proof.
  unfold Encoder.skin_influences.
  rewrite (for_loop_defined
             (fun k => exists w, vert.(Vertex.m_boneWeight) !! Z.to_nat k = Some w /\
                                 (w <> 0 ->
                                  is_Some (vert.(Vertex.m_boneIndex) !! Z.to_nat k)))).
  - split.
    + intros H k Hk. specialize (H (Z.of_nat k)).
      rewrite Nat2Z.id in H. apply H. lia.
    + intros H i Hi. apply H. lia.
  - intros i t. destruct (vert.(Vertex.m_boneWeight) !! Z.to_nat i) as [w |]; simpl.
    + destruct (Z.eqb_spec w 0) as [-> | Hnz]; cbn [negb].
      * split; [intros _; exists 0; by split | intros _; by eexists].
      * destruct (vert.(Vertex.m_boneIndex) !! Z.to_nat i) as [index |]; simpl.
        -- split; [intros _; exists w; split; [done | by eexists]
                  | intros _; by eexists].
        -- split; [intros [? [=]] |].
           intros (w' & [= <-] & Hidx). by destruct (Hidx Hnz) as [? [=]].
    + split; [intros [? [=]] | intros (w' & [=] & _)].
Qed.

Lemma skin_vertex_defined (bones i j : Z) (vert : Vertex.t)
    (st : Encoder.skin_state) :
  is_Some (skin_vertex bones i j vert st)
  <-> forall k : nat, (k < Z.to_nat (wrap_u32 bones))%nat ->
        exists w, vert.(Vertex.m_boneWeight) !! k = Some w /\
                  (w <> 0 -> is_Some (vert.(Vertex.m_boneIndex) !! k)).
Proof.
  unfold Encoder.skin_vertex. cbv zeta.
  rewrite (bind_is_Some _ _
             (forall k : nat, (k < Z.to_nat (wrap_u32 bones))%nat ->
                exists w, vert.(Vertex.m_boneWeight) !! k = Some w /\
                          (w <> 0 -> is_Some (vert.(Vertex.m_boneIndex) !! k)))).
  - rewrite skin_weights_defined. split; [by intros [_ H] |].
    intros H. split; [| exact H].
    intros k Hk. destruct (H k Hk) as (w & -> & _). by eexists.
  - intros weights.
    rewrite (bind_is_Some _ _ True); [| intros x; by apply is_Some_Some_iff].
    rewrite skin_influences_defined. split; [by intros [H _] | by intros H; split].
Qed.

Lemma skin_vertex_counts (bones i j : Z) (vert : Vertex.t)
    (st st' : Encoder.skin_state) :
  skin_vertex bones i j vert st = Some st' ->
  st'.(Encoder.itemIdx) = wrap_u32 (st.(Encoder.itemIdx) + 1) /\
  st'.(Encoder.weightIdx)
  = wrap_u32 (st.(Encoder.weightIdx) + nonzero_weights bones vert) /\
  length st'.(Encoder.skinStreams) = S (length st.(Encoder.skinStreams)).
Proof.
  unfold Encoder.skin_vertex. cbv zeta. intros H.
  apply bind_Some in H as (weights & Hw & H).
  apply bind_Some in H as (stream & _ & H).
  injection H as <-. simpl.
  destruct (skin_weights_count _ _ _ Hw) as [-> _].
  rewrite wrap_u32_add_r, length_app. simpl.
  split; [reflexivity | split; [reflexivity | lia]].
Qed.

(** The vertices of one piece with bones. *)
Lemma skin_vertices_counts (bones i : Z) (vertices : list Vertex.t)
    (st st' : Encoder.skin_state) :
  skin_counters_wrapped st ->
  for_each 0 vertices (skin_vertex bones i) st = Some st' ->
  st'.(Encoder.itemIdx)
  = wrap_u32 (st.(Encoder.itemIdx) + Z.of_nat (length vertices)) /\
  st'.(Encoder.weightIdx)
  = wrap_u32 (st.(Encoder.weightIdx)
              + sumZ (nonzero_weights bones <$> vertices)) /\
  length st'.(Encoder.skinStreams)
  = (length st.(Encoder.skinStreams) + length vertices)%nat.
Proof.
  intros [Hi0 Hw0] Hrun.
  pose (I := fun (n : nat) (s : Encoder.skin_state) =>
    s.(Encoder.itemIdx) = wrap_u32 (st.(Encoder.itemIdx) + Z.of_nat n) /\
    s.(Encoder.weightIdx)
    = wrap_u32 (st.(Encoder.weightIdx)
                + sumZ (nonzero_weights bones <$> take n vertices)) /\
    length s.(Encoder.skinStreams) = (length st.(Encoder.skinStreams) + n)%nat).
  assert (H : I (0 + length vertices)%nat st').
  { refine (for_each_inv I (skin_vertex bones i) vertices 0%nat 0 st st' _ _ Hrun).
    - intros k vert s s' Hk (Hi & Hw & Hs) Hbody. simpl in Hi, Hw, Hs.
      apply skin_vertex_counts in Hbody as (Hi' & Hw' & Hs').
      unfold I. simpl.
      rewrite Hi', Hw', Hs', Hi, Hw, Hs, !wrap_u32_add_l.
      rewrite (take_S_r _ _ _ Hk), fmap_app.
      change (nonzero_weights bones <$> [vert]) with [nonzero_weights bones vert].
      rewrite sumZ_snoc.
      split; [f_equal; lia | split; [f_equal; simpl; lia | lia]].
    - unfold I. simpl. rewrite !Z.add_0_r. by repeat split. }
  destruct H as (Hi & Hw & Hs). simpl in Hi, Hw, Hs.
  by rewrite firstn_all in Hw.
Qed.

Lemma skin_piece_counts (i : Z) (piece : Piece.t) (st st' : Encoder.skin_state) :
  skin_counters_wrapped st ->
  skin_piece i piece st = Some st' ->
  st'.(Encoder.itemIdx)
  = wrap_u32 (st.(Encoder.itemIdx) + skin_item_count [piece]) /\
  st'.(Encoder.weightIdx)
  = wrap_u32 (st.(Encoder.weightIdx) + skin_weight_count [piece]) /\
  Z.of_nat (length st'.(Encoder.skinStreams))
  = Z.of_nat (length st.(Encoder.skinStreams)) + skin_item_count [piece].
Proof.
  intros Hwrapped. unfold Encoder.skin_piece, skin_item_count, skin_weight_count.
  cbn [fmap list_fmap]. rewrite !sumZ_cons.
  change (sumZ []) with 0. rewrite !Z.add_0_r.
  destruct (piece.(Piece.m_bones) =? 0).
  - intros [= <-]. destruct Hwrapped as [Hi Hw]. rewrite !Z.add_0_r. by repeat split.
  - intros Hrun.
    destruct (skin_vertices_counts _ _ _ _ _ Hwrapped Hrun) as (Hi & Hw & Hs).
    split; [exact Hi | split; [exact Hw | lia]].
Qed.

Lemma skin_item_count_snoc (pieces : list Piece.t) (piece : Piece.t) :
  skin_item_count (pieces ++ [piece])
  = skin_item_count pieces + skin_item_count [piece].
Proof.
  unfold skin_item_count. rewrite fmap_app. cbn [fmap list_fmap].
  rewrite sumZ_snoc, sumZ_cons. change (sumZ []) with 0. lia.
Qed.

Lemma skin_weight_count_snoc (pieces : list Piece.t) (piece : Piece.t) :
  skin_weight_count (pieces ++ [piece])
  = skin_weight_count pieces + skin_weight_count [piece].
Proof.
  unfold skin_weight_count. rewrite fmap_app. cbn [fmap list_fmap].
  rewrite sumZ_snoc, sumZ_cons. change (sumZ []) with 0. lia.
Qed.

(** The loop on the pieces, from any state of the counters. *)
Lemma skin_pieces_counts (pieces : list Piece.t) (st st' : Encoder.skin_state) :
  skin_counters_wrapped st ->
  for_each 0 pieces skin_piece st = Some st' ->
  st'.(Encoder.itemIdx) = wrap_u32 (st.(Encoder.itemIdx) + skin_item_count pieces) /\
  st'.(Encoder.weightIdx)
  = wrap_u32 (st.(Encoder.weightIdx) + skin_weight_count pieces) /\
  Z.of_nat (length st'.(Encoder.skinStreams))
  = Z.of_nat (length st.(Encoder.skinStreams)) + skin_item_count pieces.
Proof.
  intros [Hi0 Hw0] Hrun.
  pose (I := fun (n : nat) (s : Encoder.skin_state) =>
    s.(Encoder.itemIdx)
    = wrap_u32 (st.(Encoder.itemIdx) + skin_item_count (take n pieces)) /\
    s.(Encoder.weightIdx)
    = wrap_u32 (st.(Encoder.weightIdx) + skin_weight_count (take n pieces)) /\
    Z.of_nat (length s.(Encoder.skinStreams))
    = Z.of_nat (length st.(Encoder.skinStreams))
      + skin_item_count (take n pieces)).
  assert (H : I (0 + length pieces)%nat st').
  { refine (for_each_inv I skin_piece pieces 0%nat 0 st st' _ _ Hrun).
    - intros k piece s s' Hk (Hi & Hw & Hs) Hbody. simpl in Hi, Hw, Hs.
      apply skin_piece_counts in Hbody as (Hi' & Hw' & Hs').
      + unfold I. simpl.
        rewrite (take_S_r _ _ _ Hk), skin_item_count_snoc, skin_weight_count_snoc.
        rewrite Hi', Hw', Hs', Hi, Hw, Hs, !wrap_u32_add_l.
        split; [f_equal; lia | split; [f_equal; lia | lia]].
      + split; [rewrite Hi | rewrite Hw]; by rewrite wrap_u32_idemp.
    - unfold I, skin_item_count, skin_weight_count. simpl.
      change (sumZ []) with 0. rewrite !Z.add_0_r. by repeat split. }
  destruct H as (Hi & Hw & Hs). simpl in Hi, Hw, Hs.
  by rewrite firstn_all in Hi, Hw, Hs.
Qed.

Lemma skin_piece_defined (i : Z) (piece : Piece.t) (st : Encoder.skin_state) :
  is_Some (skin_piece i piece st)
  <-> (piece.(Piece.m_bones) <> 0 ->
       Forall (fun vert =>
                 forall k : nat,
                   (k < Z.to_nat (wrap_u32 piece.(Piece.m_bones)))%nat ->
                   exists w, vert.(Vertex.m_boneWeight) !! k = Some w /\
                             (w <> 0 -> is_Some (vert.(Vertex.m_boneIndex) !! k)))
              piece.(Piece.m_vertices)).
Proof.
  unfold Encoder.skin_piece.
  destruct (Z.eqb_spec piece.(Piece.m_bones) 0) as [Hz | Hnz].
  - split; [by intros _ ? | intros _; by eexists].
  - rewrite (for_each_defined
               (fun _ vert =>
                  forall k : nat,
                    (k < Z.to_nat (wrap_u32 piece.(Piece.m_bones)))%nat ->
                    exists w, vert.(Vertex.m_boneWeight) !! k = Some w /\
                              (w <> 0 -> is_Some (vert.(Vertex.m_boneIndex) !! k)))).
    + rewrite Forall_lookup. split; [by intros H _ | by intros H; apply H].
    + intros j vert s. apply skin_vertex_defined.
Qed.

Lemma skin_items_defined (m : model) :
  is_Some (skin_items m) <-> skin_reads_in_bounds m.(Model.m_pieces).
Proof.
  unfold Encoder.skin_items, skin_reads_in_bounds.
  rewrite (for_each_defined
             (fun _ piece =>
                piece.(Piece.m_bones) <> 0 ->
                Forall (fun vert =>
                          forall k : nat,
                            (k < Z.to_nat (wrap_u32 piece.(Piece.m_bones)))%nat ->
                            exists w, vert.(Vertex.m_boneWeight) !! k = Some w /\
                                      (w <> 0 ->
                                       is_Some (vert.(Vertex.m_boneIndex) !! k)))
                       piece.(Piece.m_vertices))).
  - by rewrite Forall_lookup.
  - intros i piece s. apply skin_piece_defined.
Qed.

(** *** The model encoder *)

Local Abbreviation pim_stream := (Encoder.pim_stream SEOL TAB).
Local Abbreviation pim_texcoord_stream :=
  (Encoder.pim_texcoord_stream SEOL TAB float2_to_string Piece_texCoords).
Local Abbreviation pim_piece :=
  (Encoder.pim_piece SEOL TAB float2_to_string float3_to_string float4_to_string
     color_to_string Piece_texCoords).
Local Abbreviation pim_materials :=
  (Encoder.pim_materials (Prefab := Prefab) (Collision := Collision)
     Material_toDeclaration).
Local Abbreviation pim_skin :=
  (Encoder.pim_skin (Prefab := Prefab) (Collision := Collision)
     SEOL TAB float3_to_string FLT_FT_flh weight_of_byte).
Local Abbreviation pim_text :=
  (Encoder.pim_text (Prefab := Prefab) (Collision := Collision)
     SEOL TAB STRING_VERSION float2_to_string float3_to_string float4_to_string
     color_to_string FLT_FT_flh weight_of_byte Material_toDeclaration
     Piece_texCoords).
Local Abbreviation saveToPim :=
  (Encoder.saveToPim (Prefab := Prefab) (Collision := Collision)
     SEOL TAB STRING_VERSION sfs_open float2_to_string float3_to_string
     float4_to_string color_to_string FLT_FT_flh weight_of_byte
     Material_toDeclaration Piece_texCoords).

Lemma pim_stream_total (Format Tag : string) (text : Vertex.t -> string)
    (piece : Piece.t) (file : string) :
  is_Some (pim_stream Format Tag text piece file).
Proof.
  unfold Encoder.pim_stream. cbv zeta.
  apply bind_total; [| intros x; by eexists].
  apply for_each_total. intros j vertex t. by eexists.
Qed.

Lemma pim_triangles_total (piece : Piece.t) (file : string) :
  is_Some (Encoder.pim_triangles SEOL TAB piece file).
Proof.
  unfold Encoder.pim_triangles. cbv zeta.
  apply bind_total; [| intros x; by eexists].
  apply for_each_total. intros j triangle t.
  destruct triangle.(Triangle.m_a) as [[a0 a1] a2]. by eexists.
Qed.

Lemma pim_texcoord_stream_defined (piece : Piece.t) (j : Z) (file : string) :
  is_Some (pim_texcoord_stream piece j file)
  <-> Forall (fun vert => 0 <= j /\
                          is_Some (vert.(Vertex.m_texcoords) !! Z.to_nat j))
             piece.(Piece.m_vertices).
Proof.
  unfold Encoder.pim_texcoord_stream. cbv zeta.
  apply bind_total_iff.
  { apply for_each_total. intros k texCoord t. by eexists. }
  intros aliases.
  rewrite (bind_is_Some _ _ True); [| intros x; by apply is_Some_Some_iff].
  rewrite (for_each_defined
             (fun _ vert => 0 <= j /\
                            is_Some (vert.(Vertex.m_texcoords) !! Z.to_nat j))).
  - rewrite Forall_lookup. split; [by intros [H _] | by intros H; split].
  - intros k vertex t. destruct (Z.ltb_spec j 0) as [Hneg | Hpos].
    + split; [intros [? [=]] | intros [? _]; lia].
    + destruct (vertex.(Vertex.m_texcoords) !! Z.to_nat j) as [texcoord |]; simpl.
      * split; [intros _; split; [exact Hpos | by eexists] | intros _; by eexists].
      * split; [intros [? [=]] | intros [_ [? [=]]]].
Qed.

Lemma pim_piece_defined (i : Z) (piece : Piece.t) (file : string) :
  is_Some (pim_piece i piece file)
  <-> (piece.(Piece.m_texcoord) = true ->
       Forall (fun vert =>
                 (Z.to_nat (wrap_u32 piece.(Piece.m_texcoordCount))
                  <= length vert.(Vertex.m_texcoords))%nat)
              piece.(Piece.m_vertices)).
Proof.
  unfold Encoder.pim_piece. cbv zeta.
  apply bind_total_iff;
    [destruct piece.(Piece.m_position); [apply pim_stream_total | by eexists] |].
  intros file1.
  apply bind_total_iff;
    [destruct piece.(Piece.m_normal); [apply pim_stream_total | by eexists] |].
  intros file2.
  apply bind_total_iff;
    [destruct piece.(Piece.m_tangent); [apply pim_stream_total | by eexists] |].
  intros file3.
  rewrite (bind_is_Some _ _ True).
  2:{ intros file4. split; [done | intros _].
      apply bind_total;
        [destruct piece.(Piece.m_color); [apply pim_stream_total | by eexists] |].
      intros file5. apply bind_total; [apply pim_triangles_total |].
      intros file6. by eexists. }
  destruct piece.(Piece.m_texcoord).
  - rewrite (for_loop_defined
               (fun j => Forall (fun vert =>
                                   0 <= j /\
                                   is_Some (vert.(Vertex.m_texcoords) !! Z.to_nat j))
                                piece.(Piece.m_vertices))).
    2:{ intros j t. apply pim_texcoord_stream_defined. }
    set (n := Z.to_nat (wrap_u32 piece.(Piece.m_texcoordCount))).
    rewrite !Forall_forall. split.
    + intros [H _] _ vert Hin.
      destruct n as [| n]; [lia |].
      specialize (H (Z.of_nat n) ltac:(lia)).
      rewrite Forall_forall in H. destruct (H vert Hin) as [_ Hsome].
      rewrite Nat2Z.id in Hsome. apply lookup_lt_is_Some in Hsome. lia.
    + intros H. split; [| done]. intros j Hj.
      rewrite Forall_forall. intros vert Hin. split; [lia |].
      apply lookup_lt_is_Some. specialize (H eq_refl vert Hin). lia.
  - split; [by intros _ ? | intros _; split; [by eexists | done]].
Qed.

Lemma pim_materials_defined (m : model) (file : string) :
  is_Some (pim_materials m file)
  <-> forall look : Look.t,
        m.(Model.m_looks) !! 0%nat = Some look ->
        (Z.to_nat m.(Model.m_materialCount) <= length look.(Look.m_materials))%nat.
Proof.
  unfold Encoder.pim_materials.
  destruct m.(Model.m_looks) as [| look looks]; simpl.
  - split; [by intros _ ? | intros _; by eexists].
  - rewrite (for_loop_defined
               (fun i => is_Some (look.(Look.m_materials) !! Z.to_nat i))).
    2:{ intros i t. simpl.
        destruct (look.(Look.m_materials) !! Z.to_nat i) as [material |]; simpl.
        - split; intros _; by eexists.
        - split; intros [? [=]]. }
    set (n := Z.to_nat m.(Model.m_materialCount)). split.
    + intros H look' [= <-]. destruct n as [| n]; [lia |].
      specialize (H (Z.of_nat n) ltac:(lia)).
      rewrite Nat2Z.id in H. apply lookup_lt_is_Some in H. lia.
    + intros H i Hi. apply lookup_lt_is_Some. specialize (H look eq_refl). lia.
Qed.

Lemma pim_skin_defined (m : model) (file : string) :
  is_Some (pim_skin m file)
  <-> (0 < m.(Model.m_skinVertCount) -> skin_reads_in_bounds m.(Model.m_pieces)).
Proof.
  unfold Encoder.pim_skin. cbv zeta.
  destruct (Z.ltb_spec 0 m.(Model.m_skinVertCount)) as [Hpos | Hzero].
  - rewrite (bind_is_Some _ _ True).
    2:{ intros st. split; [done | intros _].
        apply bind_total; [| intros x; by eexists].
        apply for_each_total. intros k stream t. by eexists. }
    rewrite skin_items_defined. split; [by intros [H _] _ | intros H; split; auto].
  - split; [intros _ ?; lia | intros _; by eexists].
Qed.

Lemma pim_text_defined (m : model) : is_Some (pim_text m) <-> pim_in_bounds m.
Proof.
  unfold Encoder.pim_text, pim_in_bounds. cbv zeta.
  rewrite (bind_is_Some _ _
             (Forall (fun piece =>
                        piece.(Piece.m_texcoord) = true ->
                        Forall (fun vert =>
                                  (Z.to_nat (wrap_u32 piece.(Piece.m_texcoordCount))
                                   <= length vert.(Vertex.m_texcoords))%nat)
                               piece.(Piece.m_vertices))
                     m.(Model.m_pieces) /\
              (0 < m.(Model.m_skinVertCount) ->
               skin_reads_in_bounds m.(Model.m_pieces)))).
  - by rewrite pim_materials_defined.
  - intros file1.
    rewrite (bind_is_Some _ _
               (0 < m.(Model.m_skinVertCount) ->
                skin_reads_in_bounds m.(Model.m_pieces))).
    + rewrite (for_each_defined
                 (fun _ piece =>
                    piece.(Piece.m_texcoord) = true ->
                    Forall (fun vert =>
                              (Z.to_nat (wrap_u32 piece.(Piece.m_texcoordCount))
                               <= length vert.(Vertex.m_texcoords))%nat)
                           piece.(Piece.m_vertices)));
        [by rewrite Forall_lookup |].
      intros i piece t. apply pim_piece_defined.
    + intros file2.
      apply bind_total_iff.
      { apply for_each_total. intros i part t. by eexists. }
      intros file3.
      apply bind_total_iff.
      { apply for_each_total. intros i locator t. by eexists. }
      intros file4.
      apply bind_total_iff.
      { unfold Encoder.pim_bones. destruct (_ <? _)%nat; [| by eexists].
        apply bind_total; [| intros x; by eexists].
        apply for_each_total. intros i bone t. by eexists. }
      intros file5. apply pim_skin_defined.
Qed.

(** X20: The model encoder.  It returns false and writes nothing when the
    file cannot be opened.  Otherwise it writes one file, at the export path
    followed by the path of the model and .pim, and returns true when its
    reads stay inside the vectors and arrays of the model: a material of the
    first look for each of the [m_materialCount] slots, a texture coordinate
    of every vertex for each channel of its piece and, when the model counts
    skinned vertices, the weights and the indices of the bones of the piece;
    a read outside them is undefined. *)
Theorem saveToPim_outcome (exportPath : string) (m : model) :
  let path := exportPath +:+ m.(Model.m_filePath) +:+ ".pim" in
  (sfs_open path = false -> saveToPim exportPath m = Some (false, [])) /\
  (sfs_open path = true -> pim_in_bounds m ->
   exists text, pim_text m = Some text /\
                saveToPim exportPath m
                = Some (true, [{| fw_path := path; fw_text := text |}])) /\
  (sfs_open path = true -> ~ pim_in_bounds m ->
   saveToPim exportPath m = None).
Proof.
  intros path. unfold Encoder.saveToPim. fold path.
  split; [intros ->; reflexivity |].
  split; intros -> Hbounds; cbn [negb].
  - apply pim_text_defined in Hbounds as [text Htext].
    exists text. split; [exact Htext |]. by rewrite Htext.
  - destruct (pim_text m) as [text |] eqn:Htext; [| reflexivity].
    exfalso. apply Hbounds, pim_text_defined. by eexists.
Qed.

(** X21: The counters of the Skin block.  When the loops of the block stay
    inside the bone arrays, the item count they reach is the number of
    vertices of the pieces whose bone count is not 0, and the weight count
    the number of the weights that are not 0 among the first [m_bones] of
    each such vertex, both modulo 2^32; the block has one stream per such
    vertex. *)
Theorem saveToPim_skin_counts (m : model) (st : Encoder.skin_state) :
  skin_items m = Some st ->
  st.(Encoder.itemIdx) = wrap_u32 (skin_item_count m.(Model.m_pieces)) /\
  st.(Encoder.weightIdx) = wrap_u32 (skin_weight_count m.(Model.m_pieces)) /\
  Z.of_nat (length st.(Encoder.skinStreams)) = skin_item_count m.(Model.m_pieces).
Proof.
  unfold Encoder.skin_items. intros Hrun.
  apply skin_pieces_counts in Hrun as (Hitems & Hweights & Hstreams);
    [| by split].
  cbn [Encoder.itemIdx Encoder.weightIdx Encoder.skinStreams length] in *.
  rewrite Z.add_0_l in Hitems, Hweights, Hstreams. by repeat split.
Qed.

End EncoderFacts.

(** ** The encoders on a decoded model *)

Lemma sumZ_pointwise {A B : Type} (f : A -> Z) (g : B -> Z) :
  forall (l : list A) (k : list B),
    length l = length k ->
    (forall (i : nat) (x : A) (y : B),
       l !! i = Some x -> k !! i = Some y -> f x = g y) ->
    sumZ (f <$> l) = sumZ (g <$> k).
Proof.
  induction l as [| x l IH]; intros [| y k] Hlen Hall; try discriminate; [done |].
  rewrite !fmap_cons, !sumZ_cons.
  rewrite (Hall 0%nat x y eq_refl eq_refl). f_equal.
  apply IH; [by injection Hlen |].
  intros i x' y' Hx Hy. by apply (Hall (S i)).
Qed.

Lemma Forall_pointwise_iff {A B : Type} (P : A -> Prop) (Q : B -> Prop)
    (l : list A) (k : list B) :
  length l = length k ->
  (forall (i : nat) (x : A) (y : B),
     l !! i = Some x -> k !! i = Some y -> (P x <-> Q y)) ->
  Forall P l <-> Forall Q k.
Proof.
  intros Hlen Hall. rewrite !Forall_lookup. split.
  - intros H i y Hy.
    destruct (lookup_lt_is_Some_2 l i) as [x Hx].
    { rewrite Hlen. by apply lookup_lt_Some in Hy. }
    apply (Hall i x y Hx Hy), (H i x Hx).
  - intros H i x Hx.
    destruct (lookup_lt_is_Some_2 k i) as [y Hy].
    { rewrite <- Hlen. by apply lookup_lt_Some in Hx. }
    apply (Hall i x y Hx Hy), (H i y Hy).
Qed.

(** The reads of the Skin block on the vertices of one piece, when the bone
    arrays of its vertices have [size] slots. *)
Lemma skin_reads_of_piece (bones : Z) (size : nat) (vertices : list Vertex.t) :
  (forall (j : nat) (v : Vertex.t),
     vertices !! j = Some v ->
     length v.(Vertex.m_boneIndex) = size /\
     length v.(Vertex.m_boneWeight) = size) ->
  Forall (fun vert =>
            forall k : nat,
              (k < Z.to_nat (wrap_u32 bones))%nat ->
              exists w, vert.(Vertex.m_boneWeight) !! k = Some w /\
                        (w <> 0 -> is_Some (vert.(Vertex.m_boneIndex) !! k)))
         vertices
  <-> (vertices <> [] -> (Z.to_nat (wrap_u32 bones) <= size)%nat).
Proof.
  intros Hsize. rewrite Forall_lookup. split.
  - intros Hreads Hne.
    destruct vertices as [| v vertices]; [done |].
    destruct (Hsize 0%nat v eq_refl) as [_ Hweights].
    destruct (decide (Z.to_nat (wrap_u32 bones) <= size)%nat) as [Hle | Hgt];
      [exact Hle |].
    destruct (Hreads 0%nat v eq_refl size ltac:(lia)) as (w & Hw & _).
    apply lookup_lt_Some in Hw. lia.
  - intros Hle j v Hv k Hk.
    assert (Hne : vertices <> []) by (intros ->; discriminate).
    destruct (Hsize j v Hv) as [Hindices Hweights].
    destruct (lookup_lt_is_Some_2 v.(Vertex.m_boneWeight) k) as [w Hw];
      [specialize (Hle Hne); lia |].
    exists w. split; [exact Hw |].
    intros _. apply lookup_lt_is_Some. specialize (Hle Hne). lia.
Qed.

Section LoadedModelFacts.

Context {Prefab Collision : Type}.
Variable BONE_COUNT : nat.
Context {bone_ctor : Constructible Bone.t}
        {locator_ctor : Constructible Locator.t}
        {part_ctor : Constructible Part.t}
        {piece_ctor : Constructible Piece.t}
        {vertex_ctor : Constructible Vertex.t}
        {triangle_ctor : Constructible Triangle.t}.
Context {header13_layout : Layout H13.t}
        {bone13_layout : Layout pmg_0x13.pmg_bone_t.t}
        {part13_layout : Layout pmg_0x13.pmg_part_t.t}
        {locator13_layout : Layout pmg_0x13.pmg_locator_t.t}
        {piece13_layout : Layout P13.t}
        {triangle13_layout : Layout pmg_0x13.pmg_triangle_t.t}
        {header14_layout : Layout H14.t}
        {bone14_layout : Layout pmg_0x14.pmg_bone_data_t.t}
        {part14_layout : Layout pmg_0x14.pmg_part_t.t}
        {locator14_layout : Layout pmg_0x14.pmg_locator_t.t}
        {piece14_layout : Layout P14.t}
        {index14_layout : Layout pmg_0x14.pmg_index_t.t}.
Variable token_to_string : token_t -> string.
Variables SEOL TAB : string.
Variable float3_to_string : float3 -> string.
Variable FLT_FT_flh : float -> string.
Variable weight_of_byte : Z -> float.

Local Abbreviation model := (Model.t Prefab Collision).
Local Abbreviation loadModel0x13 :=
  (Model.loadModel0x13 (Prefab := Prefab) (Collision := Collision)
     BONE_COUNT token_to_string).
Local Abbreviation loadModel0x14 :=
  (Model.loadModel0x14 (Prefab := Prefab) (Collision := Collision)
     BONE_COUNT token_to_string).
Local Abbreviation skin_items :=
  (Encoder.skin_items (Prefab := Prefab) (Collision := Collision)
     SEOL TAB float3_to_string FLT_FT_flh weight_of_byte).

(** X22: The decoder and the encoder count the same skinned vertices.  For a
    model decoded from a geometry buffer into a model without geometry, the
    item count the Skin block of the encoder reaches is the count of skinned
    vertices the decoder left in the model, as long as no bone count is
    negative: the influence width of the header for version 0x14, the bone
    count of every piece record for version 0x13.  (The decoder counts the
    vertices of the pieces whose bone count is above 0, the encoder those of
    the pieces whose bone count is not 0.) *)
Theorem skin_items_match_decoder :
  (forall (buf : buffer) (m m' : model) (st : Encoder.skin_state),
     loadModel0x14 buf m = Some (true, m') ->
     no_geometry m ->
     0 <= (cast_at H14.t buf 0).(H14.m_weight_width) ->
     skin_items m' = Some st ->
     st.(Encoder.itemIdx) = m'.(Model.m_skinVertCount)) /\
  (forall (buf : buffer) (m m' : model) (st : Encoder.skin_state),
     loadModel0x13 buf m = Some (true, m') ->
     no_geometry m ->
     Forall (fun piece => 0 <= piece.(P13.m_bone_count))
            (declared_pieces_0x13 buf) ->
     skin_items m' = Some st ->
     st.(Encoder.itemIdx) = m'.(Model.m_skinVertCount)).
Proof.
  split.
  - intros buf m m' st Hload (_ & _ & _ & _ & Hvc & Htc & Hsc) Hwidth Hskin.
    destruct (loadModel0x14_pieces BONE_COUNT token_to_string buf m m' Hload)
      as (Hlen & Hpieces & _ & _ & Hcount);
      [by rewrite Hvc | by rewrite Htc | by rewrite Hsc |].
    unfold Encoder.skin_items in Hskin.
    apply skin_pieces_counts in Hskin as (Hitems & _); [| by split].
    cbn [Encoder.itemIdx] in Hitems.
    rewrite Hitems, Hcount, Hsc, !Z.add_0_l. f_equal.
    unfold skin_item_count. apply sumZ_pointwise; [exact Hlen |].
    intros i p piece Hp Hpiece.
    destruct (Hpieces i p piece Hp Hpiece) as (Hverts & _ & -> & -> & _).
    destruct (Z.eqb_spec (cast_at H14.t buf 0).(H14.m_weight_width) 0) as [-> | Hnz];
      [reflexivity |].
    destruct (Z.ltb_spec 0 (cast_at H14.t buf 0).(H14.m_weight_width)); lia.
  - intros buf m m' st Hload (_ & _ & _ & _ & Hvc & Htc & Hsc) Hbones Hskin.
    destruct (loadModel0x13_pieces BONE_COUNT token_to_string buf m m' Hload)
      as (Hlen & Hpieces & _ & _ & Hcount);
      [by rewrite Hvc | by rewrite Htc | by rewrite Hsc |].
    unfold Encoder.skin_items in Hskin.
    apply skin_pieces_counts in Hskin as (Hitems & _); [| by split].
    cbn [Encoder.itemIdx] in Hitems.
    rewrite Hitems, Hcount, Hsc, !Z.add_0_l. f_equal.
    unfold skin_item_count. apply sumZ_pointwise; [exact Hlen |].
    intros i p piece Hp Hpiece.
    destruct (Hpieces i p piece Hp Hpiece) as (Hverts & _ & -> & -> & _).
    rewrite Forall_lookup in Hbones. specialize (Hbones i piece Hpiece).
    destruct (Z.eqb_spec piece.(P13.m_bone_count) 0) as [-> | Hnz];
      [reflexivity |].
    destruct (Z.ltb_spec 0 piece.(P13.m_bone_count)); lia.
Qed.

(** X23: The Skin block on a decoded model.  Take a model decoded from a
    geometry buffer into a model without pieces, a new piece having no
    vertices and the bone arrays of a new vertex having BONE_COUNT slots.
    The loops of the Skin block of the encoder stay inside the bone arrays
    exactly when every piece record that declares vertices has a bone count
    that is 0 or, as an unsigned number, at most BONE_COUNT: the influence
    width of the header for version 0x14, the bone count of the piece record
    for version 0x13.  The decoders accept a larger count (version 0x13
    prints a warning) and store it in the piece, and the encoder then reads
    that many weights of every vertex. *)
Theorem skin_reads_after_decode :
  (forall (buf : buffer) (m m' : model),
     loadModel0x14 buf m = Some (true, m') ->
     m.(Model.m_pieces) = [] ->
     (default_constructed Piece.t).(Piece.m_vertices) = [] ->
     length (default_constructed Vertex.t).(Vertex.m_boneIndex) = BONE_COUNT ->
     length (default_constructed Vertex.t).(Vertex.m_boneWeight) = BONE_COUNT ->
     let bones := (cast_at H14.t buf 0).(H14.m_weight_width) in
     skin_reads_in_bounds m'.(Model.m_pieces)
     <-> Forall (fun piece =>
                   bones <> 0 -> 0 < piece.(P14.m_verts) ->
                   (Z.to_nat (wrap_u32 bones) <= BONE_COUNT)%nat)
                (declared_pieces_0x14 buf)) /\
  (forall (buf : buffer) (m m' : model),
     loadModel0x13 buf m = Some (true, m') ->
     m.(Model.m_pieces) = [] ->
     (default_constructed Piece.t).(Piece.m_vertices) = [] ->
     length (default_constructed Vertex.t).(Vertex.m_boneIndex) = BONE_COUNT ->
     length (default_constructed Vertex.t).(Vertex.m_boneWeight) = BONE_COUNT ->
     skin_reads_in_bounds m'.(Model.m_pieces)
     <-> Forall (fun piece =>
                   piece.(P13.m_bone_count) <> 0 -> 0 < piece.(P13.m_verts) ->
                   (Z.to_nat (wrap_u32 piece.(P13.m_bone_count)) <= BONE_COUNT)%nat)
                (declared_pieces_0x13 buf)).
Proof.
  split.
  - intros buf m m' Hload Hnew Hempty Hindices Hweights bones.
    destruct (loadModel0x14_decoded BONE_COUNT token_to_string buf m m' Hload)
      as [Hcount Hdecoded].
    specialize (Hdecoded Hnew).
    unfold skin_reads_in_bounds. apply Forall_pointwise_iff.
    { unfold declared_pieces_0x14.
      rewrite length_fmap, length_seqZ, Hcount. reflexivity. }
    intros i p piece Hp Hpiece.
    unfold declared_pieces_0x14 in Hpiece. rewrite list_lookup_fmap in Hpiece.
    destruct (seqZ 0 _ !! i) as [iz |] eqn:Hi; [| discriminate].
    apply lookup_seqZ in Hi as [-> _]. rewrite Z.add_0_l in Hpiece.
    injection Hpiece as <-.
    specialize (Hdecoded i p Hp).
    destruct (decode_piece_0x14_inv BONE_COUNT _ _ _ _ _ _ Hdecoded)
      as (Hverts & _ & Hbones & Hlen & _).
    fold bones in Hbones. rewrite Hbones.
    rewrite (skin_reads_of_piece bones BONE_COUNT).
    + split; intros H Hnz; specialize (H Hnz).
      * intros Hpos. apply H. intros Hnil. rewrite Hnil in Hlen. simpl in Hlen. lia.
      * intros Hne. apply H.
        destruct p.(Piece.m_vertices); [done |]. simpl in Hlen. lia.
    + intros j v Hv.
      destruct (decoded_bone_arrays_0x14 BONE_COUNT _ _ _ _ _ _ j v Hdecoded
                  Hempty Hv) as [Hi Hw].
      by rewrite Hi, Hw.
  - intros buf m m' Hload Hnew Hempty Hindices Hweights.
    destruct (loadModel0x13_decoded BONE_COUNT token_to_string buf m m' Hload)
      as [Hcount Hdecoded].
    specialize (Hdecoded Hnew).
    unfold skin_reads_in_bounds. apply Forall_pointwise_iff.
    { unfold declared_pieces_0x13.
      rewrite length_fmap, length_seqZ, Hcount. reflexivity. }
    intros i p piece Hp Hpiece.
    unfold declared_pieces_0x13 in Hpiece. rewrite list_lookup_fmap in Hpiece.
    destruct (seqZ 0 _ !! i) as [iz |] eqn:Hi; [| discriminate].
    apply lookup_seqZ in Hi as [-> _]. rewrite Z.add_0_l in Hpiece.
    injection Hpiece as <-.
    specialize (Hdecoded i p Hp).
    destruct (decode_piece_0x13_inv BONE_COUNT _ _ _ _ _ Hdecoded)
      as (Hverts & _ & Hbones & Hlen & _).
    rewrite Hbones.
    rewrite (skin_reads_of_piece _ BONE_COUNT).
    + split; intros H Hnz; specialize (H Hnz).
      * intros Hpos. apply H. intros Hnil. rewrite Hnil in Hlen. simpl in Hlen. lia.
      * intros Hne. apply H.
        destruct p.(Piece.m_vertices); [done |]. simpl in Hlen. lia.
    + intros j v Hv.
      destruct (decoded_bone_arrays_0x13 BONE_COUNT _ _ _ _ _ j v Hdecoded
                  Hempty Hv) as [Hi Hw].
      by rewrite Hi, Hw.
Qed.

End LoadedModelFacts.

(** ** The samples *)
Section Samples.
Import Packed Sample.

(** C1, as stated, fails: the geometry file of dir/bad starts with the
    unknown tag XXXX and [load] returns false, but the looks, the variants
    and the material count the descriptor decoder populated stay in the
    model. *)
Lemma load_unknown_tag_counterexample :
  read_u32 bad_pmg_file 0 <> MAKEFOURCC 0x13 char_g char_m char_P /\
  read_u32 bad_pmg_file 0 <> MAKEFOURCC 0x14 char_g char_m char_P /\
  unloaded_state Sample.empty /\
  Sample.load "dir/bad" Sample.empty = Some (false, bad_described) /\
  length bad_described.(Model.m_looks) = 2%nat /\
  length bad_described.(Model.m_variants) = 1%nat /\
  bad_described.(Model.m_materialCount) = 1 /\
  ~ unloaded_state bad_described.
Proof.
  split; [vm_compute; discriminate |].
  split; [vm_compute; discriminate |].
  split; [by repeat split |].
  split; [vm_compute; reflexivity |].
  split; [vm_compute; reflexivity |].
  split; [vm_compute; reflexivity |].
  split; [vm_compute; reflexivity |].
  intros (_ & _ & _ & _ & Hlooks & _). vm_compute in Hlooks. discriminate.
Qed.

Lemma load_unknown_geometry_tag_witness :
  Sample.load "dir/bad" Sample.empty = Some (false, bad_described) /\
  bad_described.(Model.m_loaded) = false /\
  same_geometry Sample.empty bad_described.
Proof.
  unshelve epose proof
    (load_unknown_geometry_tag Sample.BONE_COUNT token_name token_name 4
       Sample.Attribute_ctor Sample.Material_load Sample.directory files
       Sample.Prefab_load Sample.Collision_load
       "dir/bad" "bad" Sample.empty bad_described bad_pmg_file true
       [InvalidAttributeType 1] _ _ _ _ _) as H.
  - vm_compute; reflexivity.
  - vm_compute; reflexivity.
  - vm_compute; reflexivity.
  - vm_compute; discriminate.
  - vm_compute; discriminate.
  - destruct H as (Hload & Hflag & Hgeo & _).
    exact (conj Hload (conj Hflag Hgeo)).
Defined.

(** C2, as stated, fails: the range of the part of the sample descriptor is
    [0, 2) and the definition 1 has the type code 1; the decoder prints the
    warning and the attribute list has 2 entries, not 2 - 1, the second being
    the attribute the constructor made for the definition 1. *)
Lemma unknown_attribute_counterexample :
  attribute_range pmd_file (cast_at HD.t pmd_file 0) 0 = [0; 1] /\
  (elem_at pmd.pmd_attrib_def_t.t pmd_file 80 1).(pmd.pmd_attrib_def_t.m_type) = 1 /\
  Sample.loadDescriptor (named "bad")
  = Some (true, bad_described, [InvalidAttributeType 1]) /\
  exists (variant : Variant.t) (part : Variant.Part.t),
    bad_described.(Model.m_variants) !! 0%nat = Some variant /\
    variant.(Variant.m_parts) !! 0%nat = Some part /\
    length part.(Variant.Part.m_attributes) = 2%nat /\
    length part.(Variant.Part.m_attributes) <> (2 - 1)%nat /\
    part.(Variant.Part.m_attributes) !! 1%nat = Some (Sample.Attribute_ctor "8").
Proof.
  split; [vm_compute; reflexivity |].
  split; [vm_compute; reflexivity |].
  split; [vm_compute; reflexivity |].
  eexists. eexists.
  split; [vm_compute; reflexivity |].
  split; [vm_compute; reflexivity |].
  split; [vm_compute; reflexivity |].
  split; [vm_compute; discriminate | vm_compute; reflexivity].
Qed.

Lemma loadDescriptor_keeps_unknown_attributes_witness :
  Sample.loadDescriptor (named "bad")
  = Some (true, bad_described, [InvalidAttributeType 1]) /\
  (named "bad").(Model.m_variants) = [] /\
  forall (variant : Variant.t) (part : Variant.Part.t),
    bad_described.(Model.m_variants) !! 0%nat = Some variant ->
    variant.(Variant.m_parts) !! 0%nat = Some part ->
    length part.(Variant.Part.m_attributes) = 2%nat.
Proof.
  unshelve epose proof
    (loadDescriptor_keeps_unknown_attributes token_name token_name 4
       Sample.Attribute_ctor Sample.Material_load files
       (named "bad") bad_described pmd_file [InvalidAttributeType 1] _ _ _) as H.
  - vm_compute; reflexivity.
  - vm_compute; reflexivity.
  - reflexivity.
  - destruct H as (_ & Hparts & _).
    split; [vm_compute; reflexivity | split; [reflexivity |]].
    intros variant part Hvariant Hpart.
    destruct (Hparts 0%nat 0%nat variant part Hvariant Hpart) as [_ Hlen].
    rewrite Hlen. vm_compute. reflexivity.
Defined.

(** C3: the code does not do what the claim says.  In the version 0x14
    sample the first colour stream is at 104 and the second at 108, and the
    bytes of vertex 0 differ (255, 0, 0, 255 and 0, 255, 0, 255); the decoded
    second colour is the first colour, decoded from the bytes at 104, and
    not the colour of the bytes at 108. *)
Lemma loadModel0x14_color2_reads_color_stream :
  piece14.(P14.m_vert_color_offset) = 104 /\
  piece14.(P14.m_vert_color2_offset) = 108 /\
  pool_size_0x14 piece14 = 8 /\
  Sample.loadModel0x14 pmg_0x14_file (named "old") = Some (true, old_geometry) /\
  exists (p : Piece.t) (v : Vertex.t),
    old_geometry.(Model.m_pieces) !! 0%nat = Some p /\
    p.(Piece.m_vertices) !! 0%nat = Some v /\
    pmg_vert_color_t.read pmg_0x14_file 104 <> pmg_vert_color_t.read pmg_0x14_file 108 /\
    v.(Vertex.m_color) = decode_color (pmg_vert_color_t.read pmg_0x14_file 104) /\
    v.(Vertex.m_color2) = decode_color (pmg_vert_color_t.read pmg_0x14_file 104) /\
    v.(Vertex.m_color2) <> decode_color (pmg_vert_color_t.read pmg_0x14_file 108).
Proof.
  split; [vm_compute; reflexivity |].
  split; [vm_compute; reflexivity |].
  split; [vm_compute; reflexivity |].
  split; [vm_compute; reflexivity |].
  eexists. eexists.
  split; [vm_compute; reflexivity |].
  split; [vm_compute; reflexivity |].
  split; [vm_compute; discriminate |].
  split; [vm_compute; reflexivity |].
  split; [vm_compute; reflexivity |].
  vm_compute. discriminate.
Qed.

(** C4, as stated, fails: the piece of the version 0x13 sample has one bone
    per vertex, a position stream at 108 and a colour stream at 144.  The
    sizes of the present streams sum to 16, but vertex 1 has the position
    read at 108 + 12 and the colour read at 144 + 4, not those at 108 + 16
    and 144 + 16. *)
Lemma single_stride_counterexample :
  piece13.(P13.m_bone_count) = 1 /\
  stream_size piece13.(P13.m_vert_position_offset) sizeof_float3
  + stream_size piece13.(P13.m_vert_normal_offset) sizeof_float3
  + stream_size piece13.(P13.m_vert_tangent_offset) sizeof_pmg_vert_tangent_t
  + stream_size piece13.(P13.m_vert_uv_offset)
      (sizeof_float2 * piece13.(P13.m_uv_channels))
  + stream_size piece13.(P13.m_vert_rgba_offset) sizeof_uint32_t
  + stream_size piece13.(P13.m_vert_rgba2_offset) sizeof_uint32_t = 16 /\
  decode_piece_0x13 Sample.BONE_COUNT pmg_0x13_file piece13 0
    (default_constructed Piece.t) = Some piece13_decoded /\
  exists v : Vertex.t,
    piece13_decoded.(Piece.m_vertices) !! 1%nat = Some v /\
    v.(Vertex.m_position) <> read_float3 pmg_0x13_file (108 + 16 * 1) /\
    v.(Vertex.m_position) = read_float3 pmg_0x13_file (108 + 12 * 1) /\
    v.(Vertex.m_color)
    <> decode_color (pmg_vert_color_t.read pmg_0x13_file (144 + 16 * 1)) /\
    v.(Vertex.m_color)
    = decode_color (pmg_vert_color_t.read pmg_0x13_file (144 + 4 * 1)).
Proof.
  split; [vm_compute; reflexivity |].
  split; [vm_compute; reflexivity |].
  split; [vm_compute; reflexivity |].
  eexists.
  split; [vm_compute; reflexivity |].
  split; [vm_compute; discriminate |].
  split; [vm_compute; reflexivity |].
  split; [vm_compute; discriminate | vm_compute; reflexivity].
Qed.

Lemma vertex_streams_strides_witness :
  decode_piece_0x13 Sample.BONE_COUNT pmg_0x13_file piece13 0
    (default_constructed Piece.t) = Some piece13_decoded /\
  piece13.(P13.m_bone_count) <> 0 /\
  pool_sizes_0x13 piece13 = (wrap_u32 12, wrap_u32 4) /\
  forall v : Vertex.t,
    piece13_decoded.(Piece.m_vertices) !! 1%nat = Some v ->
    v.(Vertex.m_position) = (4, 5, 6).
Proof.
  assert (Hp : decode_piece_0x13 Sample.BONE_COUNT pmg_0x13_file piece13 0
                 (default_constructed Piece.t) = Some piece13_decoded)
    by (vm_compute; reflexivity).
  assert (Hbones : piece13.(P13.m_bone_count) <> 0) by (vm_compute; discriminate).
  destruct (proj2 (vertex_streams_strides Sample.BONE_COUNT)
              pmg_0x13_file piece13 0 (default_constructed Piece.t)
              piece13_decoded Hp) as (_ & Hskinned & Hvertex).
  destruct (Hskinned Hbones) as [Hstatic Hdynamic].
  split; [exact Hp | split; [exact Hbones | split]].
  - rewrite (surjective_pairing (pool_sizes_0x13 piece13)), Hstatic, Hdynamic.
    vm_compute. reflexivity.
  - intros v Hv.
    destruct (Hvertex 1%nat v Hv) as (Hposition & _).
    rewrite Hposition by (vm_compute; discriminate).
    vm_compute. reflexivity.
Defined.


(** C8, as stated, fails: the decoder accepts the geometry of dir/short,
    whose first piece declares -2 edges.  The floor of -2 / 3 is -1 and the
    piece has 0 triangles; the floors of the two pieces sum to 1 and
    [m_triangleCount] is 2. *)
Lemma floor_division_counterexample :
  Rig.short_files.(fs_open) "dir/short.pmg" = Some Rig.short_pmg_file /\
  Model.loadModel Sample.BONE_COUNT token_name Rig.short_files (named "short")
  = Some (true, Rig.short_geometry) /\
  declared_counts Rig.short_pmg_file = [(1, -2); (2, 7)] /\
  (exists p : Piece.t,
     Rig.short_geometry.(Model.m_pieces) !! 0%nat = Some p /\
     p.(Piece.m_triangles) = [] /\
     Z.of_nat (length p.(Piece.m_triangles)) <> (-2) / 3) /\
  Rig.short_geometry.(Model.m_triangleCount) = 2 /\
  sumZ ((fun d : Z * Z => d.2 / 3) <$> declared_counts Rig.short_pmg_file) = 1.
Proof.
  split; [vm_compute; reflexivity |].
  split; [vm_compute; reflexivity |].
  split; [vm_compute; reflexivity |].
  split.
  - eexists. split; [vm_compute; reflexivity |].
    split; [vm_compute; reflexivity | vm_compute; discriminate].
  - split; vm_compute; reflexivity.
Qed.

Lemma loadModel_counts_witness :
  Model.loadModel Sample.BONE_COUNT token_name Rig.short_files (named "short")
  = Some (true, Rig.short_geometry) /\
  declared_counts Rig.short_pmg_file = [(1, -2); (2, 7)] /\
  (exists p q : Piece.t,
     Rig.short_geometry.(Model.m_pieces) !! 0%nat = Some p /\
     Rig.short_geometry.(Model.m_pieces) !! 1%nat = Some q /\
     length p.(Piece.m_triangles) = 0%nat /\
     length p.(Piece.m_vertices) = 1%nat /\
     length q.(Piece.m_triangles) = 2%nat /\
     length q.(Piece.m_vertices) = 2%nat) /\
  Rig.short_geometry.(Model.m_triangleCount) = 2 /\
  Rig.short_geometry.(Model.m_vertCount) = 3.
Proof.
  assert (Hload : Model.loadModel Sample.BONE_COUNT token_name Rig.short_files
                    (named "short") = Some (true, Rig.short_geometry))
    by (vm_compute; reflexivity).
  assert (Hdeclared : declared_counts Rig.short_pmg_file = [(1, -2); (2, 7)])
    by (vm_compute; reflexivity).
  split; [exact Hload |]. split; [exact Hdeclared |].
  pose proof (loadModel_counts Sample.BONE_COUNT token_name Rig.short_files
                (named "short") Rig.short_geometry Rig.short_pmg_file
                eq_refl Hload eq_refl eq_refl eq_refl) as H.
  cbv zeta in H. rewrite Hdeclared in H.
  destruct H as (_ & Hpieces & _ & _ & Htriangles & Hverts).
  destruct (Hpieces 0%nat (1, -2) eq_refl) as (p & Hp & Hpt & Hpv & _).
  destruct (Hpieces 1%nat (2, 7) eq_refl) as (q & Hq & Hqt & Hqv & Hfloor).
  split.
  - exists p, q. split; [exact Hp |]. split; [exact Hq |].
    cbn [fst snd] in Hpt, Hpv, Hqt, Hqv.
    change ((-2) ÷ 3) with 0 in Hpt. change (7 ÷ 3) with 2 in Hqt.
    split; [lia |]. split; [lia |]. split; [| lia].
    rewrite Hfloor; [reflexivity | cbn [snd]; lia].
  - split; [apply Htriangles | apply Hverts]; vm_compute; reflexivity.
Defined.

Lemma destroy_keeps_prefab_and_collision_witness :
  old_model.(Model.m_prefab) = Some "dir/old" /\
  old_model.(Model.m_collision) = Some "dir/old" /\
  files.(fs_exists) "dir/new.ppd" = false /\
  files.(fs_exists) "dir/new.pmc" = false /\
  forall m' : Model.t string string,
    Sample.load "dir/new" old_model = Some (true, m') ->
    m'.(Model.m_prefab) = Some "dir/old" /\
    Model.SaveToPic "dir/old" "out" ∈ Model.saveToMidFormat "out" false m' /\
    Model.SaveToPip "dir/old" "out" ∈ Model.saveToMidFormat "out" false m'.
Proof.
  split; [vm_compute; reflexivity |].
  split; [vm_compute; reflexivity |].
  split; [vm_compute; reflexivity |].
  split; [vm_compute; reflexivity |].
  intros m' Hload.
  destruct (proj2 (destroy_keeps_prefab_and_collision Sample.BONE_COUNT
                     token_name token_name 4 Sample.Attribute_ctor
                     Sample.Material_load Sample.directory files
                     Sample.Prefab_load Sample.Collision_load old_model)
              "dir/new" "out" false m')
    as (Hprefab & _ & Hpic & Hpip).
  - vm_compute; reflexivity.
  - vm_compute; reflexivity.
  - exact Hload.
  - split; [rewrite Hprefab; vm_compute; reflexivity |].
    split; [apply Hpic | apply Hpip]; vm_compute; reflexivity.
Defined.

Lemma loadModel0x14_weight_width_witness :
  Sample.loadModel0x14 pmg_0x14_file (named "old") = Some (true, old_geometry) /\
  old_geometry.(Model.m_skinVertCount) = 0 /\
  old_geometry.(Model.m_vertCount) = 2.
Proof.
  unshelve epose proof
    (loadModel0x14_weight_width Sample.BONE_COUNT token_name pmg_0x14_file
       (named "old") old_geometry _ _ _ _) as H.
  - vm_compute; reflexivity.
  - reflexivity.
  - reflexivity.
  - reflexivity.
  - destruct H as (_ & _ & _ & Hnone & _ & _ & Hfit).
    split; [vm_compute; reflexivity |].
    split; [apply Hnone; vm_compute; reflexivity |].
    rewrite Hfit; vm_compute; reflexivity.
Defined.

End Samples.

(** ** The further samples *)
Section MoreSamples.
Import Packed Sample Rig.

Local Ltac sample :=
  repeat first [progress vm_compute | reflexivity
               | (let H := fresh in intro H; discriminate H) | apply conj
               | apply Forall_nil | apply Forall_cons].
Local Ltac differ := vm_compute; let H := fresh in intro H; discriminate H.

(** The pieces of the two geometry samples have the triangles of their index
    records. *)
Lemma decode_piece_triangles_witness :
  piece13_decoded.(Piece.m_triangles)
  = declared_triangles_0x13 pmg_0x13_file piece13 /\
  piece14_decoded.(Piece.m_triangles)
  = declared_triangles_0x14 pmg_0x14_file piece14.
Proof.
  split.
  - apply (proj2 (decode_piece_triangles Sample.BONE_COUNT)
             pmg_0x13_file piece13 0 (default_constructed Piece.t) piece13_decoded).
    vm_compute; reflexivity.
  - apply (proj1 (decode_piece_triangles Sample.BONE_COUNT)
             pmg_0x14_file 0 piece14 0 (default_constructed Piece.t) piece14_decoded).
    vm_compute; reflexivity.
Defined.

(** The piece of the version 0x13 sample has a position and a colour stream:
    2 streams. *)
Lemma decode_piece_stream_count_witness :
  no_streams (default_constructed Piece.t) /\
  piece13_decoded.(Piece.m_streamCount) = 2 /\
  piece13_decoded.(Piece.m_position) = true /\
  piece13_decoded.(Piece.m_normal) = false.
Proof.
  assert (Hnew : no_streams (default_constructed Piece.t)) by sample.
  split; [exact Hnew |].
  assert (Hdecoded : decode_piece_0x13 Sample.BONE_COUNT pmg_0x13_file piece13 0
                       (default_constructed Piece.t) = Some piece13_decoded)
    by (vm_compute; reflexivity).
  destruct (proj2 (decode_piece_stream_count Sample.BONE_COUNT)
              pmg_0x13_file piece13 0 (default_constructed Piece.t)
              piece13_decoded Hdecoded Hnew)
    as (Hcount & Hposition & Hnormal & _).
  rewrite Hcount, Hposition, Hnormal. sample.
Defined.


(** The piece of the version 0x14 sample has no bone stream: vertex 0 has
    the arrays of a new vertex. *)
Lemma unskinned_piece_keeps_bone_arrays_witness :
  piece14.(P14.m_vert_bone_index_offset) = -1 /\
  vertex14.(Vertex.m_boneIndex) = replicate Sample.BONE_COUNT (-1) /\
  vertex14.(Vertex.m_boneWeight) = replicate Sample.BONE_COUNT 0.
Proof.
  assert (Habsent : piece14.(P14.m_vert_bone_index_offset) = -1) by sample.
  split; [exact Habsent |].
  assert (Hdecoded : decode_piece_0x14 Sample.BONE_COUNT pmg_0x14_file 0 piece14 0
                       (default_constructed Piece.t) = Some piece14_decoded)
    by (vm_compute; reflexivity).
  assert (Hvertex : piece14_decoded.(Piece.m_vertices) !! 0%nat = Some vertex14)
    by (vm_compute; reflexivity).
  assert (Hwidth : piece14.(P14.m_texcoord_width)
                   <= Z.of_nat (length (default_constructed Vertex.t).(Vertex.m_texcoords)))
    by (vm_compute; discriminate).
  destruct (proj1 (unskinned_piece_keeps_bone_arrays Sample.BONE_COUNT)
              pmg_0x14_file 0 piece14 0 (default_constructed Piece.t)
              piece14_decoded 0%nat vertex14
              Hdecoded eq_refl (fun _ => Hwidth) (or_introl Habsent) Hvertex)
    as (_ & Hindex & Hweight).
  rewrite Hindex, Hweight. split; reflexivity.
Defined.

(** The outcomes: an unknown tag is refused, a header that declares -1
    pieces throws, and the rigged sample, whose tag is accepted, is not
    refused. *)
Lemma geometry_decoder_outcome_witness :
  Sample.loadModel0x14 bad_pmg_file Sample.empty = Some (false, Sample.empty) /\
  Sample.loadModel0x14 negative_pmg_file Sample.empty = None /\
  Sample.loadModel0x14 rigged_pmg_file Sample.empty <> Some (false, Sample.empty).
Proof.
  split; [| split].
  - apply (proj1 (geometry_decoder_outcome Sample.BONE_COUNT token_name)
             bad_pmg_file Sample.empty).
    intros [Hversion _]. vm_compute in Hversion. discriminate Hversion.
  - apply (proj1 (geometry_decoder_outcome Sample.BONE_COUNT token_name)
             negative_pmg_file Sample.empty); [sample |].
    intros (Hpieces & _). vm_compute in Hpieces. by apply Hpieces.
  - apply (proj1 (geometry_decoder_outcome Sample.BONE_COUNT token_name)
             rigged_pmg_file Sample.empty); sample.
Defined.

(** The file with two records in every table: the second bone, part,
    locator and piece of the decoded model, and the first locator, which
    has no hookup. *)
Lemma loadModel0x14_tables_witness :
  Sample.loadModel0x14 paired_pmg_file (named "pair") = Some (true, paired_geometry) /\
  length paired_geometry.(Model.m_bones) = 2%nat /\
  (exists bone : Bone.t,
     paired_geometry.(Model.m_bones) !! 1%nat = Some bone /\
     bone.(Bone.m_index) = 1 /\ bone.(Bone.m_name) = "9"%string /\
     bone.(Bone.m_parent) = 0) /\
  (exists part : Part.t,
     paired_geometry.(Model.m_parts) !! 1%nat = Some part /\
     part.(Part.m_name) = "8"%string /\
     part.(Part.m_locatorCount) = 1 /\ part.(Part.m_locatorId) = 1 /\
     part.(Part.m_pieceCount) = 1 /\ part.(Part.m_pieceId) = 1) /\
  (exists first second : Locator.t,
     paired_geometry.(Model.m_locators) !! 0%nat = Some first /\
     paired_geometry.(Model.m_locators) !! 1%nat = Some second /\
     first.(Locator.m_index) = 0 /\ first.(Locator.m_hookup) = ""%string /\
     second.(Locator.m_index) = 1 /\ second.(Locator.m_name) = "4"%string /\
     second.(Locator.m_hookup) = "hook"%string) /\
  (exists piece : Piece.t,
     paired_geometry.(Model.m_pieces) !! 1%nat = Some piece /\
     piece.(Piece.m_index) = 1 /\ piece.(Piece.m_texcoordMask) = 1 /\
     piece.(Piece.m_bones) = 3 /\ piece.(Piece.m_material) = 1 /\
     length piece.(Piece.m_vertices) = 2%nat /\
     length piece.(Piece.m_triangles) = 2%nat).
Proof.
  assert (Hload : Sample.loadModel0x14 paired_pmg_file (named "pair")
                  = Some (true, paired_geometry)) by (vm_compute; reflexivity).
  split; [exact Hload |].
  pose proof (loadModel0x14_tables Sample.BONE_COUNT token_name paired_pmg_file
                (named "pair") paired_geometry Hload) as Htables.
  cbv zeta in Htables.
  destruct Htables as ((Hbones & Hbone) & (_ & Hpart) & (_ & Hlocator)
                       & (_ & Hpiece)).
  assert (Htwo : forall n : Z, n = 2 -> (1 < Z.to_nat n)%nat /\ (0 < Z.to_nat n)%nat)
    by (intros n ->; split; lia).
  split; [rewrite Hbones; vm_compute; reflexivity |].
  split; [| split; [| split]].
  - destruct (Hbone 1%nat) as (bone & Hat & Hindex & Hname & _ & _ & _ & _ & _
                               & _ & _ & Hparent);
      [apply Htwo; vm_compute; reflexivity |].
    exists bone. rewrite Hindex, Hname, Hparent.
    split; [exact Hat |]. vm_compute. repeat split.
  - destruct (Hpart 1%nat) as (part & Hat & Hname & Hlc & Hli & Hpc & Hpi);
      [apply Htwo; vm_compute; reflexivity |].
    exists part. rewrite Hname, Hlc, Hli, Hpc, Hpi.
    split; [exact Hat |]. vm_compute. repeat split.
  - destruct (Hlocator 0%nat) as (first & Hat0 & Hindex0 & _ & _ & _ & _
                                  & Hnone & _);
      [apply Htwo; vm_compute; reflexivity |].
    destruct (Hlocator 1%nat) as (second & Hat1 & Hindex1 & Hname1 & _ & _ & _
                                  & _ & Hhook);
      [apply Htwo; vm_compute; reflexivity |].
    exists first, second.
    rewrite Hindex0, Hindex1, Hname1, Hnone, Hhook.
    + split; [exact Hat0 |]. split; [exact Hat1 |]. vm_compute. repeat split.
    + vm_compute. intros Hoffset. discriminate Hoffset.
    + vm_compute. reflexivity.
  - destruct (Hpiece 1%nat) as (piece & Hat & Hindex & Hmask & _ & Hwidth
                                & Hmaterial & Hverts & Hedges);
      [apply Htwo; vm_compute; reflexivity |].
    exists piece. rewrite Hindex, Hmask, Hwidth, Hmaterial.
    split; [exact Hat |].
    assert (Hlength : forall (n : nat) (z : Z), Z.of_nat n = z -> z = 2 -> n = 2%nat)
      by (intros n z <- Hz; lia).
    split; [vm_compute; reflexivity |]. split; [vm_compute; reflexivity |].
    split; [vm_compute; reflexivity |]. split; [vm_compute; reflexivity |].
    split; [apply (Hlength _ _ Hverts) | apply (Hlength _ _ Hedges)];
      vm_compute; reflexivity.
Defined.

(** The version 0x13 file with two records in every table: the second
    bone, part, locator and piece of the decoded model, and the first
    locator, which has no hookup. *)
Lemma loadModel0x13_tables_witness :
  Model.loadModel0x13 Sample.BONE_COUNT token_name paired_0x13_file
    (named "pair") = Some (true, paired_0x13_geometry) /\
  length paired_0x13_geometry.(Model.m_bones) = 2%nat /\
  (exists bone : Bone.t,
     paired_0x13_geometry.(Model.m_bones) !! 1%nat = Some bone /\
     bone.(Bone.m_index) = 1 /\ bone.(Bone.m_name) = "9"%string /\
     bone.(Bone.m_parent) = 0) /\
  (exists part : Part.t,
     paired_0x13_geometry.(Model.m_parts) !! 1%nat = Some part /\
     part.(Part.m_name) = "8"%string /\
     part.(Part.m_locatorCount) = 1 /\ part.(Part.m_locatorId) = 1 /\
     part.(Part.m_pieceCount) = 1 /\ part.(Part.m_pieceId) = 1) /\
  (exists first second : Locator.t,
     paired_0x13_geometry.(Model.m_locators) !! 0%nat = Some first /\
     paired_0x13_geometry.(Model.m_locators) !! 1%nat = Some second /\
     first.(Locator.m_index) = 0 /\ first.(Locator.m_hookup) = ""%string /\
     second.(Locator.m_index) = 1 /\ second.(Locator.m_name) = "4"%string /\
     second.(Locator.m_hookup) = "hook"%string) /\
  (exists piece : Piece.t,
     paired_0x13_geometry.(Model.m_pieces) !! 1%nat = Some piece /\
     piece.(Piece.m_index) = 1 /\ piece.(Piece.m_texcoordMask) = 1 /\
     piece.(Piece.m_bones) = 2 /\ piece.(Piece.m_material) = 1 /\
     length piece.(Piece.m_vertices) = 2%nat /\
     length piece.(Piece.m_triangles) = 2%nat).
Proof.
  assert (Hload : Model.loadModel0x13 Sample.BONE_COUNT token_name paired_0x13_file (named "pair")
                  = Some (true, paired_0x13_geometry)) by (vm_compute; reflexivity).
  split; [exact Hload |].
  pose proof (loadModel0x13_tables Sample.BONE_COUNT token_name paired_0x13_file
                (named "pair") paired_0x13_geometry Hload) as Htables.
  cbv zeta in Htables.
  destruct Htables as ((Hbones & Hbone) & (_ & Hpart) & (_ & Hlocator)
                       & (_ & Hpiece)).
  assert (Htwo : forall n : Z, n = 2 -> (1 < Z.to_nat n)%nat /\ (0 < Z.to_nat n)%nat)
    by (intros n ->; split; lia).
  split; [rewrite Hbones; vm_compute; reflexivity |].
  split; [| split; [| split]].
  - destruct (Hbone 1%nat) as (bone & Hat & Hindex & Hname & _ & _ & _ & _ & _
                               & _ & _ & Hparent);
      [apply Htwo; vm_compute; reflexivity |].
    exists bone. rewrite Hindex, Hname, Hparent.
    split; [exact Hat |]. vm_compute. repeat split.
  - destruct (Hpart 1%nat) as (part & Hat & Hname & Hlc & Hli & Hpc & Hpi);
      [apply Htwo; vm_compute; reflexivity |].
    exists part. rewrite Hname, Hlc, Hli, Hpc, Hpi.
    split; [exact Hat |]. vm_compute. repeat split.
  - destruct (Hlocator 0%nat) as (first & Hat0 & Hindex0 & _ & _ & _ & _
                                  & Hnone & _);
      [apply Htwo; vm_compute; reflexivity |].
    destruct (Hlocator 1%nat) as (second & Hat1 & Hindex1 & Hname1 & _ & _ & _
                                  & _ & Hhook);
      [apply Htwo; vm_compute; reflexivity |].
    exists first, second.
    rewrite Hindex0, Hindex1, Hname1, Hnone, Hhook.
    + split; [exact Hat0 |]. split; [exact Hat1 |]. vm_compute. repeat split.
    + vm_compute. intros Hoffset. discriminate Hoffset.
    + vm_compute. reflexivity.
  - destruct (Hpiece 1%nat) as (piece & Hat & Hindex & Hmask & _ & Hwidth
                                & Hmaterial & Hverts & Hedges);
      [apply Htwo; vm_compute; reflexivity |].
    exists piece. rewrite Hindex, Hmask, Hwidth, Hmaterial.
    split; [exact Hat |].
    assert (Hlength : forall (n : nat) (z : Z), Z.of_nat n = z -> z = 2 -> n = 2%nat)
      by (intros n z <- Hz; lia).
    split; [vm_compute; reflexivity |]. split; [vm_compute; reflexivity |].
    split; [vm_compute; reflexivity |]. split; [vm_compute; reflexivity |].
    split; [apply (Hlength _ _ Hverts) | apply (Hlength _ _ Hedges)];
      vm_compute; reflexivity.
Defined.




(** Slot 0 of the two looks of the sample descriptor. *)
Lemma decoded_aliases_identify_slots_witness :
  (Material.alias (described_material 0 0) = Material.alias (described_material 1 0)
   <-> 0%nat = 0%nat) /\
  exists rest : string,
    Material.alias (described_material 0 0) = "mat_" +:+ rest /\
    read_decimal 0 rest = N.of_nat 0.
Proof.
  refine (decoded_aliases_identify_slots token_name token_name 4
            Sample.Attribute_ctor Sample.Material_load files
            (named "bad") bad_described pmd_file [InvalidAttributeType 1]
            0%nat 1%nat 0%nat 0%nat (described_look 0) (described_look 1)
            (described_material 0 0) (described_material 1 0)
            _ _ eq_refl _ _ _ _);
    vm_compute; reflexivity.
Defined.

(** The sample descriptor decoded a second time, into the model that holds
    the variant of the first time: the part had 2 attributes and has 4. *)
Lemma loadDescriptor_appends_attributes_witness :
  Sample.loadDescriptor bad_described
  = Some (true, redescribed, [InvalidAttributeType 1]) /\
  length (old_attributes bad_described.(Model.m_variants) 0 0) = 2%nat /\
  redescribed.(Model.m_variants) !! 0%nat = Some redescribed_variant /\
  redescribed_variant.(Variant.m_parts) !! 0%nat = Some redescribed_part /\
  length redescribed_part.(Variant.Part.m_attributes) = 4%nat.
Proof.
  assert (Hload : Sample.loadDescriptor bad_described
                  = Some (true, redescribed, [InvalidAttributeType 1]))
    by (vm_compute; reflexivity).
  assert (Hvariant : redescribed.(Model.m_variants) !! 0%nat
                     = Some redescribed_variant) by (vm_compute; reflexivity).
  assert (Hpart : redescribed_variant.(Variant.m_parts) !! 0%nat
                  = Some redescribed_part) by (vm_compute; reflexivity).
  split; [exact Hload |].
  split; [vm_compute; reflexivity |].
  split; [exact Hvariant | split; [exact Hpart |]].
  destruct (loadDescriptor_appends_attributes token_name token_name 4
              Sample.Attribute_ctor Sample.Material_load files bad_described
              redescribed pmd_file [InvalidAttributeType 1]
              ltac:(vm_compute; reflexivity) Hload)
    as (_ & Hvariants & _).
  destruct (Hvariants 0%nat redescribed_variant Hvariant) as (_ & _ & Hattrs).
  rewrite (Hattrs 0%nat redescribed_part Hpart). sample.
Defined.

(** After the second decode the attribute named 7 is the one the part held
    before. *)
Lemma Part_subscript_name_after_decode_witness :
  Part_subscript_name "7" redescribed_part
  = (old_attributes bad_described.(Model.m_variants) 0 0) !! 0%nat.
Proof.
  destruct (Part_subscript_name_after_decode token_name token_name 4
              Sample.Attribute_ctor Sample.Material_load files bad_described
              redescribed pmd_file [InvalidAttributeType 1] 0%nat 0%nat
              redescribed_variant redescribed_part
              ltac:(vm_compute; reflexivity) ltac:(vm_compute; reflexivity)
              ltac:(vm_compute; reflexivity) ltac:(vm_compute; reflexivity))
    as [Hname _].
  rewrite (Hname "7"%string). sample.
Defined.

(** A descriptor file that does not exist is refused; the sample
    descriptor, whose version is the supported one, is not; a descriptor
    of that version that declares -1 looks throws. *)
Lemma loadDescriptor_outcome_witness :
  Sample.loadDescriptor (named "none") = Some (false, named "none", []) /\
  Sample.loadDescriptor (named "old") <> Some (false, named "old", []) /\
  Model.loadDescriptor token_name token_name 4 Sample.Attribute_ctor
    Sample.Material_load short_files (named "negative") = None.
Proof.
  split; [| split].
  - apply (proj1 (loadDescriptor_outcome token_name token_name 4
                    Sample.Attribute_ctor Sample.Material_load files
                    (named "none"))).
    vm_compute; reflexivity.
  - destruct (proj2 (loadDescriptor_outcome token_name token_name 4
                       Sample.Attribute_ctor Sample.Material_load files
                       (named "old")) pmd_file ltac:(vm_compute; reflexivity))
      as (_ & _ & Haccepted).
    apply Haccepted. vm_compute; reflexivity.
  - destruct (proj2 (loadDescriptor_outcome token_name token_name 4
                       Sample.Attribute_ctor Sample.Material_load short_files
                       (named "negative")) negative_pmd_file
                ltac:(vm_compute; reflexivity))
      as (_ & Hthrows & _).
    apply Hthrows; [vm_compute; reflexivity |].
    intros (Hlooks & _). vm_compute in Hlooks. by apply Hlooks.
Defined.

(** dir/old loaded into a new model. *)
Lemma load_success_state_witness :
  Sample.load "dir/old" Sample.empty = Some (true, old_model) /\
  old_model.(Model.m_loaded) = true /\
  old_model.(Model.m_filePath) = "dir/old"%string /\
  old_model.(Model.m_directory) = "dir"%string.
Proof.
  assert (Hload : Sample.load "dir/old" Sample.empty = Some (true, old_model))
    by (vm_compute; reflexivity).
  split; [exact Hload |].
  destruct (load_success_state Sample.BONE_COUNT token_name token_name 4
              Sample.Attribute_ctor Sample.Material_load Sample.directory files
              Sample.Prefab_load Sample.Collision_load
              "dir/old" Sample.empty old_model Hload)
    as (Hloaded & Hpath & Hdirectory & _).
  rewrite Hloaded, Hpath, Hdirectory. sample.
Defined.

(** dir/bad, whose geometry is refused, loaded into the model loaded from
    dir/old. *)
Lemma load_failure_destroys_witness :
  old_model.(Model.m_loaded) = true /\
  Sample.load "dir/bad" old_model = Some (false, old_then_bad) /\
  old_then_bad.(Model.m_loaded) = false /\
  no_geometry old_then_bad /\
  old_then_bad.(Model.m_prefab) = old_model.(Model.m_prefab).
Proof.
  assert (Hloaded : old_model.(Model.m_loaded) = true) by (vm_compute; reflexivity).
  assert (Hload : Sample.load "dir/bad" old_model = Some (false, old_then_bad))
    by (vm_compute; reflexivity).
  split; [exact Hloaded | split; [exact Hload |]].
  destruct (load_failure_destroys Sample.BONE_COUNT token_name token_name 4
              Sample.Attribute_ctor Sample.Material_load Sample.directory files
              Sample.Prefab_load Sample.Collision_load
              "dir/bad" old_model old_then_bad Hloaded Hload)
    as (Hflag & Hgeometry & _ & Hprefab & _).
  exact (conj Hflag (conj Hgeometry Hprefab)).
Defined.

(** dir/old loaded twice. *)
Lemma load_twice_witness :
  unloaded_state Sample.empty /\
  Sample.load "dir/old" Sample.empty = Some (true, old_model) /\
  Sample.load "dir/old" old_model = Some (true, old_model).
Proof.
  assert (Hnew : unloaded_state Sample.empty) by (by repeat split).
  assert (Hload : Sample.load "dir/old" Sample.empty = Some (true, old_model))
    by (vm_compute; reflexivity).
  split; [exact Hnew | split; [exact Hload |]].
  exact (load_twice Sample.BONE_COUNT token_name token_name 4
           Sample.Attribute_ctor Sample.Material_load Sample.directory files
           Sample.Prefab_load Sample.Collision_load
           "dir/old" Sample.empty old_model (or_intror Hnew) Hload).
Defined.

(** A path that cannot be opened; the model loaded from dir/old; the rigged
    model, which has one part, with a variant that has none. *)
Lemma saveToPit_outcome_witness :
  Rig.saveToPit "ro/" old_model = Some (false, []) /\
  variants_cover_parts old_model /\
  (exists text,
     Rig.saveToPit "out/" old_model
     = Some (true, [{| fw_path := "out/dir/old.pit"; fw_text := text |}])) /\
  ~ variants_cover_parts uncovered /\
  Rig.saveToPit "out/" uncovered = None.
Proof.
  assert (Hcover : variants_cover_parts old_model).
  { apply List.Forall_cons; [vm_compute; lia | apply List.Forall_nil]. }
  assert (Hbare : ~ variants_cover_parts uncovered).
  { intros Hbare. apply Forall_inv in Hbare. vm_compute in Hbare. lia. }
  pose proof (saveToPit_outcome Rig.SEOL Rig.TAB Rig.STRING_VERSION
                Rig.sfs_open Rig.Material_toDefinition "ro/" old_model)
    as (Hclosed & _).
  pose proof (saveToPit_outcome Rig.SEOL Rig.TAB Rig.STRING_VERSION
                Rig.sfs_open Rig.Material_toDefinition "out/" old_model)
    as (_ & Hwritten & _).
  pose proof (saveToPit_outcome Rig.SEOL Rig.TAB Rig.STRING_VERSION
                Rig.sfs_open Rig.Material_toDefinition "out/" uncovered)
    as (_ & _ & Hundefined).
  split; [apply Hclosed; vm_compute; reflexivity |].
  split; [exact Hcover |].
  split; [| split; [exact Hbare |]].
  - destruct (Hwritten ltac:(vm_compute; reflexivity) Hcover)
      as (text & _ & Hsave).
    exists text. exact Hsave.
  - apply Hundefined; [vm_compute; reflexivity | exact Hbare].
Defined.

(** A model without bones; the rigged model; the rigged model with a bone
    whose parent is bone 7 of 2. *)
Lemma saveToPis_outcome_witness :
  Rig.saveToPis "out/" old_model = Some (false, []) /\
  parents_in_range rigged_geometry /\
  (exists text,
     Rig.saveToPis "out/" rigged_geometry
     = Some (true, [{| fw_path := "out/dir/rig.pis"; fw_text := text |}])) /\
  ~ parents_in_range orphaned /\
  Rig.saveToPis "out/" orphaned = None.
Proof.
  assert (Hrange : parents_in_range rigged_geometry).
  { apply List.Forall_cons; [| apply List.Forall_nil].
    left. vm_compute. reflexivity. }
  assert (Horphan : ~ parents_in_range orphaned).
  { intros Horphan. apply Forall_inv_tail, Forall_inv in Horphan.
    vm_compute in Horphan.
    destruct Horphan as [Hroot | [_ Hlt]];
      [discriminate Hroot | discriminate Hlt]. }
  pose proof (saveToPis_outcome Rig.SEOL Rig.TAB Rig.STRING_VERSION
                Rig.sfs_open Rig.FLT_FT_flh Rig.glm_cast "out/" old_model)
    as (Hboneless & _).
  pose proof (saveToPis_outcome Rig.SEOL Rig.TAB Rig.STRING_VERSION
                Rig.sfs_open Rig.FLT_FT_flh Rig.glm_cast "out/" rigged_geometry)
    as (_ & _ & Hwritten & _).
  pose proof (saveToPis_outcome Rig.SEOL Rig.TAB Rig.STRING_VERSION
                Rig.sfs_open Rig.FLT_FT_flh Rig.glm_cast "out/" orphaned)
    as (_ & _ & _ & Hundefined).
  split; [apply Hboneless; vm_compute; reflexivity |].
  split; [exact Hrange |].
  split; [| split; [exact Horphan |]].
  - destruct (Hwritten ltac:(differ) ltac:(vm_compute; reflexivity) Hrange)
      as (text & _ & Hsave).
    exists text. exact Hsave.
  - apply Hundefined; [differ | vm_compute; reflexivity | exact Horphan].
Defined.

(** The encoder reads inside the rigged model. *)
Lemma rigged_in_bounds : pim_in_bounds rigged_geometry.
Proof.
  split; [intros look Hlook; vm_compute in Hlook; discriminate Hlook |].
  split.
  - apply List.Forall_cons; [| apply List.Forall_nil].
    intros Htexcoord. vm_compute in Htexcoord. discriminate Htexcoord.
  - intros _. apply List.Forall_cons; [| apply List.Forall_nil].
    intros _. apply List.Forall_cons; [| apply List.Forall_nil].
    intros k Hk.
    assert (k = 0 \/ k = 1)%nat as [-> | ->] by (vm_compute in Hk; lia).
    + exists 255. split; [reflexivity | intros _; by eexists].
    + exists 128. split; [reflexivity | intros _; by eexists].
Qed.

(** A path that cannot be opened, and the rigged model. *)
Lemma saveToPim_outcome_witness :
  Rig.saveToPim "ro/" rigged_geometry = Some (false, []) /\
  pim_in_bounds rigged_geometry /\
  exists text,
    Rig.saveToPim "out/" rigged_geometry
    = Some (true, [{| fw_path := "out/dir/rig.pim"; fw_text := text |}]).
Proof.
  pose proof (saveToPim_outcome Rig.SEOL Rig.TAB Rig.STRING_VERSION
                Rig.sfs_open Rig.float2_to_string Rig.float3_to_string
                Rig.float4_to_string Rig.color_to_string Rig.FLT_FT_flh
                Rig.weight_of_byte Rig.Material_toDeclaration
                Rig.Piece_texCoords "ro/" rigged_geometry)
    as (Hclosed & _).
  pose proof (saveToPim_outcome Rig.SEOL Rig.TAB Rig.STRING_VERSION
                Rig.sfs_open Rig.float2_to_string Rig.float3_to_string
                Rig.float4_to_string Rig.color_to_string Rig.FLT_FT_flh
                Rig.weight_of_byte Rig.Material_toDeclaration
                Rig.Piece_texCoords "out/" rigged_geometry)
    as (_ & Hwritten & _).
  split; [apply Hclosed; vm_compute; reflexivity |].
  split; [exact rigged_in_bounds |].
  destruct (Hwritten ltac:(vm_compute; reflexivity) rigged_in_bounds)
    as (text & _ & Hsave).
  exists text. exact Hsave.
Defined.

(** The rigged model: one skinned vertex with two weights that are not 0. *)
Lemma saveToPim_skin_counts_witness :
  Rig.skin_items rigged_geometry = Some rigged_skin /\
  rigged_skin.(Encoder.itemIdx) = 1 /\
  rigged_skin.(Encoder.weightIdx) = 2 /\
  length rigged_skin.(Encoder.skinStreams) = 1%nat.
Proof.
  assert (Hskin : Rig.skin_items rigged_geometry = Some rigged_skin)
    by (vm_compute; reflexivity).
  split; [exact Hskin |].
  destruct (saveToPim_skin_counts Rig.SEOL Rig.TAB Rig.float3_to_string
              Rig.FLT_FT_flh Rig.weight_of_byte rigged_geometry rigged_skin Hskin)
    as (Hitems & Hweights & Hstreams).
  rewrite Hitems, Hweights.
  split; [sample | split; [sample |]].
  apply Nat2Z.inj. rewrite Hstreams. sample.
Defined.

(** The rigged model: the decoder counted one skinned vertex, the Skin block
    has one item. *)
Lemma skin_items_match_decoder_witness :
  no_geometry (named "rig") /\
  Sample.loadModel0x14 rigged_pmg_file (named "rig") = Some (true, rigged_geometry) /\
  Rig.skin_items rigged_geometry = Some rigged_skin /\
  rigged_skin.(Encoder.itemIdx) = rigged_geometry.(Model.m_skinVertCount).
Proof.
  assert (Hnew : no_geometry (named "rig")) by (by repeat split).
  assert (Hload : Sample.loadModel0x14 rigged_pmg_file (named "rig")
                  = Some (true, rigged_geometry)) by (vm_compute; reflexivity).
  assert (Hskin : Rig.skin_items rigged_geometry = Some rigged_skin)
    by (vm_compute; reflexivity).
  split; [exact Hnew | split; [exact Hload | split; [exact Hskin |]]].
  apply (proj1 (skin_items_match_decoder Sample.BONE_COUNT token_name
                  Rig.SEOL Rig.TAB Rig.float3_to_string Rig.FLT_FT_flh
                  Rig.weight_of_byte)
           rigged_pmg_file (named "rig") rigged_geometry rigged_skin
           Hload Hnew);
    [differ | exact Hskin].
Defined.

(** An influence width of 2 stays inside the 8 bone slots of a vertex; one of
    9 is accepted by the decoder and makes the encoder read the ninth
    weight. *)
Lemma skin_reads_after_decode_witness :
  Sample.loadModel0x14 rigged_pmg_file (named "rig") = Some (true, rigged_geometry) /\
  skin_reads_in_bounds rigged_geometry.(Model.m_pieces) /\
  Sample.loadModel0x14 heavy_pmg_file (named "heavy") = Some (true, heavy_geometry) /\
  ~ skin_reads_in_bounds heavy_geometry.(Model.m_pieces) /\
  Rig.saveToPim "out/" heavy_geometry = None.
Proof.
  assert (Hload : Sample.loadModel0x14 rigged_pmg_file (named "rig")
                  = Some (true, rigged_geometry)) by (vm_compute; reflexivity).
  assert (Hheavy : Sample.loadModel0x14 heavy_pmg_file (named "heavy")
                   = Some (true, heavy_geometry)) by (vm_compute; reflexivity).
  pose proof (proj1 (skin_reads_after_decode Sample.BONE_COUNT token_name)
                rigged_pmg_file (named "rig") rigged_geometry
                Hload eq_refl eq_refl eq_refl eq_refl) as Hrig.
  pose proof (proj1 (skin_reads_after_decode Sample.BONE_COUNT token_name)
                heavy_pmg_file (named "heavy") heavy_geometry
                Hheavy eq_refl eq_refl eq_refl eq_refl) as Hnine.
  split; [exact Hload | split; [| split; [exact Hheavy | split]]].
  - apply Hrig. apply List.Forall_cons; [| apply List.Forall_nil].
    intros _ _. vm_compute. lia.
  - intros Hreads. apply Hnine in Hreads. apply Forall_inv in Hreads.
    assert (Hwidth : (Z.to_nat (wrap_u32 9) <= Sample.BONE_COUNT)%nat).
    { apply Hreads; [differ | vm_compute; reflexivity]. }
    vm_compute in Hwidth. lia.
  - vm_compute; reflexivity.
Defined.

(** The file with two skinned vertices: the index word of vertex 0 is
    0x04030201; vertex 1, one stride further, has the bytes 5, 6, 7, 200
    and 10, 20, 30, 40 in the slots 0 to 3 and (-1, 0) in the slots 4
    to 7. *)
Lemma loadModel0x14_skin_witness :
  Sample.loadModel0x14 skinned_pmg_file (named "skin")
  = Some (true, skinned_geometry) /\
  read_u32 skinned_pmg_file 104 = 0x04030201 /\
  exists (p : Piece.t) (v0 v1 : Vertex.t),
    skinned_geometry.(Model.m_pieces) !! 0%nat = Some p /\
    length p.(Piece.m_vertices) = 2%nat /\
    p.(Piece.m_vertices) !! 0%nat = Some v0 /\
    p.(Piece.m_vertices) !! 1%nat = Some v1 /\
    take 4 v0.(Vertex.m_boneIndex) = [1; 2; 3; 4] /\
    v0.(Vertex.m_boneWeight) !! 1%nat = Some 128 /\
    v1.(Vertex.m_boneIndex) !! 0%nat = Some 5 /\
    v1.(Vertex.m_boneIndex) !! 3%nat = Some (-56) /\
    v1.(Vertex.m_boneWeight) !! 3%nat = Some 40 /\
    v1.(Vertex.m_boneIndex) !! 4%nat = Some (-1) /\
    v1.(Vertex.m_boneWeight) !! 7%nat = Some 0.
Proof.
  assert (Hload : Sample.loadModel0x14 skinned_pmg_file (named "skin")
                  = Some (true, skinned_geometry)) by (vm_compute; reflexivity).
  split; [exact Hload |]. split; [vm_compute; reflexivity |].
  assert (Hidx : length (default_constructed Vertex.t).(Vertex.m_boneIndex)
                 = Sample.BONE_COUNT) by (vm_compute; reflexivity).
  assert (Hwgt : length (default_constructed Vertex.t).(Vertex.m_boneWeight)
                 = Sample.BONE_COUNT) by (vm_compute; reflexivity).
  assert (Hcap : (4 <= Sample.BONE_COUNT)%nat) by (vm_compute; lia).
  pose proof (loadModel0x14_skin Sample.BONE_COUNT token_name skinned_pmg_file
                (named "skin") skinned_geometry Hload eq_refl eq_refl
                Hidx Hwgt Hcap 0%nat) as Hskin.
  cbv zeta in Hskin.
  destruct Hskin as (p & Hp & Hverts & Hvertex).
  - vm_compute. lia.
  - vm_compute. intros Hoffset. discriminate Hoffset.
  - vm_compute. intros Hoffset. discriminate Hoffset.
  - assert (Htwo : length p.(Piece.m_vertices) = 2%nat)
      by (rewrite Hverts; vm_compute; reflexivity).
    destruct (Hvertex 0%nat) as (v0 & Hv0 & Hpacked0 & _ & Hword);
      [vm_compute; lia |].
    destruct (Hvertex 1%nat) as (v1 & Hv1 & Hpacked1 & Hfill1 & _);
      [vm_compute; lia |].
    exists p, v0, v1.
    split; [exact Hp |]. split; [exact Htwo |].
    split; [exact Hv0 |]. split; [exact Hv1 |].
    split; [apply Hword; vm_compute; reflexivity |].
    split; [rewrite (proj2 (Hpacked0 1%nat ltac:(lia))); vm_compute; reflexivity |].
    split; [rewrite (proj1 (Hpacked1 0%nat ltac:(lia))); vm_compute; reflexivity |].
    split; [rewrite (proj1 (Hpacked1 3%nat ltac:(lia))); vm_compute; reflexivity |].
    split; [rewrite (proj2 (Hpacked1 3%nat ltac:(lia))); vm_compute; reflexivity |].
    split; [apply (Hfill1 4%nat) | apply (Hfill1 7%nat)]; vm_compute; lia.
Defined.

(** The version 0x13 sample: the vertices 0 and 2 of its piece both have the
    bind index 1 and so the same bone arrays, byte 1 of the two tables (7
    and 128) in slot 0 and (-1, 0) in slot 1; vertex 1 has the bind index 0
    and byte 0 of the tables (5 and 255). *)
Lemma loadModel0x13_skin_witness :
  Model.loadModel0x13 Sample.BONE_COUNT token_name pmg_0x13_file (named "new")
  = Some (true, new_geometry) /\
  bind_index pmg_0x13_file piece13 0 = 1 /\
  bind_index pmg_0x13_file piece13 1 = 0 /\
  bind_index pmg_0x13_file piece13 2 = 1 /\
  exists (p : Piece.t) (v0 v1 v2 : Vertex.t),
    new_geometry.(Model.m_pieces) !! 0%nat = Some p /\
    length p.(Piece.m_vertices) = 3%nat /\
    p.(Piece.m_vertices) !! 0%nat = Some v0 /\
    p.(Piece.m_vertices) !! 1%nat = Some v1 /\
    p.(Piece.m_vertices) !! 2%nat = Some v2 /\
    v0.(Vertex.m_boneIndex) = v2.(Vertex.m_boneIndex) /\
    v0.(Vertex.m_boneWeight) = v2.(Vertex.m_boneWeight) /\
    v2.(Vertex.m_boneIndex) !! 0%nat = Some 7 /\
    v2.(Vertex.m_boneWeight) !! 0%nat = Some 128 /\
    v2.(Vertex.m_boneIndex) !! 1%nat = Some (-1) /\
    v2.(Vertex.m_boneWeight) !! 1%nat = Some 0 /\
    v1.(Vertex.m_boneIndex) !! 0%nat = Some 5 /\
    v1.(Vertex.m_boneWeight) !! 0%nat = Some 255.
Proof.
  assert (Hload : Model.loadModel0x13 Sample.BONE_COUNT token_name pmg_0x13_file
                    (named "new") = Some (true, new_geometry))
    by (vm_compute; reflexivity).
  split; [exact Hload |].
  split; [vm_compute; reflexivity |].
  split; [vm_compute; reflexivity |].
  split; [vm_compute; reflexivity |].
  assert (Hidx : length (default_constructed Vertex.t).(Vertex.m_boneIndex)
                 = Sample.BONE_COUNT) by (vm_compute; reflexivity).
  assert (Hwgt : length (default_constructed Vertex.t).(Vertex.m_boneWeight)
                 = Sample.BONE_COUNT) by (vm_compute; reflexivity).
  pose proof (loadModel0x13_skin Sample.BONE_COUNT token_name pmg_0x13_file
                (named "new") new_geometry Hload eq_refl eq_refl 0%nat) as Hskin.
  cbv zeta in Hskin.
  destruct Hskin as (p & Hp & Hverts & Hsame & Htables); [vm_compute; lia |].
  assert (Hthree : length p.(Piece.m_vertices) = 3%nat)
    by (rewrite Hverts; vm_compute; reflexivity).
  destruct (Hsame 0%nat 2%nat) as (v0 & v2 & Hv0 & Hv2 & Hindex & Hweight);
    [vm_compute; lia | vm_compute; lia | vm_compute; reflexivity |].
  assert (Hstream : (elem_at P13.t pmg_0x13_file
                       (cast_at H13.t pmg_0x13_file 0).(H13.m_piece_offset)
                       (Z.of_nat 0)).(P13.m_anim_bind_offset) <> -1)
    by (vm_compute; intros Hoffset; discriminate Hoffset).
  assert (Hcount : 0 <= (elem_at P13.t pmg_0x13_file
                           (cast_at H13.t pmg_0x13_file 0).(H13.m_piece_offset)
                           (Z.of_nat 0)).(P13.m_bone_count))
    by (vm_compute; intros Hcount; discriminate Hcount).
  destruct (Htables Hstream Hcount Hidx Hwgt 1%nat)
    as (v1 & Hv1 & Htable1 & _); [vm_compute; lia |].
  destruct (Htables Hstream Hcount Hidx Hwgt 2%nat)
    as (v2' & Hv2' & Htable2 & Hfill2); [vm_compute; lia |].
  rewrite Hv2 in Hv2'. injection Hv2' as <-.
  exists p, v0, v1, v2.
  split; [exact Hp |]. split; [exact Hthree |].
  split; [exact Hv0 |]. split; [exact Hv1 |]. split; [exact Hv2 |].
  split; [exact Hindex |]. split; [exact Hweight |].
  split; [rewrite (proj1 (Htable2 0%nat ltac:(vm_compute; reflexivity)));
          vm_compute; reflexivity |].
  split; [rewrite (proj2 (Htable2 0%nat ltac:(vm_compute; reflexivity)));
          vm_compute; reflexivity |].
  split; [apply (Hfill2 1%nat); vm_compute; [intros H; discriminate H | lia] |].
  split; [apply (Hfill2 1%nat); vm_compute; [intros H; discriminate H | lia] |].
  split; [rewrite (proj1 (Htable1 0%nat ltac:(vm_compute; reflexivity)));
          vm_compute; reflexivity |].
  rewrite (proj2 (Htable1 0%nat ltac:(vm_compute; reflexivity))).
  vm_compute; reflexivity.
Defined.

End MoreSamples.
